(** * fresh-auth: agent session store, auth-error classifier, grant poll
      protocol and request pipeline of [notion-query.js] and [office-cli.js]

    A shallow embedding of the JavaScript sources.  Strings are Rocq
    strings whose characters stand for the code points below 256; JSON
    values are a tree type; [undefined] is [None] in [option Json].
    Asynchronous functions run sequentially (every call is awaited), so they
    are functions on an explicit world: the files, the clock and the
    chronological log of what the process did. *)

From Stdlib Require Import String Ascii ZArith List Bool Lia.
From Stdlib Require Import DecimalString.
Import ListNotations.
Set Warnings "-register-all".
Local Open Scope string_scope.
Local Open Scope Z_scope.

(** ** Strings *)

Module Str.

(** [String.prototype.trim] strips WhiteSpace and LineTerminator code points:
    below 256 these are TAB, LF, VT, FF, CR, SPACE and NBSP. *)
Definition is_ws (c : ascii) : bool :=
  match nat_of_ascii c with
  | 9%nat | 10%nat | 11%nat | 12%nat | 13%nat | 32%nat | 160%nat => true
  | _ => false
  end.

Fixpoint trimStart (s : string) : string :=
  match s with
  | EmptyString => EmptyString
  | String c r => if is_ws c then trimStart r else s
  end.

Fixpoint trimEnd (s : string) : string :=
  match s with
  | EmptyString => EmptyString
  | String c r =>
      match trimEnd r with
      | EmptyString => if is_ws c then EmptyString else String c EmptyString
      | r' => String c r'
      end
  end.

Definition trim (s : string) : string := trimEnd (trimStart s).

Definition is_empty (s : string) : bool :=
  match s with EmptyString => true | _ => false end.

Fixpoint all_ws (s : string) : bool :=
  match s with
  | EmptyString => true
  | String c r => is_ws c && all_ws r
  end.

Definition LF : string := String (ascii_of_nat 10) EmptyString.

(** A string that is empty or starts with a visible character. *)
Definition head_visible (s : string) : Prop :=
  match s with
  | EmptyString => True
  | String c _ => is_ws c = false
  end.

(** [String(n)] for an integer [n]. *)
Definition of_Z (z : Z) : string := NilZero.string_of_int (Z.to_int z).

Definition lower_ascii (c : ascii) : ascii :=
  let n := nat_of_ascii c in
  if ((65 <=? n) && (n <=? 90))%nat then ascii_of_nat (n + 32)
  else if ((192 <=? n) && (n <=? 222) && negb (n =? 215))%nat then ascii_of_nat (n + 32)
  else c.

Fixpoint toLowerCase (s : string) : string :=
  match s with
  | EmptyString => EmptyString
  | String c r => String (lower_ascii c) (toLowerCase r)
  end.

Definition startsWith (s p : string) : bool := String.prefix p s.

(** [s.split(".").pop()]: the text after the last occurrence of [sep], the
    whole string when there is none. *)
Fixpoint last_segment (sep : ascii) (s : string) (acc : string) : string :=
  match s with
  | EmptyString => acc
  | String c r =>
      if Ascii.eqb c sep then last_segment sep r EmptyString
      else last_segment sep r (acc ++ String c EmptyString)
  end.

Fixpoint join (sep : string) (l : list string) : string :=
  match l with
  | [] => EmptyString
  | [x] => x
  | x :: r => x ++ sep ++ join sep r
  end.

End Str.

(** ** JavaScript values *)

Module Js.

(** A JSON value.  [JNum m e] is the number written [m * 10^e]; an object is
    an association list in which the first binding of a key is the one a
    property read returns. *)
Inductive Json : Type :=
| JNull
| JBool (b : bool)
| JNum (m e : Z)
| JStr (s : string)
| JArr (items : list Json)
| JObj (fields : list (string * Json)).

(** A JavaScript value that came out of JSON, or [undefined] ([None]). *)
Definition JsVal : Type := option Json.

(** The double nearest to [m * 10^e] is zero exactly when
    [|m| * 10^e <= 2^-1075]. *)
Definition number_nonzero (m e : Z) : bool :=
  negb (m =? 0) && ((0 <=? e) || (10 ^ (- e) <? Z.abs m * 2 ^ 1075)).

(** ToBoolean *)
Definition truthy (v : Json) : bool :=
  match v with
  | JNull => false
  | JBool b => b
  | JNum m e => number_nonzero m e
  | JStr s => negb (Str.is_empty s)
  | JArr _ | JObj _ => true
  end.

Definition truthyV (v : JsVal) : bool :=
  match v with
  | None => false
  | Some j => truthy j
  end.

(** [a || b] *)
Definition or_js (a b : JsVal) : JsVal := if truthyV a then a else b.

Fixpoint assoc (k : string) (l : list (string * Json)) : JsVal :=
  match l with
  | [] => None
  | (k', v) :: r => if String.eqb k k' then Some v else assoc k r
  end.

(** [v.k] for a value that is neither [null] nor [undefined], and [v?.k] for
    any value; [k] is one of the field names of the broker protocol, none of
    which is found on a prototype. *)
Definition get (k : string) (v : Json) : JsVal :=
  match v with
  | JObj fields => assoc k fields
  | _ => None
  end.

Definition getV (k : string) (v : JsVal) : JsVal :=
  match v with
  | Some j => get k j
  | None => None
  end.

(** [v === "s"] *)
Definition is_str (v : JsVal) (s : string) : bool :=
  match v with
  | Some (JStr t) => String.eqb t s
  | _ => false
  end.

(** [list.includes(v)] for a list of string literals *)
Definition includes (l : list string) (v : JsVal) : bool :=
  existsb (is_str v) l.

Fixpoint index_entries {A : Type} (f : A -> Json) (i : Z) (l : list A)
  : list (string * Json) :=
  match l with
  | [] => []
  | x :: r => (Str.of_Z i, f x) :: index_entries f (i + 1) r
  end.

(** The own enumerable properties an object spread [{...v}] copies. *)
Definition own_entries (v : JsVal) : list (string * Json) :=
  match v with
  | Some (JObj fields) => fields
  | Some (JArr items) => index_entries (fun x => x) 0 items
  | Some (JStr s) =>
      index_entries (fun c => JStr (String c EmptyString)) 0 (list_ascii_of_string s)
  | _ => []
  end.

(** [{...a, ...b}]: the properties of [b] shadow those of [a]. *)
Definition spread2 (a b : JsVal) : Json := JObj (own_entries b ++ own_entries a).

(** [typeof v === "object"] *)
Definition typeof_object (v : JsVal) : bool :=
  match v with
  | Some JNull | Some (JArr _) | Some (JObj _) => true
  | _ => false
  end.

(** The built-ins of the JavaScript runtime that the scripts call and that
    this development does not define. [JSON_parse] answers [None] where
    [JSON.parse] throws; [Date_getTime v] is [new Date(v).getTime()], [None]
    for NaN; [inspect v] is how [console.error] prints a value that is not a
    string. *)
Class Runtime : Type := {
  JSON_parse : string -> option Json;
  JSON_stringify : Json -> string;
  Number_toString : Z -> Z -> string;
  Number_same : Z * Z -> Z * Z -> bool;
  Date_getTime : Json -> option Z;
  inspect : Json -> string;
  formatBytes : JsVal -> string;
  dirname : string -> string
}.

Section WithRuntime.
Context {rt : Runtime}.

(** ToString, as applied by template literals, [new Error(v)] and [fetch(v)] *)
Fixpoint ToString (v : Json) : string :=
  match v with
  | JNull => "null"
  | JBool true => "true"
  | JBool false => "false"
  | JNum m e => Number_toString m e
  | JStr s => s
  | JArr items =>
      Str.join ","
        ((fix each (l : list Json) : list string :=
            match l with
            | [] => []
            | JNull :: r => EmptyString :: each r
            | x :: r => ToString x :: each r
            end) items)
  | JObj _ => "[object Object]"
  end.

Definition ToStringV (v : JsVal) : string :=
  match v with
  | None => "undefined"
  | Some j => ToString j
  end.

(** [items.join(sep)] *)
Definition array_join (sep : string) (items : list Json) : string :=
  Str.join sep
    (map (fun x => match x with JNull => EmptyString | _ => ToString x end) items).

(** The line [console.error(v)] writes. *)
Definition console_text (v : JsVal) : string :=
  match v with
  | None => "undefined"
  | Some (JStr s) => s
  | Some j => inspect j
  end.

(** [a === b] for two values read out of JSON; arrays and objects of
    different reads are different references. *)
Definition strict_eq (a b : JsVal) : bool :=
  match a, b with
  | None, None => true
  | Some JNull, Some JNull => true
  | Some (JBool x), Some (JBool y) => Bool.eqb x y
  | Some (JNum m e), Some (JNum m' e') => Number_same (m, e) (m', e')
  | Some (JStr s), Some (JStr t) => String.eqb s t
  | _, _ => false
  end.

End WithRuntime.

End Js.

(** ** The world of one CLI process *)

Module Sys.
Import Js.

Inductive FsEntry : Type :=
| RegularFile (content : string)
| Directory.

(** The file system, by path.  Permission bits are left out. *)
Definition FS : Type := string -> option FsEntry.

Definition no_files : FS := fun _ => None.

Definition fs_set (fs : FS) (path : string) (e : FsEntry) : FS :=
  fun q => if String.eqb q path then Some e else fs q.

(** The argument of one [fetch] call: URL, method, the headers object as
    written (later bindings of a name replace earlier ones), body and the
    redirect mode. *)
Record Request : Type := {
  url : string;
  method : string;
  headers : list (string * string);
  body : option string;
  redirect : string
}.

(** What [fetch] resolves to.  Header names are in lower case, as [Headers]
    keeps them. *)
Record Response : Type := {
  status : Z;
  statusText : string;
  resp_headers : list (string * string);
  text : string
}.

Inductive Event : Type :=
| EvFetch (r : Request)
| EvSleep (ms : Z)
| EvStderr (line : string)
| EvStdout (line : string).

Record World : Type := {
  fs : FS;
  now : Z;
  log : list Event
}.

(** Everything outside the process: what the network answers to a request
    (given the time and what the process has done so far; [None] is a network
    failure, on which [fetch] rejects), how long that takes, and by how much a
    timer overshoots.  Times are in milliseconds. *)
Record Env : Type := {
  respond : Z -> list Event -> Request -> option Response;
  latency : list Event -> Request -> N;
  oversleep : list Event -> N
}.

(** How a call ends: it returns, it throws (a rejected promise), the process
    exits, or the model ran out of fuel. *)
Inductive Outcome (A : Type) : Type :=
| Ret (a : A)
| Throw (msg : string)
| Exit (code : Z)
| OutOfFuel.
Arguments Ret {A} a.
Arguments Throw {A} msg.
Arguments Exit {A} code.
Arguments OutOfFuel {A}.

Definition M (A : Type) : Type := World -> Outcome A * World.

Definition ret {A : Type} (a : A) : M A := fun w => (Ret a, w).

Definition bind {A B : Type} (c : M A) (k : A -> M B) : M B :=
  fun w =>
    match c w with
    | (Ret a, w') => k a w'
    | (Throw msg, w') => (Throw msg, w')
    | (Exit code, w') => (Exit code, w')
    | (OutOfFuel, w') => (OutOfFuel, w')
    end.

Definition throw {A : Type} (msg : string) : M A := fun w => (Throw msg, w).

(** [process.exit(code)] *)
Definition process_exit {A : Type} (code : Z) : M A := fun w => (Exit code, w).

Definition out_of_fuel {A : Type} : M A := fun w => (OutOfFuel, w).

(** An outcome other than a return, as the outcome of the caller it ends. *)
Definition failure {A B : Type} (o : Outcome A) : option (Outcome B) :=
  match o with
  | Ret _ => None
  | Throw msg => Some (Throw msg)
  | Exit code => Some (Exit code)
  | OutOfFuel => Some OutOfFuel
  end.

Definition emit (e : Event) : M unit :=
  fun w => (Ret tt, {| fs := fs w; now := now w; log := log w ++ [e] |}).

(** The world after [lines] were written to standard error. *)
Definition say (w : World) (lines : list string) : World :=
  {| fs := fs w; now := now w; log := log w ++ map EvStderr lines |}.

Definition console_error (line : string) : M unit := emit (EvStderr line).
Definition console_log (line : string) : M unit := emit (EvStdout line).

(** [Date.now()] *)
Definition Date_now : M Z := fun w => (Ret (now w), w).

Definition AUTO_REQUEST_POLL_MS : Z := 2000.

Section WithEnv.
Variable env : Env.

(** [await fetch(...)]: the request is logged, the clock moves by the time the
    exchange took. *)
Definition fetch (r : Request) : M Response :=
  fun w =>
    let w' := {| fs := fs w;
                 now := now w + Z.of_N (latency env (log w) r);
                 log := log w ++ [EvFetch r] |} in
    match respond env (now w) (log w) r with
    | Some resp => (Ret resp, w')
    | None => (Throw "fetch failed", w')
    end.

(** [await new Promise((resolve) => setTimeout(resolve, ms))] *)
Definition sleep (ms : Z) : M unit :=
  fun w =>
    (Ret tt, {| fs := fs w;
                now := now w + ms + Z.of_N (oversleep env (log w));
                log := log w ++ [EvSleep ms] |}).

End WithEnv.

(** [response.ok] *)
Definition ok (r : Response) : bool := (200 <=? status r) && (status r <=? 299).

(** [response.headers.get(name)], [name] in lower case *)
Fixpoint headers_get (name : string) (hs : list (string * string)) : option string :=
  match hs with
  | [] => None
  | (k, v) :: r => if String.eqb k name then Some v else headers_get name r
  end.

(** [{ ...base, ...extra }] on header objects: a name bound in [extra] takes
    the value given there. *)
Fixpoint set_header (k v : string) (hs : list (string * string)) : list (string * string) :=
  match hs with
  | [] => [(k, v)]
  | (k', v') :: r => if String.eqb k' k then (k, v) :: r else (k', v') :: set_header k v r
  end.

Definition spread_headers (base extra : list (string * string)) : list (string * string) :=
  fold_left (fun acc kv => set_header (fst kv) (snd kv) acc) extra base.

(** A header of that name is sent, whatever the case it is written in. *)
Definition has_header (name : string) (r : Request) : bool :=
  existsb (fun kv => String.eqb (Str.toLowerCase (fst kv)) (Str.toLowerCase name)) (headers r).

(** The value sent for a header name, as written. *)
Definition header_value (name : string) (r : Request) : option string :=
  headers_get name (headers r).

End Sys.

Declare Scope js_scope.
Notation "x <- c ;; k" := (Sys.bind c (fun x => k))
  (at level 61, c at next level, right associativity) : js_scope.
Notation "c ;;; k" := (Sys.bind c (fun _ => k))
  (at level 61, right associativity) : js_scope.
Local Open Scope js_scope.

(** ** Session store ([getAgentSession], [saveAgentSession]) *)

Module Session.
Import Js Sys.

(** The module-level constants both scripts compute from [process.env] and
    the home directory when they are loaded. *)
Class Config : Type := {
  AUTH_SERVICE_URL : string;
  AUTO_REQUEST_ENABLED : bool;
  SHARED_AGENT_SESSION_FILE : string;
  LEGACY_AGENT_SESSION_FILES : list string;
  NOTION_VERSION : string
}.

Section Store.
Context {rt : Runtime} {cfg : Config}.

(** [AGENT_SESSION_FILES], which notion-query.js builds in place as
    [[SHARED_AGENT_SESSION_FILE, ...LEGACY_AGENT_SESSION_FILES]]. *)
Definition AGENT_SESSION_FILES : list string :=
  SHARED_AGENT_SESSION_FILE :: LEGACY_AGENT_SESSION_FILES.

(** The inner [try] of [getAgentSession] on the trimmed content of one file:
    [Some id] is the value returned, [None] lets the loop go on to the next
    file.  A [TypeError] thrown inside the [try] (a property read on [null],
    a call of [trim] on a value that has none) lands in the same [catch] as a
    [SyntaxError] of [JSON.parse]. *)
Definition parse_session (sessionRaw : string) : option string :=
  match JSON_parse sessionRaw with
  | None => Some sessionRaw
  | Some JNull => Some sessionRaw
  | Some parsed =>
      let normalized :=
        or_js (or_js (get "agentSessionId" parsed) (get "agentSession" parsed))
              (get "session" parsed) in
      match normalized with
      | None | Some JNull => None
      | Some (JStr s) =>
          if Str.is_empty (Str.trim s) then None else Some (Str.trim s)
      | Some _ => Some sessionRaw
      end
  end.

(** The [for] loop of [getAgentSession] under its outer [try]: reading a path
    that exists but is not a readable file throws, and the outer [catch]
    returns [null]. *)
Fixpoint scan_session_files (files : FS) (candidates : list string) : option string :=
  match candidates with
  | [] => None
  | sessionFile :: rest =>
      match files sessionFile with
      | None => scan_session_files files rest
      | Some Directory => None
      | Some (RegularFile content) =>
          let sessionRaw := Str.trim content in
          if Str.is_empty sessionRaw then scan_session_files files rest
          else
            match parse_session sessionRaw with
            | Some id => Some id
            | None => scan_session_files files rest
            end
      end
  end.

Definition getAgentSession : M (option string) :=
  fun w => (Ret (scan_session_files (fs w) AGENT_SESSION_FILES), w).

(** [mkdir(dir, { recursive: true })]; of the directory tree only the named
    path is tracked. *)
Definition mkdir (dir : string) : M unit :=
  fun w =>
    match fs w dir with
    | Some (RegularFile _) => (Throw "EEXIST: file already exists", w)
    | _ => (Ret tt, {| fs := fs_set (fs w) dir Directory; now := now w; log := log w |})
    end.

Definition writeFile (path content : string) : M unit :=
  fun w =>
    match fs w path with
    | Some Directory => (Throw "EISDIR: illegal operation on a directory", w)
    | _ => (Ret tt, {| fs := fs_set (fs w) path (RegularFile content);
                       now := now w; log := log w |})
    end.

Definition saveAgentSession (agentSessionId : string) : M unit :=
  mkdir (dirname SHARED_AGENT_SESSION_FILE) ;;;
  writeFile SHARED_AGENT_SESSION_FILE (Str.trim agentSessionId ++ Str.LF).

(** The guard every caller puts after [getAgentSession]: print [message] and
    [process.exit(1)] when there is no session. *)
Definition require_session (message : string) : M string :=
  agentSession <- getAgentSession ;;
  match agentSession with
  | Some s => if Str.is_empty s then console_error message ;;; process_exit 1 else ret s
  | None => console_error message ;;; process_exit 1
  end.

End Store.
End Session.

(** ** Reading an error response ([readErrorBody]) *)

Module Http.
Import Js Sys.

Section WithRuntime.
Context {rt : Runtime}.

(** [readErrorBody(response)]: the pair [{ data, text }], [data] being [null]
    when the body is empty or is not JSON. *)
Definition readErrorBody (response : Response) : Json * string :=
  if Str.is_empty (text response) then (JNull, EmptyString)
  else
    match JSON_parse (text response) with
    | Some data => (data, text response)
    | None => (JNull, text response)
    end.

(** [await response.json()] *)
Definition response_json (response : Response) : M Json :=
  match JSON_parse (text response) with
  | Some v => ret v
  | None => throw "SyntaxError: Unexpected token in JSON"
  end.

(** [a || b] on two strings *)
Definition or_text (a b : string) : string := if Str.is_empty a then b else a.

(** [response.status === 401 || response.status === 403 || response.status === 429] *)
Definition is_auth_status (response : Response) : bool :=
  (status response =? 401) || (status response =? 403) || (status response =? 429).

End WithRuntime.
End Http.

(** ** The auth error classifier *)

(** The branch of [describeAuthError] a payload takes, in the order of the
    [if] statements of the source. *)
Inductive AuthErrorKind : Type :=
| NoSession
| NoGrant
| AccountNotLinked
| ScopeOrTokenExpired
| ElevationRequired
| Generic.

Definition GRANT_ERRORS : list string :=
  ["no_grant"; "grant_expired"; "single_use_exhausted"].

(** The conditions of the [if] chain that the two scripts share, on the
    object whose fields they read ([error] in notion-query.js, [data] in
    office-cli.js). *)
Definition if_chain (error : Js.Json) : AuthErrorKind :=
  if Js.is_str (Js.get "error" error) "no_agent_session" then NoSession
  else if Js.includes GRANT_ERRORS (Js.or_js (Js.get "error" error) (Some (Js.JStr EmptyString)))
  then NoGrant
  else if Js.is_str (Js.get "error" error) "no_oauth_token"
          && Js.truthyV (Js.get "connectUrl" error)
  then AccountNotLinked
  else if Js.truthyV (Js.get "reauthorizeUrl" error) then ScopeOrTokenExpired
  else if Js.truthyV (Js.get "elevateUrl" error) then ElevationRequired
  else Generic.

Module NotionAuth.
Import Js Sys.

Section WithRuntime.
Context {rt : Runtime}.

Definition normalizeAuthError (data : Json) : Json :=
  let details :=
    if truthyV (get "details" data) && typeof_object (get "details" data)
    then get "details" data
    else Some (JObj []) in
  spread2 (or_js (Some data) (Some (JObj []))) details.

Definition classify (data : Json) : AuthErrorKind := if_chain (normalizeAuthError data).

Definition describeAuthError (data : Json) : M unit :=
  let error := normalizeAuthError data in
  match if_chain error with
  | NoSession =>
      console_error "No agent session. Run 'node notion-query.js login' first."
  | NoGrant =>
      console_error "No active grant for notion." ;;;
      console_error "" ;;;
      console_error "Request access by running:" ;;;
      console_error "  node notion-query.js request"
  | AccountNotLinked =>
      console_error "Notion account not linked." ;;;
      console_error "" ;;;
      console_error "Link account at:" ;;;
      console_error ("  " ++ ToStringV (get "connectUrl" error))
  | ScopeOrTokenExpired =>
      console_error "Access token expired or missing scopes." ;;;
      match get "missingScopes" error with
      | Some (JArr (x :: r)) =>
          console_error ("Missing scopes: " ++ array_join " " (x :: r))
      | _ => ret tt
      end ;;;
      console_error "" ;;;
      console_error "Re-authorize at:" ;;;
      console_error ("  " ++ ToStringV (get "reauthorizeUrl" error))
  | ElevationRequired =>
      console_error "Additional authorization required." ;;;
      console_error "" ;;;
      console_error "Approve at:" ;;;
      console_error ("  " ++ ToStringV (get "elevateUrl" error))
  | Generic =>
      if truthyV (get "message" error) || truthyV (get "error" error)
      then console_error (console_text (or_js (get "message" error) (get "error" error)))
      else ret tt
  end.

Definition isAutoRequestError (data : Json) : bool :=
  let error := normalizeAuthError data in
  if negb (truthyV (get "error" error)) then false
  else includes GRANT_ERRORS (get "error" error).

End WithRuntime.
End NotionAuth.

Module OfficeAuth.
Import Js Sys.

Section WithRuntime.
Context {rt : Runtime}.

Definition classify (data : Json) : AuthErrorKind := if_chain data.

(** [describeAuthError(data, service)].  A property read on [null] throws, and
    so does [join] on a [missingScopes] that has a length and is not an
    array. *)
Definition describeAuthError (data : Json) (service : string) : M unit :=
  match data with
  | JNull => throw "TypeError: Cannot read properties of null"
  | _ =>
      match if_chain data with
      | NoSession =>
          console_error "No agent session. Run 'office-cli.js login' to register."
      | NoGrant =>
          console_error ("No active grant for " ++ service ++ ".") ;;;
          console_error "" ;;;
          console_error "Request access by running:" ;;;
          console_error ("  ./office-cli.js request " ++ service)
      | AccountNotLinked =>
          console_error "Microsoft account not linked." ;;;
          console_error "" ;;;
          console_error "To connect, visit:" ;;;
          console_error ("  " ++ ToStringV (get "connectUrl" data))
      | ScopeOrTokenExpired =>
          console_error "Access token expired or missing scopes." ;;;
          match get "missingScopes" data with
          | Some (JArr (x :: r)) =>
              console_error ("Missing scopes: " ++ array_join " " (x :: r))
          | Some (JStr (String _ _)) =>
              throw "TypeError: data.missingScopes.join is not a function"
          | Some (JObj fields) =>
              if truthyV (assoc "length" fields)
              then throw "TypeError: data.missingScopes.join is not a function"
              else ret tt
          | _ => ret tt
          end ;;;
          console_error "" ;;;
          console_error "Re-authorise at:" ;;;
          console_error ("  " ++ ToStringV (get "reauthorizeUrl" data))
      | ElevationRequired =>
          console_error
            (console_text (or_js (get "error" data) (Some (JStr "Access not authorised.")))) ;;;
          console_error "" ;;;
          console_error "To grant access, visit:" ;;;
          console_error ("  " ++ ToStringV (get "elevateUrl" data))
      | Generic =>
          console_error
            (console_text
               (or_js (or_js (get "message" data) (get "error" data))
                      (Some (JStr "Authentication failed"))))
      end
  end.

Definition isAutoRequestError (data : Json) : bool :=
  if negb (truthyV (get "error" data)) then false
  else includes GRANT_ERRORS (get "error" data).

End WithRuntime.
End OfficeAuth.

(** ** Grant request and poll protocol

    [requestGrant], [waitForGrantApproval] and [ensureGrant] are the same code
    in the two scripts up to the texts they print, the request body and the
    [describeAuthError] they call; these are the variables of the section. *)

Module Grant.
Import Js Sys Session Http.

Section Protocol.
Context {rt : Runtime} {cfg : Config}.
Variable env : Env.
(** the line printed when there is no session *)
Variable no_session_message : string.
(** the object sent as the body of the auth request *)
Variable grant_request : Json.
(** the service named in "Authorization required for ... access." *)
Variable service_label : string.
(** [describeAuthError(data)], respectively [describeAuthError(data, "msgraph")] *)
Variable describe : Json -> M unit.

Definition auth_request : string -> Request := fun agentSession =>
  {| url := AUTH_SERVICE_URL ++ "/api/auth-request";
     method := "POST";
     headers := [("Content-Type", "application/json"); ("X-Agent-Session", agentSession)];
     body := Some (JSON_stringify grant_request);
     redirect := "follow" |}.

Definition requestGrant : M Json :=
  agentSession <- require_session no_session_message ;;
  response <- fetch env (auth_request agentSession) ;;
  if negb (ok response) then
    let (data, text) := readErrorBody response in
    if truthyV (get "error" data) || truthyV (get "message" data)
    then throw (ToStringV (or_js (get "message" data) (get "error" data)))
    else throw ("Failed to create auth request (" ++ Str.of_Z (status response) ++ "): "
                ++ or_text text (statusText response))
  else response_json response.

(** The [GET] of one poll. *)
Definition poll_request (pollUrl : JsVal) (agentSession : string) : Request :=
  {| url := ToStringV pollUrl;
     method := "GET";
     headers := [("X-Agent-Session", agentSession)];
     body := None;
     redirect := "follow" |}.

(** [expiresAt ? new Date(expiresAt).getTime() : Date.now() + 5 * 60 * 1000];
    [None] is NaN. *)
Definition grant_deadline (expiresAt : JsVal) (now : Z) : option Z :=
  match expiresAt with
  | Some v => if truthy v then Date_getTime v else Some (now + 5 * 60 * 1000)
  | None => Some (now + 5 * 60 * 1000)
  end.

(** [Date.now() < deadline] *)
Definition before (t : Z) (deadline : option Z) : bool :=
  match deadline with
  | Some d => t <? d
  | None => false
  end.

(** The [while (Date.now() < deadline)] loop of [waitForGrantApproval]
    together with the [throw] that follows it; one unit of fuel per
    iteration. *)
Fixpoint poll_loop (fuel : nat) (pollUrl : JsVal) (agentSession : string)
  (deadline : option Z) (lastStatus : JsVal) : M unit :=
  match fuel with
  | O => out_of_fuel
  | S fuel' =>
      t <- Date_now ;;
      if before t deadline then
        response <- fetch env (poll_request pollUrl agentSession) ;;
        if negb (ok response) then
          let (data, text) := readErrorBody response in
          if truthy data then describe data ;;; process_exit 1
          else throw ("Auth request poll failed (" ++ Str.of_Z (status response) ++ "): "
                      ++ or_text text (statusText response))
        else
          status <- response_json response ;;
          match status with
          | JNull => throw "TypeError: Cannot read properties of null"
          | _ =>
              let changed := negb (strict_eq (get "status" status) lastStatus) in
              (if changed && is_str (get "status" status) "oauth_pending"
               then console_error "OAuth connection required. Complete it in your browser..."
               else ret tt) ;;;
              if is_str (get "status" status) "approved" then ret tt
              else if is_str (get "status" status) "denied" then
                throw (ToStringV (or_js (get "message" status)
                                        (Some (JStr "Authorization denied."))))
              else if is_str (get "status" status) "expired" then
                throw (ToStringV (or_js (get "message" status)
                                        (Some (JStr "Authorization request expired."))))
              else
                sleep env AUTO_REQUEST_POLL_MS ;;;
                poll_loop fuel' pollUrl agentSession deadline
                  (if changed then get "status" status else lastStatus)
          end
      else throw "Timed out waiting for authorization approval."
  end.

Definition waitForGrantApproval (fuel : nat) (pollUrl expiresAt : JsVal) : M unit :=
  agentSession <- require_session no_session_message ;;
  now <- Date_now ;;
  poll_loop fuel pollUrl agentSession (grant_deadline expiresAt now) (Some JNull).

Definition ensureGrant (fuel : nat) : M unit :=
  if negb AUTO_REQUEST_ENABLED then ret tt
  else
    request <- requestGrant ;;
    match request with
    | JNull => throw "TypeError: Cannot read properties of null"
    | _ =>
        if truthyV (get "autoApproved" request) then
          console_error "Access granted automatically (within policy)."
        else
          console_error ("Authorization required for " ++ service_label ++ " access.") ;;;
          console_error ("Approve at: " ++ ToStringV (get "approveUrl" request)) ;;;
          console_error "Waiting for approval..." ;;;
          waitForGrantApproval fuel (get "pollUrl" request) (get "expiresAt" request) ;;;
          console_error "Authorization granted. Retrying request..."
    end.

End Protocol.
End Grant.

(** ** notion-query.js *)

Module Notion.
Import Js Sys Session Http.

Section Script.
Context {rt : Runtime} {cfg : Config}.
Variable env : Env.

Definition NOTION_PROXY_BASE : string := AUTH_SERVICE_URL ++ "/api/proxy/notion".
Definition NOTION_SCOPES : Json := JArr [JStr "read"; JStr "write"].
Definition NOTION_GRANT_DURATION : string := "1h".

Definition LOGIN_FIRST : string :=
  "No agent session. Run 'node notion-query.js login' first.".

Definition grant_request : Json :=
  JObj [("service", JStr "notion"); ("scopes", NOTION_SCOPES);
        ("duration", JStr NOTION_GRANT_DURATION)].

Definition requestGrant : M Json :=
  Grant.requestGrant env LOGIN_FIRST grant_request.

Definition waitForGrantApproval (fuel : nat) (pollUrl expiresAt : JsVal) : M unit :=
  Grant.waitForGrantApproval env LOGIN_FIRST NotionAuth.describeAuthError
    fuel pollUrl expiresAt.

Definition ensureGrant (fuel : nat) : M unit :=
  Grant.ensureGrant env LOGIN_FIRST grant_request "notion"
    NotionAuth.describeAuthError fuel.

(** The [init] that [notionApi] hands to [fetch]. *)
Definition api_request (agentSession method endpoint : string) (body : JsVal) : Request :=
  {| url := NOTION_PROXY_BASE ++ endpoint;
     method := method;
     headers :=
       [("X-Agent-Session", agentSession); ("Notion-Version", NOTION_VERSION)]
       ++ match body with
          | Some _ => [("Content-Type", "application/json")]
          | None => []
          end;
     body := option_map JSON_stringify body;
     redirect := "follow" |}.

(** [notionApi(method, endpoint, body, attempt = 0)]; one unit of fuel per
    call of the function, the rest goes to the poll loop. *)
Fixpoint notionApi (fuel : nat) (method endpoint : string) (body : JsVal) (attempt : Z)
  : M Json :=
  match fuel with
  | O => out_of_fuel
  | S fuel' =>
      agentSession <- require_session LOGIN_FIRST ;;
      response <- fetch env (api_request agentSession method endpoint body) ;;
      if is_auth_status response then
        let (data, text) := readErrorBody response in
        if (attempt =? 0) && AUTO_REQUEST_ENABLED && NotionAuth.isAutoRequestError data then
          ensureGrant fuel' ;;;
          notionApi fuel' method endpoint body (attempt + 1)
        else if truthy data then
          NotionAuth.describeAuthError data ;;; process_exit 1
        else
          throw (or_text text ("Authentication failed (" ++ Str.of_Z (status response) ++ ")"))
      else
        let (data, text) := readErrorBody response in
        if negb (ok response) then
          (if truthy data then
             let error := NotionAuth.normalizeAuthError data in
             if is_str (get "error" error) "no_agent_session"
                || is_str (get "error" error) "no_oauth_token"
                || truthyV (get "reauthorizeUrl" error)
                || truthyV (get "elevateUrl" error)
             then NotionAuth.describeAuthError data ;;; process_exit 1
             else ret tt
           else ret tt) ;;;
          if truthyV (get "error" data) || truthyV (get "message" data)
          then throw (ToStringV (or_js (get "message" data) (get "error" data)))
          else throw (or_text text ("Error: " ++ Str.of_Z (status response) ++ " "
                                    ++ statusText response))
        else if is_str (get "object" data) "error" then
          throw ("Error: " ++ ToStringV (or_js (get "message" data)
                                               (Some (JStr "Notion proxy error"))))
        else ret (if truthy data then data else JObj [])
  end.

End Script.
End Notion.

(** ** office-cli.js *)

Module Office.
Import Js Sys Session Http.

Inductive Service : Type := drive | mail | cal.

Definition service_name (s : Service) : string :=
  match s with
  | drive => "drive"
  | mail => "mail"
  | cal => "cal"
  end.

Definition SCOPES (s : Service) : Json :=
  match s with
  | drive => JArr [JStr "Files.Read"; JStr "Files.ReadWrite.All"]
  | mail => JArr [JStr "Mail.Read"; JStr "Mail.Send"; JStr "People.Read"]
  | cal => JArr [JStr "Calendars.Read"]
  end.

Definition GRANT_DURATION (s : Service) : string :=
  match s with
  | drive => "30m"
  | mail => "1h"
  | cal => "1h"
  end.

(** The [options] argument of [apiRequest]; its callers set no other field. *)
Record Options : Type := {
  opt_method : option string;
  opt_headers : list (string * string);
  opt_body : option string
}.

Definition no_options : Options :=
  {| opt_method := None; opt_headers := []; opt_body := None |}.

Section Script.
Context {rt : Runtime} {cfg : Config}.
Variable env : Env.
(** the module-level variable [currentService], set by [main] before a command runs *)
Variable currentService : Service.

Definition API_BASE : string := AUTH_SERVICE_URL ++ "/proxy/msgraph".

Definition LOGIN_FIRST : string := "Not registered. Run './office-cli.js login' first.".
Definition NOT_REGISTERED : string := "Not registered. Run 'login' to create an agent session.".

Definition grant_request (service : Service) : Json :=
  JObj [("service", JStr "msgraph"); ("scopes", SCOPES service);
        ("duration", JStr (GRANT_DURATION service))].

Definition requestGrant (service : Service) : M Json :=
  Grant.requestGrant env LOGIN_FIRST (grant_request service).

Definition waitForGrantApproval (fuel : nat) (pollUrl expiresAt : JsVal) : M unit :=
  Grant.waitForGrantApproval env LOGIN_FIRST
    (fun data => OfficeAuth.describeAuthError data "msgraph") fuel pollUrl expiresAt.

Definition ensureGrant (fuel : nat) : M unit :=
  Grant.ensureGrant env LOGIN_FIRST (grant_request currentService)
    (service_name currentService)
    (fun data => OfficeAuth.describeAuthError data "msgraph") fuel.

(** The second argument [apiRequest] hands to [fetch]. *)
Definition api_request (agentSession endpoint : string) (options : Options) : Request :=
  {| url := API_BASE ++ endpoint;
     method := match opt_method options with Some m => m | None => "GET" end;
     headers :=
       spread_headers
         [("X-Agent-Session", agentSession); ("Content-Type", "application/json")]
         (opt_headers options);
     body := opt_body options;
     redirect := "manual" |}.

Fixpoint apiRequest (fuel : nat) (endpoint : string) (options : Options) (attempt : Z)
  : M Json :=
  match fuel with
  | O => out_of_fuel
  | S fuel' =>
      agentSession <- require_session NOT_REGISTERED ;;
      response <- fetch env (api_request agentSession endpoint options) ;;
      if is_auth_status response then
        let (data, text) := readErrorBody response in
        if (attempt =? 0) && AUTO_REQUEST_ENABLED && OfficeAuth.isAutoRequestError data then
          ensureGrant fuel' ;;;
          apiRequest fuel' endpoint options (attempt + 1)
        else if truthy data then
          OfficeAuth.describeAuthError data (service_name currentService) ;;;
          process_exit 1
        else
          throw (or_text text ("Authentication failed (" ++ Str.of_Z (status response) ++ ")"))
      else if negb (ok response) then
        let (data, text) := readErrorBody response in
        if truthyV (get "error" data) || truthyV (get "message" data)
        then throw (ToStringV (or_js (get "message" data) (get "error" data)))
        else throw (or_text text ("API error (" ++ Str.of_Z (status response) ++ ")"))
      else response_json response
  end.

Definition content_request (agentSession endpoint : string) : Request :=
  {| url := API_BASE ++ endpoint;
     method := "GET";
     headers := [("X-Agent-Session", agentSession)];
     body := None;
     redirect := "manual" |}.

Fixpoint fetchGraphContent (fuel : nat) (endpoint : string) (attempt : Z) : M Response :=
  match fuel with
  | O => out_of_fuel
  | S fuel' =>
      agentSession <- require_session NOT_REGISTERED ;;
      response <- fetch env (content_request agentSession endpoint) ;;
      if is_auth_status response then
        let (data, text) := readErrorBody response in
        if (attempt =? 0) && AUTO_REQUEST_ENABLED && OfficeAuth.isAutoRequestError data then
          ensureGrant fuel' ;;;
          fetchGraphContent fuel' endpoint (attempt + 1)
        else if truthy data then
          OfficeAuth.describeAuthError data (service_name currentService) ;;;
          process_exit 1
        else
          throw (or_text text ("Authentication failed (" ++ Str.of_Z (status response) ++ ")"))
      else ret response
  end.

(** The request of [fetch(downloadUrl)]: no options, so no headers. *)
Definition download_request (downloadUrl : string) : Request :=
  {| url := downloadUrl;
     method := "GET";
     headers := [];
     body := None;
     redirect := "follow" |}.

(** The statement
    [if (response.status === 302 || response.status === 301) { ... }]
    that [driveDownload] and [driveContent] both run on the answer of
    [fetchGraphContent]; its value is the [response] variable afterwards. *)
Definition follow_redirect (response : Response) : M Response :=
  if (status response =? 302) || (status response =? 301) then
    match headers_get "location" (resp_headers response) with
    | Some downloadUrl =>
        if Str.is_empty downloadUrl then throw "Download redirect missing location"
        else fetch env (download_request downloadUrl)
    | None => throw "Download redirect missing location"
    end
  else ret response.

Definition content_endpoint (itemId : string) : string :=
  "/me/drive/items/" ++ itemId ++ "/content".

Definition driveDownload (fuel : nat) (itemId : string) (outputPath : option string)
  : M string :=
  info <- apiRequest fuel ("/me/drive/items/" ++ itemId) no_options 0 ;;
  match info with
  | JNull => throw "TypeError: Cannot read properties of null"
  | _ =>
      if truthyV (get "folder" info) then throw "Cannot download a folder."
      else
        let fileName : JsVal :=
          match outputPath with
          | Some p => if Str.is_empty p then get "name" info else Some (JStr p)
          | None => get "name" info
          end in
        console_error ("Downloading " ++ ToStringV (get "name" info) ++ " ("
                       ++ formatBytes (or_js (get "size" info) (Some (JNum 0 0)))
                       ++ ")...") ;;;
        response <- fetchGraphContent fuel (content_endpoint itemId) 0 ;;
        response <- follow_redirect response ;;
        if negb (ok response) then
          throw ("Download failed (" ++ Str.of_Z (status response) ++ ")")
        else
          match fileName with
          | Some (JStr fileName) =>
              let dir := dirname fileName in
              (if negb (Str.is_empty dir) && negb (String.eqb dir ".")
               then mkdir dir else ret tt) ;;;
              writeFile fileName (text response) ;;;
              console_error ("Saved to: " ++ fileName) ;;;
              ret fileName
          | _ => throw "TypeError: The path argument must be of type string"
          end
  end.

Definition textExtensions : list string :=
  ["txt"; "md"; "json"; "xml"; "csv"; "html"; "css"; "js"; "ts"; "py"; "sh";
   "yaml"; "yml"; "log"; "ini"; "conf"].

(** [textExtensions.includes(ext) || mimeType.startsWith("text/")]; [None]
    when [mimeType] is not a string and the call throws. *)
Definition is_text (ext : string) (mimeType : JsVal) : option bool :=
  if existsb (String.eqb ext) textExtensions then Some true
  else
    match mimeType with
    | Some (JStr m) => Some (Str.startsWith m "text/")
    | _ => None
    end.

Definition driveContent (fuel : nat) (itemId : string) : M unit :=
  info <- apiRequest fuel ("/me/drive/items/" ++ itemId ++ "?$select=id,name,size,file,folder")
            no_options 0 ;;
  match info with
  | JNull => throw "TypeError: Cannot read properties of null"
  | _ =>
      if truthyV (get "folder" info) then throw "Cannot get content of a folder"
      else
        match get "name" info with
        | Some (JStr name) =>
            let ext := Str.toLowerCase (Str.last_segment "." name EmptyString) in
            let mimeType :=
              or_js (getV "mimeType" (get "file" info)) (Some (JStr EmptyString)) in
            match is_text ext mimeType with
            | None => throw "TypeError: mimeType.startsWith is not a function"
            | Some false => throw "Not a text file. Use 'drive download' instead."
            | Some true =>
                response <- fetchGraphContent fuel (content_endpoint itemId) 0 ;;
                response <- follow_redirect response ;;
                if negb (ok response) then
                  throw ("Content download failed (" ++ Str.of_Z (status response) ++ ")")
                else console_log (text response)
            end
        | _ => throw "TypeError: info.name.split is not a function"
        end
  end.

End Script.
End Office.

(** ** A reference runtime

    An executable instance of [Js.Runtime], used to run the scripts on
    concrete inputs: a JSON reader and writer for 8-bit text, and plain
    stand-ins for the number and path helpers.  An escape [\uXXXX] above
    [ÿ] has no character in this string model and is read as [?]. *)

Module Ref.
Import Js.

Definition code (c : ascii) : N := N_of_ascii c.
Definition chr (n : N) : ascii := ascii_of_N n.
Definition QUOTE : ascii := chr 34.

Fixpoint skip_ws (s : string) : string :=
  match s with
  | String c r =>
      match code c with
      | 32%N | 9%N | 10%N | 13%N => skip_ws r
      | _ => s
      end
  | EmptyString => s
  end.

Definition digit (c : ascii) : option Z :=
  if ((48 <=? code c) && (code c <=? 57))%N then Some (Z.of_N (code c) - 48) else None.

Definition hex (c : ascii) : option N :=
  let n := code c in
  if ((48 <=? n) && (n <=? 57))%N then Some (n - 48)%N
  else if ((65 <=? n) && (n <=? 70))%N then Some (n - 55)%N
  else if ((97 <=? n) && (n <=? 102))%N then Some (n - 87)%N
  else None.

(** Reads a run of digits: the value read after [acc], how many digits, and
    what follows. *)
Fixpoint digits (s : string) (acc n : Z) : Z * Z * string :=
  match s with
  | String c r =>
      match digit c with
      | Some d => digits r (acc * 10 + d) (n + 1)
      | None => (acc, n, s)
      end
  | EmptyString => (acc, n, s)
  end.

Definition parse_int (s : string) : option (Z * string) :=
  match s with
  | String c r =>
      match digit c with
      | Some 0 => Some (0, r)
      | Some _ => let '(v, _, rest) := digits s 0 0 in Some (v, rest)
      | None => None
      end
  | EmptyString => None
  end.

Definition parse_frac (v : Z) (s : string) : option (Z * Z * string) :=
  match s with
  | String c r =>
      if (code c =? 46)%N then
        let '(m, n, rest) := digits r v 0 in
        if n =? 0 then None else Some (m, - n, rest)
      else Some (v, 0, s)
  | EmptyString => Some (v, 0, s)
  end.

Definition parse_exp (s : string) : option (Z * string) :=
  match s with
  | String c r =>
      if ((code c =? 101) || (code c =? 69))%N then
        let (neg, r1) :=
          match r with
          | String c1 r' =>
              if (code c1 =? 45)%N then (true, r')
              else if (code c1 =? 43)%N then (false, r')
              else (false, r)
          | EmptyString => (false, r)
          end in
        let '(x, n, rest) := digits r1 0 0 in
        if n =? 0 then None else Some (if neg then - x else x, rest)
      else Some (0, s)
  | EmptyString => Some (0, s)
  end.

Definition parse_number (s : string) : option (Json * string) :=
  let (neg, s1) :=
    match s with
    | String c r => if (code c =? 45)%N then (true, r) else (false, s)
    | EmptyString => (false, s)
    end in
  match parse_int s1 with
  | None => None
  | Some (v, s2) =>
      match parse_frac v s2 with
      | None => None
      | Some (m, e, s3) =>
          match parse_exp s3 with
          | None => None
          | Some (x, s4) => Some (JNum (if neg then - m else m) (e + x), s4)
          end
      end
  end.

(** The characters of a string literal after its opening quote. *)
Fixpoint parse_chars (s : string) (acc : string) : option (string * string) :=
  match s with
  | EmptyString => None
  | String c r =>
      if (code c =? 34)%N then Some (acc, r)
      else if (code c <? 32)%N then None
      else if (code c =? 92)%N then
        match r with
        | String e r1 =>
            let simple (x : N) := parse_chars r1 (acc ++ String (chr x) EmptyString) in
            match code e with
            | 34%N => simple 34%N
            | 92%N => simple 92%N
            | 47%N => simple 47%N
            | 98%N => simple 8%N
            | 102%N => simple 12%N
            | 110%N => simple 10%N
            | 114%N => simple 13%N
            | 116%N => simple 9%N
            | 117%N =>
                match r1 with
                | String h1 (String h2 (String h3 (String h4 r2))) =>
                    match hex h1, hex h2, hex h3, hex h4 with
                    | Some a, Some b, Some c', Some d =>
                        let u := (((a * 16 + b) * 16 + c') * 16 + d)%N in
                        parse_chars r2
                          (acc ++ String (if (u <? 256)%N then chr u else chr 63) EmptyString)
                    | _, _, _, _ => None
                    end
                | _ => None
                end
            | _ => None
            end
        | EmptyString => None
        end
      else parse_chars r (acc ++ String c EmptyString)
  end.

Fixpoint parse_value (fuel : nat) (s : string) : option (Json * string) :=
  match fuel with
  | O => None
  | S fuel' =>
      match skip_ws s with
      | String c r =>
          match code c with
          | 123%N =>
              match skip_ws r with
              | String c1 r1 =>
                  if (code c1 =? 125)%N then Some (JObj [], r1)
                  else parse_members fuel' (String c1 r1) []
              | EmptyString => None
              end
          | 91%N =>
              match skip_ws r with
              | String c1 r1 =>
                  if (code c1 =? 93)%N then Some (JArr [], r1)
                  else parse_elements fuel' (String c1 r1) []
              | EmptyString => None
              end
          | 34%N =>
              match parse_chars r EmptyString with
              | Some (str, rest) => Some (JStr str, rest)
              | None => None
              end
          | _ =>
              if String.prefix "true" (String c r) then Some (JBool true, String.substring 4 (String.length r - 3) (String c r))
              else if String.prefix "false" (String c r) then Some (JBool false, String.substring 5 (String.length r - 4) (String c r))
              else if String.prefix "null" (String c r) then Some (JNull, String.substring 4 (String.length r - 3) (String c r))
              else parse_number (String c r)
          end
      | EmptyString => None
      end
  end
with parse_elements (fuel : nat) (s : string) (acc : list Json) : option (Json * string) :=
  match fuel with
  | O => None
  | S fuel' =>
      match parse_value fuel' s with
      | Some (v, r) =>
          match skip_ws r with
          | String c r1 =>
              if (code c =? 44)%N then parse_elements fuel' r1 (v :: acc)
              else if (code c =? 93)%N then Some (JArr (rev (v :: acc)), r1)
              else None
          | EmptyString => None
          end
      | None => None
      end
  end
with parse_members (fuel : nat) (s : string) (acc : list (string * Json))
  : option (Json * string) :=
  match fuel with
  | O => None
  | S fuel' =>
      match skip_ws s with
      | String q r =>
          if (code q =? 34)%N then
            match parse_chars r EmptyString with
            | Some (key, r1) =>
                match skip_ws r1 with
                | String c r2 =>
                    if (code c =? 58)%N then
                      match parse_value fuel' r2 with
                      | Some (v, r3) =>
                          match skip_ws r3 with
                          | String c3 r4 =>
                              if (code c3 =? 44)%N then parse_members fuel' r4 ((key, v) :: acc)
                              else if (code c3 =? 125)%N then Some (JObj ((key, v) :: acc), r4)
                              else None
                          | EmptyString => None
                          end
                      | None => None
                      end
                    else None
                | EmptyString => None
                end
            | None => None
            end
          else None
      | EmptyString => None
      end
  end.

(** [JSON.parse(text)]; a later member of an object comes first in the
    association list, so that it is the one a property read returns. *)
Definition JSON_parse (text : string) : option Json :=
  match parse_value (2 * String.length text + 2) text with
  | Some (v, rest) => if Str.is_empty (skip_ws rest) then Some v else None
  | None => None
  end.

Definition hex_digit (n : N) : ascii :=
  if (n <? 10)%N then chr (48 + n) else chr (87 + n).

Fixpoint escape (s : string) : string :=
  match s with
  | EmptyString => EmptyString
  | String c r =>
      (if ((code c =? 34) || (code c =? 92))%N then String (chr 92) (String c EmptyString)
       else if (code c <? 32)%N then
         String (chr 92) (String (chr 117) (String (chr 48) (String (chr 48)
           (String (hex_digit (code c / 16)) (String (hex_digit (code c mod 16)) EmptyString)))))
       else String c EmptyString) ++ escape r
  end.

Definition quote (s : string) : string :=
  String QUOTE (escape s ++ String QUOTE EmptyString).

Definition Number_toString (m e : Z) : string :=
  if e =? 0 then Str.of_Z m else Str.of_Z m ++ "e" ++ Str.of_Z e.

(** [JSON.stringify(v)]; the members of an object are written last binding
    first, the order in which [JSON_parse] reads them back. *)
Fixpoint JSON_stringify (v : Json) : string :=
  match v with
  | JNull => "null"
  | JBool true => "true"
  | JBool false => "false"
  | JNum m e => Number_toString m e
  | JStr s => quote s
  | JArr items =>
      "[" ++ Str.join "," ((fix each (l : list Json) : list string :=
                              match l with
                              | [] => []
                              | x :: r => JSON_stringify x :: each r
                              end) items) ++ "]"
  | JObj fields =>
      "{" ++ Str.join "," ((fix each (l : list (string * Json)) (acc : list string)
                              : list string :=
                              match l with
                              | [] => acc
                              | (k, x) :: r => each r ((quote k ++ ":" ++ JSON_stringify x) :: acc)
                              end) fields []) ++ "}"
  end.

(** Two decimal notations of the same number. *)
Definition Number_same (a b : Z * Z) : bool :=
  let lo := Z.min (snd a) (snd b) in
  fst a * 10 ^ (snd a - lo) =? fst b * 10 ^ (snd b - lo).

(** [new Date(v).getTime()] for an integer time value; this runtime reads no
    date strings. *)
Definition Date_getTime (v : Json) : option Z :=
  match v with
  | JNum m 0 => if Z.abs m <=? 8640000000000000 then Some m else None
  | _ => None
  end.

Fixpoint last_slash (s : string) (i : nat) (found : option nat) : option nat :=
  match s with
  | EmptyString => found
  | String c r => last_slash r (S i) (if (code c =? 47)%N then Some i else found)
  end.

(** [path.dirname] on a POSIX path without trailing slashes. *)
Definition dirname (path : string) : string :=
  match last_slash path 0 None with
  | None => "."
  | Some O => "/"
  | Some i => String.substring 0 i path
  end.

#[export] Instance runtime : Runtime := {|
  Js.JSON_parse := JSON_parse;
  Js.JSON_stringify := JSON_stringify;
  Js.Number_toString := Number_toString;
  Js.Number_same := Number_same;
  Js.Date_getTime := Date_getTime;
  Js.inspect := JSON_stringify;
  Js.formatBytes := fun v => match v with Some j => JSON_stringify j ++ " B" | None => "NaN undefined" end;
  Js.dirname := dirname
|}.

#[export] Instance config : Session.Config := {|
  Session.AUTH_SERVICE_URL := "https://auth.freshhub.ai";
  Session.AUTO_REQUEST_ENABLED := true;
  Session.SHARED_AGENT_SESSION_FILE := "/home/user/.config/fresh-auth/agent-session";
  Session.LEGACY_AGENT_SESSION_FILES := ["/home/user/.config/office-cli/agent-session"];
  Session.NOTION_VERSION := "2022-06-28"
|}.

(** A response with a JSON body. *)
Definition json_response (status : Z) (data : Json) : Sys.Response :=
  {| Sys.status := status;
     Sys.statusText := EmptyString;
     Sys.resp_headers := [("content-type", "application/json")];
     Sys.text := JSON_stringify data |}.

End Ref.

(** ** Observations on a run *)

Module Obs.
Import Js Sys.

Definition Request_eq_dec (a b : Request) : {a = b} + {a <> b}.
Proof. repeat decide equality. Defined.

Definition is_fetch_of (r : Request) (e : Event) : bool :=
  match e with
  | EvFetch r' => if Request_eq_dec r' r then true else false
  | _ => false
  end.

Definition is_sleep_of (ms : Z) (e : Event) : bool :=
  match e with
  | EvSleep ms' => ms' =? ms
  | _ => false
  end.

(** How many times the request [r] was issued in a stretch of the log. *)
Definition count_fetch (r : Request) (evs : list Event) : nat :=
  length (filter (is_fetch_of r) evs).

Definition count_sleep (ms : Z) (evs : list Event) : nat :=
  length (filter (is_sleep_of ms) evs).

(** The requests of a stretch of the log, in order. *)
Fixpoint fetches (evs : list Event) : list Request :=
  match evs with
  | [] => []
  | EvFetch r :: rest => r :: fetches rest
  | _ :: rest => fetches rest
  end.

(** A stretch of the log without its console lines. *)
Definition is_io (e : Event) : bool :=
  match e with
  | EvFetch _ | EvSleep _ => true
  | EvStderr _ | EvStdout _ => false
  end.

Definition io (evs : list Event) : list Event := filter is_io evs.

Definition is_console (e : Event) : Prop :=
  match e with
  | EvStderr _ | EvStdout _ => True
  | EvFetch _ | EvSleep _ => False
  end.

(** [n] rounds of "GET the poll URL, sleep" followed by one more GET. *)
Fixpoint poll_trace (r : Request) (n : nat) : list Event :=
  match n with
  | O => [EvFetch r]
  | S n' => EvFetch r :: EvSleep AUTO_REQUEST_POLL_MS :: poll_trace r n'
  end.

(** The shape of the network and timer activity of one poll loop: GETs of the
    poll request and sleeps of the poll interval alternate, and a GET comes
    first. *)
Inductive get_then_sleep (r : Request) : list Event -> Prop :=
| gts_done : get_then_sleep r []
| gts_last : get_then_sleep r [EvFetch r]
| gts_round : forall rest,
    get_then_sleep r rest ->
    get_then_sleep r (EvFetch r :: EvSleep AUTO_REQUEST_POLL_MS :: rest).

(** The reading of "sleep, then GET" in which every GET of [r] has a sleep of
    the poll interval right before it. *)
Fixpoint sleep_before_every_get (r : Request) (prev : option Event) (evs : list Event) : bool :=
  match evs with
  | [] => true
  | e :: rest =>
      (if is_fetch_of r e
       then match prev with
            | Some p => is_sleep_of AUTO_REQUEST_POLL_MS p
            | None => false
            end
       else true)
      && sleep_before_every_get r (Some e) rest
  end.

(** A poll answer: an OK response whose JSON body carries [status]. *)
Definition poll_answer {rt : Runtime} (st : string) (resp : Response) : Prop :=
  ok resp = true /\
  exists body, JSON_parse (text resp) = Some body /\ get "status" body = Some (JStr st).

(** A poll answer that ends nothing: an OK response with a JSON body other
    than [null] whose status is none of approved, denied, expired. *)
Definition open_answer {rt : Runtime} (resp : Response) : Prop :=
  ok resp = true /\
  exists body, JSON_parse (text resp) = Some body /\ body <> JNull /\
    is_str (get "status" body) "approved" = false /\
    is_str (get "status" body) "denied" = false /\
    is_str (get "status" body) "expired" = false.

(** A 401/403/429 answer whose body is an error the pipeline may answer with a
    grant request. *)
Definition retryable_answer {rt : Runtime} (isAutoRequestError : Json -> bool)
  (resp : Response) : Prop :=
  Http.is_auth_status resp = true /\
  exists data, Str.is_empty (text resp) = false /\
    JSON_parse (text resp) = Some data /\ isAutoRequestError data = true.

(** What [describeAuthError] prints for a missing grant. *)
Definition notion_no_grant : list string :=
  [ "No active grant for notion."; "";
    "Request access by running:";
    "  node notion-query.js request" ].

Definition office_no_grant (service : string) : list string :=
  [ "No active grant for " ++ service ++ "."; "";
    "Request access by running:";
    "  ./office-cli.js request " ++ service ].

(** Fuel that lets the poll loop run until its deadline: one unit for each
    poll interval that fits before the deadline, and one more. *)
Definition enough_fuel (deadline : option Z) (now : Z) (fuel : nat) : Prop :=
  (0 < fuel)%nat /\
  match deadline with
  | Some d => d - now <= AUTO_REQUEST_POLL_MS * (Z.of_nat fuel - 1)
  | None => True
  end.





End Obs.

(** ** Worlds for the examples *)

(** A world with no files, at time 0, in which nothing has happened yet. *)
Definition fresh_world : Sys.World :=
  {| Sys.fs := Sys.no_files; Sys.now := 0; Sys.log := [] |}.

(** The session id of the examples. *)
Definition SESSION : string := "as_7f3c9e-12ab".

(** The world after [saveAgentSession(id)] in a fresh world. *)
Definition saved (id : string) : Sys.World :=
  snd (Session.saveAgentSession (rt := Ref.runtime) (cfg := Ref.config) id fresh_world).

(** ** Frames: what a computation may touch *)

Module Frame.
Import Js Sys.

(** [steps good c]: whatever the world and however it ends, [c] leaves the
    files alone and only appends events satisfying [good] to the log. *)
Definition steps (good : Event -> Prop) {A : Type} (c : M A) : Prop :=
  forall w, fs (snd (c w)) = fs w /\
            exists evs, log (snd (c w)) = (log w ++ evs)%list /\ Forall good evs.

(** The events of the grant flow: console lines, sleeps of the poll interval,
    the auth request and polls. *)
Definition grant_event {rt : Runtime} {cfg : Session.Config} (grant_request : Json)
  (e : Event) : Prop :=
  match e with
  | EvStderr _ | EvStdout _ => True
  | EvSleep ms => ms = AUTO_REQUEST_POLL_MS
  | EvFetch r =>
      (exists s, r = Grant.auth_request grant_request s)
      \/ (exists u s, r = Grant.poll_request u s)
  end.

(** The events of a pipeline call: those of the grant flow and the proxied
    request itself, [request_of s] for the session [s] it was sent with. *)
Definition pipeline_event {rt : Runtime} {cfg : Session.Config} (grant_request : Json)
  (request_of : string -> Request) (e : Event) : Prop :=
  grant_event grant_request e \/ exists s, e = EvFetch (request_of s).

(** [at_most n r g c w]: run from [w], [c] leaves the files alone, adds only
    events of the grant flow and issues of the request [r], and issues [r] at
    most [n] times. *)
Definition at_most {rt : Runtime} {cfg : Session.Config} (n : nat) (r : Request)
  (grant_request : Json) {A : Type} (c : M A) (w : World) : Prop :=
  fs (snd (c w)) = fs w /\
  exists evs, log (snd (c w)) = (log w ++ evs)%list
              /\ Forall (fun e => grant_event grant_request e \/ e = EvFetch r) evs
              /\ (Obs.count_fetch r evs <= n)%nat.

(** Whatever is asked and whenever, the request [r] gets a 401/403/429 answer
    with a retryable error. *)
Definition always_retryable {rt : Runtime} (env : Env) (isAutoRequestError : Json -> bool)
  (r : Request) : Prop :=
  forall t h, exists resp, respond env t h r = Some resp
                           /\ Obs.retryable_answer isAutoRequestError resp.

End Frame.

(** An environment in which every request gets the same answer at once. *)
Definition always (resp : Sys.Response) : Sys.Env :=
  {| Sys.respond := fun _ _ _ => Some resp;
     Sys.latency := fun _ _ => 0%N;
     Sys.oversleep := fun _ => 0%N |}.

(** An environment without network. *)
Definition offline : Sys.Env :=
  {| Sys.respond := fun _ _ _ => None;
     Sys.latency := fun _ _ => 0%N;
     Sys.oversleep := fun _ => 0%N |}.

(** A drive with one text file behind a redirect: the item endpoint answers
    with the metadata, the content endpoint with a 302 to a pre-signed URL, and
    that URL with the text. *)
Definition PRESIGNED : string := "https://files.example/dl?sig=abc".

Definition redirecting_drive : Sys.Env :=
  {| Sys.respond := fun _ _ r =>
       if String.eqb (Sys.url r) PRESIGNED then
         Some {| Sys.status := 200; Sys.statusText := "OK"; Sys.resp_headers := [];
                 Sys.text := "hello" |}
       else if String.eqb (Sys.url r)
                 "https://auth.freshhub.ai/proxy/msgraph/me/drive/items/42/content" then
         Some {| Sys.status := 302; Sys.statusText := "Found";
                 Sys.resp_headers := [("location", PRESIGNED)]; Sys.text := EmptyString |}
       else
         Some (Ref.json_response 200
                 (Js.JObj [("name", Js.JStr "notes.txt"); ("size", Js.JNum 5 0)]));
     Sys.latency := fun _ _ => 0%N;
     Sys.oversleep := fun _ => 0%N |}.

(** A broker whose poll endpoint answers "pending" to the first [n] polls and
    "approved" from then on; an exchange takes 100 ms and a timer overshoots
    by 5 ms. *)
Definition status_body (st : string) : Js.Json := Js.JObj [("status", Js.JStr st)].

Definition approving_after (n : nat) : Sys.Env :=
  {| Sys.respond := fun _ h r =>
       Some (Ref.json_response 200
               (status_body (if (Obs.count_fetch r h <? n)%nat then "pending" else "approved")));
     Sys.latency := fun _ _ => 100%N;
     Sys.oversleep := fun _ => 5%N |}.

(** A broker whose poll endpoint answers "pending" for ever. *)
Definition never_deciding : Sys.Env :=
  {| Sys.respond := fun _ _ _ => Some (Ref.json_response 200 (status_body "pending"));
     Sys.latency := fun _ _ => 100%N;
     Sys.oversleep := fun _ => 5%N |}.

Definition POLL_URL : Js.JsVal := Some (Js.JStr "https://auth.freshhub.ai/api/auth-request/r1").

(** A proxy that answers every proxied call (the requests sent with a
    Notion-Version header or with [redirect: "manual"]) with 403 no_grant, next
    to a broker that answers the auth request with [grant] and every poll with
    [poll]. *)
Definition is_proxied (r : Sys.Request) : bool :=
  Sys.has_header "Notion-Version" r || String.eqb (Sys.redirect r) "manual".

Definition refusing_proxy (grant poll : Js.Json) : Sys.Env :=
  {| Sys.respond := fun _ _ r =>
       if is_proxied r then Some (Ref.json_response 403 (Js.JObj [("error", Js.JStr "no_grant")]))
       else if String.eqb (Sys.method r) "POST" then Some (Ref.json_response 200 grant)
       else Some (Ref.json_response 200 poll);
     Sys.latency := fun _ _ => 100%N;
     Sys.oversleep := fun _ => 5%N |}.

Definition auto_approved : Js.Json := Js.JObj [("autoApproved", Js.JBool true)].

Definition needs_approval : Js.Json :=
  Js.JObj [("pollUrl", Js.JStr "https://auth.freshhub.ai/api/auth-request/r1");
           ("approveUrl", Js.JStr "https://auth.freshhub.ai/approve/r1")].

(** The call [notionApi("GET", "/users/me")] with the session of the
    examples. *)
Definition users_me : Sys.Request :=
  Notion.api_request (rt := Ref.runtime) (cfg := Ref.config) SESSION "GET" "/users/me" None.


(** ** Further configurations and environments for the examples *)

(** The configuration of a process started with [OFFICE_AUTO_REQUEST=0]. *)
Definition manual_config : Session.Config :=
  {| Session.AUTH_SERVICE_URL := "https://auth.freshhub.ai";
     Session.AUTO_REQUEST_ENABLED := false;
     Session.SHARED_AGENT_SESSION_FILE := "/home/user/.config/fresh-auth/agent-session";
     Session.LEGACY_AGENT_SESSION_FILES := ["/home/user/.config/office-cli/agent-session"];
     Session.NOTION_VERSION := "2022-06-28" |}.

(** ** Scripted poll answers *)

Module Scenario.
Import Js Sys.

(** The poll endpoint answers the polls of [req] in turn with the statuses
    [sts], counting from the [k] polls already in the log. *)
Definition scripted {rt : Runtime} (env : Env) (req : Request) (k : nat)
  (sts : list string) : Prop :=
  forall t h i st,
    Obs.count_fetch req h = (k + i)%nat -> nth_error sts i = Some st ->
    exists resp, respond env t h req = Some resp /\ Obs.poll_answer st resp.

(** A status on which [waitForGrantApproval] goes on polling. *)
Definition open_status (st : string) : bool :=
  negb (String.eqb st "approved") && negb (String.eqb st "denied")
  && negb (String.eqb st "expired").

Definition OAUTH_HINT : string :=
  "OAuth connection required. Complete it in your browser...".

(** The variable [lastStatus] after a poll that answered the string [p];
    it starts as [null]. *)
Definition last_of (prev : option string) : JsVal :=
  match prev with
  | Some p => Some (JStr p)
  | None => Some JNull
  end.

(** [status.status !== lastStatus], [prev] being the string held by
    [lastStatus] ([None] while it is [null]). *)
Definition status_changed (prev : option string) (st : string) : bool :=
  match prev with
  | Some p => negb (String.eqb st p)
  | None => true
  end.

(** What a poll loop adds to the log when the polls are answered with the
    open statuses [sts] and then with "approved": one GET and one sleep per
    open answer, the hint after a GET whose answer changed the status to
    "oauth_pending", and the last GET. *)
Fixpoint hinted_trace (r : Request) (prev : option string) (sts : list string) : list Event :=
  match sts with
  | [] => [EvFetch r]
  | st :: rest =>
      EvFetch r
      :: (if String.eqb st "oauth_pending" && status_changed prev st
          then [EvStderr OAUTH_HINT] else [])
      ++ EvSleep AUTO_REQUEST_POLL_MS :: hinted_trace r (Some st) rest
  end.

Definition is_hint (e : Event) : bool :=
  match e with
  | EvStderr line => String.eqb line OAUTH_HINT
  | _ => false
  end.

End Scenario.

(** A broker that answers the auth request with [grant] and the polls in turn
    with the statuses [sts], then with "approved". *)
Definition scripted_broker (sts : list string) : Sys.Env :=
  {| Sys.respond := fun _ h r =>
       Some (Ref.json_response 200
               (status_body (nth (Obs.count_fetch r h) sts "approved")));
     Sys.latency := fun _ _ => 100%N;
     Sys.oversleep := fun _ => 5%N |}.

(** A drive with one text file that the content endpoint serves itself. *)
Definition plain_drive : Sys.Env :=
  {| Sys.respond := fun _ _ r =>
       if String.eqb (Sys.url r)
            "https://auth.freshhub.ai/proxy/msgraph/me/drive/items/42/content" then
         Some {| Sys.status := 200; Sys.statusText := "OK"; Sys.resp_headers := [];
                 Sys.text := "hello" |}
       else
         Some (Ref.json_response 200
                 (Js.JObj [("name", Js.JStr "notes.txt"); ("size", Js.JNum 5 0)]));
     Sys.latency := fun _ _ => 0%N;
     Sys.oversleep := fun _ => 0%N |}.

(** ** Clearing the session ([clearAgentSession], [cmdLogout]) *)

Module Logout.
Import Js Sys Session.

Definition fs_remove (fs : FS) (path : string) : FS :=
  fun q => if String.eqb q path then None else fs q.

(** The [for] loop of [clearAgentSession] under its [try]: a path that does
    not exist is skipped, a file is unlinked, and [unlink] of a directory
    throws, which ends the loop in the empty [catch]. *)
Fixpoint unlink_each (files : FS) (candidates : list string) : FS :=
  match candidates with
  | [] => files
  | sessionFile :: rest =>
      match files sessionFile with
      | None => unlink_each files rest
      | Some (RegularFile _) => unlink_each (fs_remove files sessionFile) rest
      | Some Directory => files
      end
  end.

(** [promise.catch(() => {})]: a rejection is swallowed. *)
Definition swallow {A : Type} (c : M A) : M unit :=
  fun w =>
    match c w with
    | (Ret _, w') => (Ret tt, w')
    | (Throw _, w') => (Ret tt, w')
    | (Exit code, w') => (Exit code, w')
    | (OutOfFuel, w') => (OutOfFuel, w')
    end.

Section Store.
Context {rt : Runtime} {cfg : Config}.

(** [clearAgentSession()]; notion-query.js walks
    [[SHARED_AGENT_SESSION_FILE, ...LEGACY_AGENT_SESSION_FILES]], office-cli.js
    [AGENT_SESSION_FILES]. *)
Definition clearAgentSession : M unit :=
  fun w => (Ret tt, {| fs := unlink_each (fs w) AGENT_SESSION_FILES;
                       now := now w; log := log w |}).

Variable env : Env.

(** The request by which [cmdLogout] of notion-query.js tells the broker. *)
Definition logout_request (session : string) : Request :=
  {| url := AUTH_SERVICE_URL ++ "/api/agent/session";
     method := "DELETE";
     headers := [("X-Agent-Session", session)];
     body := None;
     redirect := "follow" |}.

(** [cmdLogout()] of notion-query.js *)
Definition cmdLogout : M unit :=
  session <- getAgentSession ;;
  match session with
  | None => console_log "No active session."
  | Some s =>
      if Str.is_empty s then console_log "No active session."
      else
        swallow (fetch env (logout_request s)) ;;;
        clearAgentSession ;;;
        console_log "Session cleared."
  end.

End Store.
End Logout.

(** ** String methods *)

Module Text.

Definition CR : ascii := ascii_of_nat 13.
Definition NL : ascii := ascii_of_nat 10.

(** [s.slice(n)] *)
Fixpoint drop (n : nat) (s : string) : string :=
  match n, s with
  | O, _ => s
  | S n', String _ r => drop n' r
  | S _, EmptyString => EmptyString
  end.

(** [s.slice(0, n)] *)
Definition take (n : nat) (s : string) : string := String.substring 0 n s.

(** [s.indexOf(sep)], [None] for -1 *)
Definition indexOf (s sep : string) : option nat := String.index 0 sep s.

(** [s.includes(c)] for a one-character [c] *)
Fixpoint contains (c : ascii) (s : string) : bool :=
  match s with
  | EmptyString => false
  | String a r => Ascii.eqb a c || contains c r
  end.

(** What follows the prefix [p] in [s], when [s.startsWith(p)]. *)
Fixpoint strip_prefix (p s : string) : option string :=
  match p, s with
  | EmptyString, _ => Some s
  | String a p', String b s' => if Ascii.eqb a b then strip_prefix p' s' else None
  | String _ _, EmptyString => None
  end.

(** [s.split(sep)] for a one-character separator: never the empty list. *)
Fixpoint split (sep : ascii) (s : string) : list string :=
  match s with
  | EmptyString => [EmptyString]
  | String c r =>
      if Ascii.eqb c sep then EmptyString :: split sep r
      else
        match split sep r with
        | x :: rest => String c x :: rest
        | [] => [String c EmptyString]
        end
  end.

(** The characters a dot of a regular expression does not match. *)
Definition is_line_terminator (c : ascii) : bool := Ascii.eqb c NL || Ascii.eqb c CR.

Fixpoint no_line_terminator (s : string) : bool :=
  match s with
  | EmptyString => true
  | String c r => negb (is_line_terminator c) && no_line_terminator r
  end.

(** [\d] *)
Definition is_digit (c : ascii) : bool :=
  let n := nat_of_ascii c in ((48 <=? n) && (n <=? 57))%nat.

End Text.

(** ** Command-line and property helpers of notion-query.js *)

(** Built-ins the helpers call and this development does not define:
    [JSON_pretty v] is [JSON.stringify(v, null, 2)], [Number_finite s] is
    [Number(s)] when that is a finite number, [form_encode] is the encoding
    [URLSearchParams] applies to a value, and [seconds v] is the number
    [v * 1000] for a truthy [v], a finite one rounded up to a whole
    millisecond. *)
(** A span of time or a deadline as a JavaScript number: a finite number of
    milliseconds, [+Infinity], or a value no time is below (NaN, [-Infinity]). *)
Inductive Millis : Type :=
  | Finite (ms : Z)
  | Endless
  | Unordered.

Class Platform : Type := {
  JSON_pretty : Js.Json -> string;
  Number_finite : string -> option Js.Json;
  encodeURIComponent : string -> string;
  form_encode : string -> string;
  seconds : Js.Json -> Millis
}.

Module NotionArgs.
Import Js.

(** [splitFirst(input, separator)] *)
Definition splitFirst (input separator : string) : string * string :=
  match Text.indexOf input separator with
  | None => (input, EmptyString)
  | Some idx =>
      (Text.take idx input, Text.drop (idx + String.length separator) input)
  end.

(** The object [parseQueryDbFlags] returns. *)
Record QueryDbFlags : Type := {
  raw : bool;
  filterProp : string;
  filterValue : string
}.

(** [left.replace(/^--filter-/, "")] *)
Definition drop_filter_prefix (left : string) : string :=
  match Text.strip_prefix "--filter-" left with
  | Some rest => rest
  | None => left
  end.

(** One round of the [for] loop of [parseQueryDbFlags]. *)
Definition query_flag (flags : QueryDbFlags) (arg : string) : QueryDbFlags :=
  let raw' := if String.eqb arg "--raw" then true else raw flags in
  if Str.startsWith arg "--filter-" then
    let (left, value) := splitFirst arg "=" in
    {| raw := raw'; filterProp := drop_filter_prefix left; filterValue := value |}
  else
    {| raw := raw'; filterProp := filterProp flags; filterValue := filterValue flags |}.

Definition parseQueryDbFlags (args : list string) : QueryDbFlags :=
  fold_left query_flag args
    {| raw := false; filterProp := EmptyString; filterValue := EmptyString |}.

(** [parseBool(value)] on a string *)
Definition parseBool (value : string) : bool :=
  let normalized := Str.toLowerCase (Str.trim value) in
  String.eqb normalized "true" || String.eqb normalized "1" || String.eqb normalized "yes".

(** [String(value).split(",").map((x) => x.trim()).filter(Boolean)] *)
Definition comma_list (value : string) : list string :=
  filter (fun x => negb (Str.is_empty x)) (map Str.trim (Text.split "," value)).

Section WithPlatform.
Context {pf : Platform}.

(** [toNotionPropertyValue(type, rawValue)]; [type] is whatever the schema
    holds, and a value that is no string falls to the [default] of the
    [switch]; [rawValue] is a string or [undefined]. *)
Definition toNotionPropertyValue (type : Json) (rawValue : option string) : Json :=
  let value := match rawValue with Some v => v | None => EmptyString end in
  let text := JArr [JObj [("text", JObj [("content", JStr value)])]] in
  match type with
  | JStr "title" => JObj [("title", text)]
  | JStr "rich_text" | JStr "text" => JObj [("rich_text", text)]
  | JStr "select" => JObj [("select", JObj [("name", JStr value)])]
  | JStr "status" => JObj [("status", JObj [("name", JStr value)])]
  | JStr "multi_select" =>
      JObj [("multi_select",
             JArr (map (fun name => JObj [("name", JStr name)]) (comma_list value)))]
  | JStr "number" =>
      JObj [("number", match Number_finite value with Some n => n | None => JNull end)]
  | JStr "checkbox" => JObj [("checkbox", JBool (parseBool value))]
  | JStr "date" => JObj [("date", JObj [("start", JStr value)])]
  | JStr "url" => JObj [("url", JStr value)]
  | JStr "email" => JObj [("email", JStr value)]
  | JStr "phone_number" => JObj [("phone_number", JStr value)]
  | JStr "relation" =>
      JObj [("relation",
             JArr (map (fun id => JObj [("id", JStr id)]) (comma_list value)))]
  | _ => JObj [("select", JObj [("name", JStr value)])]
  end.

End WithPlatform.

(** The alternatives of the first group of the regular expression of
    [parseExplicitTypedArg], in the order written. *)
Definition TYPED_FLAGS : list string :=
  ["select"; "status"; "text"; "number"; "checkbox"; "date"; "url"; "multi-select";
   "email"; "phone"; "relation"].

(** The object [parseExplicitTypedArg] returns. *)
Record TypedArg : Type := {
  type : string;
  name : string;
  value : string
}.

(** The rest of the regular expression on what follows the first group: a
    hyphen, one or more characters other than [=] (the name), [=], and any
    characters but line terminators up to the end (the value).  The name runs
    up to the first [=]. *)
Definition name_and_value (tail : string) : option (string * string) :=
  match Text.strip_prefix "-" tail with
  | None => None
  | Some rest =>
      match Text.indexOf rest "=" with
      | None => None
      | Some O => None
      | Some idx =>
          let value := Text.drop (idx + 1) rest in
          if Text.no_line_terminator value then Some (Text.take idx rest, value)
          else None
      end
  end.

(** The match of the regular expression of [parseExplicitTypedArg]: the
    alternatives of its first group are tried in order on what follows the
    two hyphens. *)
Fixpoint match_typed (alternatives : list string) (rest : string)
  : option (string * string * string) :=
  match alternatives with
  | [] => None
  | rawType :: others =>
      match Text.strip_prefix rawType rest with
      | Some tail =>
          match name_and_value tail with
          | Some (name, value) => Some (rawType, name, value)
          | None => match_typed others rest
          end
      | None => match_typed others rest
      end
  end.

Definition mappedType (rawType : string) : string :=
  if String.eqb rawType "multi-select" then "multi_select"
  else if String.eqb rawType "phone" then "phone_number"
  else rawType.

(** [parseExplicitTypedArg(arg)], [None] for [null] *)
Definition parseExplicitTypedArg (arg : string) : option TypedArg :=
  match Text.strip_prefix "--" arg with
  | None => None
  | Some rest =>
      match match_typed TYPED_FLAGS rest with
      | Some (rawType, name, value) =>
          Some {| type := mappedType rawType; name := name; value := value |}
      | None => None
      end
  end.

(** The types [toNotionPropertyValue] has a [case] for. *)
Definition PROPERTY_TYPES : list string :=
  ["title"; "rich_text"; "text"; "select"; "status"; "multi_select"; "number";
   "checkbox"; "date"; "url"; "email"; "phone_number"; "relation"].

End NotionArgs.

(** ** Reading Notion properties ([toPlainRichText], [flattenProperty],
       [extractTitleFromProperties], [findTitlePropertyName]) *)

Module NotionProps.
Import Js.

(** [a ?? b] *)
Definition nullish (a b : JsVal) : JsVal :=
  match a with
  | None | Some JNull => b
  | _ => a
  end.

(** [v ?? null] as a JSON value *)
Definition or_null (v : JsVal) : Json :=
  match v with
  | Some j => j
  | None => JNull
  end.

(** [Object.entries(v)] for a value read out of JSON: each key once, with the
    value a property read returns, in the order of the field list. *)
Fixpoint first_bindings (seen : list string) (fields : list (string * Json))
  : list (string * Json) :=
  match fields with
  | [] => []
  | (k, v) :: rest =>
      if existsb (String.eqb k) seen then first_bindings seen rest
      else (k, v) :: first_bindings (k :: seen) rest
  end.

Definition Object_entries (v : Json) : list (string * Json) :=
  first_bindings [] (own_entries (Some v)).

Section WithRuntime.
Context {rt : Runtime}.

(** [items.map(f).filter(Boolean).join(sep)] *)
Definition join_truthy (sep : string) (f : Json -> JsVal) (items : list Json) : string :=
  Str.join sep
    (map ToStringV (filter truthyV (map f items))).

(** [(v || []).map(f).filter(Boolean).join(", ")]; [None] when [v] is truthy
    and has no [map], which throws a [TypeError]. *)
Definition list_of_names (v : JsVal) (f : Json -> JsVal) : option string :=
  if truthyV v then
    match v with
    | Some (JArr items) => Some (join_truthy ", " f items)
    | _ => None
    end
  else Some EmptyString.

(** [toPlainRichText(richText = [])]; [None] when the argument is neither
    [undefined] nor an array and the call throws. *)
Definition toPlainRichText (richText : JsVal) : option string :=
  match richText with
  | None => Some EmptyString
  | Some (JArr items) =>
      Some (Str.join EmptyString
              (map (fun t => ToStringV (or_js (get "plain_text" t) (Some (JStr EmptyString))))
                 items))
  | Some _ => None
  end.

(** [flattenProperty(prop)]; [None] when it throws. *)
Definition flattenProperty (prop : Json) : option Json :=
  if negb (truthy prop) || negb (typeof_object (Some prop)) then Some JNull
  else
    match get "type" prop with
    | Some (JStr "title") => option_map JStr (toPlainRichText (get "title" prop))
    | Some (JStr "rich_text") => option_map JStr (toPlainRichText (get "rich_text" prop))
    | Some (JStr "select") => Some (or_null (getV "name" (get "select" prop)))
    | Some (JStr "status") => Some (or_null (getV "name" (get "status" prop)))
    | Some (JStr "multi_select") =>
        option_map JStr (list_of_names (get "multi_select" prop) (get "name"))
    | Some (JStr "number") => Some (or_null (get "number" prop))
    | Some (JStr "checkbox") => Some (or_null (get "checkbox" prop))
    | Some (JStr "date") => Some (or_null (getV "start" (get "date" prop)))
    | Some (JStr "url") => Some (or_null (get "url" prop))
    | Some (JStr "email") => Some (or_null (get "email" prop))
    | Some (JStr "phone_number") => Some (or_null (get "phone_number" prop))
    | Some (JStr "people") =>
        option_map JStr
          (list_of_names (get "people" prop) (fun x => or_js (get "name" x) (get "id" x)))
    | Some (JStr "relation") =>
        option_map JStr (list_of_names (get "relation" prop) (get "id"))
    | Some (JStr "formula") =>
        let f := or_js (get "formula" prop) (Some (JObj [])) in
        Some (or_null
                (nullish (getV "string" f)
                   (nullish (getV "number" f)
                      (nullish (getV "boolean" f) (getV "start" (getV "date" f))))))
    | Some (JStr "rollup") =>
        let r := or_js (get "rollup" prop) (Some (JObj [])) in
        match getV "array" r with
        | Some (JArr items) =>
            Some (JStr (Str.of_Z (Z.of_nat (length items)) ++ " items"))
        | _ => Some (or_null (getV "number" r))
        end
    | Some (JStr "created_time") => Some (or_null (get "created_time" prop))
    | Some (JStr "last_edited_time") => Some (or_null (get "last_edited_time" prop))
    | Some (JStr "created_by") =>
        Some (or_null (nullish (getV "name" (get "created_by" prop))
                               (getV "id" (get "created_by" prop))))
    | Some (JStr "last_edited_by") =>
        Some (or_null (nullish (getV "name" (get "last_edited_by" prop))
                               (getV "id" (get "last_edited_by" prop))))
    | Some (JStr "files") =>
        option_map JStr
          (list_of_names (get "files" prop)
             (fun f => or_js (or_js (get "name" f) (getV "url" (get "file" f)))
                             (getV "url" (get "external" f))))
    | _ => Some JNull
    end.

(** The [for] loop of [extractTitleFromProperties] over the entries. *)
Fixpoint first_title (entries : list (string * Json)) : string :=
  match entries with
  | [] => "Untitled"
  | (name, prop) :: rest =>
      match get "title" prop with
      | Some (JArr items) =>
          if is_str (get "type" prop) "title" then
            let text :=
              match toPlainRichText (Some (JArr items)) with
              | Some t => t
              | None => EmptyString
              end in
            if negb (Str.is_empty text) then text
            else if negb (Str.is_empty name) then name
            else "Untitled"
          else first_title rest
      | _ => first_title rest
      end
  end.

(** [extractTitleFromProperties(properties)] on a value read out of JSON *)
Definition extractTitleFromProperties (properties : Json) : string :=
  first_title (Object_entries properties).

(** The [for] loop of [findTitlePropertyName]. *)
Fixpoint first_title_name (entries : list (string * Json)) : string :=
  match entries with
  | [] => "Name"
  | (name, prop) :: rest =>
      if is_str (get "type" prop) "title" then name else first_title_name rest
  end.

Definition findTitlePropertyName (properties : Json) : string :=
  first_title_name (Object_entries properties).

End WithRuntime.

(** A property object of type [t] that carries the fields of [value], the
    way a page holds what was written to it. *)
Definition typed_property (t : string) (value : Json) : Json :=
  match value with
  | JObj fields => JObj (("type", JStr t) :: fields)
  | _ => value
  end.

(** A name with no comma and no white space around it. *)
Definition clean_name (x : string) : Prop :=
  x <> EmptyString /\ Str.trim x = x /\ Text.contains "," x = false.

End NotionProps.

(** A stand-in for the platform built-ins, used to run examples: values are
    printed compactly, no text is read as a number, and nothing is escaped in
    URLs. *)
Definition plain_platform : Platform :=
  {| JSON_pretty := Ref.JSON_stringify;
     Number_finite := fun _ => None;
     encodeURIComponent := fun s => s;
     form_encode := fun s => s;
     seconds := fun v => match v with Js.JNum m 0 => Finite (m * 1000) | _ => Unordered end |}.

(** ** Markdown to Notion blocks ([richText], [markdownToBlocks]) *)

Module Markdown.
Import Js.

Definition FENCE : string := "```".

(** [markdown.replace(/\r\n/g, "\n")] *)
Fixpoint replace_crlf (s : string) : string :=
  match s with
  | EmptyString => EmptyString
  | String c r =>
      match r with
      | String d r' =>
          if Ascii.eqb c Text.CR && Ascii.eqb d Text.NL
          then String Text.NL (replace_crlf r')
          else String c (replace_crlf r)
      | EmptyString => s
      end
  end.

(** [richText(value)] *)
Definition richText (value : string) : Json :=
  if Str.is_empty value then JArr []
  else JArr [JObj [("type", JStr "text"); ("text", JObj [("content", JStr value)])]].

(** [{ object: "block", type, [type]: payload }] *)
Definition block (type : string) (payload : Json) : Json :=
  JObj [("object", JStr "block"); ("type", JStr type); (type, payload)].

Definition text_block (type text : string) : Json :=
  block type (JObj [("rich_text", richText text)]).

(** The block pushed when a fence closes or the text ends inside one. *)
Definition code_block (codeLines : list string) (codeLang : string) : Json :=
  block "code"
    (JObj [("rich_text", richText (Str.join Str.LF codeLines));
           ("language", JStr (if Str.is_empty codeLang then "plain text" else codeLang))]).

(** The match of the to-do pattern: "- [", one of space, x, X, "] " and then
    any characters but line terminators up to the end; the result is the
    character in the brackets and the text. *)
Definition match_todo (trimmed : string) : option (ascii * string) :=
  match Text.strip_prefix "- [" trimmed with
  | Some (String c rest) =>
      if Ascii.eqb c " " || Ascii.eqb c "x" || Ascii.eqb c "X" then
        match Text.strip_prefix "] " rest with
        | Some text => if Text.no_line_terminator text then Some (c, text) else None
        | None => None
        end
      else None
  | _ => None
  end.

(** The test of the bullet pattern: a hyphen or an asterisk, then a space. *)
Definition is_bullet (trimmed : string) : bool :=
  match trimmed with
  | String c (String " " _) => Ascii.eqb c "-" || Ascii.eqb c "*"
  | _ => false
  end.

Fixpoint skip_digits (s : string) : string :=
  match s with
  | String c r => if Text.is_digit c then skip_digits r else s
  | EmptyString => EmptyString
  end.

(** The numbered-item pattern, one or more digits, a dot and one or more
    white-space characters at the start: [Some text] is what
    [trimmed.replace] leaves when the pattern matches. *)
Definition strip_numbered (trimmed : string) : option string :=
  match trimmed with
  | String c _ =>
      if Text.is_digit c then
        match skip_digits trimmed with
        | String "." (String w r) => if Str.is_ws w then Some (Str.trimStart r) else None
        | _ => None
        end
      else None
  | EmptyString => None
  end.

(** The block pushed for a line outside a fence, [trimmed] being the line
    without the white space around it, not empty. *)
Definition line_block (trimmed : string) : Json :=
  if String.eqb trimmed "---" then block "divider" (JObj [])
  else if Str.startsWith trimmed "### " then text_block "heading_3" (Text.drop 4 trimmed)
  else if Str.startsWith trimmed "## " then text_block "heading_2" (Text.drop 3 trimmed)
  else if Str.startsWith trimmed "# " then text_block "heading_1" (Text.drop 2 trimmed)
  else
    match match_todo trimmed with
    | Some (c, text) =>
        block "to_do"
          (JObj [("rich_text", richText text);
                 ("checked", JBool (Ascii.eqb c "x" || Ascii.eqb c "X"))])
    | None =>
        if is_bullet trimmed then text_block "bulleted_list_item" (Text.drop 2 trimmed)
        else
          match strip_numbered trimmed with
          | Some text => text_block "numbered_list_item" text
          | None =>
              if Str.startsWith trimmed "> " then text_block "quote" (Text.drop 2 trimmed)
              else text_block "paragraph" trimmed
          end
    end.

(** The variables of the loop of [markdownToBlocks]. *)
Record State : Type := {
  blocks : list Json;
  inCode : bool;
  codeLang : string;
  codeLines : list string
}.

Definition start : State :=
  {| blocks := []; inCode := false; codeLang := EmptyString; codeLines := [] |}.

(** One round of the [for] loop. *)
Definition step (st : State) (line : string) : State :=
  if inCode st then
    if Str.startsWith line FENCE then
      {| blocks := blocks st ++ [code_block (codeLines st) (codeLang st)];
         inCode := false; codeLang := EmptyString; codeLines := [] |}
    else
      {| blocks := blocks st; inCode := true; codeLang := codeLang st;
         codeLines := codeLines st ++ [line] |}
  else if Str.startsWith line FENCE then
    {| blocks := blocks st; inCode := true;
       codeLang := Str.trim (Text.drop 3 line); codeLines := codeLines st |}
  else
    let trimmed := Str.trim line in
    if Str.is_empty trimmed then st
    else
      {| blocks := blocks st ++ [line_block trimmed]; inCode := false;
         codeLang := codeLang st; codeLines := codeLines st |}.

Definition lines_of (markdown : string) : list string :=
  Text.split Text.NL (replace_crlf markdown).

Definition run (markdown : string) : State := fold_left step (lines_of markdown) start.

(** [markdownToBlocks(markdown)] *)
Definition markdownToBlocks (markdown : string) : list Json :=
  let st := run markdown in
  if inCode st then (blocks st ++ [code_block (codeLines st) (codeLang st)])%list
  else blocks st.

(** The text ends inside a fence that was not closed. *)
Definition ends_in_code (markdown : string) : bool := inCode (run markdown).

Fixpoint ends_with (c : ascii) (s : string) : bool :=
  match s with
  | EmptyString => false
  | String a EmptyString => Ascii.eqb a c
  | String _ r => ends_with c r
  end.

(** Outside a fence the language and the collected lines are empty. *)
Definition settled (st : State) : Prop :=
  inCode st = false -> codeLang st = EmptyString /\ codeLines st = [].

(** The state [st] with the blocks [before] in front of its own. *)
Definition with_blocks (before : list Json) (st : State) : State :=
  {| blocks := (before ++ blocks st)%list; inCode := inCode st;
     codeLang := codeLang st; codeLines := codeLines st |}.

(** The last character of the string is white space. *)
Fixpoint ends_ws (s : string) : bool :=
  match s with
  | EmptyString => false
  | String a EmptyString => Str.is_ws a
  | String _ r => ends_ws r
  end.

(** The types of the blocks [markdownToBlocks] builds. *)
Definition BLOCK_TYPES : list string :=
  ["code"; "divider"; "heading_3"; "heading_2"; "heading_1"; "to_do";
   "bulleted_list_item"; "numbered_list_item"; "quote"; "paragraph"].

(** A block of one of these types; but for a divider and a code block, it
    carries exactly one rich-text item, whose content is not empty. *)
Definition well_formed (b : Json) : Prop :=
  get "object" b = Some (JStr "block")
  /\ exists type, In type BLOCK_TYPES /\ get "type" b = Some (JStr type)
       /\ (type = "divider" \/ type = "code"
           \/ exists text, text <> EmptyString
                /\ getV "rich_text" (get type b)
                   = Some (JArr [JObj [("type", JStr "text");
                                       ("text", JObj [("content", JStr text)])]])).

End Markdown.

(** ** Page bodies ([listAllBlockChildren], [appendChildren], set-body,
       append-body) *)

Module NotionPages.
Import Js Sys Session Http.

(** The chunks [children.slice(i, i + 100)] for [i = 0, 100, ...] below
    [children.length]; [fuel] bounds the number of chunks. *)
Fixpoint chunks (fuel : nat) (children : list Json) : list (list Json) :=
  match fuel, children with
  | _, [] => []
  | O, _ :: _ => []
  | S fuel', _ :: _ => firstn 100 children :: chunks fuel' (skipn 100 children)
  end.

Definition chunked (children : list Json) : list (list Json) :=
  chunks (length children) children.

(** [...(v || [])] in an argument list: the elements of an array, the
    characters of a string; [None] when [v] is truthy and not iterable. *)
Definition spread_items (v : JsVal) : option (list Json) :=
  if truthyV v then
    match v with
    | Some (JArr items) => Some items
    | Some (JStr s) =>
        Some (map (fun c => JStr (String c EmptyString)) (list_ascii_of_string s))
    | _ => None
    end
  else Some [].

(** [data.has_more ? data.next_cursor : null] *)
Definition next_cursor (data : Json) : JsVal :=
  if truthyV (get "has_more" data) then get "next_cursor" data else Some JNull.

Section Script.
Context {rt : Runtime} {cfg : Config} {pf : Platform}.
Variable env : Env.
(** what the process finds on standard input *)
Variable stdin : string.

(** [errorAndExit(message)] *)
Definition errorAndExit {A : Type} (message : string) : M A :=
  console_error message ;;; process_exit 1.

(** [printJson(value)] *)
Definition printJson (value : Json) : M unit := console_log (JSON_pretty value).

(** The endpoint of one page of children: [query.toString()] after
    [page_size] and, for a truthy cursor, [start_cursor] were set. *)
Definition children_endpoint (blockId : string) (cursor : JsVal) : string :=
  "/blocks/" ++ blockId ++ "/children?page_size=100"
  ++ (if truthyV cursor then "&start_cursor=" ++ form_encode (ToStringV cursor)
      else EmptyString).

(** The [do ... while (cursor)] loop of [listAllBlockChildren]; [rounds]
    bounds the number of pages, [fuel] is what each call of [notionApi]
    gets. *)
Fixpoint list_pages (rounds fuel : nat) (blockId : string) (cursor : JsVal)
  (results : list Json) : M (list Json) :=
  match rounds with
  | O => out_of_fuel
  | S rounds' =>
      data <- Notion.notionApi env fuel "GET" (children_endpoint blockId cursor) None 0 ;;
      match spread_items (get "results" data) with
      | None => throw "TypeError: Spread syntax requires ...iterable"
      | Some items =>
          let cursor' := next_cursor data in
          if truthyV cursor' then
            list_pages rounds' fuel blockId cursor' (results ++ items)%list
          else ret (results ++ items)%list
      end
  end.

Definition listAllBlockChildren (fuel : nat) (blockId : string) : M (list Json) :=
  list_pages fuel fuel blockId (Some JNull) [].

(** The second [for] loop of [appendChildren]. *)
Fixpoint append_chunks (fuel : nat) (parentId : string) (todo : list (list Json)) : M unit :=
  match todo with
  | [] => ret tt
  | chunk :: rest =>
      Notion.notionApi env fuel "PATCH" ("/blocks/" ++ parentId ++ "/children")
        (Some (JObj [("children", JArr chunk)])) 0 ;;;
      append_chunks fuel parentId rest
  end.

Definition appendChildren (fuel : nat) (parentId : string) (children : list Json) : M unit :=
  append_chunks fuel parentId (chunked children).

Definition BODY_USAGE (command : string) : string :=
  "Usage: notion-query.js " ++ command ++ " <page_id> <markdown>" ++ Str.LF
  ++ "       echo 'markdown' | notion-query.js " ++ command ++ " <page_id> -".

(** [!pageId || !markdownArg] on arguments that are strings or missing *)
Definition missing (arg : option string) : bool :=
  match arg with
  | Some a => Str.is_empty a
  | None => true
  end.

Definition given (arg : option string) : string :=
  match arg with
  | Some a => a
  | None => EmptyString
  end.

(** [markdownArg === "-" ? await readStdin() : markdownArg] *)
Definition markdown_of (markdownArg : string) : string :=
  if String.eqb markdownArg "-" then stdin else markdownArg.

Definition written (pageId key : string) (children : list Json) : Json :=
  JObj [("id", JStr pageId); (key, JBool true);
        ("blocks_written", JNum (Z.of_nat (length children)) 0)].

(** [cmdAppendBody(pageId, markdownArg)] *)
Definition cmdAppendBody (fuel : nat) (pageId markdownArg : option string) : M unit :=
  if missing pageId || missing markdownArg then errorAndExit (BODY_USAGE "append-body")
  else
    let children := Markdown.markdownToBlocks (markdown_of (given markdownArg)) in
    (if (0 <? length children)%nat then appendChildren fuel (given pageId) children
     else ret tt) ;;;
    printJson (written (given pageId) "appended" children).

(** The first [for] loop of [cmdSetBody]. *)
Fixpoint archive_each (fuel : nat) (existing : list Json) : M unit :=
  match existing with
  | [] => ret tt
  | block :: rest =>
      match block with
      | JNull => throw "TypeError: Cannot read properties of null"
      | _ =>
          Notion.notionApi env fuel "PATCH" ("/blocks/" ++ ToStringV (get "id" block))
            (Some (JObj [("archived", JBool true)])) 0 ;;;
          archive_each fuel rest
      end
  end.

(** [cmdSetBody(pageId, markdownArg)] *)
Definition cmdSetBody (fuel : nat) (pageId markdownArg : option string) : M unit :=
  if missing pageId || missing markdownArg then errorAndExit (BODY_USAGE "set-body")
  else
    existing <- listAllBlockChildren fuel (given pageId) ;;
    archive_each fuel existing ;;;
    let children := Markdown.markdownToBlocks (markdown_of (given markdownArg)) in
    (if (0 <? length children)%nat then appendChildren fuel (given pageId) children
     else ret tt) ;;;
    printJson (written (given pageId) "replaced" children).

End Script.
End NotionPages.

(** The request of one chunk of [appendChildren], sent with the session
    [s]. *)
Definition children_request {rt : Js.Runtime} {cfg : Session.Config}
  (s parentId : string) (chunk : list Js.Json) : Sys.Request :=
  Notion.api_request s "PATCH" ("/blocks/" ++ parentId ++ "/children")
    (Some (Js.JObj [("children", Js.JArr chunk)])).

(** An answer on which [notionApi] returns: OK, and its body is no Notion
    error object. *)
Definition accepted {rt : Js.Runtime} (resp : Sys.Response) : Prop :=
  Sys.ok resp = true
  /\ Js.is_str (Js.get "object" (fst (Http.readErrorBody resp))) "error" = false.

(** What [notionApi] returns on an accepted answer. *)
Definition returned {rt : Js.Runtime} (resp : Sys.Response) : Js.Json :=
  if Js.truthy (fst (Http.readErrorBody resp)) then fst (Http.readErrorBody resp)
  else Js.JObj [].

(** *** A proxy that serves the children of a block in pages *)

Module Paging.
Import Js Sys NotionPages.

Section Pages.
Context {rt : Runtime} {cfg : Session.Config} {pf : Platform}.

(** The request for the page that starts at [cursor]. *)
Definition page_request (s blockId : string) (cursor : JsVal) : Request :=
  Notion.api_request s "GET" (children_endpoint blockId cursor) None.

(** The proxy answers the request for the page at [cursor] with the first
    of [pages], whose cursor leads to the next one, and so on; the last page
    names no further page. *)
Fixpoint paged (env : Env) (s blockId : string) (cursor : JsVal) (pages : list Response)
  : Prop :=
  match pages with
  | [] => False
  | resp :: rest =>
      (forall t h, respond env t h (page_request s blockId cursor) = Some resp)
      /\ accepted resp
      /\ match rest with
         | [] => truthyV (next_cursor (returned resp)) = false
         | _ :: _ =>
             truthyV (next_cursor (returned resp)) = true
             /\ paged env s blockId (next_cursor (returned resp)) rest
         end
  end.

(** The results of all pages, in order; [None] when the results of a page
    cannot be spread. *)
Fixpoint all_items (pages : list Response) : option (list Json) :=
  match pages with
  | [] => Some []
  | resp :: rest =>
      match spread_items (get "results" (returned resp)), all_items rest with
      | Some items, Some others => Some (items ++ others)%list
      | _, _ => None
      end
  end.

(** The requests that fetch [pages], starting at [cursor]. *)
Fixpoint page_requests (s blockId : string) (cursor : JsVal) (pages : list Response)
  : list Request :=
  match pages with
  | [] => []
  | resp :: rest =>
      page_request s blockId cursor
      :: page_requests s blockId (next_cursor (returned resp)) rest
  end.

End Pages.
End Paging.

(** A block with two pages of children: the first answer names the cursor
    "c2", the second ends the list. *)
Definition two_pages : Sys.Env :=
  {| Sys.respond := fun _ _ r =>
       if String.eqb (Sys.url r)
            "https://auth.freshhub.ai/api/proxy/notion/blocks/b1/children?page_size=100"
       then Some (Ref.json_response 200
                    (Js.JObj [("results", Js.JArr [Js.JObj [("id", Js.JStr "x1")]]);
                              ("has_more", Js.JBool true);
                              ("next_cursor", Js.JStr "c2")]))
       else Some (Ref.json_response 200
                    (Js.JObj [("results", Js.JArr [Js.JObj [("id", Js.JStr "x2")]]);
                              ("has_more", Js.JBool false);
                              ("next_cursor", Js.JNull)]));
     Sys.latency := fun _ _ => 0%N;
     Sys.oversleep := fun _ => 0%N |}.

(** The two answers of [two_pages], in order. *)
Definition two_page_answers : list Sys.Response :=
  [ Ref.json_response 200
      (Js.JObj [("results", Js.JArr [Js.JObj [("id", Js.JStr "x1")]]);
                ("has_more", Js.JBool true);
                ("next_cursor", Js.JStr "c2")]);
    Ref.json_response 200
      (Js.JObj [("results", Js.JArr [Js.JObj [("id", Js.JStr "x2")]]);
                ("has_more", Js.JBool false);
                ("next_cursor", Js.JNull)]) ].

(** The request by which set-body archives one existing block. *)
Definition archive_request {rt : Js.Runtime} {cfg : Session.Config}
  (s : string) (block : Js.Json) : Sys.Request :=
  Notion.api_request s "PATCH" ("/blocks/" ++ Js.ToStringV (Js.get "id" block))
    (Some (Js.JObj [("archived", Js.JBool true)])).

(** ** Mail of office-cli.js ([mailReply]) *)

Module Mail.
Import Js Sys Session Http.

Section Script.
Context {rt : Runtime} {cfg : Config}.
Variable env : Env.
Variable currentService : Office.Service.

(** [response.status === 202 || response.status === 200] *)
Definition is_sent (response : Response) : bool :=
  (status response =? 202) || (status response =? 200).

(** [response.status === 401 || response.status === 403] *)
Definition is_denied (response : Response) : bool :=
  (status response =? 401) || (status response =? 403).

Definition reply_endpoint (messageId : string) (replyAll : bool) : string :=
  if replyAll then "/me/messages/" ++ messageId ++ "/replyAll"
  else "/me/messages/" ++ messageId ++ "/reply".

(** The POST of [mailReply], the same for the first attempt and the retry. *)
Definition reply_request (agentSession messageId comment : string) (replyAll : bool)
  : Request :=
  {| url := Office.API_BASE ++ reply_endpoint messageId replyAll;
     method := "POST";
     headers := [("X-Agent-Session", agentSession); ("Content-Type", "application/json")];
     body := Some (JSON_stringify (JObj [("comment", JStr comment)]));
     redirect := "follow" |}.

Definition reply_done (replyAll : bool) : string :=
  if replyAll then "Reply-all sent." else "Reply sent.".

(** [mailReply(messageId, comment, replyAll)]; the fuel goes to the poll loop
    of [ensureGrant]. *)
Definition mailReply (fuel : nat) (messageId comment : string) (replyAll : bool) : M unit :=
  agentSession <- require_session Office.LOGIN_FIRST ;;
  response <- fetch env (reply_request agentSession messageId comment replyAll) ;;
  if is_sent response then console_log (reply_done replyAll)
  else if is_denied response then
    let (data, text) := readErrorBody response in
    if OfficeAuth.isAutoRequestError data && AUTO_REQUEST_ENABLED then
      Office.ensureGrant env currentService fuel ;;;
      retry <- fetch env (reply_request agentSession messageId comment replyAll) ;;
      if is_sent retry then console_log (reply_done replyAll)
      else throw ("Reply failed after grant (" ++ Str.of_Z (status retry) ++ "): "
                  ++ Sys.text retry)
    else if truthy data then
      OfficeAuth.describeAuthError data "mail" ;;; process_exit 1
    else throw (or_text text ("Auth error (" ++ Str.of_Z (status response) ++ ")"))
  else
    let (_, errText) := readErrorBody response in
    throw ("Reply failed (" ++ Str.of_Z (status response) ++ "): "
           ++ or_text errText (statusText response)).

End Script.

(** *** Recipients ([validateEmail], [peopleSearch], [resolveRecipient],
        [resolveRecipients]) and [mailSend] *)

(** A character other than white space and the at sign. *)
Definition addr_char (c : ascii) : bool := negb (Str.is_ws c) && negb (Ascii.eqb c "@").

(** One or more characters of the class [p], then whatever [k] accepts; the
    longest run is tried first. *)
Fixpoint plus_then (p : ascii -> bool) (k : string -> bool) (s : string) : bool :=
  match s with
  | String c r => p c && (plus_then p k r || k r)
  | EmptyString => false
  end.

(** The character [c], then whatever [k] accepts. *)
Definition lit (c : ascii) (k : string -> bool) (s : string) : bool :=
  match s with
  | String a r => Ascii.eqb a c && k r
  | EmptyString => false
  end.

(** Every character of the text is of the class [p]. *)
Fixpoint all_chars (p : ascii -> bool) (s : string) : bool :=
  match s with
  | EmptyString => true
  | String c r => p c && all_chars p r
  end.

(** [validateEmail(email)]: the test of the pattern "one or more address
    characters, an at sign, one or more address characters, a dot, one or more
    address characters" on the whole of the trimmed text. *)
Definition validateEmail (email : string) : bool :=
  plus_then addr_char
    (lit "@" (plus_then addr_char (lit "." (plus_then addr_char Str.is_empty))))
    (Str.trim email).

(** A double quote, and the arrow of the "Using" line as the bytes written
    for it. *)
Definition DQ : string := String (ascii_of_nat 34) EmptyString.
Definition ARROW : string :=
  String (ascii_of_nat 226) (String (ascii_of_nat 134) (String (ascii_of_nat 146) EmptyString)).

(** [v?.[0]] *)
Definition index0 (v : JsVal) : JsVal :=
  match v with
  | Some (JArr (x :: _)) => Some x
  | Some (JStr (String c _)) => Some (JStr (String c EmptyString))
  | Some (JObj fields) => assoc "0" fields
  | _ => None
  end.

(** [p.scoredEmailAddresses?.[0]?.address]; the outer [None] is the
    [TypeError] of a property read on [null]. *)
Definition first_address (p : Json) : option JsVal :=
  match p with
  | JNull => None
  | _ => Some (getV "address" (index0 (get "scoredEmailAddresses" p)))
  end.

(** One entry of what [resolveRecipient] returns. *)
Record Match : Type := {
  address : Json;
  displayName : JsVal
}.

(** [people.filter(...).map(...)]; [None] when a person is [null]. *)
Fixpoint matches_of (people : list Json) : option (list Match) :=
  match people with
  | [] => Some []
  | p :: rest =>
      match first_address p, matches_of rest with
      | Some a, Some others =>
          Some (match a with
                | Some addr =>
                    if truthy addr
                    then {| address := addr; displayName := get "displayName" p |} :: others
                    else others
                | None => others
                end)
      | _, _ => None
      end
  end.

Definition recipient (addr : Json) : Json :=
  JObj [("emailAddress", JObj [("address", addr)])].

(** The [options] of [mailSend]: [to], [subject], [body], [cc], [isHtml] and
    [autoConfirm]. *)
Record SendOptions : Type := {
  mail_to : string;
  mail_subject : string;
  mail_body : string;
  mail_cc : option string;
  mail_isHtml : bool;
  mail_autoConfirm : bool
}.

Section Sending.
Context {rt : Runtime} {cfg : Config} {pf : Platform}.
Variable env : Env.
Variable currentService : Office.Service.

Definition people_options : Office.Options :=
  {| Office.opt_method := None;
     Office.opt_headers := [("X-PeopleQuery-QuerySources", "Mailbox,Directory")];
     Office.opt_body := None |}.

Definition people_endpoint (query : string) (top : Z) : string :=
  "/me/people?$search=" ++ DQ ++ encodeURIComponent query ++ DQ
  ++ "&$select=displayName,givenName,surname,scoredEmailAddresses,personType,"
  ++ "jobTitle,department,userPrincipalName&$top=" ++ Str.of_Z top.

(** [peopleSearch(query, top)]: [result.value || []] *)
Definition peopleSearch (fuel : nat) (query : string) (top : Z) : M JsVal :=
  result <- Office.apiRequest env currentService fuel (people_endpoint query top)
              people_options 0 ;;
  match result with
  | JNull => throw "TypeError: Cannot read properties of null"
  | _ => ret (or_js (get "value" result) (Some (JArr [])))
  end.

(** [resolveRecipient(nameOrEmail)] *)
Definition resolveRecipient (fuel : nat) (nameOrEmail : string) : M (list Match) :=
  if validateEmail nameOrEmail then
    ret [{| address := JStr nameOrEmail; displayName := Some (JStr nameOrEmail) |}]
  else
    people <- peopleSearch fuel nameOrEmail 5 ;;
    match people with
    | Some (JArr items) =>
        match matches_of items with
        | Some found => ret found
        | None => throw "TypeError: Cannot read properties of null"
        end
    | _ => throw "TypeError: people.filter is not a function"
    end.

(** The lines that list the matches shown, numbered from [i]. *)
Fixpoint show_matches (i : Z) (shown : list Match) : M unit :=
  match shown with
  | [] => ret tt
  | m :: rest =>
      console_log ("    " ++ Str.of_Z i ++ ". " ++ ToStringV (displayName m) ++ " <"
                   ++ ToString (address m) ++ ">") ;;;
      show_matches (i + 1) rest
  end.

(** The [for] loop of [resolveRecipients] over the trimmed parts. *)
Fixpoint resolve_parts (fuel : nat) (autoConfirm : bool) (parts : list string)
  (resolved : list Json) : M (list Json) :=
  match parts with
  | [] => ret resolved
  | part :: rest =>
      if validateEmail part then
        resolve_parts fuel autoConfirm rest (resolved ++ [recipient (JStr part)])%list
      else
        found <- resolveRecipient fuel part ;;
        match firstn 5 found with
        | [] =>
            console_error ("No matches found for " ++ DQ ++ part ++ DQ
                           ++ ". Please provide a full email address.") ;;;
            process_exit 1
        | top :: others =>
            console_log (Str.LF ++ "  Matches for " ++ DQ ++ part ++ DQ ++ ":") ;;;
            show_matches 1 (top :: others) ;;;
            if autoConfirm then
              console_log ("  " ++ ARROW ++ " Using: " ++ ToStringV (displayName top) ++ " <"
                           ++ ToString (address top) ++ ">") ;;;
              resolve_parts fuel autoConfirm rest (resolved ++ [recipient (address top)])%list
            else
              console_log (Str.LF ++ "  Re-run with the exact email, or use --yes to "
                           ++ "auto-pick the top result.") ;;;
              process_exit 1
        end
  end.

(** [resolveRecipients(input, autoConfirm)] *)
Definition resolveRecipients (fuel : nat) (input : string) (autoConfirm : bool)
  : M (list Json) :=
  resolve_parts fuel autoConfirm (map Str.trim (Text.split "," input)) [].

(** The POST of [mailSend], the same for the first attempt and the retry. *)
Definition send_request (agentSession : string) (payload : Json) : Request :=
  {| url := Office.API_BASE ++ "/me/sendMail";
     method := "POST";
     headers := [("X-Agent-Session", agentSession); ("Content-Type", "application/json")];
     body := Some (JSON_stringify payload);
     redirect := "follow" |}.

Definition send_payload (options : SendOptions) (toRecipients : list Json)
  (ccRecipients : option (list Json)) : Json :=
  JObj [("message",
         JObj ([("subject", JStr (mail_subject options));
                ("body", JObj [("contentType",
                                JStr (if mail_isHtml options then "HTML" else "Text"));
                               ("content", JStr (mail_body options))]);
                ("toRecipients", JArr toRecipients)]
               ++ match ccRecipients with
                  | Some l => [("ccRecipients", JArr l)]
                  | None => []
                  end));
        ("saveToSentItems", JBool true)].

(** [options.cc] is given and truthy *)
Definition cc_given (options : SendOptions) : option string :=
  match mail_cc options with
  | Some c => if Str.is_empty c then None else Some c
  | None => None
  end.

(** [mailSend(options)] *)
Definition mailSend (fuel : nat) (options : SendOptions) : M unit :=
  toRecipients <- resolveRecipients fuel (mail_to options) (mail_autoConfirm options) ;;
  ccRecipients <-
    match cc_given options with
    | Some c => l <- resolveRecipients fuel c (mail_autoConfirm options) ;; ret (Some l)
    | None => ret None
    end ;;
  let payload := send_payload options toRecipients ccRecipients in
  agentSession <- require_session Office.LOGIN_FIRST ;;
  response <- fetch env (send_request agentSession payload) ;;
  if is_sent response then console_log ("Email sent to " ++ mail_to options)
  else if is_denied response then
    let (data, text) := readErrorBody response in
    if OfficeAuth.isAutoRequestError data && AUTO_REQUEST_ENABLED then
      Office.ensureGrant env currentService fuel ;;;
      retry <- fetch env (send_request agentSession payload) ;;
      if is_sent retry then console_log ("Email sent to " ++ mail_to options)
      else throw ("Send failed after grant (" ++ Str.of_Z (status retry) ++ "): "
                  ++ Sys.text retry)
    else if truthy data then
      OfficeAuth.describeAuthError data "mail" ;;; process_exit 1
    else throw (or_text text ("Auth error (" ++ Str.of_Z (status response) ++ ")"))
  else
    let (_, errText) := readErrorBody response in
    throw ("Send failed (" ++ Str.of_Z (status response) ++ "): "
           ++ or_text errText (statusText response)).

(** A POST to the send endpoint. *)
Definition is_send_post (e : Event) : bool :=
  match e with
  | EvFetch r =>
      String.eqb (url r) (Office.API_BASE ++ "/me/sendMail") && String.eqb (method r) "POST"
  | _ => false
  end.

End Sending.
End Mail.


(** A people directory that knows one person for every query. *)
Definition directory : Sys.Env :=
  always (Ref.json_response 200
            (Js.JObj [("value",
                       Js.JArr [Js.JObj [("displayName", Js.JStr "Ada Lovelace");
                                         ("scoredEmailAddresses",
                                          Js.JArr [Js.JObj [("address",
                                                             Js.JStr "ada@example.org")]])]])])).

(** ** Registration ([cmdLogin] of notion-query.js) *)

Module Login.
Import Js Sys Session Http.

Section Script.
Context {rt : Runtime} {cfg : Config} {pf : Platform}.
Variable env : Env.
(** [process.platform], [process.arch] and [hostname()] *)
Variable platform arch hostname : string.

Definition init_request : Request :=
  {| url := AUTH_SERVICE_URL ++ "/api/agent/init";
     method := "POST";
     headers := [("Content-Type", "application/json")];
     body := Some (JSON_stringify
                     (JObj [("agentName", JStr "Fresh Auth CLI");
                            ("deviceInfo",
                             JStr ("notion-query.js " ++ platform ++ " " ++ arch ++ " "
                                   ++ hostname))]));
     redirect := "follow" |}.

(** [fetch(pollUrl)] *)
Definition login_poll (pollUrl : Json) : Request :=
  {| url := ToString pollUrl;
     method := "GET";
     headers := [];
     body := None;
     redirect := "follow" |}.

(** The statement [if (v.agentSessionId?.trim()) { save ...; after }] for a
    value [v] that is not [null]: a missing or [null] id and an id of white
    space are skipped, an id that is no string has no [trim] and throws. *)
Definition save_if_given (v : Json) (after : M unit) : M unit :=
  match get "agentSessionId" v with
  | None | Some JNull => ret tt
  | Some (JStr id) =>
      if Str.is_empty (Str.trim id) then ret tt
      else saveAgentSession id ;;; after
  | Some _ => throw "TypeError: agentSessionId.trim is not a function"
  end.

(** [data?.message || data?.error || fallback] as the message of an error *)
Definition error_text (data : Json) (fallback : string) : string :=
  ToStringV (or_js (or_js (get "message" data) (get "error" data)) (Some (JStr fallback))).

(** [Date.now() + ((registration.expiresIn || 300) * 1000)] *)
Definition login_deadline (registration : Json) (now : Z) : Millis :=
  match get "expiresIn" registration with
  | Some v =>
      if truthy v then
        match seconds v with
        | Finite ms => Finite (now + ms)
        | other => other
        end
      else Finite (now + 300 * 1000)
  | None => Finite (now + 300 * 1000)
  end.

(** [Date.now() < deadline] *)
Definition before (t : Z) (deadline : Millis) : bool :=
  match deadline with
  | Finite d => t <? d
  | Endless => true
  | Unordered => false
  end.

(** [registration.pollUrl || `${AUTH_SERVICE_URL}/api/agent/poll/${registrationId}`] *)
Definition poll_url (registration : Json) : Json :=
  match get "pollUrl" registration with
  | Some given =>
      if truthy given then given
      else JStr (AUTH_SERVICE_URL ++ "/api/agent/poll/"
                 ++ ToStringV (get "registrationId" registration))
  | None => JStr (AUTH_SERVICE_URL ++ "/api/agent/poll/"
                  ++ ToStringV (get "registrationId" registration))
  end.

(** The [while (Date.now() < deadline)] loop of [cmdLogin] with the [throw]
    after it; one unit of fuel per round. *)
Fixpoint login_loop (fuel : nat) (pollUrl : Json) (deadline : Millis) : M unit :=
  match fuel with
  | O => out_of_fuel
  | S fuel' =>
      t <- Date_now ;;
      if before t deadline then
        pollResponse <- fetch env (login_poll pollUrl) ;;
        if negb (ok pollResponse) then
          let (data, text) := readErrorBody pollResponse in
          throw (error_text data
                   ("Registration poll failed: " ++ or_text text (statusText pollResponse)))
        else
          status <- response_json pollResponse ;;
          match status with
          | JNull => throw "TypeError: Cannot read properties of null"
          | _ =>
              save_if_given status (ret tt) ;;;
              if is_str (get "status" status) "approved"
                 && truthyV (get "agentSessionId" status)
              then console_error "Login successful."
              else if is_str (get "status" status) "denied" then
                throw (ToStringV (or_js (get "message" status)
                                        (Some (JStr "Registration denied."))))
              else if is_str (get "status" status) "expired" then
                throw (ToStringV (or_js (get "message" status)
                                        (Some (JStr "Registration expired."))))
              else
                sleep env AUTO_REQUEST_POLL_MS ;;;
                login_loop fuel' pollUrl deadline
          end
      else throw "Timed out waiting for login approval."
  end.

(** [cmdLogin()] *)
Definition cmdLogin (fuel : nat) : M unit :=
  initResponse <- fetch env init_request ;;
  if negb (ok initResponse) then
    let (data, text) := readErrorBody initResponse in
    throw (error_text data
             ("Registration init failed: " ++ or_text text (statusText initResponse)))
  else
    registration <- response_json initResponse ;;
    match registration with
    | JNull => throw "TypeError: Cannot read properties of null"
    | _ =>
        save_if_given registration (console_error "Session saved (pending approval).") ;;;
        let verifyUrl :=
          or_js (get "verifyUrl" registration)
            (Some (JStr (AUTH_SERVICE_URL ++ "/agent/verify?code="
                         ++ encodeURIComponent
                              (ToStringV (or_js (get "code" registration)
                                                (Some (JStr EmptyString))))))) in
        console_error "Approve registration at:" ;;;
        console_error ("  " ++ ToStringV verifyUrl) ;;;
        console_error "Waiting for approval..." ;;;
        now <- Date_now ;;
        login_loop fuel (poll_url registration) (login_deadline registration now)
    end.

End Script.

(** *** Runs of a registration *)

(** The session id of an answer is absent, [null] or a string. *)
Definition plain_id (v : Json) : bool :=
  match get "agentSessionId" v with
  | None | Some JNull | Some (JStr _) => true
  | Some _ => false
  end.

(** An answer of the broker on which the login goes on waiting. *)
Definition pending (a : Json) : bool :=
  match a with JNull => false | _ => true end
  && plain_id a
  && negb (is_str (get "status" a) "approved")
  && negb (is_str (get "status" a) "denied")
  && negb (is_str (get "status" a) "expired").

(** The session directory can be made and the session file written. *)
Definition can_save {rt : Runtime} {cfg : Config} (files : FS) : bool :=
  negb (String.eqb (dirname SHARED_AGENT_SESSION_FILE) SHARED_AGENT_SESSION_FILE)
  && match files (dirname SHARED_AGENT_SESSION_FILE) with
     | Some (RegularFile _) => false
     | _ => true
     end
  && match files SHARED_AGENT_SESSION_FILE with
     | Some Directory => false
     | _ => true
     end.

(** The broker answers the requests [req] in turn with OK responses whose JSON
    bodies are [answers], counting from the [k] such requests in the log. *)
Definition scripted {rt : Runtime} (env : Env) (req : Request) (k : nat)
  (answers : list Json) : Prop :=
  forall t h i a,
    Obs.count_fetch req h = (k + i)%nat -> nth_error answers i = Some a ->
    exists resp, respond env t h req = Some resp /\ ok resp = true
                 /\ JSON_parse (text resp) = Some a.

(** Paths other than the session file and its directory are as before. *)
Definition elsewhere_same {rt : Runtime} {cfg : Config} (before after : FS) : Prop :=
  forall p, p <> SHARED_AGENT_SESSION_FILE -> p <> dirname SHARED_AGENT_SESSION_FILE ->
            after p = before p.

End Login.

(** A broker that registers the agent under the poll URL of the examples and
    answers the polls in turn with the statuses [sts], then with "approved"
    and the session id of the examples. *)
Definition registrar (sts : list string) : Sys.Env :=
  {| Sys.respond := fun _ h r =>
       if String.eqb (Sys.method r) "POST" then
         Some (Ref.json_response 200
                 (Js.JObj [("registrationId", Js.JStr "r1");
                           ("code", Js.JStr "K7Q2");
                           ("pollUrl", Js.JStr "https://auth.freshhub.ai/api/agent/poll/r1")]))
       else
         Some (Ref.json_response 200
                 (match nth_error sts (Obs.count_fetch r h) with
                  | Some st => Js.JObj [("status", Js.JStr st)]
                  | None => Js.JObj [("status", Js.JStr "approved");
                                     ("agentSessionId", Js.JStr (" " ++ SESSION))]
                  end));
     Sys.latency := fun _ _ => 100%N;
     Sys.oversleep := fun _ => 5%N |}.

(** ** The session files of office-cli.js *)

Module Startup.

Section OfficeFiles.
(** [process.env], [homedir()] and [path.join] *)
Variable env : string -> option string.
Variable homedir : string.
Variable join : list string -> string.

(** [normalizeSessionFile(value)]; [None] is [null]. *)
Definition normalizeSessionFile (value : option string) : option string :=
  match value with
  | None => None
  | Some v =>
      let trimmed := Str.trim v in
      if Str.is_empty trimmed then None
      else if String.eqb trimmed "~" then Some homedir
      else if String.prefix "~/" trimmed then Some (join [homedir; Text.drop 2 trimmed])
      else Some trimmed
  end.

(** [unique.add(value)] on a [Set] kept in insertion order *)
Definition set_add (unique : list string) (value : string) : list string :=
  if existsb (String.eqb value) unique then unique else unique ++ [value].

(** [uniqueSessionFiles(values)]: [null] and the empty string are skipped. *)
Definition uniqueSessionFiles (values : list (option string)) : list string :=
  fold_left
    (fun unique value =>
       match value with
       | Some v => if Str.is_empty v then unique else set_add unique v
       | None => unique
       end)
    values [].

Definition DEFAULT_CONFIG_HOME : string := join [homedir; ".config"].

Definition XDG_CONFIG_HOME : option string := normalizeSessionFile (env "XDG_CONFIG_HOME").

Definition CONFIG_HOME_CANDIDATES : list string :=
  uniqueSessionFiles [XDG_CONFIG_HOME; Some DEFAULT_CONFIG_HOME].

(** [SHARED_AGENT_SESSION_FILE]; [None] when [CONFIG_HOME_CANDIDATES[0]] is
    [undefined], on which [join] throws. *)
Definition SHARED_AGENT_SESSION_FILE : option string :=
  let fallback :=
    match CONFIG_HOME_CANDIDATES with
    | configHome :: _ => Some (join [configHome; "fresh-auth"; "agent-session"])
    | [] => None
    end in
  match normalizeSessionFile (env "FRESH_AUTH_AGENT_SESSION_FILE") with
  | Some file => if Str.is_empty file then fallback else Some file
  | None => fallback
  end.

(** [LEGACY_AGENT_SESSION_FILES], given the shared file *)
Definition LEGACY_AGENT_SESSION_FILES (shared : string) : list string :=
  filter (fun sessionFile => negb (String.eqb sessionFile shared))
    (uniqueSessionFiles
       ([normalizeSessionFile (env "OFFICE_CLI_AGENT_SESSION_FILE");
         normalizeSessionFile (env "AGENT_SESSION_FILE")]
        ++ map (fun configHome => Some (join [configHome; "office-cli"; "agent-session"]))
             CONFIG_HOME_CANDIDATES
        ++ map (fun configHome => Some (join [configHome; "cal-cli"; "agent-session"]))
             CONFIG_HOME_CANDIDATES
        ++ map (fun configHome => Some (join [configHome; "onedrive-cli"; "agent-session"]))
             CONFIG_HOME_CANDIDATES)).

Definition AGENT_SESSION_FILES : option (list string) :=
  option_map (fun shared => shared :: LEGACY_AGENT_SESSION_FILES shared)
    SHARED_AGENT_SESSION_FILE.

End OfficeFiles.

(** A [join] for the examples: the parts with a slash between them. *)
Definition slashed (parts : list string) : string := String.concat "/" parts.

(** An environment that sets the XDG directory and one legacy session file,
    which is the shared session file under another spelling. *)
Definition xdg_env (name : string) : option string :=
  if String.eqb name "XDG_CONFIG_HOME" then Some "~/cfg"
  else if String.eqb name "AGENT_SESSION_FILE" then Some " /home/user/cfg/fresh-auth/agent-session "
  else None.

End Startup.
(** * Facts *)

Module StrFacts.
Import Str.

Lemma trimEnd_all_ws s : all_ws s = true -> trimEnd s = EmptyString.
Proof.
  induction s as [|c r IH]; simpl; [reflexivity|].
  intros H. apply andb_prop in H as [Hc Hr]. rewrite (IH Hr), Hc. reflexivity.
Qed.

Lemma trimEnd_app_ws a b : all_ws b = true -> trimEnd (a ++ b) = trimEnd a.
Proof.
  intros Hb. induction a as [|c r IH]; simpl.
  - now apply trimEnd_all_ws.
  - now rewrite IH.
Qed.

Lemma trimEnd_idem s : trimEnd (trimEnd s) = trimEnd s.
Proof.
  induction s as [|c r IH]; simpl; [reflexivity|].
  destruct (trimEnd r) as [|c' r'] eqn:E.
  - destruct (is_ws c) eqn:Hc; simpl; [reflexivity|]. now rewrite Hc.
  - simpl in *. now rewrite IH.
Qed.

Lemma trimStart_head s : head_visible (trimStart s).
Proof.
  induction s as [|c r IH]; simpl; [exact I|].
  destruct (is_ws c) eqn:Hc; [exact IH|]. simpl. exact Hc.
Qed.

Lemma trimEnd_head s : head_visible s -> head_visible (trimEnd s).
Proof.
  destruct s as [|c r]; simpl; [trivial|].
  intros Hc. destruct (trimEnd r); [rewrite Hc|]; simpl; exact Hc.
Qed.

Lemma trimStart_visible s : head_visible s -> trimStart s = s.
Proof. destruct s as [|c r]; simpl; [reflexivity|]. now intros ->. Qed.

Lemma trim_head s : head_visible (trim s).
Proof. apply trimEnd_head, trimStart_head. Qed.

Lemma trim_idem s : trim (trim s) = trim s.
Proof.
  unfold trim at 1. rewrite (trimStart_visible _ (trim_head s)).
  unfold trim. apply trimEnd_idem.
Qed.

(** Writing the trimmed text followed by a newline and trimming what is read
    back gives the trimmed text again. *)
Lemma trim_trim_LF s : trim (trim s ++ LF) = trim s.
Proof.
  pose proof (trim_head s) as Hh.
  unfold trim at 1.
  destruct (trim s) as [|c r] eqn:E.
  - reflexivity.
  - simpl in Hh. change (String c r ++ LF) with (String c (r ++ LF)).
    cbn [trimStart]. rewrite Hh.
    change (String c (r ++ LF)) with (String c r ++ LF).
    rewrite trimEnd_app_ws by reflexivity.
    rewrite <- E. unfold trim. apply trimEnd_idem.
Qed.

End StrFacts.

(** ** The classifier and the retry predicate *)

Section Classifier.
Import Js Sys Obs.
Context {rt : Runtime}.

Lemma includes_spec (l : list string) (v : JsVal) :
  includes l v = true <-> exists code, v = Some (JStr code) /\ In code l.
Proof.
  unfold includes. rewrite existsb_exists. split.
  - intros [x [Hin Hx]]. destruct v as [[| | | s | |]|]; simpl in Hx; try discriminate.
    apply String.eqb_eq in Hx. subst. eauto.
  - intros [code [-> Hin]]. exists code. split; [assumption|]. simpl. apply String.eqb_refl.
Qed.

Lemma includes_or_empty (v : JsVal) :
  includes GRANT_ERRORS (or_js v (Some (JStr EmptyString))) = includes GRANT_ERRORS v.
Proof.
  unfold or_js. destruct (truthyV v) eqn:T; [reflexivity|].
  destruct v as [[| | | s | |]|]; try reflexivity.
  destruct s; [reflexivity | discriminate].
Qed.


Lemma grant_error_truthy (v : JsVal) : includes GRANT_ERRORS v = true -> truthyV v = true.
Proof.
  intros H. apply includes_spec in H as [code [-> Hin]].
  simpl in Hin. destruct Hin as [<-|[<-|[<-|[]]]]; reflexivity.
Qed.

Lemma retry_predicate (error : Json) :
  (if negb (truthyV (get "error" error)) then false
   else includes GRANT_ERRORS (get "error" error)) = includes GRANT_ERRORS (get "error" error).
Proof.
  destruct (includes GRANT_ERRORS (get "error" error)) eqn:E.
  - now rewrite (grant_error_truthy _ E).
  - now destruct (truthyV (get "error" error)).
Qed.


(** A payload with one of the grant error codes is classified NoGrant. *)
Lemma if_chain_grant (error : Json) :
  includes GRANT_ERRORS (get "error" error) = true -> if_chain error = NoGrant.
Proof.
  intros H. unfold if_chain. rewrite includes_or_empty, H.
  apply includes_spec in H as [code [-> Hin]].
  simpl in Hin. destruct Hin as [<-|[<-|[<-|[]]]]; reflexivity.
Qed.


End Classifier.


Section ClassifierOutput.
Import Js Sys Obs.
Context {rt : Runtime}.

Lemma console_error_say line w : console_error line w = (Ret tt, say w [line]).
Proof. reflexivity. Qed.

Lemma say_say w l1 l2 : say (say w l1) l2 = say w (l1 ++ l2).
Proof. unfold say. simpl. now rewrite map_app, app_assoc. Qed.

Lemma bind_say {B : Type} line (k : unit -> M B) w :
  bind (console_error line) k w = k tt (say w [line]).
Proof. reflexivity. Qed.

End ClassifierOutput.


(** How [normalizeAuthError] reads a payload with [details] in
    notion-query.js: the members of [details] replace those of the payload. *)
Example notion_details_override :
  NotionAuth.isAutoRequestError
    (Js.JObj [("error", Js.JStr "forbidden");
              ("details", Js.JObj [("error", Js.JStr "no_grant")])]) = true
  /\ NotionAuth.classify
       (Js.JObj [("error", Js.JStr "forbidden");
                 ("details", Js.JObj [("error", Js.JStr "no_grant")])]) = NoGrant
  /\ OfficeAuth.isAutoRequestError
       (Js.JObj [("error", Js.JStr "forbidden");
                 ("details", Js.JObj [("error", Js.JStr "no_grant")])]) = false.
Proof. repeat split; reflexivity. Qed.

(** ** The session store *)

Section SessionFacts.
Import Js Sys Session.
Context {rt : Runtime} {cfg : Config}.

Lemma is_empty_false s : Str.is_empty s = false <-> s <> EmptyString.
Proof. destruct s; simpl; split; congruence. Qed.


(** A session file whose trimmed content is not empty and is not JSON is read
    as that content. *)
Lemma scan_plain_file (files : FS) (content : string) (rest : list string) (f : string) :
  files f = Some (RegularFile content) ->
  Str.trim content <> EmptyString ->
  JSON_parse (Str.trim content) = None ->
  scan_session_files files (f :: rest) = Some (Str.trim content).
Proof.
  intros Hf Hne Hjson. simpl. rewrite Hf.
  apply is_empty_false in Hne. rewrite Hne.
  unfold parse_session. rewrite Hjson. reflexivity.
Qed.

End SessionFacts.




(** ** Frame lemmas *)

Section FrameFacts.
Import Js Sys Session Frame.
Context {rt : Runtime} {cfg : Config}.

Lemma steps_ret (good : Event -> Prop) {A : Type} (a : A) : steps good (ret a).
Proof. intros w. simpl. split; [reflexivity|]. exists []. now rewrite app_nil_r. Qed.

Lemma steps_throw (good : Event -> Prop) {A : Type} (msg : string) : steps good (@throw A msg).
Proof. intros w. simpl. split; [reflexivity|]. exists []. now rewrite app_nil_r. Qed.

Lemma steps_exit (good : Event -> Prop) {A : Type} (code : Z) : steps good (@process_exit A code).
Proof. intros w. simpl. split; [reflexivity|]. exists []. now rewrite app_nil_r. Qed.

Lemma steps_out_of_fuel (good : Event -> Prop) {A : Type} : steps good (@out_of_fuel A).
Proof. intros w. simpl. split; [reflexivity|]. exists []. now rewrite app_nil_r. Qed.

Lemma steps_bind (good : Event -> Prop) {A B : Type} (c : M A) (k : A -> M B) :
  steps good c -> (forall a, steps good (k a)) -> steps good (bind c k).
Proof.
  intros Hc Hk w. unfold bind. specialize (Hc w).
  destruct (c w) as [[a| msg | code |] w1]; simpl in *; try exact Hc.
  destruct Hc as [Hfs [e1 [Hlog He1]]].
  destruct (Hk a w1) as [Hfs2 [e2 [Hlog2 He2]]].
  split; [congruence|]. exists (e1 ++ e2)%list. split.
  - rewrite Hlog2, Hlog. now rewrite app_assoc.
  - apply Forall_app. auto.
Qed.

Lemma steps_emit (good : Event -> Prop) (e : Event) : good e -> steps good (emit e).
Proof. intros H w. simpl. split; [reflexivity|]. exists [e]. auto. Qed.

Lemma steps_console_error (good : Event -> Prop) (line : string) :
  good (EvStderr line) -> steps good (console_error line).
Proof. apply steps_emit. Qed.

Lemma steps_console_log (good : Event -> Prop) (line : string) :
  good (EvStdout line) -> steps good (console_log line).
Proof. apply steps_emit. Qed.

Lemma steps_fetch (good : Event -> Prop) (env : Env) (r : Request) :
  good (EvFetch r) -> steps good (fetch env r).
Proof.
  intros H w. unfold fetch.
  destruct (respond env (now w) (log w) r); simpl; (split; [reflexivity|]); exists [EvFetch r]; auto.
Qed.

Lemma steps_sleep (good : Event -> Prop) (env : Env) (ms : Z) :
  good (EvSleep ms) -> steps good (sleep env ms).
Proof. intros H w. simpl. split; [reflexivity|]. exists [EvSleep ms]. auto. Qed.

Lemma steps_Date_now (good : Event -> Prop) : steps good Date_now.
Proof. intros w. simpl. split; [reflexivity|]. exists []. now rewrite app_nil_r. Qed.

Lemma steps_getAgentSession (good : Event -> Prop) : steps good getAgentSession.
Proof. intros w. simpl. split; [reflexivity|]. exists []. now rewrite app_nil_r. Qed.

Lemma steps_response_json (good : Event -> Prop) (r : Response) :
  steps good (Http.response_json r).
Proof.
  unfold Http.response_json. destruct (JSON_parse (text r)); [apply steps_ret | apply steps_throw].
Qed.

Lemma steps_require_session (good : Event -> Prop) (message : string) :
  good (EvStderr message) -> steps good (require_session message).
Proof.
  intros H. unfold require_session. apply steps_bind; [apply steps_getAgentSession|].
  intros [s|]; [destruct (Str.is_empty s)|];
    first [ apply steps_ret
          | apply steps_bind; [now apply steps_console_error | intros; apply steps_exit] ].
Qed.

End FrameFacts.

(** Splits a [steps] goal along the structure of the computation. *)
Ltac steps_structure :=
  repeat first
    [ apply steps_ret | apply steps_throw | apply steps_exit | apply steps_out_of_fuel
    | apply steps_Date_now | apply steps_getAgentSession | apply steps_response_json
    | apply steps_bind; [ | intros ? ]
    | match goal with
      | |- Frame.steps _ (if ?b then _ else _) => destruct b
      | |- Frame.steps _ (let (_, _) := ?p in _) => destruct p
      | |- Frame.steps _ (match ?x with _ => _ end) => destruct x
      end ].

Section SessionRead.
Import Js Sys Session.
Context {rt : Runtime} {cfg : Config}.

Lemma parse_session_nonempty raw id :
  raw <> EmptyString -> parse_session raw = Some id -> id <> EmptyString.
Proof.
  unfold parse_session. intros Hraw.
  destruct (JSON_parse raw) as [parsed|]; [|congruence].
  destruct parsed; try congruence;
    match goal with
    | |- context [match ?n with _ => _ end] => destruct n as [[| | | str | |]|]; try congruence
    end;
    destruct (Str.is_empty (Str.trim str)) eqn:E; try congruence;
    intros H; inversion H; subst; now apply is_empty_false.
Qed.

(** [getAgentSession] never returns an empty string. *)
Lemma scan_nonempty (files : FS) (candidates : list string) (id : string) :
  scan_session_files files candidates = Some id -> id <> EmptyString.
Proof.
  induction candidates as [|f rest IH]; simpl; [discriminate|].
  destruct (files f) as [[content|]|]; try assumption; try discriminate.
  destruct (Str.is_empty (Str.trim content)) eqn:E; [assumption|].
  destruct (parse_session (Str.trim content)) as [id'|] eqn:P; [|assumption].
  intros H. inversion H; subst.
  apply (parse_session_nonempty (Str.trim content)); [now apply is_empty_false | assumption].
Qed.

Lemma Ret_inj {A : Type} (a b : A) : @Ret A a = Ret b -> a = b.
Proof. intros H. now injection H. Qed.

Lemma require_session_none (message : string) (w : World) :
  fst (getAgentSession w) = Ret None ->
  require_session message w = (Exit 1, say w [message]).
Proof.
  unfold require_session, bind, getAgentSession. cbn [fst].
  intros H. apply Ret_inj in H. rewrite H. reflexivity.
Qed.

Lemma require_session_some (message : string) (w : World) (s : string) :
  fst (getAgentSession w) = Ret (Some s) ->
  require_session message w = (Ret s, w).
Proof.
  unfold require_session, bind, getAgentSession. cbn [fst].
  intros H. apply Ret_inj in H. rewrite H.
  apply scan_nonempty in H. apply is_empty_false in H. rewrite H. reflexivity.
Qed.

End SessionRead.

(** C7. A pipeline call made while no agent session can be loaded ends the
    process with exit code 1 after printing the line that tells the user to run
    login; that line is the only thing added to the log, so no request is
    issued. *)
Theorem no_session_exits {rt : Js.Runtime} {cfg : Session.Config}
  (env : Sys.Env) (w : Sys.World) :
  fst (Session.getAgentSession w) = Sys.Ret None ->
  (forall fuel method endpoint body attempt,
      Notion.notionApi env (S fuel) method endpoint body attempt w
      = (Sys.Exit 1, Sys.say w ["No agent session. Run 'node notion-query.js login' first."]))
  /\ (forall service fuel endpoint options attempt,
      Office.apiRequest env service (S fuel) endpoint options attempt w
      = (Sys.Exit 1, Sys.say w ["Not registered. Run 'login' to create an agent session."]))
  /\ (forall service fuel endpoint attempt,
      Office.fetchGraphContent env service (S fuel) endpoint attempt w
      = (Sys.Exit 1, Sys.say w ["Not registered. Run 'login' to create an agent session."]))
  /\ (forall line, Obs.fetches (Sys.log (Sys.say w [line])) = Obs.fetches (Sys.log w)).
Proof.
  intros H. repeat split; intros.
  - simpl. unfold Sys.bind at 1. now rewrite (require_session_none _ w H).
  - simpl. unfold Sys.bind at 1. now rewrite (require_session_none _ w H).
  - simpl. unfold Sys.bind at 1. now rewrite (require_session_none _ w H).
  - simpl. induction (Sys.log w) as [|e l IH]; [reflexivity|].
    destruct e; simpl; now rewrite IH.
Qed.

Lemma no_session_exits_witness :
  Notion.notionApi (rt := Ref.runtime) (cfg := Ref.config) offline
    1 "GET" "/users/me" None 0 fresh_world
  = (Sys.Exit 1,
     Sys.say fresh_world ["No agent session. Run 'node notion-query.js login' first."]).
Proof.
  apply (no_session_exits (rt := Ref.runtime) (cfg := Ref.config) _ fresh_world).
  reflexivity.
Defined.

Section GrantFrames.
Import Js Sys Session Frame.
Context {rt : Runtime} {cfg : Config}.
Variable env : Env.
Variable good : Event -> Prop.
Hypothesis good_stderr : forall line, good (EvStderr line).

Lemma steps_notion_describe (data : Json) : steps good (NotionAuth.describeAuthError data).
Proof.
  unfold NotionAuth.describeAuthError.
  steps_structure; apply steps_console_error; apply good_stderr.
Qed.

Lemma steps_office_describe (data : Json) (service : string) :
  steps good (OfficeAuth.describeAuthError data service).
Proof.
  unfold OfficeAuth.describeAuthError.
  steps_structure; apply steps_console_error; apply good_stderr.
Qed.

Variable no_session_message : string.
Variable grant_request : Json.
Variable service_label : string.
Variable describe : Json -> M unit.
Hypothesis steps_describe : forall data, steps good (describe data).
Hypothesis good_grant : forall e, grant_event grant_request e -> good e.

Lemma good_sleep : good (EvSleep AUTO_REQUEST_POLL_MS).
Proof. apply good_grant. reflexivity. Qed.

Lemma good_auth_request s : good (EvFetch (Grant.auth_request grant_request s)).
Proof. apply good_grant. left. eauto. Qed.

Lemma good_poll_request u s : good (EvFetch (Grant.poll_request u s)).
Proof. apply good_grant. right. eauto. Qed.

Lemma steps_requestGrant :
  steps good (Grant.requestGrant env no_session_message grant_request).
Proof.
  unfold Grant.requestGrant.
  apply steps_bind; [apply steps_require_session, good_stderr|]. intros s.
  apply steps_bind; [apply steps_fetch, good_auth_request|]. intros response.
  steps_structure.
Qed.

Lemma steps_poll_loop (fuel : nat) (pollUrl : JsVal) (s : string) (deadline : option Z)
  (lastStatus : JsVal) :
  steps good (Grant.poll_loop env describe fuel pollUrl s deadline lastStatus).
Proof.
  revert lastStatus. induction fuel as [|fuel IH]; intros lastStatus; simpl.
  - apply steps_out_of_fuel.
  - apply steps_bind; [apply steps_Date_now|]. intros t.
    destruct (Grant.before t deadline); [|apply steps_throw].
    apply steps_bind; [apply steps_fetch, good_poll_request|]. intros response.
    destruct (negb (ok response)).
    + destruct (Http.readErrorBody response) as [data text].
      destruct (truthy data); [|apply steps_throw].
      apply steps_bind; [apply steps_describe | intros; apply steps_exit].
    + apply steps_bind; [apply steps_response_json|]. intros status.
      assert (Hrest : forall last',
        steps good
          (bind (if negb (strict_eq (get "status" status) lastStatus)
                    && is_str (get "status" status) "oauth_pending"
                 then console_error "OAuth connection required. Complete it in your browser..."
                 else ret tt)
             (fun _ =>
              if is_str (get "status" status) "approved" then ret tt
              else if is_str (get "status" status) "denied" then
                throw (ToStringV (or_js (get "message" status)
                                        (Some (JStr "Authorization denied."))))
              else if is_str (get "status" status) "expired" then
                throw (ToStringV (or_js (get "message" status)
                                        (Some (JStr "Authorization request expired."))))
              else bind (sleep env AUTO_REQUEST_POLL_MS)
                     (fun _ => Grant.poll_loop env describe fuel pollUrl s deadline last')))).
      { intros last'. apply steps_bind.
        - destruct (_ && _); [apply steps_console_error, good_stderr | apply steps_ret].
        - intros _. repeat (match goal with |- steps _ (if ?b then _ else _) => destruct b end);
            try apply steps_ret; try apply steps_throw.
          apply steps_bind; [apply steps_sleep, good_sleep | intros; apply IH]. }
      destruct status; try apply Hrest. apply steps_throw.
Qed.

Lemma steps_waitForGrantApproval (fuel : nat) (pollUrl expiresAt : JsVal) :
  steps good (Grant.waitForGrantApproval env no_session_message describe fuel pollUrl expiresAt).
Proof.
  unfold Grant.waitForGrantApproval.
  apply steps_bind; [apply steps_require_session, good_stderr|]. intros s.
  apply steps_bind; [apply steps_Date_now|]. intros t. apply steps_poll_loop.
Qed.

Lemma steps_ensureGrant (fuel : nat) :
  steps good (Grant.ensureGrant env no_session_message grant_request service_label describe fuel).
Proof.
  unfold Grant.ensureGrant.
  destruct (negb AUTO_REQUEST_ENABLED); [apply steps_ret|].
  apply steps_bind; [apply steps_requestGrant|]. intros request.
  assert (Hrest :
    steps good
      (if truthyV (get "autoApproved" request)
       then console_error "Access granted automatically (within policy)."
       else
         bind (console_error ("Authorization required for " ++ service_label ++ " access."))
           (fun _ =>
            bind (console_error ("Approve at: " ++ ToStringV (get "approveUrl" request)))
              (fun _ =>
               bind (console_error "Waiting for approval...")
                 (fun _ =>
                  bind (Grant.waitForGrantApproval env no_session_message describe fuel
                          (get "pollUrl" request) (get "expiresAt" request))
                    (fun _ => console_error "Authorization granted. Retrying request...")))))).
  { destruct (truthyV _); [apply steps_console_error, good_stderr|].
    repeat (apply steps_bind; [try (apply steps_console_error, good_stderr) | intros _]);
      try (apply steps_console_error, good_stderr).
    apply steps_waitForGrantApproval. }
  destruct request; try apply Hrest. apply steps_throw.
Qed.

End GrantFrames.

Section PipelineFrames.
Import Js Sys Session Frame.
Context {rt : Runtime} {cfg : Config}.
Variable env : Env.

Lemma pipeline_stderr grant_request request_of line :
  pipeline_event grant_request request_of (EvStderr line).
Proof. left. exact I. Qed.

Lemma pipeline_grant grant_request request_of e :
  grant_event grant_request e -> pipeline_event grant_request request_of e.
Proof. intros H. left. exact H. Qed.

Lemma bind_fetch_first (good : Event -> Prop) {B : Type} (r : Request)
  (k : Response -> M B) (w : World) :
  (forall resp, steps good (k resp)) ->
  fs (snd (bind (fetch env r) k w)) = fs w /\
  exists rest, log (snd (bind (fetch env r) k w)) = (log w ++ EvFetch r :: rest)%list
               /\ Forall good rest.
Proof.
  intros Hk. unfold bind, fetch.
  destruct (respond env (now w) (log w) r) as [resp|]; simpl.
  - destruct (Hk resp {| fs := fs w; now := now w + Z.of_N (latency env (log w) r);
                         log := log w ++ [EvFetch r] |}) as [Hfs [evs [Hlog Hgood]]].
    simpl in *. split; [assumption|]. exists evs. split; [|assumption].
    rewrite Hlog, <- app_assoc. reflexivity.
  - split; [reflexivity|]. exists []. split; [reflexivity | constructor].
Qed.

End PipelineFrames.

(** Closes the leaves [steps_structure] leaves open in a pipeline. *)
Ltac steps_pipeline :=
  steps_structure;
  first
    [ apply steps_console_error; apply pipeline_stderr
    | apply steps_console_log; left; exact I
    | apply steps_require_session; apply pipeline_stderr
    | apply steps_fetch; right; eexists; reflexivity
    | apply steps_notion_describe; apply pipeline_stderr
    | apply steps_office_describe; apply pipeline_stderr
    | apply steps_ensureGrant;
      [ apply pipeline_stderr
      | intros; first [ apply steps_notion_describe | apply steps_office_describe ];
        apply pipeline_stderr
      | apply pipeline_grant ]
    | idtac ].

Section PipelineSteps.
Import Js Sys Session Frame.
Context {rt : Runtime} {cfg : Config}.
Variable env : Env.

Lemma steps_notionApi (fuel : nat) (method endpoint : string) (body : JsVal) (attempt : Z) :
  steps (pipeline_event Notion.grant_request
           (fun s => Notion.api_request s method endpoint body))
        (Notion.notionApi env fuel method endpoint body attempt).
Proof.
  revert attempt. induction fuel as [|fuel IH]; intros attempt; simpl.
  - apply steps_out_of_fuel.
  - unfold Notion.ensureGrant. steps_pipeline. apply IH.
Qed.

Lemma steps_apiRequest (service : Office.Service) (fuel : nat) (endpoint : string)
  (options : Office.Options) (attempt : Z) :
  steps (pipeline_event (Office.grant_request service)
           (fun s => Office.api_request s endpoint options))
        (Office.apiRequest env service fuel endpoint options attempt).
Proof.
  revert attempt. induction fuel as [|fuel IH]; intros attempt; simpl.
  - apply steps_out_of_fuel.
  - unfold Office.ensureGrant. steps_pipeline. apply IH.
Qed.

Lemma steps_fetchGraphContent (service : Office.Service) (fuel : nat) (endpoint : string)
  (attempt : Z) :
  steps (pipeline_event (Office.grant_request service)
           (fun s => Office.content_request s endpoint))
        (Office.fetchGraphContent env service fuel endpoint attempt).
Proof.
  revert attempt. induction fuel as [|fuel IH]; intros attempt; simpl.
  - apply steps_out_of_fuel.
  - unfold Office.ensureGrant. steps_pipeline. apply IH.
Qed.

End PipelineSteps.

(** ** The request a pipeline call issues *)

Section Headers.
Import Js Sys.

Lemma set_header_keeps (p : string -> bool) (k v : string) (hs : list (string * string)) :
  existsb (fun kv => p (fst kv)) hs = true ->
  existsb (fun kv => p (fst kv)) (set_header k v hs) = true.
Proof.
  induction hs as [|[k' v'] r IH]; simpl; [discriminate|].
  destruct (String.eqb k' k) eqn:E; simpl.
  - apply String.eqb_eq in E. subst. trivial.
  - intros H. apply orb_true_iff in H as [H|H]; [now rewrite H|].
    rewrite (IH H). apply orb_true_r.
Qed.

Lemma spread_headers_keeps (p : string -> bool) (base extra : list (string * string)) :
  existsb (fun kv => p (fst kv)) base = true ->
  existsb (fun kv => p (fst kv)) (spread_headers base extra) = true.
Proof.
  unfold spread_headers. revert base.
  induction extra as [|[k v] r IH]; simpl; intros base H; [assumption|].
  apply IH. now apply set_header_keeps.
Qed.

Lemma headers_get_set_other (name k v : string) (hs : list (string * string)) :
  String.eqb k name = false ->
  headers_get name (set_header k v hs) = headers_get name hs.
Proof.
  intros Hk. induction hs as [|[k' v'] r IH]; simpl.
  - now rewrite Hk.
  - destruct (String.eqb k' k) eqn:E; simpl.
    + apply String.eqb_eq in E. subst. now rewrite Hk.
    + now rewrite IH.
Qed.

Lemma spread_headers_value (name : string) (base extra : list (string * string)) :
  headers_get name extra = None ->
  headers_get name (spread_headers base extra) = headers_get name base.
Proof.
  unfold spread_headers. revert base.
  induction extra as [|[k v] r IH]; simpl; intros base H; [reflexivity|].
  destruct (String.eqb k name) eqn:E; [discriminate|].
  rewrite (IH _ H). now apply headers_get_set_other.
Qed.

End Headers.

(** Reduces "the log starts with this request" to a frame for what follows
    the [fetch]. *)
Ltac first_request good :=
  match goal with
  | |- exists rest, Sys.log (snd (Sys.bind (Sys.fetch ?env ?r) ?k ?w)) = _ =>
      let H := fresh "Hk" in
      assert (H : forall resp, Frame.steps good (k resp));
      [ intros resp
      | let rest := fresh "rest" in
        let Hlog := fresh "Hlog" in
        destruct (bind_fetch_first env good r k w H) as [_ [rest [Hlog _]]];
        exists rest; exact Hlog ]
  end.

Section FirstRequest.
Import Js Sys Session Frame.
Context {rt : Runtime} {cfg : Config}.
Variable env : Env.

Lemma notionApi_first (w : World) (s : string) fuel method endpoint body attempt :
  fst (getAgentSession w) = Ret (Some s) ->
  exists rest,
    log (snd (Notion.notionApi env (S fuel) method endpoint body attempt w))
    = (log w ++ EvFetch (Notion.api_request s method endpoint body) :: rest)%list.
Proof.
  intros Hs. simpl. unfold bind at 1. rewrite (require_session_some _ w s Hs).
  first_request (pipeline_event Notion.grant_request
                  (fun s => Notion.api_request s method endpoint body)).
  unfold Notion.ensureGrant. steps_pipeline. apply steps_notionApi.
Qed.

Lemma apiRequest_first (w : World) (s : string) service fuel endpoint options attempt :
  fst (getAgentSession w) = Ret (Some s) ->
  exists rest,
    log (snd (Office.apiRequest env service (S fuel) endpoint options attempt w))
    = (log w ++ EvFetch (Office.api_request s endpoint options) :: rest)%list.
Proof.
  intros Hs. simpl. unfold bind at 1. rewrite (require_session_some _ w s Hs).
  first_request (pipeline_event (Office.grant_request service)
                  (fun s => Office.api_request s endpoint options)).
  unfold Office.ensureGrant. steps_pipeline. apply steps_apiRequest.
Qed.

Lemma fetchGraphContent_first (w : World) (s : string) service fuel endpoint attempt :
  fst (getAgentSession w) = Ret (Some s) ->
  exists rest,
    log (snd (Office.fetchGraphContent env service (S fuel) endpoint attempt w))
    = (log w ++ EvFetch (Office.content_request s endpoint) :: rest)%list.
Proof.
  intros Hs. simpl. unfold bind at 1. rewrite (require_session_some _ w s Hs).
  first_request (pipeline_event (Office.grant_request service)
                  (fun s => Office.content_request s endpoint)).
  unfold Office.ensureGrant. steps_pipeline. apply steps_fetchGraphContent.
Qed.

End FirstRequest.

(** C10 (as amended). With a session [s] on file, the request a pipeline call
    issues carries the session header.  In [notionApi] a content-type header
    is sent exactly when the call has a body.  In [apiRequest] of office-cli.js
    the content-type header is always sent, with or without a body (and the
    session header has the value [s] unless the caller's own headers rebind
    it); [fetchGraphContent] sends the session header alone. *)
Theorem pipeline_request_headers {rt : Js.Runtime} {cfg : Session.Config}
  (env : Sys.Env) (w : Sys.World) (s : string) :
  fst (Session.getAgentSession w) = Sys.Ret (Some s) ->
  (forall fuel method endpoint body attempt,
     (exists rest,
        Sys.log (snd (Notion.notionApi env (S fuel) method endpoint body attempt w))
        = (Sys.log w ++ Sys.EvFetch (Notion.api_request s method endpoint body) :: rest)%list)
     /\ Sys.header_value "X-Agent-Session" (Notion.api_request s method endpoint body) = Some s
     /\ (Sys.has_header "Content-Type" (Notion.api_request s method endpoint body) = true
         <-> body <> None)
     /\ (Sys.body (Notion.api_request s method endpoint body) <> None <-> body <> None))
  /\ (forall service fuel endpoint options attempt,
     (exists rest,
        Sys.log (snd (Office.apiRequest env service (S fuel) endpoint options attempt w))
        = (Sys.log w ++ Sys.EvFetch (Office.api_request s endpoint options) :: rest)%list)
     /\ Sys.has_header "X-Agent-Session" (Office.api_request s endpoint options) = true
     /\ Sys.has_header "Content-Type" (Office.api_request s endpoint options) = true
     /\ (Sys.headers_get "X-Agent-Session" (Office.opt_headers options) = None ->
         Sys.header_value "X-Agent-Session" (Office.api_request s endpoint options) = Some s)
     /\ (Office.opt_headers options = [] ->
         Sys.headers (Office.api_request s endpoint options)
         = [("X-Agent-Session", s); ("Content-Type", "application/json")])
     /\ Sys.body (Office.api_request s endpoint options) = Office.opt_body options)
  /\ (forall service fuel endpoint attempt,
     (exists rest,
        Sys.log (snd (Office.fetchGraphContent env service (S fuel) endpoint attempt w))
        = (Sys.log w ++ Sys.EvFetch (Office.content_request s endpoint) :: rest)%list)
     /\ Sys.headers (Office.content_request s endpoint) = [("X-Agent-Session", s)]
     /\ Sys.body (Office.content_request s endpoint) = None).
Proof.
  intros Hs. split; [|split].
  - intros fuel method endpoint body attempt.
    split; [now apply notionApi_first|]. split; [reflexivity|].
    destruct body as [b|]; split; split; intros H;
      first [ reflexivity | discriminate | now elim H | now vm_compute in H ].
  - intros service fuel endpoint options attempt.
    split; [now apply apiRequest_first|].
    unfold Sys.has_header, Sys.header_value, Office.api_request. cbn [Sys.headers Sys.body].
    repeat split.
    + apply (spread_headers_keeps
               (fun k => String.eqb (Str.toLowerCase k) (Str.toLowerCase "X-Agent-Session"))).
      reflexivity.
    + apply (spread_headers_keeps
               (fun k => String.eqb (Str.toLowerCase k) (Str.toLowerCase "Content-Type"))).
      reflexivity.
    + intros H. rewrite (spread_headers_value _ _ _ H). reflexivity.
    + intros ->. reflexivity.
  - intros service fuel endpoint attempt.
    split; [now apply fetchGraphContent_first|]. split; reflexivity.
Qed.

Lemma pipeline_request_headers_witness :
  Sys.has_header "Content-Type"
    (Notion.api_request (rt := Ref.runtime) (cfg := Ref.config)
       SESSION "POST" "/search" (Some (Js.JObj []))) = true
  <-> Some (Js.JObj []) <> None.
Proof.
  apply (pipeline_request_headers (rt := Ref.runtime) (cfg := Ref.config)
           offline (saved SESSION) SESSION eq_refl).
  exact O. exact 0.
Defined.

(** C10, counterexample: [apiRequest] of office-cli.js called without a body
    (the call [driveList] makes) sends [Content-Type: application/json]. *)
Lemma apiRequest_content_type_without_body :
  Sys.log (snd (Office.apiRequest (rt := Ref.runtime) (cfg := Ref.config)
                  (always (Ref.json_response 200 (Js.JObj []))) Office.drive
                  1 "/me/drive/root/children" Office.no_options 0 (saved SESSION)))
  = [Sys.EvFetch
       {| Sys.url := "https://auth.freshhub.ai/proxy/msgraph/me/drive/root/children";
          Sys.method := "GET";
          Sys.headers := [("X-Agent-Session", SESSION);
                          ("Content-Type", "application/json")];
          Sys.body := None;
          Sys.redirect := "manual" |}].
Proof. vm_compute. reflexivity. Qed.

(** ** Redirects on content endpoints *)

Section Redirect.
Import Js Sys Session Frame Obs.
Context {rt : Runtime} {cfg : Config}.
Variable env : Env.

Lemma bind_ret_eq {A B : Type} (c : M A) (k : A -> M B) (w w1 : World) (a : A) :
  c w = (Ret a, w1) -> bind c k w = k a w1.
Proof. intros H. unfold bind. now rewrite H. Qed.

Lemma fetches_app (l1 l2 : list Event) : fetches (l1 ++ l2) = (fetches l1 ++ fetches l2)%list.
Proof.
  induction l1 as [|e l IH]; simpl; [reflexivity|].
  destruct e; simpl; now rewrite IH.
Qed.

Lemma log_fetch (r : Request) (w : World) :
  log (snd (fetch env r w)) = (log w ++ [EvFetch r])%list.
Proof. unfold fetch. now destruct (respond env (now w) (log w) r). Qed.

(** On a 301 or 302 with a location, the redirect step is one [fetch] of the
    location without options. *)
Lemma follow_redirect_step (service : Office.Service) (response : Response) (loc : string) :
  (status response = 302 \/ status response = 301) ->
  headers_get "location" (resp_headers response) = Some loc ->
  loc <> EmptyString ->
  Office.follow_redirect env response = fetch env (Office.download_request loc).
Proof.
  intros Hst Hloc Hne. unfold Office.follow_redirect.
  assert (Hb : (status response =? 302) || (status response =? 301) = true).
  { destruct Hst as [-> | ->]; reflexivity. }
  rewrite Hb, Hloc. apply is_empty_false in Hne. now rewrite Hne.
Qed.

(** What follows the redirect step in [driveContent] and in [driveDownload]
    issues no request. *)
Lemma after_redirect_content (loc : string) (w2 : World) :
  fetches (log (snd (bind (fetch env (Office.download_request loc))
                       (fun response =>
                          if negb (ok response)
                          then throw ("Content download failed ("
                                      ++ Str.of_Z (status response) ++ ")")
                          else console_log (text response)) w2)))
  = (fetches (log w2) ++ [Office.download_request loc])%list.
Proof.
  unfold bind, fetch.
  destruct (respond env (now w2) (log w2) (Office.download_request loc)) as [r|]; simpl.
  - destruct (negb (ok r)); simpl; rewrite ?fetches_app; simpl;
      rewrite ?fetches_app; simpl; now rewrite ?app_nil_r.
  - now rewrite fetches_app.
Qed.

Lemma after_redirect_download (loc : string) (fileName : JsVal) (w2 : World) :
  fetches (log (snd (bind (fetch env (Office.download_request loc))
                       (fun response =>
                          if negb (ok response)
                          then throw ("Download failed (" ++ Str.of_Z (status response) ++ ")")
                          else
                            match fileName with
                            | Some (JStr fileName) =>
                                let dir := dirname fileName in
                                (if negb (Str.is_empty dir) && negb (String.eqb dir ".")
                                 then mkdir dir else ret tt) ;;;
                                writeFile fileName (text response) ;;;
                                console_error ("Saved to: " ++ fileName) ;;;
                                ret fileName
                            | _ => throw "TypeError: The path argument must be of type string"
                            end) w2)))
  = (fetches (log w2) ++ [Office.download_request loc])%list.
Proof.
  unfold bind at 1. unfold fetch.
  destruct (respond env (now w2) (log w2) (Office.download_request loc)) as [r|]; simpl;
    [|now rewrite fetches_app].
  destruct (negb (ok r)); simpl; [now rewrite fetches_app|].
  destruct fileName as [[| | | name | |]|]; simpl; try now rewrite fetches_app.
  unfold bind, mkdir, writeFile, console_error, emit, ret. simpl.
  repeat match goal with
         | |- context [if ?b then _ else _] => destruct b; simpl
         | |- context [match ?f ?p with _ => _ end] => destruct (f p) as [[?|]|]; simpl
         end;
    rewrite ?fetches_app; simpl; rewrite ?fetches_app; simpl; now rewrite ?app_nil_r.
Qed.

End Redirect.

(** C9. On a content endpoint a 301 or 302 answer with a Location header is
    followed by exactly one more GET, to that Location, and this request has
    no headers at all, so no X-Agent-Session: the redirect step of
    [driveDownload] and [driveContent] is a single [fetch(downloadUrl)], and in
    both functions the requests issued after the content answer are that one
    request and nothing else. *)
Theorem redirect_followed_once {rt : Js.Runtime} {cfg : Session.Config}
  (env : Sys.Env) (service : Office.Service) (response : Sys.Response) (loc : string) :
  (Sys.status response = 302 \/ Sys.status response = 301) ->
  Sys.headers_get "location" (Sys.resp_headers response) = Some loc ->
  loc <> EmptyString ->
  Office.follow_redirect env response = Sys.fetch env (Office.download_request loc)
  /\ (forall w, Sys.log (snd (Office.follow_redirect env response w))
                = (Sys.log w ++ [Sys.EvFetch (Office.download_request loc)])%list)
  /\ Sys.url (Office.download_request loc) = loc
  /\ Sys.method (Office.download_request loc) = "GET"
  /\ Sys.headers (Office.download_request loc) = []
  /\ Sys.has_header "X-Agent-Session" (Office.download_request loc) = false
  /\ (forall fuel itemId info name w w1 w2,
        Office.apiRequest env service fuel
          ("/me/drive/items/" ++ itemId ++ "?$select=id,name,size,file,folder")
          Office.no_options 0 w = (Sys.Ret info, w1) ->
        info <> Js.JNull ->
        Js.truthyV (Js.get "folder" info) = false ->
        Js.get "name" info = Some (Js.JStr name) ->
        Office.is_text (Str.toLowerCase (Str.last_segment "." name EmptyString))
          (Js.or_js (Js.getV "mimeType" (Js.get "file" info)) (Some (Js.JStr EmptyString)))
        = Some true ->
        Office.fetchGraphContent env service fuel (Office.content_endpoint itemId) 0 w1
        = (Sys.Ret response, w2) ->
        Obs.fetches (Sys.log (snd (Office.driveContent env service fuel itemId w)))
        = (Obs.fetches (Sys.log w2) ++ [Office.download_request loc])%list)
  /\ (forall fuel itemId outputPath info w w1 w2,
        Office.apiRequest env service fuel ("/me/drive/items/" ++ itemId)
          Office.no_options 0 w = (Sys.Ret info, w1) ->
        info <> Js.JNull ->
        Js.truthyV (Js.get "folder" info) = false ->
        Office.fetchGraphContent env service fuel (Office.content_endpoint itemId) 0
          (Sys.say w1 ["Downloading " ++ Js.ToStringV (Js.get "name" info) ++ " ("
                       ++ Js.formatBytes (Js.or_js (Js.get "size" info) (Some (Js.JNum 0 0)))
                       ++ ")..."])
        = (Sys.Ret response, w2) ->
        Obs.fetches (Sys.log (snd (Office.driveDownload env service fuel itemId outputPath w)))
        = (Obs.fetches (Sys.log w2) ++ [Office.download_request loc])%list).
Proof.
  intros Hst Hloc Hne.
  pose proof (follow_redirect_step env service response loc Hst Hloc Hne) as Hstep.
  split; [exact Hstep|]. split; [intros w; rewrite Hstep; apply log_fetch|].
  repeat (split; [reflexivity|]). split.
  - intros fuel itemId info name w w1 w2 Hinfo Hnull Hfolder Hname Htext Hcontent.
    unfold Office.driveContent. rewrite (bind_ret_eq _ _ _ _ _ Hinfo).
    destruct info; try congruence; rewrite Hfolder, Hname, Htext;
      rewrite (bind_ret_eq _ _ _ _ _ Hcontent); rewrite Hstep;
      apply after_redirect_content.
  - intros fuel itemId outputPath info w w1 w2 Hinfo Hnull Hfolder Hcontent.
    unfold Office.driveDownload. rewrite (bind_ret_eq _ _ _ _ _ Hinfo).
    destruct info; try congruence; rewrite Hfolder; rewrite bind_say;
      rewrite (bind_ret_eq _ _ _ _ _ Hcontent); rewrite Hstep;
      apply after_redirect_download.
Qed.

Lemma redirect_followed_once_witness :
  Obs.fetches (Sys.log (snd (Office.driveContent (rt := Ref.runtime) (cfg := Ref.config)
                               redirecting_drive Office.drive 2 "42" (saved SESSION))))
  = (Obs.fetches
       (Sys.log (snd (Office.fetchGraphContent (rt := Ref.runtime) (cfg := Ref.config)
                        redirecting_drive Office.drive 2 (Office.content_endpoint "42") 0
                        (snd (Office.apiRequest (rt := Ref.runtime) (cfg := Ref.config)
                                redirecting_drive Office.drive 2
                                ("/me/drive/items/" ++ "42" ++ "?$select=id,name,size,file,folder")
                                Office.no_options 0 (saved SESSION))))))
     ++ [Office.download_request PRESIGNED])%list.
Proof.
  refine (proj1 (proj2 (proj2 (proj2 (proj2 (proj2 (proj2
    (redirect_followed_once (rt := Ref.runtime) (cfg := Ref.config)
       redirecting_drive Office.drive
       {| Sys.status := 302; Sys.statusText := "Found";
          Sys.resp_headers := [("location", PRESIGNED)]; Sys.text := EmptyString |}
       PRESIGNED _ _ _)))))))
    2%nat "42"
    (Js.JObj [("name", Js.JStr "notes.txt"); ("size", Js.JNum 5 0)]) "notes.txt"
    (saved SESSION) _ _ _ _ _ _ _ _).
  - left. reflexivity.
  - reflexivity.
  - discriminate.
  - vm_compute. reflexivity.
  - discriminate.
  - reflexivity.
  - reflexivity.
  - reflexivity.
  - vm_compute. reflexivity.
Defined.

Example driveContent_redirect_run :
  Obs.fetches (Sys.log (snd (Office.driveContent (rt := Ref.runtime) (cfg := Ref.config)
                               redirecting_drive Office.drive 2 "42" (saved SESSION))))
  = [ Office.api_request (cfg := Ref.config) SESSION
        "/me/drive/items/42?$select=id,name,size,file,folder" Office.no_options;
      Office.content_request (cfg := Ref.config) SESSION
        "/me/drive/items/42/content";
      Office.download_request PRESIGNED ].
Proof. vm_compute. reflexivity. Qed.

(** ** The poll loop *)

Section Counting.
Import Js Sys Obs.

Lemma count_fetch_app r l1 l2 :
  count_fetch r (l1 ++ l2) = (count_fetch r l1 + count_fetch r l2)%nat.
Proof. unfold count_fetch. now rewrite filter_app, length_app. Qed.

Lemma is_fetch_of_refl r : is_fetch_of r (EvFetch r) = true.
Proof. unfold is_fetch_of. now destruct (Request_eq_dec r r). Qed.

Lemma count_fetch_one r : count_fetch r [EvFetch r] = 1%nat.
Proof. unfold count_fetch. cbn [filter]. now rewrite is_fetch_of_refl. Qed.

Lemma count_fetch_poll_trace r n : count_fetch r (poll_trace r n) = S n.
Proof.
  induction n as [|n IH]; simpl.
  - apply count_fetch_one.
  - change (EvFetch r :: EvSleep AUTO_REQUEST_POLL_MS :: poll_trace r n)
      with ([EvFetch r] ++ [EvSleep AUTO_REQUEST_POLL_MS] ++ poll_trace r n)%list.
    rewrite !count_fetch_app, count_fetch_one, IH. reflexivity.
Qed.

Lemma count_sleep_poll_trace r n : count_sleep AUTO_REQUEST_POLL_MS (poll_trace r n) = n.
Proof.
  induction n as [|n IH]; simpl; [reflexivity|].
  unfold count_sleep in *. simpl. now rewrite IH.
Qed.

End Counting.

Section PollLoop.
Import Js Sys Session Frame Obs.
Context {rt : Runtime} {cfg : Config}.
Variable env : Env.
Variable no_session_message : string.
Variable describe : Json -> M unit.
Variable pollUrl : JsVal.
Variable s : string.

Let req : Request := Grant.poll_request pollUrl s.

(** With a session on file, [waitForGrantApproval] is the poll loop run
    against the deadline computed from [expiresAt]. *)
Lemma waitForGrantApproval_loop (fuel : nat) (expiresAt : JsVal) (w : World) :
  fst (getAgentSession w) = Ret (Some s) ->
  Grant.waitForGrantApproval env no_session_message describe fuel pollUrl expiresAt w
  = Grant.poll_loop env describe fuel pollUrl s
      (Grant.grant_deadline expiresAt (now w)) (Some JNull) w.
Proof.
  intros Hs. unfold Grant.waitForGrantApproval.
  unfold bind at 1. rewrite (require_session_some _ w s Hs). reflexivity.
Qed.

(** One poll that is answered "approved" ends the loop. *)
Lemma poll_approved (fuel : nat) (d : Z) (lastStatus : JsVal) (w : World) (resp : Response) :
  now w < d ->
  respond env (now w) (log w) req = Some resp ->
  poll_answer "approved" resp ->
  exists w', Grant.poll_loop env describe (S fuel) pollUrl s (Some d) lastStatus w = (Ret tt, w')
             /\ log w' = (log w ++ [EvFetch req])%list.
Proof.
  intros Ht Hresp [Hok [body [Hjson Hst]]].
  simpl. unfold bind at 1. simpl.
  apply Z.ltb_lt in Ht. rewrite Ht.
  unfold bind at 1. unfold fetch. fold req. rewrite Hresp. rewrite Hok. simpl.
  unfold bind at 1. unfold Http.response_json. rewrite Hjson. simpl.
  destruct body; try discriminate; rewrite Hst; simpl;
    rewrite andb_false_r; simpl; eexists; split; reflexivity.
Qed.

(** One poll that is answered "pending" is followed by a sleep and the next
    round. *)
Lemma poll_pending (fuel : nat) (d : Z) (lastStatus : JsVal) (w : World) (resp : Response) :
  now w < d ->
  respond env (now w) (log w) req = Some resp ->
  poll_answer "pending" resp ->
  exists lastStatus',
    Grant.poll_loop env describe (S fuel) pollUrl s (Some d) lastStatus w
    = Grant.poll_loop env describe fuel pollUrl s (Some d) lastStatus'
        {| fs := fs w;
           now := now w + Z.of_N (latency env (log w) req) + AUTO_REQUEST_POLL_MS
                  + Z.of_N (oversleep env (log w ++ [EvFetch req]));
           log := (log w ++ [EvFetch req]) ++ [EvSleep AUTO_REQUEST_POLL_MS] |}.
Proof.
  intros Ht Hresp [Hok [body [Hjson Hst]]].
  simpl. unfold bind at 1. simpl.
  apply Z.ltb_lt in Ht. rewrite Ht.
  unfold bind at 1. unfold fetch. fold req. rewrite Hresp. rewrite Hok. simpl.
  unfold bind at 1. unfold Http.response_json. rewrite Hjson. simpl.
  destruct body; try discriminate; rewrite Hst; simpl;
    rewrite andb_false_r; simpl; eexists; reflexivity.
Qed.

Lemma poll_loop_pending_then_approved (n : nat) (d L J : Z) :
  (forall h r, Z.of_N (latency env h r) <= L) ->
  (forall h, Z.of_N (oversleep env h) <= J) ->
  forall (fuel : nat) (lastStatus : JsVal) (w : World) (k : nat),
  (n < fuel)%nat ->
  now w + Z.of_nat n * (L + AUTO_REQUEST_POLL_MS + J) < d ->
  count_fetch req (log w) = k ->
  (forall t h i, count_fetch req h = (k + i)%nat -> (i < n)%nat ->
     exists resp, respond env t h req = Some resp /\ poll_answer "pending" resp) ->
  (forall t h, count_fetch req h = (k + n)%nat ->
     exists resp, respond env t h req = Some resp /\ poll_answer "approved" resp) ->
  exists w', Grant.poll_loop env describe fuel pollUrl s (Some d) lastStatus w = (Ret tt, w')
             /\ log w' = (log w ++ poll_trace req n)%list.
Proof.
  intros HL HJ. induction n as [|n IH]; intros fuel lastStatus w k Hfuel Htime Hk Hpend Happ.
  - destruct fuel as [|fuel]; [lia|].
    destruct (Happ (now w) (log w)) as [resp [Hresp Hans]]; [lia|].
    apply (poll_approved fuel d lastStatus w resp); [lia | assumption | assumption].
  - destruct fuel as [|fuel]; [lia|].
    destruct (Hpend (now w) (log w) O) as [resp [Hresp Hans]]; [lia | lia |].
    pose proof (HL (log w) req) as Hl. pose proof (HJ (log w ++ [EvFetch req])%list) as Hj.
    pose proof (N2Z.is_nonneg (latency env (log w) req)) as Hl0.
    pose proof (N2Z.is_nonneg (oversleep env (log w ++ [EvFetch req])%list)) as Hj0.
    unfold AUTO_REQUEST_POLL_MS in *.
    rewrite Nat2Z.inj_succ, Z.mul_succ_l in Htime.
    assert (Hrounds : 0 <= Z.of_nat n * (L + 2000 + J))
      by (apply Z.mul_nonneg_nonneg; lia).
    destruct (poll_pending fuel d lastStatus w resp) as [last' Hstep];
      [lia | assumption | assumption |].
    rewrite Hstep. unfold AUTO_REQUEST_POLL_MS.
    match goal with
    | |- exists w', Grant.poll_loop _ _ _ _ _ _ _ ?w2 = _ /\ _ =>
        destruct (IH fuel last' w2 (S k)) as [w' [Hrun Hlog]]
    end.
    + lia.
    + simpl. lia.
    + simpl. rewrite !count_fetch_app, count_fetch_one, Hk.
      change (count_fetch req [EvSleep 2000]) with O. lia.
    + intros t h i Hc Hi. apply (Hpend t h (S i)); lia.
    + intros t h Hc. apply (Happ t h). lia.
    + exists w'. split; [exact Hrun|]. rewrite Hlog. simpl.
      rewrite <- !app_assoc. reflexivity.
Qed.

(** While the deadline has not passed, an answer that ends nothing leads to a
    sleep and the next round, at least one poll interval later. *)
Lemma poll_open (fuel : nat) (d : Z) (lastStatus : JsVal) (w : World) (resp : Response) :
  now w < d ->
  respond env (now w) (log w) req = Some resp ->
  open_answer resp ->
  exists lastStatus' w',
    Grant.poll_loop env describe (S fuel) pollUrl s (Some d) lastStatus w
    = Grant.poll_loop env describe fuel pollUrl s (Some d) lastStatus' w'
    /\ now w + AUTO_REQUEST_POLL_MS <= now w'.
Proof.
  intros Ht Hresp [Hok [body [Hjson [Hnull [Happ [Hden Hexp]]]]]].
  simpl. unfold bind at 1. simpl.
  apply Z.ltb_lt in Ht. rewrite Ht.
  unfold bind at 1. unfold fetch. fold req. rewrite Hresp. rewrite Hok. simpl.
  unfold bind at 1. unfold Http.response_json. rewrite Hjson. simpl.
  destruct body; try congruence; rewrite Happ, Hden, Hexp;
    match goal with
    | |- context [if ?b then console_error _ else ret tt] => destruct b
    end; simpl; unfold bind; simpl; do 2 eexists; (split; [reflexivity|]); simpl; lia.
Qed.

Lemma poll_loop_times_out (d : Z) :
  (forall t h, t < d -> exists resp, respond env t h req = Some resp /\ open_answer resp) ->
  forall (fuel : nat) (lastStatus : JsVal) (w : World),
  enough_fuel (Some d) (now w) fuel ->
  fst (Grant.poll_loop env describe fuel pollUrl s (Some d) lastStatus w)
  = Throw "Timed out waiting for authorization approval.".
Proof.
  intros Hopen. induction fuel as [|fuel IH]; intros lastStatus w [Hpos Hfuel]; [lia|].
  destruct (Z.lt_ge_cases (now w) d) as [Hlt|Hge].
  - destruct (Hopen (now w) (log w) Hlt) as [resp [Hresp Hans]].
    destruct (poll_open fuel d lastStatus w resp Hlt Hresp Hans) as [last' [w' [Hstep Hnow]]].
    rewrite Hstep. apply IH. unfold enough_fuel, AUTO_REQUEST_POLL_MS in *.
    split; [destruct fuel; lia | lia].
  - simpl. unfold bind. simpl.
    apply Z.ltb_ge in Hge. rewrite Hge. reflexivity.
Qed.

Lemma poll_loop_no_deadline (fuel : nat) (lastStatus : JsVal) (w : World) :
  fst (Grant.poll_loop env describe (S fuel) pollUrl s None lastStatus w)
  = Throw "Timed out waiting for authorization approval.".
Proof. reflexivity. Qed.

End PollLoop.

(** C4. If the poll endpoint answers "pending" to the first [n] polls of a
    call of [waitForGrantApproval] and "approved" to the next one, and the
    deadline is further away than [n] rounds of one exchange and one sleep, the
    call returns, and what it added to the log is exactly [n] rounds of "GET
    the poll URL, sleep 2000 ms" followed by one more GET: [n + 1] GETs and
    [n] sleeps. *)
Theorem poll_pending_then_approved {rt : Js.Runtime} {cfg : Session.Config}
  (env : Sys.Env) (n : nat) (pollUrl expiresAt : Js.JsVal) (w : Sys.World) (s : string)
  (d L J : Z) (fuel : nat) :
  fst (Session.getAgentSession w) = Sys.Ret (Some s) ->
  Grant.grant_deadline expiresAt (Sys.now w) = Some d ->
  (forall h r, Z.of_N (Sys.latency env h r) <= L) ->
  (forall h, Z.of_N (Sys.oversleep env h) <= J) ->
  Sys.now w + Z.of_nat n * (L + Sys.AUTO_REQUEST_POLL_MS + J) < d ->
  (forall t h i,
     Obs.count_fetch (Grant.poll_request pollUrl s) h
     = (Obs.count_fetch (Grant.poll_request pollUrl s) (Sys.log w) + i)%nat ->
     (i < n)%nat ->
     exists resp, Sys.respond env t h (Grant.poll_request pollUrl s) = Some resp
                  /\ Obs.poll_answer "pending" resp) ->
  (forall t h,
     Obs.count_fetch (Grant.poll_request pollUrl s) h
     = (Obs.count_fetch (Grant.poll_request pollUrl s) (Sys.log w) + n)%nat ->
     exists resp, Sys.respond env t h (Grant.poll_request pollUrl s) = Some resp
                  /\ Obs.poll_answer "approved" resp) ->
  (n < fuel)%nat ->
  (exists w', Notion.waitForGrantApproval env fuel pollUrl expiresAt w = (Sys.Ret tt, w')
              /\ Sys.log w' = (Sys.log w ++ Obs.poll_trace (Grant.poll_request pollUrl s) n)%list)
  /\ (exists w', Office.waitForGrantApproval env fuel pollUrl expiresAt w = (Sys.Ret tt, w')
              /\ Sys.log w' = (Sys.log w ++ Obs.poll_trace (Grant.poll_request pollUrl s) n)%list)
  /\ Obs.count_fetch (Grant.poll_request pollUrl s)
       (Obs.poll_trace (Grant.poll_request pollUrl s) n) = S n
  /\ Obs.count_sleep Sys.AUTO_REQUEST_POLL_MS
       (Obs.poll_trace (Grant.poll_request pollUrl s) n) = n.
Proof.
  intros Hs Hd HL HJ Htime Hpend Happ Hfuel.
  split; [|split; [|split]].
  - unfold Notion.waitForGrantApproval.
    rewrite (waitForGrantApproval_loop env _ _ pollUrl s fuel expiresAt w Hs), Hd.
    now apply (poll_loop_pending_then_approved env _ pollUrl s n d L J HL HJ fuel _ w
                 (Obs.count_fetch (Grant.poll_request pollUrl s) (Sys.log w))).
  - unfold Office.waitForGrantApproval.
    rewrite (waitForGrantApproval_loop env _ _ pollUrl s fuel expiresAt w Hs), Hd.
    now apply (poll_loop_pending_then_approved env _ pollUrl s n d L J HL HJ fuel _ w
                 (Obs.count_fetch (Grant.poll_request pollUrl s) (Sys.log w))).
  - apply count_fetch_poll_trace.
  - apply count_sleep_poll_trace.
Qed.

Lemma status_body_answer (st : string) :
  (st = "pending" \/ st = "approved") ->
  Obs.poll_answer (rt := Ref.runtime) st (Ref.json_response 200 (status_body st)).
Proof.
  intros [-> | ->]; (split; [reflexivity|]); eexists; split; vm_compute; reflexivity.
Qed.

Lemma poll_pending_then_approved_witness :
  exists w',
    Notion.waitForGrantApproval (rt := Ref.runtime) (cfg := Ref.config)
      (approving_after 2) 3 POLL_URL None (saved SESSION) = (Sys.Ret tt, w')
    /\ Sys.log w'
       = (Sys.log (saved SESSION)
          ++ Obs.poll_trace (Grant.poll_request (rt := Ref.runtime) POLL_URL SESSION) 2)%list.
Proof.
  apply (poll_pending_then_approved (rt := Ref.runtime) (cfg := Ref.config)
           (approving_after 2) 2 POLL_URL None (saved SESSION) SESSION
           300000 100 5 3).
  - reflexivity.
  - reflexivity.
  - intros h r. simpl. lia.
  - intros h. simpl. lia.
  - vm_compute. reflexivity.
  - intros t h i Hc Hi. eexists. split; [reflexivity|].
    rewrite Hc. change (Obs.count_fetch _ (Sys.log (saved SESSION))) with O.
    simpl. destruct (Nat.ltb_spec i 2) as [_|Hge]; [|lia].
    apply status_body_answer. now left.
  - intros t h Hc. eexists. split; [reflexivity|].
    rewrite Hc. apply status_body_answer. now right.
  - lia.
Defined.

Example poll_twice_pending_run :
  Sys.log (snd (Office.waitForGrantApproval (rt := Ref.runtime) (cfg := Ref.config)
                  (approving_after 2) 3 POLL_URL None (saved SESSION)))
  = [ Sys.EvFetch (Grant.poll_request (rt := Ref.runtime) POLL_URL SESSION);
      Sys.EvSleep 2000;
      Sys.EvFetch (Grant.poll_request (rt := Ref.runtime) POLL_URL SESSION);
      Sys.EvSleep 2000;
      Sys.EvFetch (Grant.poll_request (rt := Ref.runtime) POLL_URL SESSION) ]
  /\ Sys.now (snd (Office.waitForGrantApproval (rt := Ref.runtime) (cfg := Ref.config)
                     (approving_after 2) 3 POLL_URL None (saved SESSION)))
     = 4310.
Proof. vm_compute. split; reflexivity. Qed.

Lemma enough_fuel_from (deadline : option Z) (now : Z) (fuel : nat) :
  (S (Z.to_nat (match deadline with Some d => d - now | None => 0 end)) <= fuel)%nat ->
  Obs.enough_fuel deadline now fuel.
Proof.
  intros H. split; [lia|]. destruct deadline as [d|]; [|exact I].
  unfold Sys.AUTO_REQUEST_POLL_MS. lia.
Qed.

(** C6. The deadline of [waitForGrantApproval] is [new Date(expiresAt)] when
    [expiresAt] is given and five minutes after the call when it is absent;
    and when every poll made before the deadline gets an answer that ends
    nothing, the call throws "Timed out waiting for authorization approval.":
    there is an amount of fuel from which on this is the outcome, so the loop
    does not go on for ever. *)
Theorem poll_deadline_then_timeout {rt : Js.Runtime} {cfg : Session.Config}
  (env : Sys.Env) (pollUrl expiresAt : Js.JsVal) (w : Sys.World) (s : string) :
  fst (Session.getAgentSession w) = Sys.Ret (Some s) ->
  (forall t h, Grant.before t (Grant.grant_deadline expiresAt (Sys.now w)) = true ->
     exists resp, Sys.respond env t h (Grant.poll_request pollUrl s) = Some resp
                  /\ Obs.open_answer resp) ->
  (expiresAt = None ->
     Grant.grant_deadline expiresAt (Sys.now w) = Some (Sys.now w + 5 * 60 * 1000))
  /\ (forall v, expiresAt = Some v -> Js.truthy v = true ->
     Grant.grant_deadline expiresAt (Sys.now w) = Js.Date_getTime v)
  /\ (forall fuel,
     Notion.waitForGrantApproval env fuel pollUrl expiresAt w
     = Grant.poll_loop env NotionAuth.describeAuthError fuel pollUrl s
         (Grant.grant_deadline expiresAt (Sys.now w)) (Some Js.JNull) w
     /\ Office.waitForGrantApproval env fuel pollUrl expiresAt w
        = Grant.poll_loop env (fun data => OfficeAuth.describeAuthError data "msgraph")
            fuel pollUrl s (Grant.grant_deadline expiresAt (Sys.now w)) (Some Js.JNull) w)
  /\ (exists enough, forall fuel, (enough <= fuel)%nat ->
     fst (Notion.waitForGrantApproval env fuel pollUrl expiresAt w)
     = Sys.Throw "Timed out waiting for authorization approval."
     /\ fst (Office.waitForGrantApproval env fuel pollUrl expiresAt w)
        = Sys.Throw "Timed out waiting for authorization approval.").
Proof.
  intros Hs Hopen.
  assert (Hloop : forall describe fuel,
    Obs.enough_fuel (Grant.grant_deadline expiresAt (Sys.now w)) (Sys.now w) fuel ->
    fst (Grant.poll_loop env describe fuel pollUrl s
           (Grant.grant_deadline expiresAt (Sys.now w)) (Some Js.JNull) w)
    = Sys.Throw "Timed out waiting for authorization approval.").
  { intros describe fuel Hfuel.
    destruct (Grant.grant_deadline expiresAt (Sys.now w)) as [d|] eqn:Hd.
    - apply poll_loop_times_out; [|assumption].
      intros t h Ht. apply Hopen. simpl. now apply Z.ltb_lt.
    - destruct Hfuel as [Hpos _]. destruct fuel; [lia|]. apply poll_loop_no_deadline. }
  split; [now intros ->|]. split; [intros v -> Hv; simpl; now rewrite Hv|].
  unfold Notion.waitForGrantApproval, Office.waitForGrantApproval.
  split.
  - intros fuel. now rewrite !(waitForGrantApproval_loop env _ _ pollUrl s fuel expiresAt w Hs).
  - exists (S (Z.to_nat (match Grant.grant_deadline expiresAt (Sys.now w) with
                         | Some d => d - Sys.now w
                         | None => 0
                         end))).
    intros fuel Hfuel. apply enough_fuel_from in Hfuel.
    rewrite !(waitForGrantApproval_loop env _ _ pollUrl s fuel expiresAt w Hs).
    split; now apply Hloop.
Qed.

Lemma poll_deadline_then_timeout_witness :
  exists enough, forall fuel, (enough <= fuel)%nat ->
    fst (Notion.waitForGrantApproval (rt := Ref.runtime) (cfg := Ref.config)
           never_deciding fuel POLL_URL (Some (Js.JNum 5000 0)) (saved SESSION))
    = Sys.Throw "Timed out waiting for authorization approval."
    /\ fst (Office.waitForGrantApproval (rt := Ref.runtime) (cfg := Ref.config)
              never_deciding fuel POLL_URL (Some (Js.JNum 5000 0)) (saved SESSION))
       = Sys.Throw "Timed out waiting for authorization approval.".
Proof.
  apply (poll_deadline_then_timeout (rt := Ref.runtime) (cfg := Ref.config)
           never_deciding POLL_URL (Some (Js.JNum 5000 0)) (saved SESSION) SESSION).
  - reflexivity.
  - intros t h _. eexists. split; [reflexivity|].
    split; [reflexivity|]. eexists. split; [vm_compute; reflexivity|].
    repeat split; try reflexivity. discriminate.
Defined.

Example poll_timeout_run :
  Sys.log (snd (Office.waitForGrantApproval (rt := Ref.runtime) (cfg := Ref.config)
                  never_deciding 10 POLL_URL (Some (Js.JNum 5000 0)) (saved SESSION)))
  = [ Sys.EvFetch (Grant.poll_request (rt := Ref.runtime) POLL_URL SESSION);
      Sys.EvSleep 2000;
      Sys.EvFetch (Grant.poll_request (rt := Ref.runtime) POLL_URL SESSION);
      Sys.EvSleep 2000;
      Sys.EvFetch (Grant.poll_request (rt := Ref.runtime) POLL_URL SESSION);
      Sys.EvSleep 2000 ]
  /\ Sys.now (snd (Office.waitForGrantApproval (rt := Ref.runtime) (cfg := Ref.config)
                     never_deciding 10 POLL_URL (Some (Js.JNum 5000 0))
                     (saved SESSION)))
     = 6315.
Proof. vm_compute. split; reflexivity. Qed.

Section PollShape.
Import Js Sys Session Frame Obs.
Context {rt : Runtime} {cfg : Config}.
Variable env : Env.
Variable describe : Json -> M unit.
Hypothesis describe_console : forall data, steps is_console (describe data).
Variable pollUrl : JsVal.
Variable s : string.

Let req : Request := Grant.poll_request pollUrl s.

Lemma io_app (l1 l2 : list Event) : io (l1 ++ l2) = (io l1 ++ io l2)%list.
Proof. apply filter_app. Qed.

Lemma io_console (evs : list Event) : Forall is_console evs -> io evs = [].
Proof.
  induction 1 as [|e l He _ IH]; [reflexivity|].
  destruct e; simpl in *; try contradiction; exact IH.
Qed.

(** What the loop adds to the log, console lines aside: GETs of the poll
    request and sleeps of the poll interval in turn, starting with a GET. *)
Lemma poll_loop_shape (fuel : nat) (deadline : option Z) :
  forall (lastStatus : JsVal) (w : World),
  exists evs,
    log (snd (Grant.poll_loop env describe fuel pollUrl s deadline lastStatus w))
    = (log w ++ evs)%list
    /\ get_then_sleep req (io evs).
Proof.
  induction fuel as [|fuel IH]; intros lastStatus w.
  - exists []. simpl. rewrite app_nil_r. split; [reflexivity | constructor].
  - simpl. unfold bind at 1. simpl.
    destruct (Grant.before (now w) deadline).
    2:{ exists []. simpl. rewrite app_nil_r. split; [reflexivity | constructor]. }
    unfold bind at 1. unfold fetch. fold req.
    destruct (respond env (now w) (log w) req) as [resp|].
    2:{ exists [EvFetch req]. simpl. split; [reflexivity | constructor]. }
    set (w1 := {| fs := fs w; now := now w + Z.of_N (latency env (log w) req);
                  log := log w ++ [EvFetch req] |}).
    assert (Hstop : forall (c : M unit) cons,
              log (snd (c w1)) = (log w1 ++ cons)%list -> Forall is_console cons ->
              exists evs, log (snd (c w1)) = (log w ++ evs)%list
                          /\ get_then_sleep req (io evs)).
    { intros c cons Hlog Hcons. exists (EvFetch req :: cons). split.
      - rewrite Hlog. unfold w1. simpl. now rewrite <- app_assoc.
      - simpl. rewrite (io_console _ Hcons). constructor. }
    destruct (negb (ok resp)).
    + destruct (Http.readErrorBody resp) as [data text].
      destruct (truthy data).
      * destruct (steps_bind is_console (describe data) (fun _ => @process_exit unit 1)
                    (describe_console data) (fun _ => steps_exit _ 1) w1)
          as [_ [cons [Hlog Hcons]]].
        now apply (Hstop _ cons).
      * apply (Hstop _ []); [simpl; now rewrite app_nil_r | constructor].
    + unfold bind at 1. unfold Http.response_json.
      destruct (JSON_parse (Sys.text resp)) as [status|].
      2:{ apply (Hstop _ []); [simpl; now rewrite app_nil_r | constructor]. }
      simpl.
      assert (Hrest : forall last',
        exists evs,
          log (snd (bind (if negb (strict_eq (get "status" status) lastStatus)
                             && is_str (get "status" status) "oauth_pending"
                          then console_error
                                 "OAuth connection required. Complete it in your browser..."
                          else ret tt)
             (fun _ =>
              if is_str (get "status" status) "approved" then ret tt
              else if is_str (get "status" status) "denied" then
                throw (ToStringV (or_js (get "message" status)
                                        (Some (JStr "Authorization denied."))))
              else if is_str (get "status" status) "expired" then
                throw (ToStringV (or_js (get "message" status)
                                        (Some (JStr "Authorization request expired."))))
              else bind (sleep env AUTO_REQUEST_POLL_MS)
                     (fun _ => Grant.poll_loop env describe fuel pollUrl s deadline last'))
             w1))
          = (log w ++ evs)%list /\ get_then_sleep req (io evs)).
      { intros last'.
        assert (Hsay : exists cons w2,
                  Forall is_console cons /\ log w2 = (log w1 ++ cons)%list /\
                  (if negb (strict_eq (get "status" status) lastStatus)
                      && is_str (get "status" status) "oauth_pending"
                   then console_error
                          "OAuth connection required. Complete it in your browser..."
                   else ret tt) w1 = (Ret tt, w2)).
        { destruct (_ && _).
          - exists [EvStderr "OAuth connection required. Complete it in your browser..."],
                   (say w1 ["OAuth connection required. Complete it in your browser..."]).
            split; [constructor; [exact I | constructor]|]. split; reflexivity.
          - exists [], w1. split; [constructor|]. split; [now rewrite app_nil_r | reflexivity]. }
        destruct Hsay as [cons [w2 [Hcons [Hlog2 Hrun]]]].
        unfold bind at 1. rewrite Hrun.
        assert (Hend : forall (c : M unit), log (snd (c w2)) = log w2 ->
                  exists evs, log (snd (c w2)) = (log w ++ evs)%list
                              /\ get_then_sleep req (io evs)).
        { intros c Hc. exists (EvFetch req :: cons). split.
          - rewrite Hc, Hlog2. unfold w1. simpl. now rewrite <- app_assoc.
          - simpl. rewrite (io_console _ Hcons). constructor. }
        destruct (is_str (get "status" status) "approved"); [now apply Hend|].
        destruct (is_str (get "status" status) "denied"); [now apply Hend|].
        destruct (is_str (get "status" status) "expired"); [now apply Hend|].
        unfold bind, sleep.
        match goal with
        | |- context [Grant.poll_loop _ _ _ _ _ _ ?l ?w3] =>
            destruct (IH l w3) as [evs [Hlog3 Hshape]]
        end.
        exists (EvFetch req :: cons ++ EvSleep AUTO_REQUEST_POLL_MS :: evs)%list. split.
        - rewrite Hlog3. simpl. rewrite Hlog2. unfold w1. simpl.
          rewrite <- !app_assoc. reflexivity.
        - simpl. rewrite io_app, (io_console _ Hcons). simpl. now constructor. }
      destruct status; try apply Hrest.
      apply (Hstop _ []); [simpl; now rewrite app_nil_r | constructor].
Qed.

Lemma first_get_unslept (evs : list Event) :
  get_then_sleep req evs -> evs <> [] -> sleep_before_every_get req None evs = false.
Proof.
  intros H Hne.
  destruct H; [congruence| |]; cbn [sleep_before_every_get]; now rewrite is_fetch_of_refl.
Qed.

Lemma later_gets_slept (evs : list Event) (prev : Event) :
  get_then_sleep req evs ->
  is_sleep_of AUTO_REQUEST_POLL_MS prev = true ->
  sleep_before_every_get req (Some prev) evs = true.
Proof.
  intros H. revert prev.
  induction H as [| |rest H IH]; intros prev Hp; cbn [sleep_before_every_get].
  - reflexivity.
  - now rewrite is_fetch_of_refl, Hp.
  - rewrite is_fetch_of_refl, Hp. cbn [andb is_fetch_of]. now apply IH.
Qed.

End PollShape.

(** C5 (as amended). In the Pending state each iteration of the loop first
    GETs the poll URL with the session header and then, unless the answer ends
    the loop, sleeps the fixed 2000 ms: console lines aside, what
    [waitForGrantApproval] adds to the log is GET, sleep, GET, sleep, ...
    starting with a GET.  So the first GET has no sleep before it, and every
    later GET comes right after one sleep of the interval. *)
Theorem poll_get_then_sleep {rt : Js.Runtime} {cfg : Session.Config}
  (env : Sys.Env) (fuel : nat) (pollUrl expiresAt : Js.JsVal) (w : Sys.World) (s : string) :
  fst (Session.getAgentSession w) = Sys.Ret (Some s) ->
  (exists evs,
     Sys.log (snd (Notion.waitForGrantApproval env fuel pollUrl expiresAt w))
     = (Sys.log w ++ evs)%list
     /\ Obs.get_then_sleep (Grant.poll_request pollUrl s) (Obs.io evs)
     /\ (Obs.io evs <> [] ->
         Obs.sleep_before_every_get (Grant.poll_request pollUrl s) None (Obs.io evs) = false)
     /\ (forall first rest, Obs.io evs = first :: rest ->
         first = Sys.EvFetch (Grant.poll_request pollUrl s)
         /\ Obs.sleep_before_every_get (Grant.poll_request pollUrl s)
              (Some (Sys.EvSleep Sys.AUTO_REQUEST_POLL_MS)) (Obs.io evs) = true))
  /\ (exists evs,
     Sys.log (snd (Office.waitForGrantApproval env fuel pollUrl expiresAt w))
     = (Sys.log w ++ evs)%list
     /\ Obs.get_then_sleep (Grant.poll_request pollUrl s) (Obs.io evs)
     /\ (Obs.io evs <> [] ->
         Obs.sleep_before_every_get (Grant.poll_request pollUrl s) None (Obs.io evs) = false)
     /\ (forall first rest, Obs.io evs = first :: rest ->
         first = Sys.EvFetch (Grant.poll_request pollUrl s)
         /\ Obs.sleep_before_every_get (Grant.poll_request pollUrl s)
              (Some (Sys.EvSleep Sys.AUTO_REQUEST_POLL_MS)) (Obs.io evs) = true))
  /\ Sys.header_value "X-Agent-Session" (Grant.poll_request pollUrl s) = Some s
  /\ Sys.url (Grant.poll_request pollUrl s) = Js.ToStringV pollUrl
  /\ Sys.method (Grant.poll_request pollUrl s) = "GET".
Proof.
  intros Hs.
  assert (Hgen : forall describe,
    (forall data, Frame.steps Obs.is_console (describe data)) ->
    exists evs,
      Sys.log (snd (Grant.poll_loop env describe fuel pollUrl s
                      (Grant.grant_deadline expiresAt (Sys.now w)) (Some Js.JNull) w))
      = (Sys.log w ++ evs)%list
      /\ Obs.get_then_sleep (Grant.poll_request pollUrl s) (Obs.io evs)
      /\ (Obs.io evs <> [] ->
          Obs.sleep_before_every_get (Grant.poll_request pollUrl s) None (Obs.io evs) = false)
      /\ (forall first rest, Obs.io evs = first :: rest ->
          first = Sys.EvFetch (Grant.poll_request pollUrl s)
          /\ Obs.sleep_before_every_get (Grant.poll_request pollUrl s)
               (Some (Sys.EvSleep Sys.AUTO_REQUEST_POLL_MS)) (Obs.io evs) = true)).
  { intros describe Hdesc.
    destruct (poll_loop_shape env describe Hdesc pollUrl s fuel
                (Grant.grant_deadline expiresAt (Sys.now w)) (Some Js.JNull) w)
      as [evs [Hlog Hshape]].
    exists evs. split; [exact Hlog|]. split; [exact Hshape|]. split.
    - now apply first_get_unslept.
    - intros first rest Hio. split.
      + rewrite Hio in Hshape. inversion Hshape; reflexivity.
      + apply later_gets_slept; [exact Hshape | reflexivity]. }
  unfold Notion.waitForGrantApproval, Office.waitForGrantApproval.
  rewrite !(waitForGrantApproval_loop env _ _ pollUrl s fuel expiresAt w Hs).
  split; [|split; [|repeat split]].
  - apply Hgen. intros data. apply steps_notion_describe. intros line. exact I.
  - apply Hgen. intros data. apply steps_office_describe. intros line. exact I.
Qed.

Lemma poll_get_then_sleep_witness :
  exists evs,
    Sys.log (snd (Notion.waitForGrantApproval (rt := Ref.runtime) (cfg := Ref.config)
                    (approving_after 1) 5 POLL_URL None (saved SESSION)))
    = (Sys.log (saved SESSION) ++ evs)%list
    /\ Obs.get_then_sleep (Grant.poll_request (rt := Ref.runtime) POLL_URL SESSION) (Obs.io evs)
    /\ (Obs.io evs <> [] ->
        Obs.sleep_before_every_get (Grant.poll_request (rt := Ref.runtime) POLL_URL SESSION)
          None (Obs.io evs) = false)
    /\ (forall first rest, Obs.io evs = first :: rest ->
        first = Sys.EvFetch (Grant.poll_request (rt := Ref.runtime) POLL_URL SESSION)
        /\ Obs.sleep_before_every_get (Grant.poll_request (rt := Ref.runtime) POLL_URL SESSION)
             (Some (Sys.EvSleep Sys.AUTO_REQUEST_POLL_MS)) (Obs.io evs) = true).
Proof.
  exact (proj1 (poll_get_then_sleep (rt := Ref.runtime) (cfg := Ref.config)
                  (approving_after 1) 5 POLL_URL None (saved SESSION) SESSION eq_refl)).
Defined.

(** C5, counterexample: with one "pending" answer and then "approved", the
    first thing [waitForGrantApproval] does is a GET; the only sleep is between
    the two GETs. *)
Lemma first_poll_without_sleep :
  Sys.log (snd (Notion.waitForGrantApproval (rt := Ref.runtime) (cfg := Ref.config)
                  (approving_after 1) 5 POLL_URL None (saved SESSION)))
  = [ Sys.EvFetch (Grant.poll_request (rt := Ref.runtime) POLL_URL SESSION);
      Sys.EvSleep 2000;
      Sys.EvFetch (Grant.poll_request (rt := Ref.runtime) POLL_URL SESSION) ]
  /\ Obs.sleep_before_every_get
       (Grant.poll_request (rt := Ref.runtime) POLL_URL SESSION) None
       (Sys.log (snd (Notion.waitForGrantApproval (rt := Ref.runtime) (cfg := Ref.config)
                        (approving_after 1) 5 POLL_URL None (saved SESSION))))
     = false
  /\ Sys.log (snd (Office.waitForGrantApproval (rt := Ref.runtime) (cfg := Ref.config)
                     (approving_after 0) 5 POLL_URL None (saved SESSION)))
     = [ Sys.EvFetch (Grant.poll_request (rt := Ref.runtime) POLL_URL SESSION) ].
Proof. vm_compute. repeat split; reflexivity. Qed.

(** ** The retry bound of the pipeline *)

Section AtMost.
Import Js Sys Session Frame Obs.
Context {rt : Runtime} {cfg : Config}.
Variable env : Env.
Variable r : Request.
Variable g : Json.
Hypothesis grant_not_r : forall e, grant_event g e -> is_fetch_of r e = false.

Lemma console_is_grant (e : Event) : is_console e -> grant_event g e.
Proof. destruct e; simpl; tauto. Qed.

Lemma count_fetch_none (evs : list Event) :
  Forall (grant_event g) evs -> count_fetch r evs = O.
Proof.
  induction 1 as [|e l He _ IH]; [reflexivity|].
  unfold count_fetch in *. cbn [filter]. now rewrite (grant_not_r e He).
Qed.

Lemma at_most_grant {A : Type} (c : M A) (w : World) :
  steps (grant_event g) c -> at_most O r g c w.
Proof.
  intros H. destruct (H w) as [Hfs [evs [Hlog Hev]]].
  split; [assumption|]. exists evs. split; [assumption|]. split.
  - eapply Forall_impl; [|exact Hev]. intros e He. now left.
  - now rewrite count_fetch_none.
Qed.

Lemma at_most_console {A : Type} (c : M A) (w : World) :
  steps is_console c -> at_most O r g c w.
Proof.
  intros H. apply at_most_grant. intros w'.
  destruct (H w') as [Hfs [evs [Hlog Hev]]]. split; [assumption|].
  exists evs. split; [assumption|].
  eapply Forall_impl; [|exact Hev]. apply console_is_grant.
Qed.

Lemma at_most_fetch (w : World) : at_most 1 r g (fetch env r) w.
Proof.
  split; [unfold fetch; now destruct (respond env (now w) (log w) r)|].
  exists [EvFetch r]. split; [apply log_fetch|]. split.
  - constructor; [now right | constructor].
  - now rewrite count_fetch_one.
Qed.

Lemma at_most_le (n m : nat) {A : Type} (c : M A) (w : World) :
  (n <= m)%nat -> at_most n r g c w -> at_most m r g c w.
Proof.
  intros Hle [Hfs [evs [Hlog [Hev Hn]]]]. split; [assumption|].
  exists evs. repeat split; try assumption. lia.
Qed.

Lemma at_most_bind (n m : nat) {A B : Type} (c : M A) (k : A -> M B) (w : World) :
  at_most n r g c w ->
  (forall a w', c w = (Ret a, w') -> at_most m r g (k a) w') ->
  at_most (n + m) r g (bind c k) w.
Proof.
  intros [Hfs [e1 [Hlog [He1 Hn]]]] Hk. unfold at_most, bind.
  destruct (c w) as [[a| msg | code |] w1] eqn:Hc; simpl in *;
    try (split; [assumption|]; exists e1; repeat split; try assumption; lia).
  destruct (Hk a w1 eq_refl) as [Hfs2 [e2 [Hlog2 [He2 Hm]]]].
  split; [now rewrite Hfs2|]. exists (e1 ++ e2)%list. split; [|split].
  - rewrite Hlog2, Hlog. now rewrite app_assoc.
  - apply Forall_app. auto.
  - rewrite count_fetch_app. lia.
Qed.

Lemma session_of_fs (w w' : World) (v : Outcome (option string)) :
  fs w' = fs w -> fst (getAgentSession w) = v -> fst (getAgentSession w') = v.
Proof. unfold getAgentSession. simpl. now intros ->. Qed.

Lemma at_most_require_session {B : Type} (n : nat) (message : string) (s : string)
  (k : string -> M B) (w : World) :
  fst (getAgentSession w) = Ret (Some s) ->
  at_most n r g (k s) w ->
  at_most n r g (bind (require_session message) k) w.
Proof.
  intros Hs Hk. unfold at_most, bind in *. now rewrite (require_session_some message w s Hs).
Qed.

End AtMost.

(** Closes the leaves of a continuation that only writes to the console. *)
Ltac steps_console :=
  steps_structure;
  first
    [ apply steps_console_error; exact I
    | apply steps_console_log; exact I
    | apply steps_notion_describe; intros ?; exact I
    | apply steps_office_describe; intros ?; exact I
    | idtac ].

Section RetryBound.
Import Js Sys Session Frame Obs.
Context {rt : Runtime} {cfg : Config}.
Variable env : Env.

Lemma grant_not_notion_request (s method endpoint : string) (body : JsVal) (e : Event) :
  grant_event Notion.grant_request e ->
  is_fetch_of (Notion.api_request s method endpoint body) e = false.
Proof.
  destruct e as [r| | |]; simpl; try reflexivity.
  intros H. destruct (Request_eq_dec r (Notion.api_request s method endpoint body)) as [Heq|];
    [exfalso | reflexivity].
  destruct H as [[s' ->] | [u [s' ->]]]; destruct body; discriminate Heq.
Qed.

Lemma grant_not_office_request (service : Office.Service) (s endpoint : string)
  (options : Office.Options) (e : Event) :
  grant_event (Office.grant_request service) e ->
  is_fetch_of (Office.api_request s endpoint options) e = false.
Proof.
  destruct e as [r| | |]; simpl; try reflexivity.
  intros H. destruct (Request_eq_dec r (Office.api_request s endpoint options)) as [Heq|];
    [exfalso | reflexivity].
  destruct H as [[s' ->] | [u [s' ->]]]; discriminate Heq.
Qed.

Lemma steps_notion_ensureGrant (fuel : nat) :
  steps (grant_event Notion.grant_request) (Notion.ensureGrant env fuel).
Proof.
  unfold Notion.ensureGrant. apply steps_ensureGrant.
  - intros line. exact I.
  - intros data. apply steps_notion_describe. intros line. exact I.
  - auto.
Qed.

Lemma steps_office_ensureGrant (service : Office.Service) (fuel : nat) :
  steps (grant_event (Office.grant_request service)) (Office.ensureGrant env service fuel).
Proof.
  unfold Office.ensureGrant. apply steps_ensureGrant.
  - intros line. exact I.
  - intros data. apply steps_office_describe. intros line. exact I.
  - auto.
Qed.

Lemma fetch_keeps_fs (r : Request) (w w1 : World) (o : Outcome Response) :
  fetch env r w = (o, w1) -> fs w1 = fs w.
Proof.
  unfold fetch. destruct (respond env (now w) (log w) r); intros H; inversion H; reflexivity.
Qed.

(** A call that is not the first attempt issues the request at most once. *)
Lemma notionApi_later_attempt (fuel : nat) (s method endpoint : string) (body : JsVal)
  (attempt : Z) (w : World) :
  (attempt =? 0) = false ->
  fst (getAgentSession w) = Ret (Some s) ->
  at_most 1 (Notion.api_request s method endpoint body) Notion.grant_request
    (Notion.notionApi env fuel method endpoint body attempt) w.
Proof.
  intros Hatt Hs. destruct fuel as [|fuel].
  - apply (at_most_le _ _ O); [lia|].
    apply at_most_console; [apply grant_not_notion_request | apply steps_out_of_fuel].
  - simpl. rewrite Hatt. cbn [andb].
    apply (at_most_require_session _ _ _ _ s); [assumption|].
    change 1%nat with (1 + 0)%nat. apply at_most_bind.
    + apply at_most_fetch.
    + intros resp w1 _. apply at_most_console; [apply grant_not_notion_request|].
      steps_console.
Qed.

(** The first attempt issues the request at most twice. *)
Lemma notionApi_first_attempt (fuel : nat) (s method endpoint : string) (body : JsVal)
  (w : World) :
  fst (getAgentSession w) = Ret (Some s) ->
  at_most 2 (Notion.api_request s method endpoint body) Notion.grant_request
    (Notion.notionApi env fuel method endpoint body 0) w.
Proof.
  intros Hs. destruct fuel as [|fuel].
  - apply (at_most_le _ _ O); [lia|].
    apply at_most_console; [apply grant_not_notion_request | apply steps_out_of_fuel].
  - simpl. apply (at_most_require_session _ _ _ _ s); [assumption|].
    change 2%nat with (1 + 1)%nat. apply at_most_bind.
    + apply at_most_fetch.
    + intros resp w1 Hfetch. apply fetch_keeps_fs in Hfetch.
      assert (Hquiet : forall (c : M Json), steps is_console c ->
                at_most 1 (Notion.api_request s method endpoint body)
                  Notion.grant_request c w1).
      { intros c Hc. apply (at_most_le _ _ O); [lia|].
        apply at_most_console; [apply grant_not_notion_request | exact Hc]. }
      destruct (Http.is_auth_status resp); [|apply Hquiet; steps_console].
      destruct (Http.readErrorBody resp) as [data text].
      destruct (AUTO_REQUEST_ENABLED && NotionAuth.isAutoRequestError data);
        [|apply Hquiet; steps_console].
      change 1%nat with (0 + 1)%nat. apply at_most_bind.
      * apply at_most_grant; [apply grant_not_notion_request | apply steps_notion_ensureGrant].
      * intros [] w2 Hgrant. apply notionApi_later_attempt; [reflexivity|].
        apply (session_of_fs w); [|assumption].
        destruct (steps_notion_ensureGrant fuel w1) as [Hfs _].
        rewrite Hgrant in Hfs. simpl in Hfs. now rewrite Hfs.
Qed.

Lemma apiRequest_later_attempt (service : Office.Service) (fuel : nat) (s endpoint : string)
  (options : Office.Options) (attempt : Z) (w : World) :
  (attempt =? 0) = false ->
  fst (getAgentSession w) = Ret (Some s) ->
  at_most 1 (Office.api_request s endpoint options) (Office.grant_request service)
    (Office.apiRequest env service fuel endpoint options attempt) w.
Proof.
  intros Hatt Hs. destruct fuel as [|fuel].
  - apply (at_most_le _ _ O); [lia|].
    apply at_most_console; [apply grant_not_office_request | apply steps_out_of_fuel].
  - simpl. rewrite Hatt. cbn [andb].
    apply (at_most_require_session _ _ _ _ s); [assumption|].
    change 1%nat with (1 + 0)%nat. apply at_most_bind.
    + apply at_most_fetch.
    + intros resp w1 _. apply at_most_console; [apply grant_not_office_request|].
      steps_console.
Qed.

Lemma apiRequest_first_attempt (service : Office.Service) (fuel : nat) (s endpoint : string)
  (options : Office.Options) (w : World) :
  fst (getAgentSession w) = Ret (Some s) ->
  at_most 2 (Office.api_request s endpoint options) (Office.grant_request service)
    (Office.apiRequest env service fuel endpoint options 0) w.
Proof.
  intros Hs. destruct fuel as [|fuel].
  - apply (at_most_le _ _ O); [lia|].
    apply at_most_console; [apply grant_not_office_request | apply steps_out_of_fuel].
  - simpl. apply (at_most_require_session _ _ _ _ s); [assumption|].
    change 2%nat with (1 + 1)%nat. apply at_most_bind.
    + apply at_most_fetch.
    + intros resp w1 Hfetch. apply fetch_keeps_fs in Hfetch.
      assert (Hquiet : forall (c : M Json), steps is_console c ->
                at_most 1 (Office.api_request s endpoint options)
                  (Office.grant_request service) c w1).
      { intros c Hc. apply (at_most_le _ _ O); [lia|].
        apply at_most_console; [apply grant_not_office_request | exact Hc]. }
      destruct (Http.is_auth_status resp); [|apply Hquiet; steps_console].
      destruct (Http.readErrorBody resp) as [data text].
      destruct (AUTO_REQUEST_ENABLED && OfficeAuth.isAutoRequestError data);
        [|apply Hquiet; steps_console].
      change 1%nat with (0 + 1)%nat. apply at_most_bind.
      * apply at_most_grant; [apply grant_not_office_request | apply steps_office_ensureGrant].
      * intros [] w2 Hgrant. apply apiRequest_later_attempt; [reflexivity|].
        apply (session_of_fs w); [|assumption].
        destruct (steps_office_ensureGrant service fuel w1) as [Hfs _].
        rewrite Hgrant in Hfs. simpl in Hfs. now rewrite Hfs.
Qed.

End RetryBound.

Section RetryExact.
Import Js Sys Session Frame Obs.
Context {rt : Runtime} {cfg : Config}.
Variable env : Env.

(** A payload [isAutoRequestError] accepts is an object, and
    [describeAuthError] reports it as a missing grant. *)
Lemma notion_retryable_report (data : Json) (w : World) :
  NotionAuth.isAutoRequestError data = true ->
  truthy data = true
  /\ NotionAuth.describeAuthError data w = (Ret tt, say w notion_no_grant).
Proof.
  unfold NotionAuth.isAutoRequestError. rewrite retry_predicate. intros H. split.
  - unfold NotionAuth.normalizeAuthError in H.
    destruct data as [| b | m e | str | items | fields].
    + discriminate H.
    + destruct b; [reflexivity | discriminate H].
    + cbn [truthy]. destruct (number_nonzero m e) eqn:E; [reflexivity|].
      unfold or_js in H. cbn [truthyV truthy] in H. rewrite E in H. discriminate H.
    + destruct str; [discriminate H | reflexivity].
    + reflexivity.
    + reflexivity.
  - unfold NotionAuth.describeAuthError. rewrite (if_chain_grant _ H).
    rewrite !bind_say, console_error_say, !say_say. reflexivity.
Qed.

Lemma office_retryable_report (data : Json) (service : string) (w : World) :
  OfficeAuth.isAutoRequestError data = true ->
  truthy data = true
  /\ OfficeAuth.describeAuthError data service w = (Ret tt, say w (office_no_grant service)).
Proof.
  unfold OfficeAuth.isAutoRequestError. rewrite retry_predicate. intros H.
  pose proof (if_chain_grant _ H) as Hk.
  destruct data; try discriminate H. split; [reflexivity|].
  unfold OfficeAuth.describeAuthError. rewrite Hk.
  rewrite !bind_say, console_error_say, !say_say. reflexivity.
Qed.

Lemma retryable_body (isAuto : Json -> bool) (resp : Response) :
  retryable_answer isAuto resp ->
  Http.is_auth_status resp = true /\
  exists data text, Http.readErrorBody resp = (data, text) /\ isAuto data = true.
Proof.
  intros [Hauth [data [Hne [Hjson Hauto]]]]. split; [assumption|].
  exists data, (Sys.text resp). unfold Http.readErrorBody. now rewrite Hne, Hjson.
Qed.

(** After the first attempt a retryable 403 is reported and ends the
    process. *)
Lemma notionApi_refused (fuel : nat) (s method endpoint : string) (body : JsVal)
  (attempt : Z) (w : World) :
  (attempt =? 0) = false ->
  fst (getAgentSession w) = Ret (Some s) ->
  always_retryable env NotionAuth.isAutoRequestError
    (Notion.api_request s method endpoint body) ->
  Notion.notionApi env (S fuel) method endpoint body attempt w
  = (Exit 1, say (snd (fetch env (Notion.api_request s method endpoint body) w))
               notion_no_grant).
Proof.
  intros Hatt Hs Hre. simpl. rewrite Hatt. cbn [andb].
  unfold bind at 1. rewrite (require_session_some _ w s Hs).
  destruct (Hre (now w) (log w)) as [resp [Hresp Hans]].
  apply retryable_body in Hans as [Hauth [data [text [Hbody Hauto]]]].
  unfold bind at 1. unfold fetch. rewrite Hresp. cbn [snd].
  rewrite Hauth, Hbody.
  destruct (notion_retryable_report data
              {| fs := fs w;
                 now := now w + Z.of_N (latency env (log w)
                                          (Notion.api_request s method endpoint body));
                 log := log w ++ [EvFetch (Notion.api_request s method endpoint body)] |}
              Hauto) as [Htruthy Hreport].
  rewrite Htruthy. unfold bind. rewrite Hreport. reflexivity.
Qed.

Lemma apiRequest_refused (service : Office.Service) (fuel : nat) (s endpoint : string)
  (options : Office.Options) (attempt : Z) (w : World) :
  (attempt =? 0) = false ->
  fst (getAgentSession w) = Ret (Some s) ->
  always_retryable env OfficeAuth.isAutoRequestError
    (Office.api_request s endpoint options) ->
  Office.apiRequest env service (S fuel) endpoint options attempt w
  = (Exit 1, say (snd (fetch env (Office.api_request s endpoint options) w))
               (office_no_grant (Office.service_name service))).
Proof.
  intros Hatt Hs Hre. simpl. rewrite Hatt. cbn [andb].
  unfold bind at 1. rewrite (require_session_some _ w s Hs).
  destruct (Hre (now w) (log w)) as [resp [Hresp Hans]].
  apply retryable_body in Hans as [Hauth [data [text [Hbody Hauto]]]].
  unfold bind at 1. unfold fetch. rewrite Hresp. cbn [snd].
  rewrite Hauth, Hbody.
  destruct (office_retryable_report data (Office.service_name service)
              {| fs := fs w;
                 now := now w + Z.of_N (latency env (log w)
                                          (Office.api_request s endpoint options));
                 log := log w ++ [EvFetch (Office.api_request s endpoint options)] |}
              Hauto) as [Htruthy Hreport].
  rewrite Htruthy. unfold bind. rewrite Hreport. reflexivity.
Qed.

(** The first attempt, answered by a retryable 403, runs the grant flow and
    calls itself once more. *)
Lemma notionApi_retry_step (fuel : nat) (s method endpoint : string) (body : JsVal)
  (w : World) :
  AUTO_REQUEST_ENABLED = true ->
  fst (getAgentSession w) = Ret (Some s) ->
  always_retryable env NotionAuth.isAutoRequestError
    (Notion.api_request s method endpoint body) ->
  Notion.notionApi env (S fuel) method endpoint body 0 w
  = bind (Notion.ensureGrant env fuel)
      (fun _ => Notion.notionApi env fuel method endpoint body 1)
      (snd (fetch env (Notion.api_request s method endpoint body) w)).
Proof.
  intros Hauto_on Hs Hre. simpl.
  unfold bind at 1. rewrite (require_session_some _ w s Hs).
  destruct (Hre (now w) (log w)) as [resp [Hresp Hans]].
  apply retryable_body in Hans as [Hauth [data [text [Hbody Hauto]]]].
  unfold bind at 1. unfold fetch. rewrite Hresp. cbn [snd].
  rewrite Hauth, Hbody, Hauto_on, Hauto. reflexivity.
Qed.

Lemma apiRequest_retry_step (service : Office.Service) (fuel : nat) (s endpoint : string)
  (options : Office.Options) (w : World) :
  AUTO_REQUEST_ENABLED = true ->
  fst (getAgentSession w) = Ret (Some s) ->
  always_retryable env OfficeAuth.isAutoRequestError
    (Office.api_request s endpoint options) ->
  Office.apiRequest env service (S fuel) endpoint options 0 w
  = bind (Office.ensureGrant env service fuel)
      (fun _ => Office.apiRequest env service fuel endpoint options 1)
      (snd (fetch env (Office.api_request s endpoint options) w)).
Proof.
  intros Hauto_on Hs Hre. simpl.
  unfold bind at 1. rewrite (require_session_some _ w s Hs).
  destruct (Hre (now w) (log w)) as [resp [Hresp Hans]].
  apply retryable_body in Hans as [Hauth [data [text [Hbody Hauto]]]].
  unfold bind at 1. unfold fetch. rewrite Hresp. cbn [snd].
  rewrite Hauth, Hbody, Hauto_on, Hauto. reflexivity.
Qed.

End RetryExact.

Section RetryOnce.
Import Js Sys Session Frame Obs.
Context {rt : Runtime} {cfg : Config}.
Variable env : Env.

Lemma count_fetch_stderr (r : Request) (lines : list string) :
  count_fetch r (map EvStderr lines) = O.
Proof. induction lines as [|l ls IH]; [reflexivity | exact IH]. Qed.

(** The log of a first attempt whose grant flow completed: the request, the
    events of the grant flow, the request again, the report. *)
Lemma retried_log (r : Request) (g : Json) (w w2 : World) (granting : list Event)
  (lines : list string) :
  (forall e, grant_event g e -> is_fetch_of r e = false) ->
  log w2 = (log (snd (fetch env r w)) ++ granting)%list ->
  Forall (grant_event g) granting ->
  log (say (snd (fetch env r w2)) lines)
  = (log w ++ EvFetch r :: granting ++ EvFetch r :: map EvStderr lines)%list
  /\ count_fetch r (EvFetch r :: granting ++ EvFetch r :: map EvStderr lines) = 2%nat.
Proof.
  intros Hnot Hlog Hgrant. split.
  - unfold say. cbn [log]. rewrite (log_fetch env r w2), Hlog, (log_fetch env r w).
    rewrite <- !app_assoc. reflexivity.
  - change (EvFetch r :: granting ++ EvFetch r :: map EvStderr lines)
      with ([EvFetch r] ++ granting ++ [EvFetch r] ++ map EvStderr lines)%list.
    rewrite !count_fetch_app, count_fetch_one, count_fetch_stderr.
    now rewrite (count_fetch_none r g Hnot granting Hgrant).
Qed.

Lemma failed_grant_log (r : Request) (g : Json) (w w2 : World) (granting : list Event) :
  (forall e, grant_event g e -> is_fetch_of r e = false) ->
  log w2 = (log (snd (fetch env r w)) ++ granting)%list ->
  Forall (grant_event g) granting ->
  log w2 = (log w ++ EvFetch r :: granting)%list
  /\ count_fetch r (EvFetch r :: granting) = 1%nat.
Proof.
  intros Hnot Hlog Hgrant. split.
  - rewrite Hlog, (log_fetch env r w). now rewrite <- app_assoc.
  - change (EvFetch r :: granting) with ([EvFetch r] ++ granting)%list.
    rewrite count_fetch_app, count_fetch_one.
    now rewrite (count_fetch_none r g Hnot granting Hgrant).
Qed.

End RetryOnce.

Section RetryCases.
Import Js Sys Session Frame Obs.
Context {rt : Runtime} {cfg : Config}.
Variable env : Env.

Lemma bind_failure {A B : Type} (c : M A) (k : A -> M B) (w w2 : World)
  (o : Outcome A) (o' : Outcome B) :
  c w = (o, w2) -> failure o = Some o' -> bind c k w = (o', w2).
Proof.
  intros Hc Hf. unfold bind. rewrite Hc.
  destruct o; simpl in Hf; try discriminate; now injection Hf as <-.
Qed.

Lemma notionApi_retry_cases (fuel : nat) (s method endpoint : string) (body : JsVal)
  (w w2 : World) (o : Outcome unit) :
  AUTO_REQUEST_ENABLED = true ->
  fst (getAgentSession w) = Ret (Some s) ->
  always_retryable env NotionAuth.isAutoRequestError
    (Notion.api_request s method endpoint body) ->
  Notion.ensureGrant env (S fuel)
    (snd (fetch env (Notion.api_request s method endpoint body) w)) = (o, w2) ->
  exists granting,
    Forall (grant_event Notion.grant_request) granting
    /\ log w2 = (log w ++ EvFetch (Notion.api_request s method endpoint body) :: granting)%list
    /\ (o = Ret tt ->
        Notion.notionApi env (S (S fuel)) method endpoint body 0 w
        = (Exit 1, say (snd (fetch env (Notion.api_request s method endpoint body) w2))
                     notion_no_grant)
        /\ log (say (snd (fetch env (Notion.api_request s method endpoint body) w2))
                  notion_no_grant)
           = (log w ++ EvFetch (Notion.api_request s method endpoint body)
                :: granting ++ EvFetch (Notion.api_request s method endpoint body)
                :: map EvStderr notion_no_grant)%list
        /\ count_fetch (Notion.api_request s method endpoint body)
             (EvFetch (Notion.api_request s method endpoint body)
                :: granting ++ EvFetch (Notion.api_request s method endpoint body)
                :: map EvStderr notion_no_grant) = 2%nat)
    /\ (forall o', failure o = Some o' ->
        Notion.notionApi env (S (S fuel)) method endpoint body 0 w = (o', w2)
        /\ count_fetch (Notion.api_request s method endpoint body)
             (EvFetch (Notion.api_request s method endpoint body) :: granting) = 1%nat).
Proof.
  intros Hon Hs Hre Hgrant.
  set (r := Notion.api_request s method endpoint body) in *.
  destruct (steps_notion_ensureGrant env (S fuel) (snd (fetch env r w)))
    as [Hfs [granting [Hlog Hev]]].
  rewrite Hgrant in Hfs, Hlog. cbn [snd] in Hfs, Hlog.
  pose proof (grant_not_notion_request s method endpoint body) as Hnot. fold r in Hnot.
  destruct (failed_grant_log env r _ w w2 granting Hnot Hlog Hev) as [Hlog1 Hcount1].
  exists granting. split; [exact Hev|]. split; [exact Hlog1|]. split.
  - intros ->. rewrite (notionApi_retry_step env (S fuel) s method endpoint body w Hon Hs Hre).
    fold r. rewrite (bind_ret_eq _ _ _ _ _ Hgrant). split.
    + apply notionApi_refused; [reflexivity | | exact Hre].
      apply (session_of_fs w); [|exact Hs].
      rewrite Hfs. unfold fetch. now destruct (respond env (now w) (log w) r).
    + now apply (retried_log env r Notion.grant_request).
  - intros o' Hfail. split; [|exact Hcount1].
    rewrite (notionApi_retry_step env (S fuel) s method endpoint body w Hon Hs Hre).
    fold r. now apply (bind_failure _ _ _ w2 o).
Qed.

Lemma apiRequest_retry_cases (service : Office.Service) (fuel : nat) (s endpoint : string)
  (options : Office.Options) (w w2 : World) (o : Outcome unit) :
  AUTO_REQUEST_ENABLED = true ->
  fst (getAgentSession w) = Ret (Some s) ->
  always_retryable env OfficeAuth.isAutoRequestError
    (Office.api_request s endpoint options) ->
  Office.ensureGrant env service (S fuel)
    (snd (fetch env (Office.api_request s endpoint options) w)) = (o, w2) ->
  exists granting,
    Forall (grant_event (Office.grant_request service)) granting
    /\ log w2 = (log w ++ EvFetch (Office.api_request s endpoint options) :: granting)%list
    /\ (o = Ret tt ->
        Office.apiRequest env service (S (S fuel)) endpoint options 0 w
        = (Exit 1, say (snd (fetch env (Office.api_request s endpoint options) w2))
                     (office_no_grant (Office.service_name service)))
        /\ log (say (snd (fetch env (Office.api_request s endpoint options) w2))
                  (office_no_grant (Office.service_name service)))
           = (log w ++ EvFetch (Office.api_request s endpoint options)
                :: granting ++ EvFetch (Office.api_request s endpoint options)
                :: map EvStderr (office_no_grant (Office.service_name service)))%list
        /\ count_fetch (Office.api_request s endpoint options)
             (EvFetch (Office.api_request s endpoint options)
                :: granting ++ EvFetch (Office.api_request s endpoint options)
                :: map EvStderr (office_no_grant (Office.service_name service))) = 2%nat)
    /\ (forall o', failure o = Some o' ->
        Office.apiRequest env service (S (S fuel)) endpoint options 0 w = (o', w2)
        /\ count_fetch (Office.api_request s endpoint options)
             (EvFetch (Office.api_request s endpoint options) :: granting) = 1%nat).
Proof.
  intros Hon Hs Hre Hgrant.
  set (r := Office.api_request s endpoint options) in *.
  destruct (steps_office_ensureGrant env service (S fuel) (snd (fetch env r w)))
    as [Hfs [granting [Hlog Hev]]].
  rewrite Hgrant in Hfs, Hlog. cbn [snd] in Hfs, Hlog.
  pose proof (grant_not_office_request service s endpoint options) as Hnot. fold r in Hnot.
  destruct (failed_grant_log env r _ w w2 granting Hnot Hlog Hev) as [Hlog1 Hcount1].
  exists granting. split; [exact Hev|]. split; [exact Hlog1|]. split.
  - intros ->.
    rewrite (apiRequest_retry_step env service (S fuel) s endpoint options w Hon Hs Hre).
    fold r. rewrite (bind_ret_eq _ _ _ _ _ Hgrant). split.
    + apply apiRequest_refused; [reflexivity | | exact Hre].
      apply (session_of_fs w); [|exact Hs].
      rewrite Hfs. unfold fetch. now destruct (respond env (now w) (log w) r).
    + now apply (retried_log env r (Office.grant_request service)).
  - intros o' Hfail. split; [|exact Hcount1].
    rewrite (apiRequest_retry_step env service (S fuel) s endpoint options w Hon Hs Hre).
    fold r. now apply (bind_failure _ _ _ w2 o).
Qed.

End RetryCases.

(** C1 (as amended). With a session on file and automatic grant requests
    enabled, a pipeline call never issues its request a third time, whatever
    the network answers.  Against a downstream that always answers with a
    retryable auth error, the call issues the request exactly twice (the
    original attempt and the retry after the grant flow) and ends the process
    with exit code 1 when the grant flow completes; when the grant flow fails,
    the call ends with that failure after the original attempt alone. *)
Theorem pipeline_retries_once {rt : Js.Runtime} {cfg : Session.Config}
  (env : Sys.Env) (w : Sys.World) (s : string) (fuel : nat) :
  fst (Session.getAgentSession w) = Sys.Ret (Some s) ->
  Session.AUTO_REQUEST_ENABLED = true ->
  (forall method endpoint body,
     Frame.at_most 2 (Notion.api_request s method endpoint body) Notion.grant_request
       (Notion.notionApi env fuel method endpoint body 0) w
     /\ (Frame.always_retryable env NotionAuth.isAutoRequestError
           (Notion.api_request s method endpoint body) ->
         forall o w2,
           Notion.ensureGrant env (S fuel)
             (snd (Sys.fetch env (Notion.api_request s method endpoint body) w)) = (o, w2) ->
           exists granting,
             Forall (Frame.grant_event Notion.grant_request) granting
             /\ Sys.log w2
                = (Sys.log w
                   ++ Sys.EvFetch (Notion.api_request s method endpoint body) :: granting)%list
             /\ (o = Sys.Ret tt ->
                 Notion.notionApi env (S (S fuel)) method endpoint body 0 w
                 = (Sys.Exit 1,
                    Sys.say (snd (Sys.fetch env (Notion.api_request s method endpoint body) w2))
                      Obs.notion_no_grant)
                 /\ Sys.log
                      (Sys.say (snd (Sys.fetch env (Notion.api_request s method endpoint body) w2))
                         Obs.notion_no_grant)
                    = (Sys.log w
                       ++ Sys.EvFetch (Notion.api_request s method endpoint body)
                       :: granting
                       ++ Sys.EvFetch (Notion.api_request s method endpoint body)
                       :: map Sys.EvStderr Obs.notion_no_grant)%list
                 /\ Obs.count_fetch (Notion.api_request s method endpoint body)
                      (Sys.EvFetch (Notion.api_request s method endpoint body)
                       :: granting
                       ++ Sys.EvFetch (Notion.api_request s method endpoint body)
                       :: map Sys.EvStderr Obs.notion_no_grant) = 2%nat)
             /\ (forall o', Sys.failure o = Some o' ->
                 Notion.notionApi env (S (S fuel)) method endpoint body 0 w = (o', w2)
                 /\ Obs.count_fetch (Notion.api_request s method endpoint body)
                      (Sys.EvFetch (Notion.api_request s method endpoint body) :: granting)
                    = 1%nat)))
  /\ (forall service endpoint options,
     Frame.at_most 2 (Office.api_request s endpoint options) (Office.grant_request service)
       (Office.apiRequest env service fuel endpoint options 0) w
     /\ (Frame.always_retryable env OfficeAuth.isAutoRequestError
           (Office.api_request s endpoint options) ->
         forall o w2,
           Office.ensureGrant env service (S fuel)
             (snd (Sys.fetch env (Office.api_request s endpoint options) w)) = (o, w2) ->
           exists granting,
             Forall (Frame.grant_event (Office.grant_request service)) granting
             /\ Sys.log w2
                = (Sys.log w
                   ++ Sys.EvFetch (Office.api_request s endpoint options) :: granting)%list
             /\ (o = Sys.Ret tt ->
                 Office.apiRequest env service (S (S fuel)) endpoint options 0 w
                 = (Sys.Exit 1,
                    Sys.say (snd (Sys.fetch env (Office.api_request s endpoint options) w2))
                      (Obs.office_no_grant (Office.service_name service)))
                 /\ Sys.log
                      (Sys.say (snd (Sys.fetch env (Office.api_request s endpoint options) w2))
                         (Obs.office_no_grant (Office.service_name service)))
                    = (Sys.log w
                       ++ Sys.EvFetch (Office.api_request s endpoint options)
                       :: granting
                       ++ Sys.EvFetch (Office.api_request s endpoint options)
                       :: map Sys.EvStderr (Obs.office_no_grant (Office.service_name service)))%list
                 /\ Obs.count_fetch (Office.api_request s endpoint options)
                      (Sys.EvFetch (Office.api_request s endpoint options)
                       :: granting
                       ++ Sys.EvFetch (Office.api_request s endpoint options)
                       :: map Sys.EvStderr (Obs.office_no_grant (Office.service_name service)))
                    = 2%nat)
             /\ (forall o', Sys.failure o = Some o' ->
                 Office.apiRequest env service (S (S fuel)) endpoint options 0 w = (o', w2)
                 /\ Obs.count_fetch (Office.api_request s endpoint options)
                      (Sys.EvFetch (Office.api_request s endpoint options) :: granting)
                    = 1%nat))).
Proof.
  intros Hs Hon. split.
  - intros method endpoint body. split.
    + now apply notionApi_first_attempt.
    + intros Hre o w2 Hgrant. now apply notionApi_retry_cases.
  - intros service endpoint options. split.
    + now apply apiRequest_first_attempt.
    + intros Hre o w2 Hgrant. now apply apiRequest_retry_cases.
Qed.

Lemma refusing_proxy_retryable (grant poll : Js.Json) :
  Frame.always_retryable (rt := Ref.runtime) (refusing_proxy grant poll)
    (NotionAuth.isAutoRequestError) users_me.
Proof.
  intros t h. eexists. split; [reflexivity|].
  split; [reflexivity|]. eexists. repeat split; vm_compute; reflexivity.
Qed.

Lemma pipeline_retries_once_witness :
  Notion.notionApi (rt := Ref.runtime) (cfg := Ref.config)
    (refusing_proxy auto_approved Js.JNull) 2 "GET" "/users/me" None 0 (saved SESSION)
  = (Sys.Exit 1,
     Sys.say
       (snd (Sys.fetch (refusing_proxy auto_approved Js.JNull) users_me
               (snd (Notion.ensureGrant (rt := Ref.runtime) (cfg := Ref.config)
                       (refusing_proxy auto_approved Js.JNull) 1
                       (snd (Sys.fetch (refusing_proxy auto_approved Js.JNull) users_me
                               (saved SESSION)))))))
       Obs.notion_no_grant).
Proof.
  destruct (proj2 (proj1 (pipeline_retries_once (rt := Ref.runtime) (cfg := Ref.config)
                            (refusing_proxy auto_approved Js.JNull) (saved SESSION) SESSION 0
                            eq_refl eq_refl)
                     "GET" "/users/me" None)
              (refusing_proxy_retryable auto_approved Js.JNull)
              (Sys.Ret tt)
              (snd (Notion.ensureGrant (rt := Ref.runtime) (cfg := Ref.config)
                      (refusing_proxy auto_approved Js.JNull) 1
                      (snd (Sys.fetch (refusing_proxy auto_approved Js.JNull) users_me
                              (saved SESSION)))))
              eq_refl)
    as [granting [_ [_ [Hdone _]]]].
  exact (proj1 (Hdone eq_refl)).
Defined.

Example retry_run :
  Obs.fetches
    (Sys.log (snd (Notion.notionApi (rt := Ref.runtime) (cfg := Ref.config)
                     (refusing_proxy auto_approved Js.JNull) 2 "GET" "/users/me" None 0
                     (saved SESSION))))
  = [ users_me;
      Grant.auth_request (rt := Ref.runtime) (cfg := Ref.config) Notion.grant_request SESSION;
      users_me ].
Proof. vm_compute. reflexivity. Qed.

(** C1, counterexample: the downstream answers every proxied call with
    403 no_grant, automatic grant requests are enabled, and the operator denies
    the request.  The call ends with the denial after a single attempt. *)
Lemma denied_grant_single_attempt :
  fst (Notion.notionApi (rt := Ref.runtime) (cfg := Ref.config)
         (refusing_proxy needs_approval (status_body "denied")) 5 "GET" "/users/me" None 0
         (saved SESSION))
  = Sys.Throw "Authorization denied."
  /\ Obs.fetches
       (Sys.log (snd (Notion.notionApi (rt := Ref.runtime) (cfg := Ref.config)
                        (refusing_proxy needs_approval (status_body "denied")) 5
                        "GET" "/users/me" None 0 (saved SESSION))))
     = [ users_me;
         Grant.auth_request (rt := Ref.runtime) (cfg := Ref.config) Notion.grant_request SESSION;
         Grant.poll_request (rt := Ref.runtime) POLL_URL SESSION ]
  /\ Obs.count_fetch users_me
       (Sys.log (snd (Notion.notionApi (rt := Ref.runtime) (cfg := Ref.config)
                        (refusing_proxy needs_approval (status_body "denied")) 5
                        "GET" "/users/me" None 0 (saved SESSION))))
     = 1%nat
  /\ Session.AUTO_REQUEST_ENABLED (Config := Ref.config) = true
  /\ Frame.always_retryable (rt := Ref.runtime)
       (refusing_proxy needs_approval (status_body "denied"))
       NotionAuth.isAutoRequestError users_me.
Proof.
  split; [vm_compute; reflexivity|]. split; [vm_compute; reflexivity|].
  split; [vm_compute; reflexivity|]. split; [reflexivity|].
  apply refusing_proxy_retryable.
Qed.

(** * Further properties of the two scripts *)

(** ** The pipeline on answers that are no auth errors *)

Section PipelineErrors.
Import Js Sys Session Http Obs.
Context {rt : Runtime} {cfg : Config}.
Variable env : Env.

(** [describeAuthError] of notion-query.js only writes lines to standard
    error. *)
Lemma notion_describe_says (data : Json) (w : World) :
  exists lines, NotionAuth.describeAuthError data w = (Ret tt, say w lines).
Proof.
  unfold NotionAuth.describeAuthError.
  destruct (if_chain (NotionAuth.normalizeAuthError data));
    try (rewrite ?bind_say, ?console_error_say, ?say_say; eexists; reflexivity).
  - rewrite bind_say.
    destruct (get "missingScopes" (NotionAuth.normalizeAuthError data)) as [[| | | |[|x r]|]|];
      try (unfold bind at 1, ret; cbn iota beta;
           rewrite ?bind_say, ?console_error_say, ?say_say; eexists; reflexivity).
    unfold bind at 1. rewrite console_error_say.
    rewrite ?bind_say, ?console_error_say, ?say_say. eexists; reflexivity.
  - destruct (truthyV _ || truthyV _).
    + rewrite console_error_say. eexists; reflexivity.
    + exists []. unfold say, ret. simpl. rewrite app_nil_r. now destruct w.
Qed.

(** [describeAuthError] of office-cli.js writes lines to standard error and
    may then throw. *)
Lemma office_describe_says (data : Json) (service : string) (w : World) :
  exists o lines, OfficeAuth.describeAuthError data service w = (o, say w lines)
                  /\ (o = Ret tt \/ exists msg, o = Throw msg).
Proof.
  assert (Hnil : forall o : Outcome unit, (o, w) = (o, say w [])).
  { intros o. unfold say. simpl. rewrite app_nil_r. now destruct w. }
  unfold OfficeAuth.describeAuthError.
  destruct data; try (exists (Throw "TypeError: Cannot read properties of null"), [];
                      split; [apply Hnil | right; eexists; reflexivity]);
  match goal with
  | |- context [if_chain ?d] => destruct (if_chain d)
  end;
    try (rewrite ?bind_say, ?console_error_say, ?say_say;
         eexists (Ret tt), _; split; [reflexivity | now left]);
    rewrite bind_say;
    match goal with
    | |- context [match ?m with _ => _ end] =>
        destruct m as [[| | |[|c str]|[|x r]|fs]|]
    end;
    try (unfold bind at 1, ret; cbn iota beta;
         rewrite ?bind_say, ?console_error_say, ?say_say;
         eexists (Ret tt), _; split; [reflexivity | now left]);
    try (unfold bind at 1, throw; cbn iota beta;
         eexists (Throw _), _; split; [reflexivity | right; eexists; reflexivity]).
  all: try (unfold bind at 1; rewrite console_error_say;
            rewrite ?bind_say, ?console_error_say, ?say_say;
            eexists (Ret tt), _; split; [reflexivity | now left]).
  all: unfold bind at 1; destruct (truthyV (assoc "length" fs));
    [ eexists (Throw _), _; split; [reflexivity | right; eexists; reflexivity]
    | unfold ret; cbn iota beta; rewrite ?bind_say, ?console_error_say, ?say_say;
      eexists (Ret tt), _; split; [reflexivity | now left] ].
Qed.

Lemma say_nil_r (w : World) : say w [] = w.
Proof. unfold say. simpl. rewrite app_nil_r. now destruct w. Qed.

End PipelineErrors.

(** X1. An answer that is not OK and is no auth error (its status is none of
    401, 403, 429) is never retried and starts no grant flow.  With a session
    on file, notionApi issues its request once, may report the error on
    standard error, and throws or exits with code 1; apiRequest of
    office-cli.js issues its request once and throws; fetchGraphContent
    hands any answer that is no auth error back to its caller after one
    request. *)
Theorem plain_error_single_attempt {rt : Js.Runtime} {cfg : Session.Config}
  (env : Sys.Env) (w : Sys.World) (s : string) (resp : Sys.Response) :
  fst (Session.getAgentSession w) = Sys.Ret (Some s) ->
  Http.is_auth_status resp = false ->
  (forall method endpoint body attempt fuel,
      Sys.ok resp = false ->
      Sys.respond env (Sys.now w) (Sys.log w) (Notion.api_request s method endpoint body)
      = Some resp ->
      exists o lines,
        Notion.notionApi env (S fuel) method endpoint body attempt w
        = (o, Sys.say (snd (Sys.fetch env (Notion.api_request s method endpoint body) w)) lines)
        /\ ((exists msg, o = Sys.Throw msg) \/ o = Sys.Exit 1))
  /\ (forall service endpoint options attempt fuel,
      Sys.ok resp = false ->
      Sys.respond env (Sys.now w) (Sys.log w) (Office.api_request s endpoint options)
      = Some resp ->
      exists msg,
        Office.apiRequest env service (S fuel) endpoint options attempt w
        = (Sys.Throw msg, snd (Sys.fetch env (Office.api_request s endpoint options) w)))
  /\ (forall service endpoint attempt fuel,
      Sys.respond env (Sys.now w) (Sys.log w) (Office.content_request s endpoint)
      = Some resp ->
      Office.fetchGraphContent env service (S fuel) endpoint attempt w
      = (Sys.Ret resp, snd (Sys.fetch env (Office.content_request s endpoint) w))).
Proof.
  intros Hs Hauth. split; [|split].
  - intros method endpoint body attempt fuel Hok Hresp.
    simpl. unfold Sys.bind at 1. rewrite (require_session_some _ w s Hs).
    unfold Sys.bind at 1. unfold Sys.fetch at 1. rewrite Hresp.
    unfold Sys.fetch. rewrite Hresp. cbn [snd].
    rewrite Hauth.
    destruct (Http.readErrorBody resp) as [data text]. rewrite Hok. cbn [negb].
    set (w1 := {| Sys.fs := _ |}).
    destruct (Js.truthy data).
    + match goal with
      | |- context [if ?c then _ else Sys.ret tt] => destruct c
      end.
      * unfold Sys.bind at 1. unfold Sys.bind at 1.
        destruct (notion_describe_says data w1) as [lines ->].
        exists (Sys.Exit 1), lines. split; [reflexivity | now right].
      * unfold Sys.bind at 1, Sys.ret. cbn iota beta.
        exists (Sys.Throw
                  (if Js.truthyV (Js.get "error" data) || Js.truthyV (Js.get "message" data)
                   then Js.ToStringV (Js.or_js (Js.get "message" data) (Js.get "error" data))
                   else Http.or_text text
                          ("Error: " ++ Str.of_Z (Sys.status resp) ++ " "
                           ++ Sys.statusText resp))), [].
        rewrite say_nil_r. split; [|left; eexists; reflexivity].
        now destruct (Js.truthyV (Js.get "error" data) || Js.truthyV (Js.get "message" data)).
    + unfold Sys.bind at 1, Sys.ret. cbn iota beta.
      exists (Sys.Throw
                (if Js.truthyV (Js.get "error" data) || Js.truthyV (Js.get "message" data)
                 then Js.ToStringV (Js.or_js (Js.get "message" data) (Js.get "error" data))
                 else Http.or_text text
                        ("Error: " ++ Str.of_Z (Sys.status resp) ++ " "
                         ++ Sys.statusText resp))), [].
      rewrite say_nil_r. split; [|left; eexists; reflexivity].
      now destruct (Js.truthyV (Js.get "error" data) || Js.truthyV (Js.get "message" data)).
  - intros service endpoint options attempt fuel Hok Hresp.
    simpl. unfold Sys.bind at 1. rewrite (require_session_some _ w s Hs).
    unfold Sys.bind at 1. unfold Sys.fetch. rewrite Hresp. cbn [snd].
    rewrite Hauth, Hok. cbn [negb].
    destruct (Http.readErrorBody resp) as [data text].
    destruct (Js.truthyV (Js.get "error" data) || Js.truthyV (Js.get "message" data));
      eexists; reflexivity.
  - intros service endpoint attempt fuel Hresp.
    simpl. unfold Sys.bind at 1. rewrite (require_session_some _ w s Hs).
    unfold Sys.bind at 1. unfold Sys.fetch. rewrite Hresp. cbn [snd].
    now rewrite Hauth.
Qed.

Lemma plain_error_single_attempt_witness :
  exists msg,
    Office.apiRequest (rt := Ref.runtime) (cfg := Ref.config)
      (always (Ref.json_response 404 (Js.JObj [("message", Js.JStr "Item not found")])))
      Office.drive 1 "/me/drive/items/42" Office.no_options 0 (saved SESSION)
    = (Sys.Throw msg,
       snd (Sys.fetch
              (always (Ref.json_response 404 (Js.JObj [("message", Js.JStr "Item not found")])))
              (Office.api_request (cfg := Ref.config)
                 SESSION "/me/drive/items/42" Office.no_options)
              (saved SESSION))).
Proof.
  apply (proj1 (proj2 (plain_error_single_attempt (rt := Ref.runtime) (cfg := Ref.config)
                         (always (Ref.json_response 404
                                    (Js.JObj [("message", Js.JStr "Item not found")])))
                         (saved SESSION) SESSION
                         (Ref.json_response 404
                            (Js.JObj [("message", Js.JStr "Item not found")]))
                         eq_refl eq_refl))
           Office.drive "/me/drive/items/42" Office.no_options 0 0%nat eq_refl eq_refl).
Defined.

(** X2. In a process started with OFFICE_AUTO_REQUEST=0 the pipeline never
    contacts the broker and never retries: [ensureGrant] returns at once
    without doing anything, and with a session on file notionApi,
    apiRequest and fetchGraphContent issue their request exactly once,
    whatever the network answers, and add nothing to the log after it but
    lines on standard error. *)
Theorem disabled_auto_request_single_attempt {rt : Js.Runtime} {cfg : Session.Config}
  (env : Sys.Env) (w : Sys.World) (s : string) :
  Session.AUTO_REQUEST_ENABLED = false ->
  fst (Session.getAgentSession w) = Sys.Ret (Some s) ->
  (forall fuel, Notion.ensureGrant env fuel w = (Sys.Ret tt, w))
  /\ (forall service fuel, Office.ensureGrant env service fuel w = (Sys.Ret tt, w))
  /\ (forall method endpoint body attempt fuel,
      exists o lines,
        Notion.notionApi env (S fuel) method endpoint body attempt w
        = (o, Sys.say (snd (Sys.fetch env (Notion.api_request s method endpoint body) w)) lines)
        /\ o <> Sys.OutOfFuel)
  /\ (forall service endpoint options attempt fuel,
      exists o lines,
        Office.apiRequest env service (S fuel) endpoint options attempt w
        = (o, Sys.say (snd (Sys.fetch env (Office.api_request s endpoint options) w)) lines)
        /\ o <> Sys.OutOfFuel)
  /\ (forall service endpoint attempt fuel,
      exists o lines,
        Office.fetchGraphContent env service (S fuel) endpoint attempt w
        = (o, Sys.say (snd (Sys.fetch env (Office.content_request s endpoint) w)) lines)
        /\ o <> Sys.OutOfFuel).
Proof.
  intros Hoff Hs.
  assert (Hend : forall (A : Type) (o : Sys.Outcome A) (w1 : Sys.World),
             o <> Sys.OutOfFuel ->
             exists o' lines, (o, w1) = (o', Sys.say w1 lines) /\ o' <> Sys.OutOfFuel).
  { intros A o w1 Ho. exists o, []. now rewrite say_nil_r. }
  split; [|split; [|split; [|split]]].
  - intros fuel. unfold Notion.ensureGrant, Grant.ensureGrant. now rewrite Hoff.
  - intros service fuel. unfold Office.ensureGrant, Grant.ensureGrant. now rewrite Hoff.
  - intros method endpoint body attempt fuel.
    simpl. unfold Sys.bind at 1. rewrite (require_session_some _ w s Hs).
    unfold Sys.bind at 1. unfold Sys.fetch.
    destruct (Sys.respond env (Sys.now w) (Sys.log w) _) as [resp|]; cbn [snd];
      [|apply Hend; discriminate].
    set (w1 := {| Sys.fs := _ |}).
    rewrite Hoff, andb_false_r. cbn [andb].
    destruct (Http.readErrorBody resp) as [data text].
    destruct (Http.is_auth_status resp).
    + destruct (Js.truthy data); [|apply Hend; discriminate].
      unfold Sys.bind at 1.
      destruct (notion_describe_says data w1) as [lines ->].
      exists (Sys.Exit 1), lines. split; [reflexivity | discriminate].
    + destruct (Sys.ok resp); cbn [negb].
      * destruct (Js.is_str (Js.get "object" data) "error"); apply Hend; discriminate.
      * destruct (Js.truthy data).
        -- match goal with
           | |- context [if ?c then _ else Sys.ret tt] => destruct c
           end.
           ++ unfold Sys.bind at 1. unfold Sys.bind at 1.
              destruct (notion_describe_says data w1) as [lines ->].
              exists (Sys.Exit 1), lines. split; [reflexivity | discriminate].
           ++ unfold Sys.bind at 1, Sys.ret. cbn iota beta.
              destruct (Js.truthyV (Js.get "error" data) || Js.truthyV (Js.get "message" data));
                apply Hend; discriminate.
        -- unfold Sys.bind at 1, Sys.ret. cbn iota beta.
           destruct (Js.truthyV (Js.get "error" data) || Js.truthyV (Js.get "message" data));
             apply Hend; discriminate.
  - intros service endpoint options attempt fuel.
    simpl. unfold Sys.bind at 1. rewrite (require_session_some _ w s Hs).
    unfold Sys.bind at 1. unfold Sys.fetch.
    destruct (Sys.respond env (Sys.now w) (Sys.log w) _) as [resp|]; cbn [snd];
      [|apply Hend; discriminate].
    set (w1 := {| Sys.fs := _ |}).
    rewrite Hoff, andb_false_r. cbn [andb].
    destruct (Http.is_auth_status resp).
    + destruct (Http.readErrorBody resp) as [data text].
      destruct (Js.truthy data); [|apply Hend; discriminate].
      unfold Sys.bind at 1.
      destruct (office_describe_says data (Office.service_name service) w1)
        as [o [lines [-> [-> | [msg ->]]]]].
      * exists (Sys.Exit 1), lines. split; [reflexivity | discriminate].
      * exists (Sys.Throw msg), lines. split; [reflexivity | discriminate].
    + destruct (Sys.ok resp); cbn [negb].
      * unfold Http.response_json.
        destruct (Js.JSON_parse (Sys.text resp)); apply Hend; discriminate.
      * destruct (Http.readErrorBody resp) as [data text].
        destruct (Js.truthyV (Js.get "error" data) || Js.truthyV (Js.get "message" data));
          apply Hend; discriminate.
  - intros service endpoint attempt fuel.
    simpl. unfold Sys.bind at 1. rewrite (require_session_some _ w s Hs).
    unfold Sys.bind at 1. unfold Sys.fetch.
    destruct (Sys.respond env (Sys.now w) (Sys.log w) _) as [resp|]; cbn [snd];
      [|apply Hend; discriminate].
    set (w1 := {| Sys.fs := _ |}).
    rewrite Hoff, andb_false_r. cbn [andb].
    destruct (Http.is_auth_status resp); [|apply Hend; discriminate].
    destruct (Http.readErrorBody resp) as [data text].
    destruct (Js.truthy data); [|apply Hend; discriminate].
    unfold Sys.bind at 1.
    destruct (office_describe_says data (Office.service_name service) w1)
      as [o [lines [-> [-> | [msg ->]]]]].
    + exists (Sys.Exit 1), lines. split; [reflexivity | discriminate].
    + exists (Sys.Throw msg), lines. split; [reflexivity | discriminate].
Qed.

Lemma disabled_auto_request_single_attempt_witness :
  Notion.ensureGrant (rt := Ref.runtime) (cfg := manual_config) offline 3
    (snd (Session.saveAgentSession (rt := Ref.runtime) (cfg := manual_config)
            SESSION fresh_world))
  = (Sys.Ret tt,
     snd (Session.saveAgentSession (rt := Ref.runtime) (cfg := manual_config)
            SESSION fresh_world)).
Proof.
  apply (proj1 (disabled_auto_request_single_attempt (rt := Ref.runtime) (cfg := manual_config)
                  offline
                  (snd (Session.saveAgentSession (rt := Ref.runtime) (cfg := manual_config)
                          SESSION fresh_world))
                  SESSION eq_refl eq_refl)).
Defined.

(** X3. Whatever the network does, a value that notionApi returns is truthy
    and is no Notion error object: an empty or [null] body of an OK answer is
    returned as the empty object, and a body whose [object] is "error" is
    thrown, also after the retry.  Callers may read properties of the result
    without a check. *)
Theorem notionApi_returns_object {rt : Js.Runtime} {cfg : Session.Config}
  (env : Sys.Env) (fuel : nat) (method endpoint : string) (body : Js.JsVal)
  (attempt : Z) (w : Sys.World) :
  match fst (Notion.notionApi env fuel method endpoint body attempt w) with
  | Sys.Ret v => Js.truthy v = true /\ Js.is_str (Js.get "object" v) "error" = false
  | _ => True
  end.
Proof.
  revert attempt w. induction fuel as [|fuel IH]; intros attempt w; [exact I|].
  simpl. unfold Sys.bind at 1.
  destruct (Session.require_session _ w) as [[s| | |] w0]; try exact I.
  unfold Sys.bind at 1.
  destruct (Sys.fetch _ _ w0) as [[resp| | |] w1]; try exact I.
  destruct (Http.readErrorBody resp) as [data text].
  destruct (Http.is_auth_status resp).
  - destruct ((attempt =? 0) && Session.AUTO_REQUEST_ENABLED
              && NotionAuth.isAutoRequestError data).
    + unfold Sys.bind at 1.
      destruct (Notion.ensureGrant env fuel w1) as [[[]| | |] w2]; try exact I.
      apply IH.
    + destruct (Js.truthy data); [|exact I].
      unfold Sys.bind at 1.
      destruct (NotionAuth.describeAuthError data w1) as [[[]| | |] w2]; exact I.
  - destruct (Sys.ok resp); cbn [negb].
    + destruct (Js.is_str (Js.get "object" data) "error") eqn:Herr; [exact I|].
      cbn [fst Sys.ret].
      destruct (Js.truthy data) eqn:Ht; [now split | split; reflexivity].
    + unfold Sys.bind at 1.
      match goal with
      | |- context [(if Js.truthy data then ?a else ?b) w1] =>
          destruct ((if Js.truthy data then a else b) w1) as [[[]| | |] w2]; try exact I
      end.
      destruct (Js.truthyV (Js.get "error" data) || Js.truthyV (Js.get "message" data));
        exact I.
Qed.

(** An OK answer with an empty body: the call returns the empty object. *)
Example notionApi_empty_body_run :
  fst (Notion.notionApi (rt := Ref.runtime) (cfg := Ref.config)
         (always {| Sys.status := 200; Sys.statusText := "OK"; Sys.resp_headers := [];
                    Sys.text := EmptyString |})
         1 "PATCH" "/blocks/b1" (Some (Js.JObj [("archived", Js.JBool true)])) 0
         (saved SESSION))
  = Sys.Ret (Js.JObj []).
Proof. vm_compute. reflexivity. Qed.

(** ** The grant flow *)

Section GrantAnswers.
Import Js Sys Session Http Obs Scenario.
Context {rt : Runtime} {cfg : Config}.
Variable env : Env.
Variable no_session_message : string.
Variable describe : Json -> M unit.
Variable pollUrl : JsVal.
Variable s : string.

Let req : Request := Grant.poll_request pollUrl s.

Lemma poll_answer_body (st : string) (resp : Response) :
  poll_answer st resp ->
  ok resp = true /\ exists body, JSON_parse (text resp) = Some body
                                 /\ get "status" body = Some (JStr st) /\ body <> JNull.
Proof.
  intros [Hok [body [Hjson Hst]]]. split; [assumption|].
  exists body. repeat split; try assumption. intros ->. discriminate.
Qed.

Lemma strict_eq_last (st : string) (prev : option string) :
  negb (strict_eq (Some (JStr st)) (last_of prev)) = status_changed prev st.
Proof. destruct prev; reflexivity. Qed.

(** One poll answered with an open status. *)
Lemma poll_open_step (fuel : nat) (d : Z) (prev : option string) (w : World)
  (resp : Response) (st : string) :
  now w < d ->
  respond env (now w) (log w) req = Some resp ->
  poll_answer st resp -> open_status st = true ->
  Grant.poll_loop env describe (S fuel) pollUrl s (Some d) (last_of prev) w
  = Grant.poll_loop env describe fuel pollUrl s (Some d) (last_of (Some st))
      {| fs := fs w;
         now := now w + Z.of_N (latency env (log w) req) + AUTO_REQUEST_POLL_MS
                + Z.of_N (oversleep env
                            ((log w ++ [EvFetch req])
                             ++ (if String.eqb st "oauth_pending" && status_changed prev st
                                 then [EvStderr OAUTH_HINT] else [])));
         log := ((log w ++ [EvFetch req])
                 ++ (if String.eqb st "oauth_pending" && status_changed prev st
                     then [EvStderr OAUTH_HINT] else []))
                ++ [EvSleep AUTO_REQUEST_POLL_MS] |}.
Proof.
  intros Ht Hresp Hans Hopen.
  apply poll_answer_body in Hans as [Hok [body [Hjson [Hst Hnull]]]].
  unfold open_status in Hopen.
  apply andb_prop in Hopen as [Hopen Hexp]. apply andb_prop in Hopen as [Happ Hden].
  apply negb_true_iff in Happ, Hden, Hexp.
  simpl. unfold bind at 1. simpl.
  apply Z.ltb_lt in Ht. rewrite Ht.
  unfold bind at 1. unfold fetch. fold req. rewrite Hresp. rewrite Hok. simpl.
  unfold bind at 1. unfold Http.response_json. rewrite Hjson. unfold ret at 1.
  cbn iota beta.
  destruct body; try discriminate Hst. rewrite Hst.
  unfold is_str. rewrite Happ, Hden, Hexp.
  rewrite (strict_eq_last st prev).
  rewrite (andb_comm (status_changed prev st)).
  destruct prev as [p|]; cbn [status_changed last_of].
  - destruct (String.eqb st p) eqn:E; cbn [negb].
    + apply String.eqb_eq in E. subst p. rewrite andb_false_r.
      unfold bind, sleep, ret; cbn. rewrite ?app_nil_r. reflexivity.
    + rewrite andb_true_r.
      destruct (String.eqb st "oauth_pending");
        unfold bind, console_error, emit, sleep, ret; cbn; rewrite ?app_nil_r; reflexivity.
  - rewrite andb_true_r.
    destruct (String.eqb st "oauth_pending");
      unfold bind, console_error, emit, sleep, ret; cbn; rewrite ?app_nil_r; reflexivity.
Qed.

Lemma poll_loop_scripted (d L J : Z) :
  (forall h r, Z.of_N (latency env h r) <= L) ->
  (forall h, Z.of_N (oversleep env h) <= J) ->
  forall (sts : list string) (fuel : nat) (prev : option string) (w : World) (k : nat),
  (length sts < fuel)%nat ->
  now w + Z.of_nat (length sts) * (L + AUTO_REQUEST_POLL_MS + J) < d ->
  count_fetch req (log w) = k ->
  forallb open_status sts = true ->
  scripted env req k (sts ++ ["approved"]) ->
  exists w', Grant.poll_loop env describe fuel pollUrl s (Some d) (last_of prev) w = (Ret tt, w')
             /\ log w' = (log w ++ hinted_trace req prev sts)%list.
Proof.
  intros HL HJ. induction sts as [|st sts IH]; intros fuel prev w k Hfuel Htime Hk Hopen Hscr.
  - destruct fuel as [|fuel]; [simpl in Hfuel; lia|].
    destruct (Hscr (now w) (log w) O "approved") as [resp [Hresp Hans]];
      [lia | reflexivity |].
    simpl in Htime.
    apply (poll_approved env describe pollUrl s fuel d (last_of prev) w resp);
      [lia | assumption | assumption].
  - destruct fuel as [|fuel]; [simpl in Hfuel; lia|].
    simpl in Hopen. apply andb_prop in Hopen as [Hst Hopen].
    destruct (Hscr (now w) (log w) O st) as [resp [Hresp Hans]]; [lia | reflexivity |].
    pose proof (HL (log w) req) as Hl.
    pose proof (N2Z.is_nonneg (latency env (log w) req)) as Hl0.
    cbn [length] in Htime, Hfuel.
    unfold AUTO_REQUEST_POLL_MS in *.
    rewrite Nat2Z.inj_succ, Z.mul_succ_l in Htime.
    pose proof (HJ []) as HJ0. pose proof (N2Z.is_nonneg (oversleep env [])) as HJ1.
    assert (Hrounds : 0 <= Z.of_nat (length sts) * (L + 2000 + J))
      by (apply Z.mul_nonneg_nonneg; lia).
    rewrite (poll_open_step fuel d prev w resp st); [|lia|assumption|assumption|assumption].
    unfold AUTO_REQUEST_POLL_MS.
    match goal with
    | |- exists w', Grant.poll_loop _ _ _ _ _ _ _ ?w2 = _ /\ _ =>
        pose proof (HJ ((log w ++ [EvFetch req])
                        ++ (if String.eqb st "oauth_pending" && status_changed prev st
                            then [EvStderr OAUTH_HINT] else []))%list) as Hj;
        pose proof (N2Z.is_nonneg
                      (oversleep env ((log w ++ [EvFetch req])
                        ++ (if String.eqb st "oauth_pending" && status_changed prev st
                            then [EvStderr OAUTH_HINT] else []))%list)) as Hj0;
        destruct (IH fuel (Some st) w2 (S k)) as [w' [Hrun Hlog]]
    end.
    + lia.
    + simpl. lia.
    + simpl. rewrite !count_fetch_app, count_fetch_one, Hk.
      change (count_fetch req [EvSleep 2000]) with O.
      destruct (String.eqb st "oauth_pending" && status_changed prev st);
        [change (count_fetch req [EvStderr OAUTH_HINT]) with O
        |change (count_fetch req []) with O]; lia.
    + assumption.
    + intros t h i st' Hc Hn. apply (Hscr t h (S i) st'); [lia | exact Hn].
    + exists w'. split; [exact Hrun|]. rewrite Hlog. cbn [log hinted_trace].
      unfold AUTO_REQUEST_POLL_MS.
      rewrite <- !app_assoc. reflexivity.
Qed.

Lemma hints_of_repeated (r : Request) (n : nat) :
  length (filter is_hint (hinted_trace r (Some "oauth_pending") (repeat "oauth_pending" n)))
  = O.
Proof. induction n as [|n IH]; [reflexivity|]. simpl. exact IH. Qed.

End GrantAnswers.

(** X4. While [waitForGrantApproval] polls, the line "OAuth connection
    required. ..." is printed when an answer changes the status to
    "oauth_pending", not at every poll.  If the polls are answered in turn
    with the open statuses [sts] and then with "approved" before the
    deadline, the call returns and has added to the log one GET and one sleep
    per open answer, the hint right after each GET whose answer is
    "oauth_pending" and differs from the answer before, and the last GET;
    any number of "oauth_pending" answers in a row print the hint once. *)
Theorem oauth_hint_on_change {rt : Js.Runtime} {cfg : Session.Config}
  (env : Sys.Env) (sts : list string) (pollUrl expiresAt : Js.JsVal) (w : Sys.World)
  (s : string) (d L J : Z) (fuel : nat) :
  fst (Session.getAgentSession w) = Sys.Ret (Some s) ->
  Grant.grant_deadline expiresAt (Sys.now w) = Some d ->
  (forall h r, Z.of_N (Sys.latency env h r) <= L) ->
  (forall h, Z.of_N (Sys.oversleep env h) <= J) ->
  Sys.now w + Z.of_nat (length sts) * (L + Sys.AUTO_REQUEST_POLL_MS + J) < d ->
  forallb Scenario.open_status sts = true ->
  Scenario.scripted env (Grant.poll_request pollUrl s)
    (Obs.count_fetch (Grant.poll_request pollUrl s) (Sys.log w)) (sts ++ ["approved"]) ->
  (length sts < fuel)%nat ->
  (exists w', Notion.waitForGrantApproval env fuel pollUrl expiresAt w = (Sys.Ret tt, w')
              /\ Sys.log w'
                 = (Sys.log w
                    ++ Scenario.hinted_trace (Grant.poll_request pollUrl s) None sts)%list)
  /\ (exists w', Office.waitForGrantApproval env fuel pollUrl expiresAt w = (Sys.Ret tt, w')
              /\ Sys.log w'
                 = (Sys.log w
                    ++ Scenario.hinted_trace (Grant.poll_request pollUrl s) None sts)%list)
  /\ (forall n,
        length (filter Scenario.is_hint
                  (Scenario.hinted_trace (Grant.poll_request pollUrl s) None
                     (repeat "oauth_pending" (S n)))) = 1%nat).
Proof.
  intros Hs Hd HL HJ Htime Hopen Hscr Hfuel.
  split; [|split].
  - unfold Notion.waitForGrantApproval.
    rewrite (waitForGrantApproval_loop env _ _ pollUrl s fuel expiresAt w Hs), Hd.
    now apply (poll_loop_scripted env _ pollUrl s d L J HL HJ sts fuel None w
                 (Obs.count_fetch (Grant.poll_request pollUrl s) (Sys.log w))).
  - unfold Office.waitForGrantApproval.
    rewrite (waitForGrantApproval_loop env _ _ pollUrl s fuel expiresAt w Hs), Hd.
    now apply (poll_loop_scripted env _ pollUrl s d L J HL HJ sts fuel None w
                 (Obs.count_fetch (Grant.poll_request pollUrl s) (Sys.log w))).
  - intros n. cbn. now rewrite hints_of_repeated.
Qed.

Lemma oauth_hint_on_change_witness :
  exists w',
    Notion.waitForGrantApproval (rt := Ref.runtime) (cfg := Ref.config)
      (scripted_broker ["oauth_pending"; "oauth_pending"]) 3 POLL_URL None (saved SESSION)
    = (Sys.Ret tt, w')
    /\ Sys.log w'
       = (Sys.log (saved SESSION)
          ++ Scenario.hinted_trace (Grant.poll_request (rt := Ref.runtime) POLL_URL SESSION)
               None ["oauth_pending"; "oauth_pending"])%list.
Proof.
  apply (oauth_hint_on_change (rt := Ref.runtime) (cfg := Ref.config)
           (scripted_broker ["oauth_pending"; "oauth_pending"])
           ["oauth_pending"; "oauth_pending"] POLL_URL None (saved SESSION) SESSION
           300000 100 5 3).
  - reflexivity.
  - reflexivity.
  - intros h r. simpl. lia.
  - intros h. simpl. lia.
  - vm_compute. reflexivity.
  - reflexivity.
  - intros t h i st Hc Hn. eexists. split; [reflexivity|].
    rewrite Hc. change (Obs.count_fetch _ (Sys.log (saved SESSION))) with O.
    destruct i as [|[|[|i]]]; simpl in Hn; try (destruct i; discriminate Hn);
      inversion Hn; subst;
      (split; [reflexivity|]); eexists; split; vm_compute; reflexivity.
  - simpl. lia.
Defined.

(** The hint is printed once in a run with two "oauth_pending" answers. *)
Example oauth_hint_run :
  filter Scenario.is_hint
    (Sys.log (snd (Office.waitForGrantApproval (rt := Ref.runtime) (cfg := Ref.config)
                     (scripted_broker ["pending"; "oauth_pending"; "oauth_pending"]) 4
                     POLL_URL None (saved SESSION))))
  = [Sys.EvStderr Scenario.OAUTH_HINT].
Proof. vm_compute. reflexivity. Qed.

(** X5. A poll that is answered "denied" or "expired" before the deadline
    ends [waitForGrantApproval] at once: the call throws the [message] of the
    answer when it has a truthy one, otherwise "Authorization denied." or
    "Authorization request expired.", after that one GET and without a
    sleep. *)
Theorem poll_decided_against {rt : Js.Runtime} {cfg : Session.Config}
  (env : Sys.Env) (pollUrl expiresAt : Js.JsVal) (w : Sys.World) (s : string) (d : Z)
  (resp : Sys.Response) (body : Js.Json) (st : string) (fuel : nat) :
  fst (Session.getAgentSession w) = Sys.Ret (Some s) ->
  Grant.grant_deadline expiresAt (Sys.now w) = Some d ->
  Sys.now w < d ->
  Sys.respond env (Sys.now w) (Sys.log w) (Grant.poll_request pollUrl s) = Some resp ->
  Sys.ok resp = true ->
  Js.JSON_parse (Sys.text resp) = Some body ->
  Js.get "status" body = Some (Js.JStr st) ->
  st = "denied" \/ st = "expired" ->
  Notion.waitForGrantApproval env (S fuel) pollUrl expiresAt w
  = (Sys.Throw
       (Js.ToStringV
          (Js.or_js (Js.get "message" body)
             (Some (Js.JStr (if String.eqb st "denied" then "Authorization denied."
                             else "Authorization request expired."))))),
     snd (Sys.fetch env (Grant.poll_request pollUrl s) w))
  /\ Office.waitForGrantApproval env (S fuel) pollUrl expiresAt w
     = (Sys.Throw
          (Js.ToStringV
             (Js.or_js (Js.get "message" body)
                (Some (Js.JStr (if String.eqb st "denied" then "Authorization denied."
                                else "Authorization request expired."))))),
        snd (Sys.fetch env (Grant.poll_request pollUrl s) w)).
Proof.
  intros Hs Hd Ht Hresp Hok Hjson Hst Hcase.
  assert (Hloop : forall describe,
             Grant.poll_loop env describe (S fuel) pollUrl s (Some d) (Some Js.JNull) w
             = (Sys.Throw
                  (Js.ToStringV
                     (Js.or_js (Js.get "message" body)
                        (Some (Js.JStr (if String.eqb st "denied"
                                        then "Authorization denied."
                                        else "Authorization request expired."))))),
                snd (Sys.fetch env (Grant.poll_request pollUrl s) w))).
  { intros describe. simpl. unfold Sys.bind at 1. simpl.
    apply Z.ltb_lt in Ht. rewrite Ht.
    unfold Sys.bind at 1. unfold Sys.fetch. rewrite Hresp. rewrite Hok. simpl.
    unfold Sys.bind at 1. unfold Http.response_json. rewrite Hjson. unfold Sys.ret at 1.
    cbn iota beta.
    destruct body; try discriminate Hst. rewrite Hst.
    destruct Hcase as [-> | ->]; reflexivity. }
  split.
  - unfold Notion.waitForGrantApproval.
    rewrite (waitForGrantApproval_loop env _ _ pollUrl s (S fuel) expiresAt w Hs), Hd.
    apply Hloop.
  - unfold Office.waitForGrantApproval.
    rewrite (waitForGrantApproval_loop env _ _ pollUrl s (S fuel) expiresAt w Hs), Hd.
    apply Hloop.
Qed.

Lemma poll_decided_against_witness :
  Notion.waitForGrantApproval (rt := Ref.runtime) (cfg := Ref.config)
    (always (Ref.json_response 200
               (Js.JObj [("status", Js.JStr "denied"); ("message", Js.JStr "Not for you.")])))
    1 POLL_URL None (saved SESSION)
  = (Sys.Throw "Not for you.",
     snd (Sys.fetch
            (always (Ref.json_response 200
                       (Js.JObj [("status", Js.JStr "denied");
                                 ("message", Js.JStr "Not for you.")])))
            (Grant.poll_request (rt := Ref.runtime) POLL_URL SESSION) (saved SESSION))).
Proof.
  apply (proj1 (poll_decided_against (rt := Ref.runtime) (cfg := Ref.config)
                  (always (Ref.json_response 200
                             (Js.JObj [("status", Js.JStr "denied");
                                       ("message", Js.JStr "Not for you.")])))
                  POLL_URL None (saved SESSION) SESSION 300000
                  (Ref.json_response 200
                     (Js.JObj [("status", Js.JStr "denied");
                               ("message", Js.JStr "Not for you.")]))
                  (Js.JObj [("status", Js.JStr "denied"); ("message", Js.JStr "Not for you.")])
                  "denied" 0
                  eq_refl eq_refl eq_refl eq_refl eq_refl eq_refl eq_refl
                  (or_introl eq_refl))).
Defined.

(** X6. When the broker answers the auth request with an object whose
    [autoApproved] is truthy, [ensureGrant] is done after that one POST: it
    prints "Access granted automatically (within policy)." and returns
    without polling, whatever the fuel. *)
Theorem auto_approved_grant_no_poll {rt : Js.Runtime} {cfg : Session.Config}
  (env : Sys.Env) (w : Sys.World) (s : string) (request : Js.Json) (fuel : nat) :
  Session.AUTO_REQUEST_ENABLED = true ->
  fst (Session.getAgentSession w) = Sys.Ret (Some s) ->
  Js.truthyV (Js.get "autoApproved" request) = true ->
  (forall resp,
      Sys.respond env (Sys.now w) (Sys.log w) (Grant.auth_request Notion.grant_request s)
      = Some resp ->
      Sys.ok resp = true -> Js.JSON_parse (Sys.text resp) = Some request ->
      Notion.ensureGrant env fuel w
      = (Sys.Ret tt,
         Sys.say (snd (Sys.fetch env (Grant.auth_request Notion.grant_request s) w))
           ["Access granted automatically (within policy)."]))
  /\ (forall service resp,
      Sys.respond env (Sys.now w) (Sys.log w)
        (Grant.auth_request (Office.grant_request service) s) = Some resp ->
      Sys.ok resp = true -> Js.JSON_parse (Sys.text resp) = Some request ->
      Office.ensureGrant env service fuel w
      = (Sys.Ret tt,
         Sys.say (snd (Sys.fetch env (Grant.auth_request (Office.grant_request service) s) w))
           ["Access granted automatically (within policy)."])).
Proof.
  intros Hon Hs Hauto.
  assert (Hgen : forall msg g label describe resp,
             Sys.respond env (Sys.now w) (Sys.log w) (Grant.auth_request g s) = Some resp ->
             Sys.ok resp = true -> Js.JSON_parse (Sys.text resp) = Some request ->
             Grant.ensureGrant env msg g label describe fuel w
             = (Sys.Ret tt,
                Sys.say (snd (Sys.fetch env (Grant.auth_request g s) w))
                  ["Access granted automatically (within policy)."])).
  { intros msg g label describe resp Hresp Hok Hjson.
    unfold Grant.ensureGrant. rewrite Hon. cbn [negb].
    unfold Sys.bind at 1. unfold Grant.requestGrant.
    unfold Sys.bind at 1. rewrite (require_session_some _ w s Hs).
    unfold Sys.bind at 1. unfold Sys.fetch. rewrite Hresp. rewrite Hok. cbn [negb snd].
    unfold Http.response_json. rewrite Hjson. unfold Sys.ret at 1. cbn iota beta.
    destruct request; try discriminate Hauto. rewrite Hauto. reflexivity. }
  split.
  - intros resp. apply Hgen.
  - intros service resp. apply Hgen.
Qed.

Lemma auto_approved_grant_no_poll_witness :
  Notion.ensureGrant (rt := Ref.runtime) (cfg := Ref.config)
    (always (Ref.json_response 200 auto_approved)) 0 (saved SESSION)
  = (Sys.Ret tt,
     Sys.say
       (snd (Sys.fetch (always (Ref.json_response 200 auto_approved))
               (Grant.auth_request (rt := Ref.runtime) (cfg := Ref.config)
                  Notion.grant_request SESSION)
               (saved SESSION)))
       ["Access granted automatically (within policy)."]).
Proof.
  apply (proj1 (auto_approved_grant_no_poll (rt := Ref.runtime) (cfg := Ref.config)
                  (always (Ref.json_response 200 auto_approved)) (saved SESSION) SESSION
                  auto_approved 0 eq_refl eq_refl eq_refl)
           (Ref.json_response 200 auto_approved) eq_refl eq_refl eq_refl).
Defined.

(** ** Calls that succeed *)

Section PipelineSuccess.
Import Js Sys Session Http Obs.
Context {rt : Runtime} {cfg : Config}.
Variable env : Env.

Lemma ok_not_auth (resp : Response) : ok resp = true -> is_auth_status resp = false.
Proof.
  unfold ok, is_auth_status. intros H.
  apply andb_prop in H as [H1 H2]. apply Z.leb_le in H1, H2.
  destruct (Z.eqb_spec (status resp) 401); [lia|].
  destruct (Z.eqb_spec (status resp) 403); [lia|].
  destruct (Z.eqb_spec (status resp) 429); [lia|]. reflexivity.
Qed.

(** An OK answer with a JSON body is what [apiRequest] returns. *)
Lemma apiRequest_ok (service : Office.Service) (fuel : nat) (s endpoint : string)
  (options : Office.Options) (attempt : Z) (w : World) (resp : Response) (v : Json) :
  fst (getAgentSession w) = Ret (Some s) ->
  respond env (now w) (log w) (Office.api_request s endpoint options) = Some resp ->
  ok resp = true -> JSON_parse (text resp) = Some v ->
  Office.apiRequest env service (S fuel) endpoint options attempt w
  = (Ret v, snd (fetch env (Office.api_request s endpoint options) w)).
Proof.
  intros Hs Hresp Hok Hjson.
  simpl. unfold bind at 1. rewrite (require_session_some _ w s Hs).
  unfold bind at 1. unfold fetch. rewrite Hresp. cbn [snd].
  rewrite (ok_not_auth resp Hok), Hok. cbn [negb].
  unfold response_json. now rewrite Hjson.
Qed.

(** An answer that is no auth error is what [fetchGraphContent] returns. *)
Lemma fetchGraphContent_plain (service : Office.Service) (fuel : nat) (s endpoint : string)
  (attempt : Z) (w : World) (resp : Response) :
  fst (getAgentSession w) = Ret (Some s) ->
  respond env (now w) (log w) (Office.content_request s endpoint) = Some resp ->
  is_auth_status resp = false ->
  Office.fetchGraphContent env service (S fuel) endpoint attempt w
  = (Ret resp, snd (fetch env (Office.content_request s endpoint) w)).
Proof.
  intros Hs Hresp Hauth.
  simpl. unfold bind at 1. rewrite (require_session_some _ w s Hs).
  unfold bind at 1. unfold fetch. rewrite Hresp. cbn [snd].
  now rewrite Hauth.
Qed.

(** An OK answer to [notionApi] whose body is no Notion error object. *)
Lemma notionApi_ok (fuel : nat) (s method endpoint : string) (body : JsVal)
  (attempt : Z) (w : World) (resp : Response) :
  fst (getAgentSession w) = Ret (Some s) ->
  respond env (now w) (log w) (Notion.api_request s method endpoint body) = Some resp ->
  ok resp = true ->
  is_str (get "object" (fst (readErrorBody resp))) "error" = false ->
  Notion.notionApi env (S fuel) method endpoint body attempt w
  = (Ret (if truthy (fst (readErrorBody resp)) then fst (readErrorBody resp) else JObj []),
     snd (fetch env (Notion.api_request s method endpoint body) w)).
Proof.
  intros Hs Hresp Hok Hobj.
  simpl. unfold bind at 1. rewrite (require_session_some _ w s Hs).
  unfold bind at 1. unfold fetch. rewrite Hresp. cbn [snd].
  rewrite (ok_not_auth resp Hok), Hok. cbn [negb].
  destruct (readErrorBody resp) as [data text]. cbn [fst] in *.
  now rewrite Hobj.
Qed.

(** The session read does not depend on the clock or the log. *)
Lemma getAgentSession_fs (w w' : World) :
  fs w' = fs w -> fst (getAgentSession w') = fst (getAgentSession w).
Proof. unfold getAgentSession. cbn [fst]. now intros ->. Qed.

End PipelineSuccess.

(** X7. drive download and drive content ask for the item first and never
    request the content of a folder; drive content also refuses a file that
    is not text (its extension is none of the text extensions and its MIME
    type does not start with "text/").  In each case the call throws after
    the single metadata request, and nothing is printed or written. *)
Theorem drive_refuses_before_content {rt : Js.Runtime} {cfg : Session.Config}
  (env : Sys.Env) (service : Office.Service) (w : Sys.World) (s itemId : string)
  (resp : Sys.Response) (info : Js.Json) (fuel : nat) :
  fst (Session.getAgentSession w) = Sys.Ret (Some s) ->
  Sys.ok resp = true ->
  Js.JSON_parse (Sys.text resp) = Some info ->
  (forall outputPath,
      Js.truthyV (Js.get "folder" info) = true ->
      Sys.respond env (Sys.now w) (Sys.log w)
        (Office.api_request s ("/me/drive/items/" ++ itemId) Office.no_options) = Some resp ->
      Office.driveDownload env service (S fuel) itemId outputPath w
      = (Sys.Throw "Cannot download a folder.",
         snd (Sys.fetch env
                (Office.api_request s ("/me/drive/items/" ++ itemId) Office.no_options) w)))
  /\ (Js.truthyV (Js.get "folder" info) = true ->
      Sys.respond env (Sys.now w) (Sys.log w)
        (Office.api_request s
           ("/me/drive/items/" ++ itemId ++ "?$select=id,name,size,file,folder")
           Office.no_options) = Some resp ->
      Office.driveContent env service (S fuel) itemId w
      = (Sys.Throw "Cannot get content of a folder",
         snd (Sys.fetch env
                (Office.api_request s
                   ("/me/drive/items/" ++ itemId ++ "?$select=id,name,size,file,folder")
                   Office.no_options) w)))
  /\ (forall name,
      Js.truthyV (Js.get "folder" info) = false ->
      Js.get "name" info = Some (Js.JStr name) ->
      Office.is_text (Str.toLowerCase (Str.last_segment "." name EmptyString))
        (Js.or_js (Js.getV "mimeType" (Js.get "file" info)) (Some (Js.JStr EmptyString)))
      = Some false ->
      Sys.respond env (Sys.now w) (Sys.log w)
        (Office.api_request s
           ("/me/drive/items/" ++ itemId ++ "?$select=id,name,size,file,folder")
           Office.no_options) = Some resp ->
      Office.driveContent env service (S fuel) itemId w
      = (Sys.Throw "Not a text file. Use 'drive download' instead.",
         snd (Sys.fetch env
                (Office.api_request s
                   ("/me/drive/items/" ++ itemId ++ "?$select=id,name,size,file,folder")
                   Office.no_options) w))).
Proof.
  intros Hs Hok Hjson. split; [|split].
  - intros outputPath Hfolder Hresp.
    unfold Office.driveDownload. unfold Sys.bind at 1.
    rewrite (apiRequest_ok env service fuel s _ _ 0 w resp info Hs Hresp Hok Hjson).
    destruct info; try discriminate Hfolder. now rewrite Hfolder.
  - intros Hfolder Hresp.
    unfold Office.driveContent. unfold Sys.bind at 1.
    rewrite (apiRequest_ok env service fuel s _ _ 0 w resp info Hs Hresp Hok Hjson).
    destruct info; try discriminate Hfolder. now rewrite Hfolder.
  - intros name Hfolder Hname Htext Hresp.
    unfold Office.driveContent. unfold Sys.bind at 1.
    rewrite (apiRequest_ok env service fuel s _ _ 0 w resp info Hs Hresp Hok Hjson).
    destruct info; try discriminate Hname. rewrite Hfolder, Hname, Htext. reflexivity.
Qed.

Lemma drive_refuses_before_content_witness :
  Office.driveContent (rt := Ref.runtime) (cfg := Ref.config)
    (always (Ref.json_response 200
               (Js.JObj [("name", Js.JStr "photo.PNG");
                         ("file", Js.JObj [("mimeType", Js.JStr "image/png")])])))
    Office.drive 1 "42" (saved SESSION)
  = (Sys.Throw "Not a text file. Use 'drive download' instead.",
     snd (Sys.fetch
            (always (Ref.json_response 200
                       (Js.JObj [("name", Js.JStr "photo.PNG");
                                 ("file", Js.JObj [("mimeType", Js.JStr "image/png")])])))
            (Office.api_request (cfg := Ref.config) SESSION
               ("/me/drive/items/" ++ "42" ++ "?$select=id,name,size,file,folder")
               Office.no_options)
            (saved SESSION))).
Proof.
  apply (proj2 (proj2 (drive_refuses_before_content (rt := Ref.runtime) (cfg := Ref.config)
                         (always (Ref.json_response 200
                                    (Js.JObj [("name", Js.JStr "photo.PNG");
                                              ("file", Js.JObj [("mimeType",
                                                                 Js.JStr "image/png")])])))
                         Office.drive (saved SESSION) SESSION "42"
                         (Ref.json_response 200
                            (Js.JObj [("name", Js.JStr "photo.PNG");
                                      ("file", Js.JObj [("mimeType", Js.JStr "image/png")])]))
                         (Js.JObj [("name", Js.JStr "photo.PNG");
                                   ("file", Js.JObj [("mimeType", Js.JStr "image/png")])])
                         0 eq_refl eq_refl eq_refl))
           "photo.PNG" eq_refl eq_refl eq_refl eq_refl).
Defined.

Section Download.
Import Js Sys Session Http Obs.
Context {rt : Runtime} {cfg : Config}.

Lemma ok_not_redirect (resp : Response) :
  ok resp = true -> (status resp =? 302) || (status resp =? 301) = false.
Proof.
  unfold ok. intros H. apply andb_prop in H as [H1 H2]. apply Z.leb_le in H1, H2.
  destruct (Z.eqb_spec (status resp) 302); [lia|].
  destruct (Z.eqb_spec (status resp) 301); [lia|]. reflexivity.
Qed.

Lemma fetches_say (w : World) (lines : list string) :
  fetches (log (say w lines)) = fetches (log w).
Proof.
  unfold say. cbn [log]. rewrite fetches_app.
  assert (H : fetches (map EvStderr lines) = []) by (induction lines; auto).
  rewrite H. apply app_nil_r.
Qed.

End Download.

(** X8. drive download writes the body of the content answer to the output
    path when one is given, otherwise to the name of the item, and returns
    that path.  With a session on file, an item that is no folder, OK answers
    to the metadata and the content request and a target that can be written,
    the file holds the body afterwards and exactly the two requests were
    issued. *)
Theorem driveDownload_saves_body {rt : Js.Runtime} {cfg : Session.Config}
  (env : Sys.Env) (service : Office.Service) (w : Sys.World) (s itemId : string)
  (outputPath : option string) (meta content : Sys.Response) (info : Js.Json)
  (fileName : string) (fuel : nat) :
  fst (Session.getAgentSession w) = Sys.Ret (Some s) ->
  (forall t h, Sys.respond env t h
                 (Office.api_request s ("/me/drive/items/" ++ itemId) Office.no_options)
               = Some meta) ->
  Sys.ok meta = true -> Js.JSON_parse (Sys.text meta) = Some info ->
  info <> Js.JNull ->
  Js.truthyV (Js.get "folder" info) = false ->
  match outputPath with
  | Some p => if Str.is_empty p then Js.get "name" info else Some (Js.JStr p)
  | None => Js.get "name" info
  end = Some (Js.JStr fileName) ->
  (forall t h, Sys.respond env t h (Office.content_request s (Office.content_endpoint itemId))
               = Some content) ->
  Sys.ok content = true ->
  Sys.fs w fileName <> Some Sys.Directory ->
  (forall c, Sys.fs w (Js.dirname fileName) <> Some (Sys.RegularFile c)) ->
  Js.dirname fileName <> fileName ->
  exists w',
    Office.driveDownload env service (S fuel) itemId outputPath w = (Sys.Ret fileName, w')
    /\ Sys.fs w' fileName = Some (Sys.RegularFile (Sys.text content))
    /\ Obs.fetches (Sys.log w')
       = (Obs.fetches (Sys.log w)
          ++ [Office.api_request s ("/me/drive/items/" ++ itemId) Office.no_options;
              Office.content_request s (Office.content_endpoint itemId)])%list.
Proof.
  intros Hs Hmeta Hok Hjson Hinfo Hfolder Hname Hcontent Hok2 Hfile Hdir Hneq.
  unfold Office.driveDownload. unfold Sys.bind at 1.
  rewrite (apiRequest_ok env service fuel s _ _ 0 w meta info Hs (Hmeta _ _) Hok Hjson).
  destruct info; try congruence; rewrite Hfolder, Hname;
    rewrite bind_say;
    match goal with
    | |- context [Sys.say ?w1 ?l] => set (w2 := Sys.say w1 l)
    end;
    (assert (Hs2 : fst (Session.getAgentSession w2) = Sys.Ret (Some s))
      by (rewrite <- Hs; apply getAgentSession_fs; unfold w2, Sys.fetch;
          rewrite (Hmeta (Sys.now w) (Sys.log w)); reflexivity));
    unfold Sys.bind at 1;
    rewrite (fetchGraphContent_plain env service fuel s _ 0 w2 content Hs2 (Hcontent _ _)
               (ok_not_auth content Hok2));
    unfold Sys.bind at 1; unfold Office.follow_redirect;
    rewrite (ok_not_redirect content Hok2); unfold Sys.ret at 1; cbn iota beta;
    rewrite Hok2; cbn [negb];
    unfold Sys.fetch; rewrite (Hcontent (Sys.now w2) (Sys.log w2)); cbn [snd];
    match goal with
    | |- context [{| Sys.fs := ?f; Sys.now := ?n; Sys.log := ?l |}] =>
        set (w3 := {| Sys.fs := f; Sys.now := n; Sys.log := l |})
    end;
    (assert (Hfs3 : Sys.fs w3 = Sys.fs w)
      by (unfold w3, w2, Sys.say, Sys.fetch; cbn [Sys.fs];
          rewrite (Hmeta (Sys.now w) (Sys.log w)); reflexivity));
    (assert (Hlog3 : Obs.fetches (Sys.log w3)
                     = (Obs.fetches (Sys.log w)
                        ++ [Office.api_request s ("/me/drive/items/" ++ itemId)
                              Office.no_options;
                            Office.content_request s (Office.content_endpoint itemId)])%list)
      by (unfold w3; cbn [Sys.log]; rewrite fetches_app; unfold w2;
          rewrite fetches_say; unfold Sys.fetch;
          rewrite (Hmeta (Sys.now w) (Sys.log w)); cbn [snd Sys.log];
          rewrite fetches_app, <- app_assoc; reflexivity));
    clearbody w3;
    unfold Sys.bind at 1;
    destruct (negb (Str.is_empty (Js.dirname fileName))
              && negb (String.eqb (Js.dirname fileName) ".")).
  all: unfold Session.mkdir, Sys.ret; rewrite ?Hfs3.
  all: try (destruct (Sys.fs w (Js.dirname fileName)) as [[c|]|] eqn:Ed;
            [exfalso; exact (Hdir c eq_refl) | |]).
  all: unfold Sys.bind at 1; unfold Session.writeFile; cbn [Sys.fs];
    unfold Sys.fs_set at 1;
    try (destruct (String.eqb_spec fileName (Js.dirname fileName)) as [E|_];
         [exfalso; now apply Hneq|]);
    rewrite ?Hfs3;
    (destruct (Sys.fs w fileName) as [[c'|]|] eqn:Ef; [| exfalso; now apply Hfile |]);
    rewrite bind_say; unfold Sys.ret;
    eexists; (split; [reflexivity|]); (split; [|rewrite fetches_say; exact Hlog3]);
    unfold Sys.say, Sys.fs_set; cbn [Sys.fs]; now rewrite String.eqb_refl.
Qed.

Lemma driveDownload_saves_body_witness :
  exists w',
    Office.driveDownload (rt := Ref.runtime) (cfg := Ref.config) plain_drive Office.drive
      1 "42" None (saved SESSION) = (Sys.Ret "notes.txt", w')
    /\ Sys.fs w' "notes.txt" = Some (Sys.RegularFile "hello")
    /\ Obs.fetches (Sys.log w')
       = (Obs.fetches (Sys.log (saved SESSION))
          ++ [Office.api_request (cfg := Ref.config) SESSION ("/me/drive/items/" ++ "42")
                Office.no_options;
              Office.content_request (cfg := Ref.config) SESSION
                (Office.content_endpoint "42")])%list.
Proof.
  apply (driveDownload_saves_body (rt := Ref.runtime) (cfg := Ref.config) plain_drive
           Office.drive (saved SESSION) SESSION "42" None
           (Ref.json_response 200
              (Js.JObj [("name", Js.JStr "notes.txt"); ("size", Js.JNum 5 0)]))
           {| Sys.status := 200; Sys.statusText := "OK"; Sys.resp_headers := [];
              Sys.text := "hello" |}
           (Js.JObj [("name", Js.JStr "notes.txt"); ("size", Js.JNum 5 0)])
           "notes.txt" 0).
  - reflexivity.
  - intros t h. reflexivity.
  - reflexivity.
  - vm_compute. reflexivity.
  - discriminate.
  - reflexivity.
  - reflexivity.
  - intros t h. reflexivity.
  - reflexivity.
  - vm_compute. discriminate.
  - intros c. vm_compute. discriminate.
  - vm_compute. discriminate.
Defined.

(** ** Clearing the session *)

Section Clearing.
Import Js Sys Session Logout.
Context {rt : Runtime} {cfg : Config}.

(** Unlinking only removes: a path that is absent stays absent. *)
Lemma unlink_each_absent (candidates : list string) (files : FS) (q : string) :
  files q = None -> unlink_each files candidates q = None.
Proof.
  revert files. induction candidates as [|f rest IH]; intros files Hq; [exact Hq|].
  simpl. destruct (files f) as [[c|]|].
  - apply IH. unfold fs_remove. now destruct (String.eqb q f).
  - exact Hq.
  - now apply IH.
Qed.

(** Every path is afterwards as it was or gone. *)
Lemma unlink_each_shrinks (candidates : list string) (files : FS) (q : string) :
  unlink_each files candidates q = files q \/ unlink_each files candidates q = None.
Proof.
  revert files. induction candidates as [|f rest IH]; intros files; [now left|].
  simpl. destruct (files f) as [[c|]|] eqn:Ef.
  - destruct (IH (fs_remove files f)) as [H|H]; [|now right].
    rewrite H. unfold fs_remove. destruct (String.eqb q f); [now right | now left].
  - now left.
  - apply IH.
Qed.

(** A path that is no candidate is left alone. *)
Lemma unlink_each_other (candidates : list string) (files : FS) (q : string) :
  ~ In q candidates -> unlink_each files candidates q = files q.
Proof.
  revert files. induction candidates as [|f rest IH]; intros files Hq; [reflexivity|].
  simpl. destruct (files f) as [[c|]|] eqn:Ef.
  - rewrite IH by (intros H; apply Hq; now right).
    unfold fs_remove. destruct (String.eqb_spec q f) as [->|_]; [|reflexivity].
    exfalso. apply Hq. now left.
  - reflexivity.
  - apply IH. intros H. apply Hq. now right.
Qed.

(** Without a directory among the candidates, all of them are removed. *)
Lemma unlink_each_all (candidates : list string) (files : FS) (q : string) :
  (forall f, In f candidates -> files f <> Some Directory) ->
  In q candidates -> unlink_each files candidates q = None.
Proof.
  revert files. induction candidates as [|f rest IH]; intros files Hdir Hq; [destruct Hq|].
  simpl. destruct (files f) as [[c|]|] eqn:Ef.
  - destruct Hq as [->|Hq].
    + apply unlink_each_absent. unfold fs_remove. now rewrite String.eqb_refl.
    + apply IH; [|exact Hq]. intros g Hg. unfold fs_remove.
      destruct (String.eqb g f); [discriminate|]. apply Hdir. now right.
  - exfalso. apply (Hdir f); [now left | exact Ef].
  - destruct Hq as [->|Hq].
    + now apply unlink_each_absent.
    + apply IH; [|exact Hq]. intros g Hg. apply Hdir. now right.
Qed.

(** Reading the candidates after unlinking them finds no session. *)
Lemma scan_after_unlink (candidates : list string) (files : FS) :
  scan_session_files (unlink_each files candidates) candidates = None.
Proof.
  revert files. induction candidates as [|f rest IH]; intros files; [reflexivity|].
  cbn [unlink_each]. destruct (files f) as [[c|]|] eqn:Ef.
  - cbn [scan_session_files].
    rewrite (unlink_each_absent rest (fs_remove files f) f)
      by (unfold fs_remove; now rewrite String.eqb_refl).
    apply IH.
  - cbn [scan_session_files]. now rewrite Ef.
  - cbn [scan_session_files]. rewrite (unlink_each_absent rest files f Ef). apply IH.
Qed.

End Clearing.

(** X9. After [clearAgentSession], [getAgentSession] finds no session,
    whatever the session files held: the files before the first path that is
    a directory are gone, and a directory makes the read give up. *)
Theorem clear_then_load {rt : Js.Runtime} {cfg : Session.Config} (w : Sys.World) :
  fst (Logout.clearAgentSession w) = Sys.Ret tt
  /\ fst (Session.getAgentSession (snd (Logout.clearAgentSession w))) = Sys.Ret None.
Proof.
  split; [reflexivity|].
  unfold Session.getAgentSession, Logout.clearAgentSession. cbn [fst snd Sys.fs].
  now rewrite scan_after_unlink.
Qed.

(** A session saved and then cleared is gone. *)
Example save_clear_load_run :
  fst (Session.getAgentSession (rt := Ref.runtime) (cfg := Ref.config) (saved SESSION))
  = Sys.Ret (Some SESSION)
  /\ fst (Session.getAgentSession (rt := Ref.runtime) (cfg := Ref.config)
            (snd (Logout.clearAgentSession (cfg := Ref.config)
                    (saved SESSION))))
     = Sys.Ret None.
Proof. split; vm_compute; reflexivity. Qed.

(** X10. [clearAgentSession] only removes session files: it never throws,
    leaves the clock and the log alone, leaves every path that is none of
    [AGENT_SESSION_FILES] as it was and every other path as it was or absent;
    when none of the session paths is a directory, all of them are absent
    afterwards. *)
Theorem clear_only_removes_session_files {rt : Js.Runtime} {cfg : Session.Config}
  (w : Sys.World) (q : string) :
  fst (Logout.clearAgentSession w) = Sys.Ret tt
  /\ Sys.now (snd (Logout.clearAgentSession w)) = Sys.now w
  /\ Sys.log (snd (Logout.clearAgentSession w)) = Sys.log w
  /\ (~ In q Session.AGENT_SESSION_FILES ->
      Sys.fs (snd (Logout.clearAgentSession w)) q = Sys.fs w q)
  /\ (Sys.fs (snd (Logout.clearAgentSession w)) q = Sys.fs w q
      \/ Sys.fs (snd (Logout.clearAgentSession w)) q = None)
  /\ ((forall f, In f Session.AGENT_SESSION_FILES -> Sys.fs w f <> Some Sys.Directory) ->
      In q Session.AGENT_SESSION_FILES ->
      Sys.fs (snd (Logout.clearAgentSession w)) q = None).
Proof.
  unfold Logout.clearAgentSession. cbn [fst snd Sys.fs Sys.now Sys.log].
  repeat split.
  - apply unlink_each_other.
  - apply unlink_each_shrinks.
  - apply unlink_each_all.
Qed.

Section LogoutFacts.
Import Js Sys Session Logout Obs.
Context {rt : Runtime} {cfg : Config}.
Variable env : Env.

Lemma swallow_fetch (r : Request) (w : World) :
  swallow (fetch env r) w = (Ret tt, snd (fetch env r w)).
Proof.
  unfold swallow, fetch.
  now destruct (respond env (now w) (log w) r).
Qed.

End LogoutFacts.

(** X11. logout of notion-query.js.  Without a session it prints "No active
    session." and does nothing else.  With a session it sends one DELETE to
    /api/agent/session carrying the session, and whatever the answer, even a
    network failure, it then clears the session files and prints "Session
    cleared."; no session can be loaded afterwards. *)
Theorem cmdLogout_clears {rt : Js.Runtime} {cfg : Session.Config}
  (env : Sys.Env) (w : Sys.World) :
  (fst (Session.getAgentSession w) = Sys.Ret None ->
   Logout.cmdLogout env w
   = (Sys.Ret tt, snd (Sys.console_log "No active session." w)))
  /\ (forall s,
      fst (Session.getAgentSession w) = Sys.Ret (Some s) ->
      Logout.cmdLogout env w
      = (Sys.Ret tt,
         snd (Sys.console_log "Session cleared."
                (snd (Logout.clearAgentSession
                        (snd (Sys.fetch env (Logout.logout_request s) w))))))
      /\ Sys.header_value "X-Agent-Session" (Logout.logout_request s) = Some s
      /\ Sys.method (Logout.logout_request s) = "DELETE"
      /\ fst (Session.getAgentSession (snd (Logout.cmdLogout env w))) = Sys.Ret None).
Proof.
  split.
  - intros Hnone. unfold Logout.cmdLogout. unfold Sys.bind at 1.
    unfold Session.getAgentSession in *. cbn [fst] in Hnone. apply Ret_inj in Hnone.
    now rewrite Hnone.
  - intros s Hs.
    assert (Hrun : Logout.cmdLogout env w
                   = (Sys.Ret tt,
                      snd (Sys.console_log "Session cleared."
                             (snd (Logout.clearAgentSession
                                     (snd (Sys.fetch env (Logout.logout_request s) w))))))).
    { unfold Logout.cmdLogout. unfold Sys.bind at 1.
      unfold Session.getAgentSession in *. cbn [fst] in Hs. apply Ret_inj in Hs.
      rewrite Hs. apply scan_nonempty in Hs. apply is_empty_false in Hs. rewrite Hs.
      unfold Sys.bind at 1. rewrite swallow_fetch. reflexivity. }
    split; [exact Hrun|]. split; [reflexivity|].
    split; [reflexivity|].
    rewrite Hrun. cbn [snd].
    unfold Session.getAgentSession, Sys.console_log, Sys.emit, Logout.clearAgentSession.
    cbn [fst snd Sys.fs]. now rewrite scan_after_unlink.
Qed.

Lemma cmdLogout_clears_witness :
  Logout.cmdLogout (rt := Ref.runtime) (cfg := Ref.config) offline (saved SESSION)
  = (Sys.Ret tt,
     snd (Sys.console_log "Session cleared."
            (snd (Logout.clearAgentSession (cfg := Ref.config)
                    (snd (Sys.fetch offline
                            (Logout.logout_request (cfg := Ref.config) SESSION)
                            (saved SESSION))))))).
Proof.
  apply (proj1 (proj2 (cmdLogout_clears (rt := Ref.runtime) (cfg := Ref.config)
                         offline (saved SESSION))
                  SESSION eq_refl)).
Defined.

(** ** String methods *)

Module TextFacts.
Import Text.

Lemma prefix_nil (s : string) : String.prefix EmptyString s = true.
Proof. now destruct s. Qed.

Lemma prefix_refl_app (p s : string) : String.prefix p (p ++ s) = true.
Proof.
  induction p as [|a p IH]; simpl; [now destruct s|].
  destruct (ascii_dec a a) as [_|N]; [exact IH | now elim N].
Qed.

Lemma prefix_drop (p s : string) :
  String.prefix p s = true -> (p ++ drop (String.length p) s)%string = s.
Proof.
  revert s. induction p as [|a p IH]; intros s H; [reflexivity|].
  destruct s as [|b s]; simpl in H; [discriminate|].
  destruct (ascii_dec a b) as [->|_]; [|discriminate].
  simpl. now rewrite IH.
Qed.

(** The text before the first occurrence, the separator and the text after it
    make up the string. *)
Lemma index_split (p s : string) (m : nat) :
  String.index 0 p s = Some m ->
  (take m s ++ p ++ drop (m + String.length p) s)%string = s.
Proof.
  revert m. induction s as [|c s IH]; intros m H.
  - simpl in H. destruct p; [|discriminate]. inversion H. reflexivity.
  - cbn [String.index] in H.
    destruct (String.prefix p (String c s)) eqn:E.
    + inversion H; subst. unfold take. cbn [String.substring plus String.append].
      now apply prefix_drop.
    + destruct (String.index 0 p s) as [n|] eqn:En; [|discriminate].
      inversion H; subst. unfold take. cbn [String.substring plus drop String.append].
      f_equal. apply (IH n eq_refl).
Qed.

Lemma contains_app (c : ascii) (a b : string) :
  contains c (a ++ b) = contains c a || contains c b.
Proof.
  induction a as [|x a IH]; simpl; [reflexivity|].
  rewrite IH. now rewrite orb_assoc.
Qed.

(** The first occurrence of a character the text before it does not hold. *)
Lemma index_char (c : ascii) (left right : string) :
  contains c left = false ->
  String.index 0 (String c EmptyString) (left ++ String c right) = Some (String.length left).
Proof.
  induction left as [|a left IH]; intros H.
  - simpl. destruct (ascii_dec c c) as [_|N]; [now destruct right | now elim N].
  - simpl in H. apply orb_false_iff in H as [Ha Hl].
    cbn [String.append String.index String.prefix String.length].
    destruct (ascii_dec c a) as [->|_].
    + now rewrite Ascii.eqb_refl in Ha.
    + now rewrite (IH Hl).
Qed.

Lemma index_char_none (c : ascii) (s : string) :
  contains c s = false -> String.index 0 (String c EmptyString) s = None.
Proof.
  induction s as [|a s IH]; intros H; [reflexivity|].
  simpl in H. apply orb_false_iff in H as [Ha Hs].
  cbn [String.index String.prefix].
  destruct (ascii_dec c a) as [->|_].
  - now rewrite Ascii.eqb_refl in Ha.
  - now rewrite (IH Hs).
Qed.

(** Before the first occurrence of a character there is none. *)
Lemma index_char_before (c : ascii) (s : string) (m : nat) :
  String.index 0 (String c EmptyString) s = Some m -> contains c (take m s) = false.
Proof.
  revert m. induction s as [|a s IH]; intros m H; [discriminate|].
  cbn [String.index String.prefix] in H.
  destruct (ascii_dec c a) as [->|N].
  - rewrite prefix_nil in H. inversion H. reflexivity.
  - destruct (String.index 0 (String c EmptyString) s) as [n|] eqn:En; [|discriminate].
    inversion H; subst. specialize (IH n eq_refl).
    unfold take in *. cbn [String.substring contains].
    rewrite IH.
    destruct (Ascii.eqb_spec a c) as [->|_]; [now elim N | reflexivity].
Qed.

Lemma take_app (a b : string) : take (String.length a) (a ++ b) = a.
Proof.
  unfold take. induction a as [|x a IH]; simpl.
  - now destruct b.
  - now rewrite IH.
Qed.

Lemma drop_app (a b : string) : drop (String.length a) (a ++ b) = b.
Proof. induction a as [|x a IH]; simpl; [reflexivity | exact IH]. Qed.

Lemma strip_prefix_app (p s : string) : strip_prefix p (p ++ s) = Some s.
Proof.
  induction p as [|a p IH]; simpl; [now destruct s|].
  now rewrite Ascii.eqb_refl.
Qed.

Lemma strip_prefix_some (p s t : string) : strip_prefix p s = Some t -> s = (p ++ t)%string.
Proof.
  revert s. induction p as [|a p IH]; intros s H.
  - destruct s; inversion H; reflexivity.
  - destruct s as [|b s]; [discriminate|]. simpl in H.
    destruct (Ascii.eqb_spec a b) as [->|_]; [|discriminate].
    simpl. f_equal. now apply IH.
Qed.

Lemma append_assoc (a b c : string) : ((a ++ b) ++ c)%string = (a ++ (b ++ c))%string.
Proof. induction a as [|x a IH]; simpl; [reflexivity | now rewrite IH]. Qed.

Lemma length_app (a b : string) :
  String.length (a ++ b) = (String.length a + String.length b)%nat.
Proof. induction a as [|x a IH]; simpl; [reflexivity | now rewrite IH]. Qed.

End TextFacts.

(** ** Arguments of notion-query.js *)

Section SplitFirst.
Import Text TextFacts NotionArgs.

Lemma splitFirst_char (c : ascii) (left right : string) :
  contains c left = false ->
  splitFirst (left ++ String c right) (String c EmptyString) = (left, right).
Proof.
  intros H. unfold splitFirst, indexOf. rewrite (index_char c left right H).
  rewrite take_app. f_equal.
  replace (String.length left + String.length (String c EmptyString))%nat
    with (String.length (left ++ String c EmptyString)).
  - change (left ++ String c right)%string
      with (left ++ (String c EmptyString ++ right))%string.
    rewrite <- append_assoc. apply drop_app.
  - rewrite length_app. reflexivity.
Qed.

End SplitFirst.

(** X12. [splitFirst] cuts at the first occurrence of the separator and
    loses nothing: when the separator occurs, the two parts with the
    separator between them are the input; when it does not, the first part is
    the whole input and the second is empty.  For a one-character separator,
    as in every call of the script, a text [left] without that character
    followed by the separator and any [right] is split into [left] and
    [right], so a value may itself hold the separator. *)
Theorem splitFirst_first_occurrence (input separator : string) (c : ascii)
  (left right : string) :
  (forall idx, Text.indexOf input separator = Some idx ->
     (fst (NotionArgs.splitFirst input separator) ++ separator
      ++ snd (NotionArgs.splitFirst input separator))%string = input)
  /\ (Text.contains c input = false ->
      NotionArgs.splitFirst input (String c EmptyString) = (input, EmptyString))
  /\ (Text.contains c left = false ->
      NotionArgs.splitFirst (left ++ String c right) (String c EmptyString) = (left, right)).
Proof.
  split; [|split].
  - intros idx H. unfold NotionArgs.splitFirst. rewrite H. cbn [fst snd].
    now apply TextFacts.index_split.
  - intros H. unfold NotionArgs.splitFirst, Text.indexOf.
    now rewrite (TextFacts.index_char_none c input H).
  - apply splitFirst_char.
Qed.

(** A value that holds the separator is kept whole. *)
Example splitFirst_run :
  NotionArgs.splitFirst "Link=https://example.org/?a=1" "=" = ("Link", "https://example.org/?a=1")
  /\ NotionArgs.splitFirst "Status" "=" = ("Status", EmptyString).
Proof. split; reflexivity. Qed.

Section QueryFlags.
Import Text TextFacts NotionArgs.

Lemma query_flag_other (flags : QueryDbFlags) (arg : string) :
  Str.startsWith arg "--filter-" = false ->
  filterProp (query_flag flags arg) = filterProp flags
  /\ filterValue (query_flag flags arg) = filterValue flags.
Proof. intros H. unfold query_flag. rewrite H. now split. Qed.

Lemma fold_query_flag_other (args : list string) (flags : QueryDbFlags) :
  forallb (fun arg => negb (Str.startsWith arg "--filter-")) args = true ->
  filterProp (fold_left query_flag args flags) = filterProp flags
  /\ filterValue (fold_left query_flag args flags) = filterValue flags.
Proof.
  revert flags. induction args as [|arg args IH]; intros flags H; [now split|].
  simpl in H. apply andb_prop in H as [Ha Hr]. apply negb_true_iff in Ha.
  simpl. destruct (IH (query_flag flags arg) Hr) as [-> ->].
  now apply query_flag_other.
Qed.

Lemma query_flag_filter (flags : QueryDbFlags) (prop value : string) :
  contains "=" prop = false ->
  filterProp (query_flag flags ("--filter-" ++ prop ++ "=" ++ value)) = prop
  /\ filterValue (query_flag flags ("--filter-" ++ prop ++ "=" ++ value)) = value.
Proof.
  intros H. unfold query_flag.
  assert (Hs : Str.startsWith ("--filter-" ++ prop ++ "=" ++ value) "--filter-" = true)
    by apply prefix_refl_app.
  rewrite Hs.
  assert (Hsplit : splitFirst ("--filter-" ++ prop ++ "=" ++ value) "="
                   = (("--filter-" ++ prop)%string, value)).
  { rewrite <- append_assoc. apply splitFirst_char.
    rewrite contains_app, H. reflexivity. }
  rewrite Hsplit. cbn [filterProp filterValue]. split; [|reflexivity].
  unfold drop_filter_prefix. now rewrite strip_prefix_app.
Qed.

Lemma fold_query_flag_raw (args : list string) (flags : QueryDbFlags) :
  raw (fold_left query_flag args flags)
  = raw flags || existsb (fun arg => String.eqb arg "--raw") args.
Proof.
  revert flags. induction args as [|arg args IH]; intros flags.
  - simpl. now rewrite orb_false_r.
  - simpl. rewrite IH. unfold query_flag.
    destruct (Str.startsWith arg "--filter-"); [destruct (splitFirst arg "=")|];
      cbn [raw]; destruct (String.eqb arg "--raw"), (raw flags); reflexivity.
Qed.

End QueryFlags.

(** X13. [parseQueryDbFlags]: the result is raw exactly when "--raw" is
    among the arguments, wherever it stands; the filter is taken from the
    last argument that starts with "--filter-", the property being what
    stands between that prefix and the first "=" and the value all that
    follows it; without such an argument both are empty. *)
Theorem parseQueryDbFlags_last_filter (args before after : list string)
  (prop value : string) :
  NotionArgs.raw (NotionArgs.parseQueryDbFlags args)
  = existsb (fun arg => String.eqb arg "--raw") args
  /\ (forallb (fun arg => negb (Str.startsWith arg "--filter-")) args = true ->
      NotionArgs.filterProp (NotionArgs.parseQueryDbFlags args) = EmptyString
      /\ NotionArgs.filterValue (NotionArgs.parseQueryDbFlags args) = EmptyString)
  /\ (Text.contains "=" prop = false ->
      forallb (fun arg => negb (Str.startsWith arg "--filter-")) after = true ->
      NotionArgs.filterProp
        (NotionArgs.parseQueryDbFlags
           (before ++ ("--filter-" ++ prop ++ "=" ++ value)%string :: after)) = prop
      /\ NotionArgs.filterValue
           (NotionArgs.parseQueryDbFlags
              (before ++ ("--filter-" ++ prop ++ "=" ++ value)%string :: after)) = value).
Proof.
  unfold NotionArgs.parseQueryDbFlags. split; [|split].
  - now rewrite fold_query_flag_raw.
  - intros H. now apply fold_query_flag_other.
  - intros Hp Ha. rewrite fold_left_app. cbn [fold_left].
    destruct (fold_query_flag_other after
                (NotionArgs.query_flag
                   (fold_left NotionArgs.query_flag before
                      {| NotionArgs.raw := false; NotionArgs.filterProp := EmptyString;
                         NotionArgs.filterValue := EmptyString |})
                   ("--filter-" ++ prop ++ "=" ++ value)) Ha) as [-> ->].
    now apply query_flag_filter.
Qed.

Example parseQueryDbFlags_run :
  NotionArgs.parseQueryDbFlags ["--filter-Status=Done"; "--raw"; "--filter-Owner=a=b"]
  = {| NotionArgs.raw := true; NotionArgs.filterProp := "Owner";
       NotionArgs.filterValue := "a=b" |}.
Proof. reflexivity. Qed.

Section TypedArgs.
Import Text TextFacts NotionArgs.

Lemma name_and_value_ok (name value : string) :
  name <> EmptyString -> contains "=" name = false -> no_line_terminator value = true ->
  name_and_value ("-" ++ name ++ "=" ++ value) = Some (name, value).
Proof.
  intros Hne Heq Hv. unfold name_and_value.
  rewrite strip_prefix_app. unfold indexOf.
  change ("=" ++ value)%string with (String "=" value).
  rewrite (index_char "=" name value Heq).
  destruct name as [|a name]; [now elim Hne|].
  cbn [String.length].
  replace (drop (S (String.length name) + 1) (String a name ++ String "=" value))
    with value.
  - rewrite Hv. f_equal. f_equal.
    apply (take_app (String a name) (String "=" value)).
  - replace (S (String.length name) + 1)%nat
      with (String.length (String a name ++ "=")).
    + change (String a name ++ String "=" value)%string
        with (String a name ++ ("=" ++ value))%string.
      rewrite <- (append_assoc (String a name) "=" value). symmetry. apply drop_app.
    + rewrite length_app. reflexivity.
Qed.

Lemma name_and_value_some (tail name value : string) :
  name_and_value tail = Some (name, value) ->
  tail = ("-" ++ name ++ "=" ++ value)%string
  /\ name <> EmptyString /\ contains "=" name = false /\ no_line_terminator value = true.
Proof.
  unfold name_and_value.
  destruct (strip_prefix "-" tail) as [rest|] eqn:Ep; [|discriminate].
  apply strip_prefix_some in Ep. unfold indexOf.
  destruct (String.index 0 "=" rest) as [[|idx]|] eqn:Ei; try discriminate.
  destruct (no_line_terminator (drop (S idx + 1) rest)) eqn:Ev; [|discriminate].
  intros H. inversion H; subst name value. clear H.
  pose proof (index_split "=" rest (S idx) Ei) as Hsplit.
  pose proof (index_char_before "=" rest (S idx) Ei) as Hbefore.
  repeat split.
  - subst tail. cbn [String.length] in Hsplit.
    transitivity ("-" ++ (take (S idx) rest ++ "=" ++ drop (S idx + 1) rest))%string;
      [now rewrite Hsplit | reflexivity].
  - intros Hempty.
    destruct rest as [|c rest]; [discriminate Ei|].
    unfold take in Hempty. simpl in Hempty. discriminate Hempty.
  - exact Hbefore.
  - exact Ev.
Qed.

Lemma match_typed_some (alternatives : list string) (rest rawType name value : string) :
  match_typed alternatives rest = Some (rawType, name, value) ->
  In rawType alternatives
  /\ rest = (rawType ++ "-" ++ name ++ "=" ++ value)%string
  /\ name <> EmptyString /\ contains "=" name = false /\ no_line_terminator value = true.
Proof.
  induction alternatives as [|t others IH]; [discriminate|].
  cbn [match_typed].
  destruct (strip_prefix t rest) as [tail|] eqn:Ep.
  - destruct (name_and_value tail) as [[n v]|] eqn:En.
    + intros H. inversion H; subst. clear H.
      apply name_and_value_some in En as [Htail [H1 [H2 H3]]].
      apply strip_prefix_some in Ep. subst.
      repeat split; try assumption. now left.
    + intros H. destruct (IH H) as [Hin Hrest]. split; [now right | exact Hrest].
  - intros H. destruct (IH H) as [Hin Hrest]. split; [now right | exact Hrest].
Qed.

Lemma match_typed_ok (rawType name value : string) :
  In rawType TYPED_FLAGS ->
  name <> EmptyString -> contains "=" name = false -> no_line_terminator value = true ->
  match_typed TYPED_FLAGS (rawType ++ "-" ++ name ++ "=" ++ value)
  = Some (rawType, name, value).
Proof.
  intros Hin Hne Heq Hv.
  pose proof (name_and_value_ok name value Hne Heq Hv) as Hnv.
  unfold TYPED_FLAGS in *.
  repeat (destruct Hin as [<-|Hin]; [cbn; cbn in Hnv; now rewrite Hnv|]).
  destruct Hin.
Qed.

End TypedArgs.

(** X14. [parseExplicitTypedArg] reads exactly the arguments
    "--TYPE-NAME=VALUE" in which TYPE is one of the eleven flag types, NAME is
    not empty and holds no "=", and VALUE holds no line break: it returns
    NAME, VALUE and the property type for TYPE ("multi-select" and "phone"
    become "multi_select" and "phone_number"), and [null] for every other
    argument.  The type returned is always one [toNotionPropertyValue] has a
    case for. *)
Theorem parseExplicitTypedArg_exact (arg : string) (r : NotionArgs.TypedArg) :
  (NotionArgs.parseExplicitTypedArg arg = Some r <->
   exists rawType,
     In rawType NotionArgs.TYPED_FLAGS
     /\ arg = ("--" ++ rawType ++ "-" ++ NotionArgs.name r ++ "=" ++ NotionArgs.value r)%string
     /\ NotionArgs.type r = NotionArgs.mappedType rawType
     /\ NotionArgs.name r <> EmptyString
     /\ Text.contains "=" (NotionArgs.name r) = false
     /\ Text.no_line_terminator (NotionArgs.value r) = true)
  /\ (NotionArgs.parseExplicitTypedArg arg = Some r ->
      In (NotionArgs.type r) NotionArgs.PROPERTY_TYPES).
Proof.
  assert (Hsound : NotionArgs.parseExplicitTypedArg arg = Some r ->
    exists rawType,
      In rawType NotionArgs.TYPED_FLAGS
      /\ arg = ("--" ++ rawType ++ "-" ++ NotionArgs.name r ++ "="
                ++ NotionArgs.value r)%string
      /\ NotionArgs.type r = NotionArgs.mappedType rawType
      /\ NotionArgs.name r <> EmptyString
      /\ Text.contains "=" (NotionArgs.name r) = false
      /\ Text.no_line_terminator (NotionArgs.value r) = true).
  { unfold NotionArgs.parseExplicitTypedArg.
    destruct (Text.strip_prefix "--" arg) as [rest|] eqn:Ep; [|discriminate].
    apply TextFacts.strip_prefix_some in Ep.
    destruct (NotionArgs.match_typed NotionArgs.TYPED_FLAGS rest) as [[[t n] v]|] eqn:Em;
      [|discriminate].
    intros H. inversion H; subst r. clear H. cbn [NotionArgs.name NotionArgs.value
                                                   NotionArgs.type].
    apply match_typed_some in Em as [Hin [Hrest [H1 [H2 H3]]]].
    exists t. subst. repeat split; assumption. }
  split; [split|].
  - exact Hsound.
  - intros [rawType [Hin [Harg [Hty [Hne [Heq Hv]]]]]].
    unfold NotionArgs.parseExplicitTypedArg. subst arg.
    rewrite TextFacts.strip_prefix_app.
    rewrite (match_typed_ok rawType _ _ Hin Hne Heq Hv).
    destruct r as [ty n v]. cbn in *. now subst.
  - intros H. destruct (Hsound H) as [rawType [Hin [_ [Hty _]]]].
    rewrite Hty. unfold NotionArgs.TYPED_FLAGS in Hin.
    repeat (destruct Hin as [<-|Hin]; [cbn; tauto|]). destruct Hin.
Qed.

Example parseExplicitTypedArg_run :
  NotionArgs.parseExplicitTypedArg "--multi-select-Tags=a, b"
  = Some {| NotionArgs.type := "multi_select"; NotionArgs.name := "Tags";
            NotionArgs.value := "a, b" |}
  /\ NotionArgs.parseExplicitTypedArg "--color-Tags=red" = None
  /\ NotionArgs.parseExplicitTypedArg "--select-=red" = None.
Proof. repeat split; reflexivity. Qed.

(** ** Property values *)

Section CommaList.
Import Text TextFacts NotionArgs NotionProps.

Lemma split_cons (c : ascii) (s : string) : exists x rest, split c s = x :: rest.
Proof.
  induction s as [|a s [x [rest IH]]]; simpl; [now eexists _, _|].
  destruct (Ascii.eqb a c); [now eexists _, _|]. rewrite IH. now eexists _, _.
Qed.

(** No part of a split holds the separator. *)
Lemma split_parts (c : ascii) (s : string) :
  Forall (fun x => contains c x = false) (split c s).
Proof.
  induction s as [|a s IH]; simpl; [repeat constructor|].
  destruct (Ascii.eqb a c) eqn:E; [now constructor|].
  destruct (split c s) as [|x rest]; [repeat constructor; simpl; now rewrite E|].
  inversion IH; subst. constructor; [|assumption]. simpl. now rewrite E.
Qed.

Lemma split_none (c : ascii) (s : string) : contains c s = false -> split c s = [s].
Proof.
  induction s as [|a s IH]; intros H; [reflexivity|].
  simpl in H. apply orb_false_iff in H as [Ha Hs].
  simpl. rewrite Ha. now rewrite (IH Hs).
Qed.

Lemma split_app (c : ascii) (a b : string) :
  contains c a = false -> split c (a ++ String c b) = a :: split c b.
Proof.
  induction a as [|x a IH]; intros H.
  - simpl. now rewrite Ascii.eqb_refl.
  - simpl in H. apply orb_false_iff in H as [Hx Ha].
    simpl. rewrite Hx. now rewrite (IH Ha).
Qed.

Lemma contains_trimStart (c : ascii) (s : string) :
  contains c s = false -> contains c (Str.trimStart s) = false.
Proof.
  induction s as [|a s IH]; intros H; [reflexivity|].
  simpl. destruct (Str.is_ws a); [|exact H].
  simpl in H. apply orb_false_iff in H as [_ Hs]. now apply IH.
Qed.

Lemma contains_trimEnd (c : ascii) (s : string) :
  contains c s = false -> contains c (Str.trimEnd s) = false.
Proof.
  induction s as [|a s IH]; intros H; [reflexivity|].
  simpl in H. apply orb_false_iff in H as [Ha Hs]. specialize (IH Hs).
  simpl. destruct (Str.trimEnd s) as [|b r].
  - destruct (Str.is_ws a); [reflexivity|]. simpl. now rewrite Ha.
  - simpl. simpl in IH. now rewrite Ha, IH.
Qed.

Lemma contains_trim (c : ascii) (s : string) :
  contains c s = false -> contains c (Str.trim s) = false.
Proof. intros H. unfold Str.trim. now apply contains_trimEnd, contains_trimStart. Qed.

(** The items [toNotionPropertyValue] sends for a list are clean. *)
Lemma comma_list_clean (value : string) : Forall clean_name (comma_list value).
Proof.
  unfold comma_list. apply Forall_forall. intros x Hx.
  apply filter_In in Hx as [Hin Hne]. apply in_map_iff in Hin as [y [<- Hy]].
  pose proof (split_parts "," value) as Hparts.
  rewrite Forall_forall in Hparts. specialize (Hparts y Hy).
  repeat split.
  - apply negb_true_iff in Hne. now apply is_empty_false.
  - apply StrFacts.trim_idem.
  - now apply contains_trim.
Qed.

Lemma trim_space (x : string) : Str.trim (String " " x) = Str.trim x.
Proof. reflexivity. Qed.

(** Clean names joined by a comma and a space are read back as they are. *)
Lemma comma_list_join (names : list string) :
  Forall clean_name names -> comma_list (Str.join ", " names) = names.
Proof.
  unfold comma_list.
  assert (Hgen : forall names, Forall clean_name names ->
             forall pad, (pad = EmptyString \/ pad = " "%string) ->
             names <> [] ->
             filter (fun x => negb (Str.is_empty x))
               (map Str.trim (split "," (pad ++ Str.join ", " names))) = names).
  { induction 1 as [|x l [Hne [Htrim Hcomma]] Hl IH]; intros pad Hpad Hnil; [now elim Hnil|].
    assert (Hx : Str.trim (pad ++ x) = x)
      by (destruct Hpad as [-> | ->]; [exact Htrim | simpl; exact Htrim]).
    assert (Hc : contains "," (pad ++ x) = false)
      by (rewrite contains_app, Hcomma; destruct Hpad as [-> | ->]; reflexivity).
    destruct l as [|y l].
    - cbn [Str.join]. rewrite (split_none "," (pad ++ x) Hc). cbn [map filter].
      rewrite Hx. apply is_empty_false in Hne. now rewrite Hne.
    - change (Str.join ", " (x :: y :: l)) with (x ++ ", " ++ Str.join ", " (y :: l))%string.
      rewrite <- append_assoc.
      change (", " ++ Str.join ", " (y :: l))%string
        with (String "," (" " ++ Str.join ", " (y :: l)))%string.
      rewrite (split_app "," (pad ++ x) _ Hc). cbn [map filter].
      rewrite Hx. pose proof Hne as Hne'. apply is_empty_false in Hne'. rewrite Hne'.
      cbn [negb]. f_equal. apply IH; [now right | discriminate]. }
  intros H. destruct names as [|x l]; [reflexivity|].
  apply (Hgen (x :: l) H EmptyString); [now left | discriminate].
Qed.

End CommaList.

(** X15. For a multi-select and for a relation, [toNotionPropertyValue]
    sends the comma-separated items of the value in order, each trimmed, and
    leaves out the empty ones: every name or id it sends is non-empty, has no
    white space around it and holds no comma.  A text made of such names
    joined by ", " is sent as exactly these names. *)
Theorem toNotionPropertyValue_lists {pf : Platform} (value : string) (names : list string) :
  NotionArgs.toNotionPropertyValue (Js.JStr "multi_select") (Some value)
  = Js.JObj [("multi_select",
              Js.JArr (map (fun name => Js.JObj [("name", Js.JStr name)])
                         (NotionArgs.comma_list value)))]
  /\ NotionArgs.toNotionPropertyValue (Js.JStr "relation") (Some value)
     = Js.JObj [("relation",
                 Js.JArr (map (fun id => Js.JObj [("id", Js.JStr id)])
                            (NotionArgs.comma_list value)))]
  /\ Forall NotionProps.clean_name (NotionArgs.comma_list value)
  /\ (Forall NotionProps.clean_name names ->
      NotionArgs.comma_list (Str.join ", " names) = names).
Proof.
  split; [reflexivity|]. split; [reflexivity|].
  split; [apply comma_list_clean | apply comma_list_join].
Qed.

Example toNotionPropertyValue_run :
  NotionArgs.comma_list " red , ,blue,, " = ["red"; "blue"].
Proof. reflexivity. Qed.

Section ReadBack.
Import Js NotionArgs NotionProps.
Context {rt : Runtime} {pf : Platform}.

Lemma join_names (names : list string) :
  join_truthy ", " (get "name") (map (fun name => JObj [("name", JStr name)]) names)
  = Str.join ", " (filter (fun x => negb (Str.is_empty x)) names).
Proof.
  unfold join_truthy. f_equal.
  induction names as [|x l IH]; [reflexivity|].
  cbn [map filter]. cbn [get assoc String.eqb Ascii.eqb Bool.eqb truthyV truthy].
  destruct (Str.is_empty x); cbn [negb]; [exact IH|].
  cbn [map ToStringV ToString]. now rewrite IH.
Qed.

Lemma join_ids (ids : list string) :
  join_truthy ", " (get "id") (map (fun id => JObj [("id", JStr id)]) ids)
  = Str.join ", " (filter (fun x => negb (Str.is_empty x)) ids).
Proof.
  unfold join_truthy. f_equal.
  induction ids as [|x l IH]; [reflexivity|].
  cbn [map filter]. cbn [get assoc String.eqb Ascii.eqb Bool.eqb truthyV truthy].
  destruct (Str.is_empty x); cbn [negb]; [exact IH|].
  cbn [map ToStringV ToString]. now rewrite IH.
Qed.

Lemma filter_clean (names : list string) :
  Forall clean_name names -> filter (fun x => negb (Str.is_empty x)) names = names.
Proof.
  induction 1 as [|x l [Hne _] _ IH]; [reflexivity|].
  cbn [filter]. apply is_empty_false in Hne. rewrite Hne. cbn [negb]. now rewrite IH.
Qed.

End ReadBack.

(** X16. What [toNotionPropertyValue] writes, [flattenProperty] reads back.
    For the types select, status, date, url, email and phone_number the
    property object built from a value flattens to that value; for
    multi_select and relation it flattens to the items that were sent, joined
    by ", ", and writing that text again sends the same items. *)
Theorem flatten_reads_written {rt : Js.Runtime} {pf : Platform} (t value : string) :
  (In t ["select"; "status"; "date"; "url"; "email"; "phone_number"] ->
   NotionProps.flattenProperty
     (NotionProps.typed_property t
        (NotionArgs.toNotionPropertyValue (Js.JStr t) (Some value)))
   = Some (Js.JStr value))
  /\ (In t ["multi_select"; "relation"] ->
      NotionProps.flattenProperty
        (NotionProps.typed_property t
           (NotionArgs.toNotionPropertyValue (Js.JStr t) (Some value)))
      = Some (Js.JStr (Str.join ", " (NotionArgs.comma_list value)))
      /\ NotionArgs.comma_list (Str.join ", " (NotionArgs.comma_list value))
         = NotionArgs.comma_list value).
Proof.
  split.
  - intros Hin. repeat (destruct Hin as [<-|Hin]; [reflexivity|]). destruct Hin.
  - intros Hin. split; [|apply comma_list_join, comma_list_clean].
    destruct Hin as [<-|[<-|[]]].
    + cbn -[NotionArgs.comma_list Str.join NotionProps.join_truthy].
      unfold NotionProps.list_of_names.
      cbn -[NotionArgs.comma_list Str.join NotionProps.join_truthy].
      rewrite join_names, (filter_clean _ (comma_list_clean value)). reflexivity.
    + cbn -[NotionArgs.comma_list Str.join NotionProps.join_truthy].
      unfold NotionProps.list_of_names.
      cbn -[NotionArgs.comma_list Str.join NotionProps.join_truthy].
      rewrite join_ids, (filter_clean _ (comma_list_clean value)). reflexivity.
Qed.

Lemma flatten_reads_written_witness :
  NotionProps.flattenProperty (rt := Ref.runtime)
    (NotionProps.typed_property "multi_select"
       (NotionArgs.toNotionPropertyValue
          (pf := plain_platform)
          (Js.JStr "multi_select") (Some " red , ,blue")))
  = Some (Js.JStr "red, blue").
Proof.
  apply (proj1 (proj2 (flatten_reads_written (rt := Ref.runtime)
                         (pf := plain_platform)
                         "multi_select" " red , ,blue")
                  (or_introl eq_refl))).
Defined.

Section Titles.
Import Js NotionProps.
Context {rt : Runtime}.



End Titles.


Example title_run :
  NotionProps.extractTitleFromProperties (rt := Ref.runtime)
    (Js.JObj [("Status", Js.JObj [("type", Js.JStr "status")]);
              ("Task", Js.JObj [("type", Js.JStr "title"); ("title", Js.JArr [])])])
  = "Task"
  /\ NotionProps.findTitlePropertyName
       (Js.JObj [("Status", Js.JObj [("type", Js.JStr "status")]);
                 ("Task", Js.JObj [("type", Js.JStr "title"); ("title", Js.JArr [])])])
     = "Task".
Proof. split; reflexivity. Qed.

(** ** Markdown to blocks *)

Section MarkdownFacts.
Import Js Text TextFacts Markdown.

Lemma split_app_any (c : ascii) (x y : string) :
  split c (x ++ String c y) = (split c x ++ split c y)%list.
Proof.
  induction x as [|a x IH]; simpl.
  - now rewrite Ascii.eqb_refl.
  - destruct (Ascii.eqb a c); [now rewrite IH|].
    rewrite IH. destruct (split_cons c x) as [h [t ->]]. reflexivity.
Qed.




Lemma replace_crlf_cons (c : ascii) (s : string) :
  Ascii.eqb c CR = false -> replace_crlf (String c s) = String c (replace_crlf s).
Proof.
  intros H. cbn [replace_crlf]. destruct s as [|d s']; [reflexivity|].
  now rewrite H.
Qed.

Lemma replace_crlf_step (c d : ascii) (r : string) :
  replace_crlf (String c (String d r))
  = if Ascii.eqb c CR && Ascii.eqb d NL then String NL (replace_crlf r)
    else String c (replace_crlf (String d r)).
Proof. reflexivity. Qed.

(** A line feed that does not follow a carriage return separates what is
    rewritten before it from what is rewritten after it. *)
Lemma replace_crlf_app (a b : string) :
  ends_with CR a = false ->
  replace_crlf (a ++ String NL b) = (replace_crlf a ++ String NL (replace_crlf b))%string.
Proof.
  assert (Hnl : replace_crlf (String NL b) = String NL (replace_crlf b))
    by now apply replace_crlf_cons.
  assert (Hgen : forall n a, (String.length a <= n)%nat -> ends_with CR a = false ->
             replace_crlf (a ++ String NL b)
             = (replace_crlf a ++ String NL (replace_crlf b))%string).
  { induction n as [|n IH]; intros x Hlen Hend.
    - destruct x; [exact Hnl | simpl in Hlen; lia].
    - destruct x as [|c x]; [exact Hnl|].
      destruct x as [|d x].
      + cbn [ends_with] in Hend.
        change (replace_crlf (String c (String NL b))
                = String c (String NL (replace_crlf b))).
        rewrite replace_crlf_step, Hend. cbn [andb]. now rewrite Hnl.
      + change (replace_crlf (String c (String d (x ++ String NL b)))
                = (replace_crlf (String c (String d x)) ++ String NL (replace_crlf b))%string).
        rewrite !replace_crlf_step.
        destruct (Ascii.eqb c CR && Ascii.eqb d NL) eqn:E.
        * rewrite IH; [reflexivity | simpl in Hlen; lia |].
          destruct x; [reflexivity | exact Hend].
        * change (String d (x ++ String NL b)) with (String d x ++ String NL b)%string.
          rewrite IH; [reflexivity | simpl in *; lia | exact Hend]. }
  intros H. now apply (Hgen (String.length a)).
Qed.

Lemma lines_of_app (a b : string) :
  ends_with CR a = false ->
  lines_of (a ++ String NL b) = (lines_of a ++ lines_of b)%list.
Proof.
  intros H. unfold lines_of. rewrite (replace_crlf_app a b H). apply split_app_any.
Qed.

Lemma step_settled (st : State) (line : string) : settled st -> settled (step st line).
Proof.
  unfold settled, step. intros H.
  destruct (inCode st) eqn:E.
  - destruct (Str.startsWith line FENCE); cbn; [now split | discriminate].
  - destruct (Str.startsWith line FENCE); cbn; [discriminate|].
    destruct (Str.is_empty (Str.trim line)); cbn; [now rewrite E | intros _; now apply H].
Qed.

Lemma fold_settled (ls : list string) (st : State) :
  settled st -> settled (fold_left step ls st).
Proof.
  revert st. induction ls as [|l ls IH]; intros st H; [exact H|].
  simpl. now apply IH, step_settled.
Qed.

Lemma step_with_blocks (before : list Json) (st : State) (line : string) :
  step (with_blocks before st) line = with_blocks before (step st line).
Proof.
  destruct st as [bs ic cl cls]. unfold step, with_blocks. cbn.
  destruct ic; destruct (Str.startsWith line FENCE); cbn;
    rewrite <- ?app_assoc; try reflexivity.
  destruct (Str.is_empty (Str.trim line)); cbn; rewrite <- ?app_assoc; reflexivity.
Qed.

Lemma fold_with_blocks (ls : list string) (before : list Json) (st : State) :
  fold_left step ls (with_blocks before st) = with_blocks before (fold_left step ls st).
Proof.
  revert st. induction ls as [|l ls IH]; intros st; [reflexivity|].
  simpl. now rewrite step_with_blocks, IH.
Qed.


Lemma all_ws_replace_crlf (s : string) : Str.all_ws s = true -> Str.all_ws (replace_crlf s) = true.
Proof.
  assert (Hgen : forall n s, (String.length s <= n)%nat -> Str.all_ws s = true ->
             Str.all_ws (replace_crlf s) = true).
  { induction n as [|n IH]; intros x Hlen H.
    - destruct x; [reflexivity | simpl in Hlen; lia].
    - destruct x as [|c x]; [reflexivity|].
      simpl in H. apply andb_prop in H as [Hc Hx].
      cbn [replace_crlf]. destruct x as [|d x]; [simpl; now rewrite Hc|].
      destruct (Ascii.eqb c CR && Ascii.eqb d NL).
      + simpl in Hx. apply andb_prop in Hx as [_ Hx].
        cbn [Str.all_ws]. rewrite IH; [reflexivity | simpl in Hlen; lia | exact Hx].
      + cbn [Str.all_ws]. rewrite Hc. cbn [andb].
        apply IH; [simpl in *; lia | exact Hx]. }
  intros H. now apply (Hgen (String.length s)).
Qed.

Lemma all_ws_split (c : ascii) (s : string) :
  Str.all_ws s = true -> Forall (fun x => Str.all_ws x = true) (split c s).
Proof.
  induction s as [|a s IH]; intros H; [repeat constructor|].
  simpl in H. apply andb_prop in H as [Ha Hs]. specialize (IH Hs).
  simpl. destruct (Ascii.eqb a c); [now constructor|].
  destruct (split c s) as [|x rest]; [repeat constructor; simpl; now rewrite Ha|].
  inversion IH; subst. constructor; [|assumption]. simpl. now rewrite Ha.
Qed.

Lemma trim_all_ws (s : string) : Str.all_ws s = true -> Str.trim s = EmptyString.
Proof.
  intros H. unfold Str.trim.
  assert (Hs : Str.trimStart s = EmptyString).
  { induction s as [|a s IH]; [reflexivity|].
    simpl in H. apply andb_prop in H as [Ha Hs]. simpl. rewrite Ha. now apply IH. }
  now rewrite Hs.
Qed.

Lemma step_blank (st : State) (line : string) :
  inCode st = false -> Str.all_ws line = true -> step st line = st.
Proof.
  intros Hin Hws. unfold step. rewrite Hin.
  assert (Hf : Str.startsWith line FENCE = false).
  { destruct line as [|c line]; [reflexivity|].
    simpl in Hws. apply andb_prop in Hws as [Hc _].
    unfold Str.startsWith, FENCE. cbn [String.prefix].
    destruct (ascii_dec "`" c) as [<-|_]; [discriminate Hc | reflexivity]. }
  rewrite Hf, (trim_all_ws line Hws). reflexivity.
Qed.

Lemma fold_blank (ls : list string) (st : State) :
  inCode st = false -> Forall (fun x => Str.all_ws x = true) ls -> fold_left step ls st = st.
Proof.
  intros Hin H. induction H as [|l ls Hl _ IH]; [reflexivity|].
  simpl. now rewrite (step_blank st l Hin Hl).
Qed.

End MarkdownFacts.

(** X18. Text that holds nothing but white space gives no block.  As
    append-body and set-body only call [appendChildren] for a list that is
    not empty, they write nothing for such a text. *)
Theorem markdownToBlocks_blank (markdown : string) :
  Str.all_ws markdown = true -> Markdown.markdownToBlocks markdown = [].
Proof.
  intros H. unfold Markdown.markdownToBlocks, Markdown.run, Markdown.lines_of.
  rewrite fold_blank; [reflexivity | reflexivity |].
  now apply all_ws_split, all_ws_replace_crlf.
Qed.

Lemma markdownToBlocks_blank_witness :
  Markdown.markdownToBlocks (String Text.CR (String Text.NL "  ")) = [].
Proof. apply markdownToBlocks_blank. reflexivity. Defined.



(** X20. Blocks are built line by line, so a text can be converted in
    pieces: when [a] closes every fence it opens and does not end in a
    carriage return, the blocks of [a], a line feed and [b] are the blocks of
    [a] followed by the blocks of [b]. *)
Theorem markdownToBlocks_app (a b : string) :
  Markdown.ends_in_code a = false ->
  Markdown.ends_with Text.CR a = false ->
  Markdown.markdownToBlocks (a ++ String Text.NL b)
  = (Markdown.markdownToBlocks a ++ Markdown.markdownToBlocks b)%list.
Proof.
  intros Hcode Hcr. unfold Markdown.ends_in_code in Hcode.
  assert (Hset : Markdown.settled (Markdown.run a)) by (apply fold_settled; now intros _).
  destruct (Hset Hcode) as [Hlang Hlines].
  assert (Hst : Markdown.run a
                = Markdown.with_blocks (Markdown.blocks (Markdown.run a)) Markdown.start).
  { unfold Markdown.with_blocks. cbn. rewrite app_nil_r.
    destruct (Markdown.run a) as [bs ic cl cls]. cbn in *. now subst. }
  assert (Hrun : Markdown.run (a ++ String Text.NL b)
                 = Markdown.with_blocks (Markdown.blocks (Markdown.run a)) (Markdown.run b)).
  { unfold Markdown.run at 1. rewrite (lines_of_app a b Hcr), fold_left_app.
    fold (Markdown.run a). rewrite Hst at 1. apply fold_with_blocks. }
  unfold Markdown.markdownToBlocks. rewrite Hrun, Hcode.
  unfold Markdown.with_blocks.
  cbn [Markdown.inCode Markdown.blocks Markdown.codeLines Markdown.codeLang].
  destruct (Markdown.inCode (Markdown.run b)); [now rewrite <- app_assoc | reflexivity].
Qed.

Lemma markdownToBlocks_app_witness :
  Markdown.markdownToBlocks ("# Title" ++ String Text.NL "- [x] done")
  = (Markdown.markdownToBlocks "# Title" ++ Markdown.markdownToBlocks "- [x] done")%list.
Proof. apply markdownToBlocks_app; reflexivity. Defined.

Section BlockShape.
Import Js Text TextFacts Markdown.

Lemma ends_ws_cons (a : ascii) (s : string) :
  s <> EmptyString -> ends_ws (String a s) = ends_ws s.
Proof. destruct s; [intros H; now elim H | reflexivity]. Qed.

Lemma trimEnd_visible (s : string) : ends_ws (Str.trimEnd s) = false.
Proof.
  induction s as [|a s IH]; [reflexivity|].
  simpl. destruct (Str.trimEnd s) as [|b r] eqn:E.
  - destruct (Str.is_ws a) eqn:Ea; [reflexivity | simpl; exact Ea].
  - rewrite ends_ws_cons by discriminate. exact IH.
Qed.

Lemma trim_visible (s : string) : ends_ws (Str.trim s) = false.
Proof. apply trimEnd_visible. Qed.

Lemma ends_ws_app (a b : string) : b <> EmptyString -> ends_ws (a ++ b) = ends_ws b.
Proof.
  intros Hb. induction a as [|x a IH]; [reflexivity|].
  simpl String.append. rewrite ends_ws_cons; [exact IH|].
  destruct a; simpl; [exact Hb | discriminate].
Qed.

(** What follows a prefix that ends in white space, in a text that does
    not, is not empty. *)
Lemma drop_prefix_nonempty (p s : string) :
  String.prefix p s = true -> ends_ws p = true -> ends_ws s = false ->
  drop (String.length p) s <> EmptyString.
Proof.
  intros Hp Hws Hs Hd. apply prefix_drop in Hp. rewrite Hd in Hp.
  assert (E : s = p) by (rewrite <- Hp; clear; induction p; simpl; congruence).
  subst s. congruence.
Qed.

Lemma richText_nonempty (text : string) :
  text <> EmptyString ->
  richText text
  = JArr [JObj [("type", JStr "text"); ("text", JObj [("content", JStr text)])]].
Proof. intros H. unfold richText. apply is_empty_false in H. now rewrite H. Qed.

Lemma text_block_well_formed (type text : string) :
  In type ["heading_3"; "heading_2"; "heading_1"; "bulleted_list_item";
           "numbered_list_item"; "quote"; "paragraph"] ->
  text <> EmptyString -> well_formed (text_block type text).
Proof.
  intros Hin Hne. unfold text_block. rewrite (richText_nonempty text Hne).
  repeat (destruct Hin as [<-|Hin];
          [split; [reflexivity|]; eexists; split; [|split; [reflexivity|]];
           [unfold BLOCK_TYPES; simpl; tauto|];
           right; right; exists text; split; [exact Hne | reflexivity]|]).
  destruct Hin.
Qed.

Lemma match_todo_text (trimmed : string) (c : ascii) (text : string) :
  match_todo trimmed = Some (c, text) -> ends_ws trimmed = false -> text <> EmptyString.
Proof.
  unfold match_todo.
  destruct (strip_prefix "- [" trimmed) as [[|c' rest]|] eqn:E1; try discriminate.
  destruct (Ascii.eqb c' " " || Ascii.eqb c' "x" || Ascii.eqb c' "X"); [|discriminate].
  destruct (strip_prefix "] " rest) as [t|] eqn:E2; [|discriminate].
  destruct (no_line_terminator t); [|discriminate].
  intros H Hws. inversion H; subst c' t. clear H.
  apply strip_prefix_some in E1, E2. subst rest trimmed.
  intros ->. discriminate Hws.
Qed.

Lemma is_bullet_text (trimmed : string) :
  is_bullet trimmed = true -> ends_ws trimmed = false -> drop 2 trimmed <> EmptyString.
Proof.
  destruct trimmed as [|c [|d r]]; try discriminate.
  unfold is_bullet. destruct (Ascii.eqb_spec d " ") as [->|N].
  - intros _ Hws. simpl. intros ->. discriminate Hws.
  - intros H. exfalso. revert H.
    destruct d as [[] [] [] [] [] [] [] []]; try discriminate; now elim N.
Qed.

Lemma skip_digits_tail (s : string) :
  skip_digits s <> EmptyString -> ends_ws s = ends_ws (skip_digits s).
Proof.
  induction s as [|c s IH]; [reflexivity|].
  cbn [skip_digits]. destruct (is_digit c); [|reflexivity].
  intros H. rewrite ends_ws_cons; [now apply IH|].
  intros ->. now apply H.
Qed.

Lemma trimStart_empty (s : string) : Str.trimStart s = EmptyString -> Str.all_ws s = true.
Proof.
  induction s as [|a s IH]; [reflexivity|].
  simpl. destruct (Str.is_ws a); [exact IH | discriminate].
Qed.

Lemma all_ws_ends (a : ascii) (s : string) :
  Str.is_ws a = true -> Str.all_ws s = true -> ends_ws (String a s) = true.
Proof.
  revert a. induction s as [|b s IH]; intros a Ha Hs; [exact Ha|].
  simpl in Hs. apply andb_prop in Hs as [Hb Hs].
  rewrite ends_ws_cons by discriminate. now apply IH.
Qed.

Lemma strip_numbered_text (trimmed text : string) :
  strip_numbered trimmed = Some text -> ends_ws trimmed = false -> text <> EmptyString.
Proof.
  unfold strip_numbered. destruct trimmed as [|c r]; [discriminate|].
  destruct (is_digit c); [|discriminate].
  destruct (skip_digits (String c r)) as [|dot tail] eqn:E; [discriminate|].
  destruct (Ascii.eqb_spec dot ".") as [->|N].
  - destruct tail as [|w rest]; [discriminate|].
    destruct (Str.is_ws w) eqn:Ew; [|discriminate].
    intros H Hws. inversion H; subst text. clear H.
    intros Hempty. apply trimStart_empty in Hempty.
    rewrite (skip_digits_tail (String c r)) in Hws by (rewrite E; discriminate).
    rewrite E in Hws. rewrite ends_ws_cons in Hws by discriminate.
    now rewrite (all_ws_ends w rest Ew Hempty) in Hws.
  - intros H. exfalso. revert H.
    destruct dot as [[] [] [] [] [] [] [] []]; try discriminate; now elim N.
Qed.

Lemma line_block_well_formed (trimmed : string) :
  trimmed <> EmptyString -> ends_ws trimmed = false -> well_formed (line_block trimmed).
Proof.
  intros Hne Hws. unfold line_block.
  destruct (String.eqb trimmed "---").
  { split; [reflexivity|]. exists "divider". split; [simpl; tauto|].
    split; [reflexivity | now left]. }
  destruct (Str.startsWith trimmed "### ") eqn:H3.
  { apply text_block_well_formed; [simpl; tauto|].
    now apply (drop_prefix_nonempty "### " trimmed). }
  destruct (Str.startsWith trimmed "## ") eqn:H2.
  { apply text_block_well_formed; [simpl; tauto|].
    now apply (drop_prefix_nonempty "## " trimmed). }
  destruct (Str.startsWith trimmed "# ") eqn:H1.
  { apply text_block_well_formed; [simpl; tauto|].
    now apply (drop_prefix_nonempty "# " trimmed). }
  destruct (match_todo trimmed) as [[c text]|] eqn:Et.
  { pose proof (match_todo_text trimmed c text Et Hws) as Ht.
    rewrite (richText_nonempty text Ht).
    split; [reflexivity|]. exists "to_do". split; [simpl; tauto|].
    split; [reflexivity|]. right; right. exists text. split; [exact Ht | reflexivity]. }
  destruct (is_bullet trimmed) eqn:Eb.
  { apply text_block_well_formed; [simpl; tauto|]. now apply is_bullet_text. }
  destruct (strip_numbered trimmed) as [text|] eqn:En.
  { apply text_block_well_formed; [simpl; tauto|].
    now apply (strip_numbered_text trimmed). }
  destruct (Str.startsWith trimmed "> ") eqn:Hq.
  { apply text_block_well_formed; [simpl; tauto|].
    now apply (drop_prefix_nonempty "> " trimmed). }
  apply text_block_well_formed; [simpl; tauto | exact Hne].
Qed.

Lemma code_block_well_formed (codeLines : list string) (codeLang : string) :
  well_formed (code_block codeLines codeLang).
Proof.
  split; [reflexivity|]. exists "code". split; [simpl; tauto|].
  split; [reflexivity|]. right. now left.
Qed.

Lemma step_well_formed (st : State) (line : string) :
  Forall well_formed (blocks st) -> Forall well_formed (blocks (step st line)).
Proof.
  intros H. unfold step.
  destruct (inCode st).
  - destruct (Str.startsWith line FENCE); cbn [blocks]; [|exact H].
    apply Forall_app. split; [exact H|]. constructor; [|constructor].
    apply code_block_well_formed.
  - destruct (Str.startsWith line FENCE); cbn [blocks]; [exact H|].
    destruct (Str.is_empty (Str.trim line)) eqn:E; cbn [blocks]; [exact H|].
    apply Forall_app. split; [exact H|]. constructor; [|constructor].
    apply line_block_well_formed; [now apply is_empty_false | apply trim_visible].
Qed.

Lemma fold_well_formed (ls : list string) (st : State) :
  Forall well_formed (blocks st) -> Forall well_formed (blocks (fold_left step ls st)).
Proof.
  revert st. induction ls as [|l ls IH]; intros st H; [exact H|].
  simpl. now apply IH, step_well_formed.
Qed.

End BlockShape.

(** X21. Every block [markdownToBlocks] builds is a block object of one of
    the ten types, and but for dividers and code blocks it carries exactly one
    rich-text item whose content is not empty: no heading, list item, to-do,
    quote or paragraph is written without text.  No text makes it throw. *)
Theorem markdownToBlocks_well_formed (markdown : string) :
  Forall Markdown.well_formed (Markdown.markdownToBlocks markdown).
Proof.
  unfold Markdown.markdownToBlocks.
  assert (H : Forall Markdown.well_formed (Markdown.blocks (Markdown.run markdown)))
    by (apply fold_well_formed; constructor).
  destruct (Markdown.inCode (Markdown.run markdown)); [|exact H].
  apply Forall_app. split; [exact H|]. constructor; [|constructor].
  apply code_block_well_formed.
Qed.

Example markdownToBlocks_run :
  Markdown.markdownToBlocks
    ("## Plan" ++ String Text.NL ("1.  first" ++ String Text.NL "- [X] done"))
  = [ Markdown.text_block "heading_2" "Plan";
      Markdown.text_block "numbered_list_item" "first";
      Markdown.block "to_do"
        (Js.JObj [("rich_text", Markdown.richText "done"); ("checked", Js.JBool true)]) ].
Proof. reflexivity. Qed.

(** ** Page bodies *)

Section Chunks.
Import Js NotionPages.

Lemma chunks_concat (fuel : nat) (l : list Json) :
  (length l <= fuel)%nat -> concat (chunks fuel l) = l.
Proof.
  revert l. induction fuel as [|fuel IH]; intros l H.
  - destruct l; [reflexivity | simpl in H; lia].
  - destruct l as [|x l]; [reflexivity|].
    cbn [chunks concat]. rewrite IH; [apply firstn_skipn|].
    rewrite length_skipn. simpl in *. lia.
Qed.

Lemma chunks_sizes (fuel : nat) (l : list Json) :
  Forall (fun chunk => (1 <= length chunk <= 100)%nat) (chunks fuel l).
Proof.
  revert l. induction fuel as [|fuel IH]; intros l.
  - destruct l; constructor.
  - destruct l as [|x l]; [constructor|].
    cbn [chunks]. constructor; [|apply IH].
    rewrite length_firstn. simpl length. lia.
Qed.

Lemma chunks_count (fuel : nat) (l : list Json) :
  (length l <= fuel)%nat -> length (chunks fuel l) = ((length l + 99) / 100)%nat.
Proof.
  revert l. induction fuel as [|fuel IH]; intros l H.
  - destruct l; [reflexivity | simpl in H; lia].
  - destruct l as [|x l]; [reflexivity|].
    cbn [chunks length]. rewrite IH by (rewrite length_skipn; simpl in *; lia).
    rewrite length_skipn.
    destruct (Nat.le_gt_cases (length (x :: l)) 100) as [Hle|Hgt].
    + replace (length (x :: l) - 100)%nat with O by lia.
      change ((0 + 99) / 100)%nat with O.
      apply Nat.div_unique with (r := (length l)%nat); simpl in *; lia.
    + replace (S (length l) + 99)%nat
        with ((length (x :: l) - 100 + 99) + 1 * 100)%nat by (simpl in *; lia).
      rewrite Nat.div_add by lia. lia.
Qed.

End Chunks.

Section Appending.
Import Js Sys Session Http Obs NotionPages.
Context {rt : Runtime} {cfg : Config}.
Variable env : Env.

Lemma fetch_same_session (r : Request) (w : World) (s : string) :
  fst (getAgentSession w) = Ret (Some s) ->
  fst (getAgentSession (snd (fetch env r w))) = Ret (Some s).
Proof.
  intros H. rewrite <- H. apply getAgentSession_fs.
  unfold fetch. now destruct (respond env (now w) (log w) r).
Qed.

Lemma fetches_fetch (r : Request) (w : World) :
  fetches (log (snd (fetch env r w))) = (fetches (log w) ++ [r])%list.
Proof.
  unfold fetch. destruct (respond env (now w) (log w) r); cbn [snd log];
    now rewrite fetches_app.
Qed.

Lemma fs_fetch (r : Request) (w : World) : fs (snd (fetch env r w)) = fs w.
Proof. unfold fetch. now destruct (respond env (now w) (log w) r). Qed.

Lemma append_chunks_sends (s parentId : string) (fuel : nat) (todo : list (list Json)) :
  (forall t h chunk, exists resp,
      respond env t h (children_request s parentId chunk) = Some resp /\ accepted resp) ->
  forall w, fst (getAgentSession w) = Ret (Some s) ->
  exists w',
    append_chunks env (S fuel) parentId todo w = (Ret tt, w')
    /\ fs w' = fs w
    /\ fetches (log w') = (fetches (log w) ++ map (children_request s parentId) todo)%list.
Proof.
  unfold children_request.
  intros Hok. induction todo as [|chunk rest IH]; intros w Hs.
  - exists w. cbn. now rewrite app_nil_r.
  - destruct (Hok (now w) (log w) chunk) as [resp [Hresp [Hgood Hobj]]].
    cbn [append_chunks]. unfold bind at 1.
    rewrite (notionApi_ok env fuel s _ _ _ 0 w resp Hs Hresp Hgood Hobj).
    match goal with
    | |- context [snd (fetch env ?r w)] =>
        destruct (IH (snd (fetch env r w))) as [w' [Hrun [Hfs Hlog]]];
        [now apply fetch_same_session|]
    end.
    exists w'. split; [exact Hrun|]. split.
    + rewrite Hfs. apply fs_fetch.
    + rewrite Hlog, fetches_fetch, <- app_assoc. reflexivity.
Qed.

End Appending.

(** X22. [appendChildren] sends the children in order and whole, in
    requests of at most 100 blocks: the chunks it cuts are not empty, hold at
    most 100 blocks each, make up the list when put together, and there are
    the length divided by 100, rounded up, of them.  With a session on file
    and a proxy that accepts every such request, it returns after exactly one
    PATCH of /blocks/ID/children per chunk, in order, and issues no other
    request; for an empty list it sends nothing. *)
Theorem appendChildren_in_chunks {rt : Js.Runtime} {cfg : Session.Config}
  (env : Sys.Env) (w : Sys.World) (s parentId : string) (children : list Js.Json)
  (fuel : nat) :
  concat (NotionPages.chunked children) = children
  /\ Forall (fun chunk => (1 <= length chunk <= 100)%nat) (NotionPages.chunked children)
  /\ length (NotionPages.chunked children) = ((length children + 99) / 100)%nat
  /\ (fst (Session.getAgentSession w) = Sys.Ret (Some s) ->
      (forall t h chunk, exists resp,
          Sys.respond env t h (children_request s parentId chunk) = Some resp
          /\ accepted resp) ->
      exists w',
        NotionPages.appendChildren env (S fuel) parentId children w = (Sys.Ret tt, w')
        /\ Sys.fs w' = Sys.fs w
        /\ Obs.fetches (Sys.log w')
           = (Obs.fetches (Sys.log w)
              ++ map (children_request s parentId) (NotionPages.chunked children))%list).
Proof.
  unfold NotionPages.chunked. split; [|split; [|split]].
  - now apply chunks_concat.
  - apply chunks_sizes.
  - now apply chunks_count.
  - intros Hs Hok. now apply append_chunks_sends.
Qed.

Lemma appendChildren_in_chunks_witness :
  exists w',
    NotionPages.appendChildren (rt := Ref.runtime) (cfg := Ref.config)
      (always (Ref.json_response 200 (Js.JObj [])))
      1 "p1" (Markdown.markdownToBlocks "# Title") (saved SESSION)
    = (Sys.Ret tt, w')
    /\ Sys.fs w' = Sys.fs (saved SESSION)
    /\ Obs.fetches (Sys.log w')
       = (Obs.fetches (Sys.log (saved SESSION))
          ++ map (children_request (rt := Ref.runtime) (cfg := Ref.config) SESSION "p1")
               (NotionPages.chunked (Markdown.markdownToBlocks "# Title")))%list.
Proof.
  apply (proj2 (proj2 (proj2 (appendChildren_in_chunks (rt := Ref.runtime)
                                (cfg := Ref.config)
                                (always (Ref.json_response 200 (Js.JObj [])))
                                (saved SESSION) SESSION "p1"
                                (Markdown.markdownToBlocks "# Title") 0)))).
  - reflexivity.
  - intros t h chunk. eexists. split; [reflexivity|]. split; vm_compute; reflexivity.
Defined.

Section PagingFacts.
Import Js Sys Session Http Obs NotionPages Paging.
Context {rt : Runtime} {cfg : Config} {pf : Platform}.
Variable env : Env.

Lemma list_pages_served (s blockId : string) (fuel : nat) (pages : list Response) :
  forall (rounds : nat) (cursor : JsVal) (results items : list Json) (w : World),
  (length pages <= rounds)%nat ->
  fst (getAgentSession w) = Ret (Some s) ->
  paged env s blockId cursor pages ->
  all_items pages = Some items ->
  exists w',
    list_pages env rounds (S fuel) blockId cursor results w = (Ret (results ++ items)%list, w')
    /\ fs w' = fs w
    /\ fetches (log w') = (fetches (log w) ++ page_requests s blockId cursor pages)%list.
Proof.
  induction pages as [|resp rest IH]; intros rounds cursor results items w Hlen Hs Hp Hi;
    [destruct Hp|].
  destruct rounds as [|rounds]; [simpl in Hlen; lia|].
  destruct Hp as [Hresp [[Hok Hobj] Hnext]].
  cbn [all_items] in Hi.
  destruct (spread_items (get "results" (returned resp))) as [here|] eqn:Ehere;
    [|discriminate].
  destruct (all_items rest) as [others|] eqn:Eothers; [|discriminate].
  inversion Hi; subst items. clear Hi.
  cbn [list_pages]. unfold bind at 1.
  unfold page_request in Hresp.
  rewrite (notionApi_ok env fuel s _ _ _ 0 w resp Hs (Hresp _ _) Hok Hobj).
  fold (returned resp). rewrite Ehere. cbv zeta.
  destruct rest as [|resp' rest].
  - rewrite Hnext. inversion Eothers; subst others. rewrite app_nil_r.
    eexists. split; [reflexivity|]. split; [apply fs_fetch|].
    cbn [page_requests]. now rewrite fetches_fetch.
  - destruct Hnext as [Hmore Hrest]. rewrite Hmore.
    match goal with
    | |- context [snd (fetch env ?r w)] =>
        destruct (IH rounds (next_cursor (returned resp)) (results ++ here)%list others
                    (snd (fetch env r w))) as [w' [Hrun [Hfs Hlog]]];
        [simpl in Hlen; simpl; lia | now apply fetch_same_session | exact Hrest
        | reflexivity |]
    end.
    exists w'. split; [rewrite Hrun; now rewrite <- app_assoc|].
    split; [rewrite Hfs; apply fs_fetch|].
    rewrite Hlog, fetches_fetch, <- app_assoc. reflexivity.
Qed.

End PagingFacts.

(** X23. [listAllBlockChildren] follows the cursors: it asks for the first
    page without a cursor and for each further page with the [next_cursor]
    of the page before, as long as [has_more] and the cursor are truthy, and
    returns the results of all pages in order.  With a session on file and a
    proxy that serves the children in the pages [pages], it returns their
    results put together after exactly one GET per page. *)
Theorem listAllBlockChildren_pages {rt : Js.Runtime} {cfg : Session.Config} {pf : Platform}
  (env : Sys.Env) (w : Sys.World) (s blockId : string) (pages : list Sys.Response)
  (items : list Js.Json) (fuel : nat) :
  fst (Session.getAgentSession w) = Sys.Ret (Some s) ->
  Paging.paged env s blockId (Some Js.JNull) pages ->
  Paging.all_items pages = Some items ->
  (length pages <= S fuel)%nat ->
  exists w',
    NotionPages.listAllBlockChildren env (S fuel) blockId w = (Sys.Ret items, w')
    /\ Sys.fs w' = Sys.fs w
    /\ Obs.fetches (Sys.log w')
       = (Obs.fetches (Sys.log w)
          ++ Paging.page_requests s blockId (Some Js.JNull) pages)%list
    /\ length (Paging.page_requests s blockId (Some Js.JNull) pages) = length pages.
Proof.
  intros Hs Hp Hi Hlen.
  destruct (list_pages_served env s blockId fuel pages (S fuel) (Some Js.JNull) [] items w
              Hlen Hs Hp Hi) as [w' [Hrun [Hfs Hlog]]].
  exists w'. repeat split; try assumption.
  clear. generalize (Some Js.JNull). induction pages as [|p l IH]; intros c; [reflexivity|].
  cbn [Paging.page_requests length]. now rewrite IH.
Qed.

Lemma listAllBlockChildren_pages_witness :
  exists w',
    NotionPages.listAllBlockChildren (rt := Ref.runtime) (cfg := Ref.config)
      (pf := plain_platform) two_pages 2 "b1" (saved SESSION)
    = (Sys.Ret [Js.JObj [("id", Js.JStr "x1")]; Js.JObj [("id", Js.JStr "x2")]], w')
    /\ Sys.fs w' = Sys.fs (saved SESSION)
    /\ Obs.fetches (Sys.log w')
       = (Obs.fetches (Sys.log (saved SESSION))
          ++ Paging.page_requests (rt := Ref.runtime) (cfg := Ref.config)
               (pf := plain_platform) SESSION "b1" (Some Js.JNull) two_page_answers)%list
    /\ length (Paging.page_requests (rt := Ref.runtime) (cfg := Ref.config)
                 (pf := plain_platform) SESSION "b1" (Some Js.JNull) two_page_answers)
       = length two_page_answers.
Proof.
  apply (listAllBlockChildren_pages (rt := Ref.runtime) (cfg := Ref.config)
           (pf := plain_platform) two_pages (saved SESSION) SESSION "b1" two_page_answers
           [Js.JObj [("id", Js.JStr "x1")]; Js.JObj [("id", Js.JStr "x2")]] 1).
  - reflexivity.
  - split; [intros t h; reflexivity|]. split; [split; vm_compute; reflexivity|].
    split; [vm_compute; reflexivity|].
    split; [intros t h; vm_compute; reflexivity|]. split; [split; vm_compute; reflexivity|].
    vm_compute. reflexivity.
  - vm_compute. reflexivity.
  - simpl. lia.
Defined.

Section Bodies.
Import Js Sys Session Http Obs NotionPages.
Context {rt : Runtime} {cfg : Config} {pf : Platform}.
Variable env : Env.
Variable stdin : string.

Lemma archive_each_sends (s : string) (fuel : nat) (existing : list Json) :
  (forall t h block, exists resp,
      respond env t h (archive_request s block) = Some resp /\ accepted resp) ->
  Forall (fun block => block <> JNull) existing ->
  forall w, fst (getAgentSession w) = Ret (Some s) ->
  exists w',
    archive_each env (S fuel) existing w = (Ret tt, w')
    /\ fs w' = fs w
    /\ fetches (log w') = (fetches (log w) ++ map (archive_request s) existing)%list.
Proof.
  unfold archive_request.
  intros Hok Hall. induction Hall as [|block rest Hb _ IH]; intros w Hs.
  - exists w. cbn. now rewrite app_nil_r.
  - destruct (Hok (now w) (log w) block) as [resp [Hresp [Hgood Hobj]]].
    cbn [archive_each].
    assert (Hstep : forall k : M unit,
               bind (Notion.notionApi env (S fuel) "PATCH"
                       ("/blocks/" ++ ToStringV (get "id" block))
                       (Some (JObj [("archived", JBool true)])) 0) (fun _ => k) w
               = k (snd (fetch env
                           (Notion.api_request s "PATCH"
                              ("/blocks/" ++ ToStringV (get "id" block))
                              (Some (JObj [("archived", JBool true)]))) w))).
    { intros k. unfold bind at 1.
      now rewrite (notionApi_ok env fuel s _ _ _ 0 w resp Hs Hresp Hgood Hobj). }
    match goal with
    | _ : context [snd (fetch env ?r w)] |- _ =>
        destruct (IH (snd (fetch env r w))) as [w' [Hrun [Hfs Hlog]]];
        [now apply fetch_same_session|]
    end.
    exists w'. split; [|split].
    + destruct block; try (now elim Hb); rewrite Hstep; exact Hrun.
    + rewrite Hfs. apply fs_fetch.
    + rewrite Hlog, fetches_fetch, <- app_assoc. reflexivity.
Qed.

Lemma missing_given (arg : string) : arg <> EmptyString -> missing (Some arg) = false.
Proof. intros H. now apply is_empty_false. Qed.

End Bodies.

(** X24. append-body.  Without a page id or without a text it prints its
    usage and exits with code 1.  For a text of nothing but white space it
    contacts nobody, not even for a session, and reports 0 blocks written.
    Otherwise, with a session on file and a proxy that accepts the requests,
    the only requests it issues are the PATCHes of [appendChildren] for the
    blocks of the text, and it then prints the number of blocks. *)
Theorem append_body_requests {rt : Js.Runtime} {cfg : Session.Config} {pf : Platform}
  (env : Sys.Env) (stdin : string) (w : Sys.World) (pageId markdownArg : string)
  (fuel : nat) :
  (forall page text,
      NotionPages.missing page || NotionPages.missing text = true ->
      NotionPages.cmdAppendBody env stdin fuel page text w
      = (Sys.Exit 1, Sys.say w [NotionPages.BODY_USAGE "append-body"]))
  /\ (pageId <> EmptyString -> markdownArg <> EmptyString ->
      Str.all_ws (NotionPages.markdown_of stdin markdownArg) = true ->
      NotionPages.cmdAppendBody env stdin fuel (Some pageId) (Some markdownArg) w
      = (Sys.Ret tt,
         snd (Sys.console_log
                (JSON_pretty (NotionPages.written pageId "appended" [])) w)))
  /\ (forall s,
      pageId <> EmptyString -> markdownArg <> EmptyString ->
      fst (Session.getAgentSession w) = Sys.Ret (Some s) ->
      (forall t h chunk, exists resp,
          Sys.respond env t h (children_request s pageId chunk) = Some resp
          /\ accepted resp) ->
      exists w1,
        NotionPages.cmdAppendBody env stdin (S fuel) (Some pageId) (Some markdownArg) w
        = (Sys.Ret tt,
           snd (Sys.console_log
                  (JSON_pretty
                     (NotionPages.written pageId "appended"
                        (Markdown.markdownToBlocks
                           (NotionPages.markdown_of stdin markdownArg)))) w1))
        /\ Obs.fetches (Sys.log w1)
           = (Obs.fetches (Sys.log w)
              ++ map (children_request s pageId)
                   (NotionPages.chunked
                      (Markdown.markdownToBlocks
                         (NotionPages.markdown_of stdin markdownArg))))%list).
Proof.
  split; [|split].
  - intros page text H. unfold NotionPages.cmdAppendBody. rewrite H.
    unfold NotionPages.errorAndExit. now rewrite bind_say.
  - intros Hp Hm Hws. unfold NotionPages.cmdAppendBody.
    rewrite (missing_given pageId Hp), (missing_given markdownArg Hm). cbn [orb].
    cbn [NotionPages.given].
    assert (Hnone : Markdown.markdownToBlocks (NotionPages.markdown_of stdin markdownArg) = []).
    { unfold Markdown.markdownToBlocks, Markdown.run, Markdown.lines_of.
      rewrite fold_blank; [reflexivity | reflexivity |].
      now apply all_ws_split, all_ws_replace_crlf. }
    rewrite Hnone. reflexivity.
  - intros s Hp Hm Hs Hok. unfold NotionPages.cmdAppendBody.
    rewrite (missing_given pageId Hp), (missing_given markdownArg Hm). cbn [orb].
    cbn [NotionPages.given].
    set (children := Markdown.markdownToBlocks (NotionPages.markdown_of stdin markdownArg)).
    destruct (append_chunks_sends env s pageId fuel (NotionPages.chunked children) Hok w Hs)
      as [w1 [Hrun [_ Hlog]]].
    destruct children as [|b bs] eqn:E.
    + exists w. split; [reflexivity|]. cbn. now rewrite app_nil_r.
    + exists w1. split; [|exact Hlog].
      cbn [length Nat.ltb Nat.leb]. unfold Sys.bind at 1.
      unfold NotionPages.appendChildren. now rewrite Hrun.
Qed.

Lemma append_body_requests_witness :
  NotionPages.cmdAppendBody (rt := Ref.runtime) (cfg := Ref.config) (pf := plain_platform)
    offline "   " 0 (Some "p1") (Some "-") fresh_world
  = (Sys.Ret tt,
     snd (Sys.console_log
            (JSON_pretty (Platform := plain_platform)
               (NotionPages.written "p1" "appended" [])) fresh_world)).
Proof.
  apply (proj1 (proj2 (append_body_requests (rt := Ref.runtime) (cfg := Ref.config)
                         (pf := plain_platform) offline "   " fresh_world "p1" "-" 0))).
  - discriminate.
  - discriminate.
  - reflexivity.
Defined.

(** X25. set-body reads before it archives and archives before it writes.
    With a session on file and a proxy that serves the children of the page
    and accepts the requests, it issues, in this order and nothing else: one
    GET per page of children, one PATCH with archived: true for every
    existing block, and the PATCHes of [appendChildren] for the blocks of the
    text; for a text of nothing but white space the page is left empty. *)
Theorem set_body_order {rt : Js.Runtime} {cfg : Session.Config} {pf : Platform}
  (env : Sys.Env) (stdin : string) (w : Sys.World) (s pageId markdownArg : string)
  (pages : list Sys.Response) (existing : list Js.Json) (fuel : nat) :
  pageId <> EmptyString -> markdownArg <> EmptyString ->
  fst (Session.getAgentSession w) = Sys.Ret (Some s) ->
  Paging.paged env s pageId (Some Js.JNull) pages ->
  Paging.all_items pages = Some existing ->
  Forall (fun block => block <> Js.JNull) existing ->
  (length pages <= S fuel)%nat ->
  (forall t h block, exists resp,
      Sys.respond env t h (archive_request s block) = Some resp /\ accepted resp) ->
  (forall t h chunk, exists resp,
      Sys.respond env t h (children_request s pageId chunk) = Some resp /\ accepted resp) ->
  exists w1,
    NotionPages.cmdSetBody env stdin (S fuel) (Some pageId) (Some markdownArg) w
    = (Sys.Ret tt,
       snd (Sys.console_log
              (JSON_pretty
                 (NotionPages.written pageId "replaced"
                    (Markdown.markdownToBlocks
                       (NotionPages.markdown_of stdin markdownArg)))) w1))
    /\ Obs.fetches (Sys.log w1)
       = (Obs.fetches (Sys.log w)
          ++ Paging.page_requests s pageId (Some Js.JNull) pages
          ++ map (archive_request s) existing
          ++ map (children_request s pageId)
               (NotionPages.chunked
                  (Markdown.markdownToBlocks
                     (NotionPages.markdown_of stdin markdownArg))))%list.
Proof.
  intros Hp Hm Hs Hpaged Hitems Hall Hlen Harch Hok.
  unfold NotionPages.cmdSetBody.
  rewrite (missing_given pageId Hp), (missing_given markdownArg Hm). cbn [orb].
  cbn [NotionPages.given].
  destruct (list_pages_served env s pageId fuel pages (S fuel) (Some Js.JNull) [] existing w
              Hlen Hs Hpaged Hitems) as [w1 [Hrun1 [Hfs1 Hlog1]]].
  unfold Sys.bind at 1. unfold NotionPages.listAllBlockChildren. rewrite Hrun1.
  cbn [app].
  assert (Hs1 : fst (Session.getAgentSession w1) = Sys.Ret (Some s))
    by (rewrite <- Hs; now apply getAgentSession_fs).
  destruct (archive_each_sends env s fuel existing Harch Hall w1 Hs1)
    as [w2 [Hrun2 [Hfs2 Hlog2]]].
  unfold Sys.bind at 1. rewrite Hrun2.
  assert (Hs2 : fst (Session.getAgentSession w2) = Sys.Ret (Some s))
    by (rewrite <- Hs1; now apply getAgentSession_fs).
  set (children := Markdown.markdownToBlocks (NotionPages.markdown_of stdin markdownArg)).
  destruct (append_chunks_sends env s pageId fuel (NotionPages.chunked children) Hok w2 Hs2)
    as [w3 [Hrun3 [_ Hlog3]]].
  destruct children as [|b bs] eqn:E.
  - exists w2. split; [reflexivity|]. cbn [NotionPages.chunked NotionPages.chunks map length].
    rewrite Hlog2, Hlog1, app_nil_r, <- app_assoc. reflexivity.
  - exists w3. split.
    + cbn [length Nat.ltb Nat.leb]. unfold Sys.bind at 1.
      unfold NotionPages.appendChildren. now rewrite Hrun3.
    + rewrite Hlog3, Hlog2, Hlog1, <- !app_assoc. reflexivity.
Qed.

Lemma two_pages_accepts (t : Z) (h : list Sys.Event) (r : Sys.Request) :
  exists resp, Sys.respond two_pages t h r = Some resp /\ accepted (rt := Ref.runtime) resp.
Proof.
  unfold two_pages. cbn [Sys.respond].
  destruct (String.eqb (Sys.url r) _); eexists; (split; [reflexivity|]);
    split; vm_compute; reflexivity.
Qed.

Lemma set_body_order_witness :
  exists w1,
    NotionPages.cmdSetBody (rt := Ref.runtime) (cfg := Ref.config) (pf := plain_platform)
      two_pages EmptyString 2 (Some "b1") (Some "# Title") (saved SESSION)
    = (Sys.Ret tt,
       snd (Sys.console_log
              (JSON_pretty (Platform := plain_platform)
                 (NotionPages.written "b1" "replaced"
                    (Markdown.markdownToBlocks
                       (NotionPages.markdown_of EmptyString "# Title")))) w1))
    /\ Obs.fetches (Sys.log w1)
       = (Obs.fetches (Sys.log (saved SESSION))
          ++ Paging.page_requests (rt := Ref.runtime) (cfg := Ref.config)
               (pf := plain_platform) SESSION "b1" (Some Js.JNull) two_page_answers
          ++ map (archive_request (rt := Ref.runtime) (cfg := Ref.config) SESSION)
               [Js.JObj [("id", Js.JStr "x1")]; Js.JObj [("id", Js.JStr "x2")]]
          ++ map (children_request (rt := Ref.runtime) (cfg := Ref.config) SESSION "b1")
               (NotionPages.chunked
                  (Markdown.markdownToBlocks
                     (NotionPages.markdown_of EmptyString "# Title"))))%list.
Proof.
  apply (set_body_order (rt := Ref.runtime) (cfg := Ref.config) (pf := plain_platform)
           two_pages EmptyString (saved SESSION) SESSION "b1" "# Title" two_page_answers
           [Js.JObj [("id", Js.JStr "x1")]; Js.JObj [("id", Js.JStr "x2")]] 1).
  - discriminate.
  - discriminate.
  - reflexivity.
  - split; [intros t h; reflexivity|]. split; [split; vm_compute; reflexivity|].
    split; [vm_compute; reflexivity|].
    split; [intros t h; vm_compute; reflexivity|]. split; [split; vm_compute; reflexivity|].
    vm_compute. reflexivity.
  - vm_compute. reflexivity.
  - repeat constructor; discriminate.
  - simpl. lia.
  - intros t h block. apply two_pages_accepts.
  - intros t h chunk. apply two_pages_accepts.
Defined.

(** ** Replies *)

Section Replies.
Import Js Sys Session Http Frame Obs Mail.
Context {rt : Runtime} {cfg : Config}.
Variable env : Env.
Variable service : Office.Service.

Lemma grant_not_reply (s messageId comment : string) (replyAll : bool) (e : Event) :
  grant_event (Office.grant_request service) e ->
  is_fetch_of (reply_request s messageId comment replyAll) e = false.
Proof.
  destruct e as [r| | |]; simpl; try reflexivity.
  intros H.
  destruct (Request_eq_dec r (reply_request s messageId comment replyAll)) as [Heq|];
    [exfalso | reflexivity].
  destruct H as [[s' ->] | [u [s' ->]]]; discriminate Heq.
Qed.

Lemma mailReply_at_most (fuel : nat) (s messageId comment : string) (replyAll : bool)
  (w : World) :
  fst (getAgentSession w) = Ret (Some s) ->
  at_most 2 (reply_request s messageId comment replyAll) (Office.grant_request service)
    (mailReply env service fuel messageId comment replyAll) w.
Proof.
  intros Hs. unfold mailReply.
  set (r := reply_request s messageId comment replyAll).
  set (g := Office.grant_request service).
  assert (Hg : forall e, grant_event g e -> is_fetch_of r e = false)
    by (intros e; apply grant_not_reply).
  apply (at_most_require_session r g 2 _ s); [exact Hs|]. fold r.
  apply (at_most_bind r g 1 1); [apply at_most_fetch|].
  intros response w1 _.
  destruct (is_sent response).
  { apply (at_most_le r g 0 1); [lia|]. apply at_most_console; [exact Hg|].
    apply steps_console_log. exact I. }
  destruct (is_denied response).
  - destruct (readErrorBody response) as [data text].
    destruct (OfficeAuth.isAutoRequestError data && AUTO_REQUEST_ENABLED).
    + apply (at_most_bind r g 0 1).
      * apply at_most_grant; [exact Hg|]. apply steps_office_ensureGrant.
      * intros _ w2 _. apply (at_most_bind r g 1 0); [apply at_most_fetch|].
        intros retry w3 _. apply at_most_console; [exact Hg|].
        destruct (is_sent retry); [apply steps_console_log; exact I | apply steps_throw].
    + apply (at_most_le r g 0 1); [lia|]. apply at_most_console; [exact Hg|].
      destruct (truthy data); [|apply steps_throw].
      apply steps_bind; [|intros ?; apply steps_exit].
      apply steps_office_describe. intros line. exact I.
  - apply (at_most_le r g 0 1); [lia|]. apply at_most_console; [exact Hg|].
    destruct (readErrorBody response) as [data text]. apply steps_throw.
Qed.

End Replies.

(** X26. A reply is posted at most twice and never again once it was
    accepted.  With a session on file and whatever the network answers,
    [mailReply] leaves the files alone and issues its POST at most two times,
    next to the requests of the grant flow; when the first answer is 200 or
    202 it prints "Reply sent." (or "Reply-all sent.") after that single POST;
    when the first answer is anything but 200, 202, 401 and 403 (a 429, for
    instance) it throws after that single POST. *)
Theorem mailReply_bounded {rt : Js.Runtime} {cfg : Session.Config}
  (env : Sys.Env) (service : Office.Service) (w : Sys.World)
  (s messageId comment : string) (replyAll : bool) (fuel : nat) :
  fst (Session.getAgentSession w) = Sys.Ret (Some s) ->
  Frame.at_most 2 (Mail.reply_request s messageId comment replyAll)
    (Office.grant_request service)
    (Mail.mailReply env service fuel messageId comment replyAll) w
  /\ (forall resp,
      Sys.respond env (Sys.now w) (Sys.log w)
        (Mail.reply_request s messageId comment replyAll) = Some resp ->
      Mail.is_sent resp = true ->
      Mail.mailReply env service fuel messageId comment replyAll w
      = (Sys.Ret tt,
         snd (Sys.console_log (Mail.reply_done replyAll)
                (snd (Sys.fetch env (Mail.reply_request s messageId comment replyAll) w)))))
  /\ (forall resp,
      Sys.respond env (Sys.now w) (Sys.log w)
        (Mail.reply_request s messageId comment replyAll) = Some resp ->
      Mail.is_sent resp = false -> Mail.is_denied resp = false ->
      Mail.mailReply env service fuel messageId comment replyAll w
      = (Sys.Throw ("Reply failed (" ++ Str.of_Z (Sys.status resp) ++ "): "
                    ++ Http.or_text (snd (Http.readErrorBody resp)) (Sys.statusText resp)),
         snd (Sys.fetch env (Mail.reply_request s messageId comment replyAll) w))).
Proof.
  intros Hs. split; [now apply mailReply_at_most|]. split.
  - intros resp Hresp Hsent. unfold Mail.mailReply.
    unfold Sys.bind at 1. rewrite (require_session_some _ w s Hs).
    unfold Sys.bind at 1. unfold Sys.fetch. rewrite Hresp. cbn [snd].
    now rewrite Hsent.
  - intros resp Hresp Hsent Hden. unfold Mail.mailReply.
    unfold Sys.bind at 1. rewrite (require_session_some _ w s Hs).
    unfold Sys.bind at 1. unfold Sys.fetch. rewrite Hresp. cbn [snd].
    rewrite Hsent, Hden. now destruct (Http.readErrorBody resp).
Qed.

Lemma mailReply_bounded_witness :
  Mail.mailReply (rt := Ref.runtime) (cfg := Ref.config)
    (always {| Sys.status := 202; Sys.statusText := "Accepted"; Sys.resp_headers := [];
               Sys.text := EmptyString |})
    Office.mail 0 "m1" "Thanks!" false (saved SESSION)
  = (Sys.Ret tt,
     snd (Sys.console_log (Mail.reply_done false)
            (snd (Sys.fetch
                    (always {| Sys.status := 202; Sys.statusText := "Accepted";
                               Sys.resp_headers := []; Sys.text := EmptyString |})
                    (Mail.reply_request (rt := Ref.runtime) (cfg := Ref.config)
                       SESSION "m1" "Thanks!" false)
                    (saved SESSION))))).
Proof.
  apply (proj1 (proj2 (mailReply_bounded (rt := Ref.runtime) (cfg := Ref.config)
                         (always {| Sys.status := 202; Sys.statusText := "Accepted";
                                    Sys.resp_headers := []; Sys.text := EmptyString |})
                         Office.mail (saved SESSION) SESSION "m1" "Thanks!" false 0 eq_refl))
           {| Sys.status := 202; Sys.statusText := "Accepted"; Sys.resp_headers := [];
              Sys.text := EmptyString |} eq_refl eq_refl).
Defined.

(** ** Recipients *)

Section Addresses.
Import Text TextFacts Mail.

Lemma plus_then_spec (p : ascii -> bool) (k : string -> bool) (s : string) :
  plus_then p k s = true <->
  exists a b, s = (a ++ b)%string /\ a <> EmptyString /\ all_chars p a = true /\ k b = true.
Proof.
  induction s as [|c s IH].
  - split; [discriminate|]. intros [a [b [H [Ha _]]]].
    destruct a; [now elim Ha | discriminate].
  - cbn [plus_then]. split.
    + intros H. apply andb_prop in H as [Hc H]. apply orb_prop in H as [H|H].
      * apply IH in H as [a [b [-> [Ha [Hp Hk]]]]].
        exists (String c a), b. repeat split; [discriminate | | exact Hk].
        simpl. now rewrite Hc.
      * exists (String c EmptyString), s. repeat split; [discriminate | | exact H].
        simpl. now rewrite Hc.
    + intros [a [b [H [Ha [Hp Hk]]]]].
      destruct a as [|x a]; [now elim Ha|]. simpl in H. inversion H; subst.
      simpl in Hp. apply andb_prop in Hp as [Hx Hp]. rewrite Hx. cbn [andb].
      destruct a as [|y a].
      * simpl. rewrite Hk. apply orb_true_r.
      * apply orb_true_intro. left. apply IH.
        exists (String y a), b. repeat split; [discriminate | exact Hp | exact Hk].
Qed.

Lemma lit_spec (c : ascii) (k : string -> bool) (s : string) :
  lit c k s = true <-> exists b, s = String c b /\ k b = true.
Proof.
  destruct s as [|a s]; simpl.
  - split; [discriminate | intros [b [H _]]; discriminate].
  - split.
    + intros H. apply andb_prop in H as [Ha Hk]. apply Ascii.eqb_eq in Ha. subst.
      now exists s.
    + intros [b [H Hk]]. inversion H; subst. now rewrite Ascii.eqb_refl.
Qed.

End Addresses.

(** X27. [validateEmail] accepts exactly the texts that, once trimmed, are
    made of a local part, an at sign, a domain, a dot and an ending, the three
    parts being non-empty runs of characters other than white space and the
    at sign.  An accepted address therefore holds one at sign and no white
    space, and a dot with text on both sides after the at sign. *)
Theorem validateEmail_exact (email : string) :
  Mail.validateEmail email = true <->
  exists local domain ending,
    Str.trim email = (local ++ "@" ++ domain ++ "." ++ ending)%string
    /\ local <> EmptyString /\ domain <> EmptyString /\ ending <> EmptyString
    /\ Mail.all_chars Mail.addr_char local = true
    /\ Mail.all_chars Mail.addr_char domain = true
    /\ Mail.all_chars Mail.addr_char ending = true.
Proof.
  unfold Mail.validateEmail. rewrite plus_then_spec. split.
  - intros [local [b1 [H [Hl [Hpl Hk1]]]]].
    apply lit_spec in Hk1 as [b2 [-> Hk2]].
    apply plus_then_spec in Hk2 as [domain [b3 [-> [Hd [Hpd Hk3]]]]].
    apply lit_spec in Hk3 as [b4 [-> Hk4]].
    apply plus_then_spec in Hk4 as [ending [b5 [-> [He [Hpe Hk5]]]]].
    destruct b5; [|discriminate].
    exists local, domain, ending. repeat split; try assumption.
    rewrite H. f_equal. cbn [String.append]. f_equal. f_equal. cbn [String.append].
    f_equal. clear. induction ending; simpl; congruence.
  - intros [local [domain [ending [H [Hl [Hd [He [Hpl [Hpd Hpe]]]]]]]]].
    exists local, ("@" ++ domain ++ "." ++ ending)%string.
    repeat split; try assumption.
    apply lit_spec. exists (domain ++ "." ++ ending)%string. split; [reflexivity|].
    apply plus_then_spec. exists domain, ("." ++ ending)%string.
    repeat split; try assumption.
    apply lit_spec. exists ending. split; [reflexivity|].
    apply plus_then_spec. exists ending, EmptyString.
    repeat split; try assumption.
    clear. induction ending; simpl; congruence.
Qed.

Example validateEmail_run :
  Mail.validateEmail " ada@example.org " = true
  /\ Mail.validateEmail "ada@example" = false
  /\ Mail.validateEmail "ada lovelace@example.org" = false
  /\ Mail.validateEmail "ada@@example.org" = false
  /\ Mail.validateEmail "Ada Lovelace" = false.
Proof. repeat split; reflexivity. Qed.

Section SendingFacts.
Import Js Sys Session Http Frame Obs Mail.
Context {rt : Runtime} {cfg : Config} {pf : Platform}.
Variable env : Env.
Variable service : Office.Service.

Let good : Event -> Prop := fun e => is_send_post e = false.














End SendingFacts.



(** With --yes the person found first is written to; without it the run
    stops after the list of matches. *)
Example mailSend_run :
  Obs.fetches
    (Sys.log (snd (Mail.mailSend (rt := Ref.runtime) (cfg := Ref.config)
                     (pf := plain_platform) directory Office.mail 1
                     {| Mail.mail_to := "Ada Lovelace"; Mail.mail_subject := "Hi";
                        Mail.mail_body := "Hello"; Mail.mail_cc := None;
                        Mail.mail_isHtml := false; Mail.mail_autoConfirm := true |}
                     (saved SESSION))))
  = [ Office.api_request (cfg := Ref.config) SESSION
        (Mail.people_endpoint (pf := plain_platform) "Ada Lovelace" 5) Mail.people_options;
      Mail.send_request (rt := Ref.runtime) (cfg := Ref.config) SESSION
        (Mail.send_payload
           {| Mail.mail_to := "Ada Lovelace"; Mail.mail_subject := "Hi";
              Mail.mail_body := "Hello"; Mail.mail_cc := None;
              Mail.mail_isHtml := false; Mail.mail_autoConfirm := true |}
           [Mail.recipient (Js.JStr "ada@example.org")] None) ].
Proof. vm_compute. reflexivity. Qed.

(** ** Registration *)

Section LoginFacts.
Import Js Sys Session Http Obs Login.
Context {rt : Runtime} {cfg : Config} {pf : Platform}.
Variable env : Env.
Variable platform arch hostname : string.

Lemma save_possible (id : string) (w : World) :
  can_save (fs w) = true ->
  exists w', saveAgentSession id w = (Ret tt, w')
    /\ fs w' SHARED_AGENT_SESSION_FILE = Some (RegularFile (Str.trim id ++ Str.LF))
    /\ log w' = log w /\ now w' = now w
    /\ can_save (fs w') = true
    /\ elsewhere_same (fs w) (fs w').
Proof.
  unfold can_save. intros H.
  apply andb_prop in H as [H H3]. apply andb_prop in H as [H1 H2].
  apply Bool.negb_true_iff in H1.
  assert (H1' : String.eqb SHARED_AGENT_SESSION_FILE (dirname SHARED_AGENT_SESSION_FILE) = false)
    by (rewrite String.eqb_sym; exact H1).
  unfold saveAgentSession, bind, mkdir, writeFile.
  destruct (fs w (dirname SHARED_AGENT_SESSION_FILE)) as [[c|]|] eqn:Hd;
    try discriminate H2; cbn [fs]; unfold fs_set at 1; rewrite H1';
    (destruct (fs w SHARED_AGENT_SESSION_FILE) as [[c'|]|] eqn:Hs; try discriminate H3);
    eexists; (split; [reflexivity|]); cbn [fs log now]; unfold fs_set;
    rewrite ?String.eqb_refl, ?H1, ?H1'; cbn [negb andb];
    repeat split; intros p Hp Hq;
    apply String.eqb_neq in Hp; apply String.eqb_neq in Hq; now rewrite Hp, Hq.
Qed.

Lemma elsewhere_refl (files : FS) : elsewhere_same files files.
Proof. now intros p _ _. Qed.

Lemma elsewhere_trans (a b c : FS) :
  elsewhere_same a b -> elsewhere_same b c -> elsewhere_same a c.
Proof. intros Hab Hbc p Hp Hq. now rewrite (Hbc p Hp Hq), (Hab p Hp Hq). Qed.

(** The conditional save of an answer with a plain id goes through; a
    visible id is then on file. *)
Lemma save_if_given_runs (v : Json) (after : M unit) (lines : list string) (w : World) :
  (forall w0, after w0 = (Ret tt, say w0 lines)) ->
  plain_id v = true -> can_save (fs w) = true ->
  exists w1 ls, save_if_given v after w = (Ret tt, w1)
    /\ log w1 = (log w ++ map EvStderr ls)%list /\ now w1 = now w
    /\ can_save (fs w1) = true
    /\ elsewhere_same (fs w) (fs w1)
    /\ (forall id, get "agentSessionId" v = Some (JStr id) -> Str.trim id <> EmptyString ->
          fs w1 SHARED_AGENT_SESSION_FILE = Some (RegularFile (Str.trim id ++ Str.LF))).
Proof.
  intros Hafter Hplain Hcan. unfold plain_id in Hplain. unfold save_if_given.
  destruct (get "agentSessionId" v) as [[| | |id| |]|]; try discriminate Hplain.
  - exists w, []. cbn [map]. rewrite app_nil_r.
    repeat split; auto using elsewhere_refl. intros id H. discriminate H.
  - destruct (Str.is_empty (Str.trim id)) eqn:Hempty.
    + exists w, []. cbn [map]. rewrite app_nil_r.
      repeat split; auto using elsewhere_refl.
      intros id' H Hne. inversion H; subst id'.
      apply is_empty_false in Hne. congruence.
    + destruct (save_possible id w Hcan) as [w' [Hsave [Hfile [Hlog [Hnow [Hcan' Hels]]]]]].
      exists (say w' lines), lines. unfold bind. rewrite Hsave, Hafter.
      unfold say. cbn [fs log now]. rewrite Hlog.
      repeat split; auto.
      intros id' H _. inversion H; subst id'. exact Hfile.
  - exists w, []. cbn [map]. rewrite app_nil_r.
    repeat split; auto using elsewhere_refl. intros id H. discriminate H.
Qed.

Lemma fetches_stderr (ls : list string) : fetches (map EvStderr ls) = [].
Proof. induction ls; auto. Qed.

Lemma ret_say_nil (w0 : World) : ret tt w0 = (Ret tt, say w0 []).
Proof. unfold ret. now rewrite say_nil_r. Qed.

Lemma login_loop_scripted (url : Json) (id : string) (final : Json) (d L J : Z) :
  (forall h r, Z.of_N (latency env h r) <= L) ->
  (forall h, Z.of_N (oversleep env h) <= J) ->
  get "status" final = Some (JStr "approved") ->
  get "agentSessionId" final = Some (JStr id) ->
  Str.trim id <> EmptyString ->
  forall (pend : list Json) (fuel : nat) (w : World) (k : nat),
  (length pend < fuel)%nat ->
  now w + Z.of_nat (length pend) * (L + AUTO_REQUEST_POLL_MS + J) < d ->
  count_fetch (login_poll url) (log w) = k ->
  forallb pending pend = true ->
  scripted env (login_poll url) k (pend ++ [final]) ->
  can_save (fs w) = true ->
  exists w', login_loop env fuel url (Finite d) w = (Ret tt, w')
    /\ fs w' SHARED_AGENT_SESSION_FILE = Some (RegularFile (Str.trim id ++ Str.LF))
    /\ fetches (log w')
       = (fetches (log w) ++ repeat (login_poll url) (S (length pend)))%list
    /\ elsewhere_same (fs w) (fs w')
    /\ exists l, log w' = (l ++ [EvStderr "Login successful."])%list.
Proof.
  intros HL HJ Hst Hid Hne.
  assert (Hid_ne : Str.is_empty id = false).
  { destruct id; [|reflexivity]. exfalso. apply Hne. reflexivity. }
  induction pend as [|a pend IH]; intros fuel w k Hfuel Htime Hk Hpend Hscr Hcan.
  - destruct fuel as [|fuel]; [simpl in Hfuel; lia|].
    destruct (Hscr (now w) (log w) O final) as [resp [Hresp [Hok Hjson]]];
      [lia | reflexivity |].
    simpl in Htime.
    cbn [login_loop]. unfold bind at 1, Date_now. cbn [before].
    replace (now w <? d) with true by (symmetry; apply Z.ltb_lt; lia).
    unfold bind at 1, fetch at 1. rewrite Hresp, Hok. cbn [negb].
    unfold bind at 1, response_json. rewrite Hjson. unfold ret at 1.
    set (w2 := {| fs := fs w; now := now w + Z.of_N (latency env (log w) (login_poll url));
                  log := (log w ++ [EvFetch (login_poll url)])%list |}).
    assert (Hplain : plain_id final = true) by (unfold plain_id; now rewrite Hid).
    destruct (save_if_given_runs final (ret tt) [] w2 ret_say_nil Hplain Hcan)
      as [w1 [ls [Hsave [Hlog [Hnow [Hcan1 [Hels Hfile]]]]]]].
    destruct final; try discriminate Hst.
    unfold bind at 1. rewrite Hsave, Hst, Hid. cbn [is_str truthyV truthy].
    rewrite Hid_ne. cbn [String.eqb Ascii.eqb Bool.eqb andb negb].
    rewrite console_error_say.
    eexists. split; [reflexivity|].
    unfold say. cbn [fs log]. rewrite Hlog.
    split; [apply Hfile; auto|].
    split.
    { rewrite !fetches_app, fetches_stderr. cbn [map fetches]. unfold w2. cbn [log].
      rewrite fetches_app. cbn [fetches repeat length]. now rewrite !app_nil_r. }
    split; [exact Hels|].
    eexists. reflexivity.
  - destruct fuel as [|fuel]; [simpl in Hfuel; lia|].
    cbn [forallb] in Hpend. apply andb_prop in Hpend as [Ha Hpend].
    destruct (Hscr (now w) (log w) O a) as [resp [Hresp [Hok Hjson]]];
      [lia | reflexivity |].
    pose proof (HL (log w) (login_poll url)) as Hl.
    pose proof (N2Z.is_nonneg (latency env (log w) (login_poll url))) as Hl0.
    cbn [length] in Htime, Hfuel.
    unfold AUTO_REQUEST_POLL_MS in *.
    rewrite Nat2Z.inj_succ, Z.mul_succ_l in Htime.
    pose proof (HJ []) as HJ0. pose proof (N2Z.is_nonneg (oversleep env [])) as HJ1.
    assert (Hrounds : 0 <= Z.of_nat (length pend) * (L + 2000 + J))
      by (apply Z.mul_nonneg_nonneg; lia).
    cbn [login_loop]. unfold bind at 1, Date_now. cbn [before].
    replace (now w <? d) with true by (symmetry; apply Z.ltb_lt; lia).
    unfold bind at 1, fetch at 1. rewrite Hresp, Hok. cbn [negb].
    unfold bind at 1, response_json. rewrite Hjson. unfold ret at 1.
    set (w2 := {| fs := fs w; now := now w + Z.of_N (latency env (log w) (login_poll url));
                  log := (log w ++ [EvFetch (login_poll url)])%list |}).
    unfold pending in Ha.
    apply andb_prop in Ha as [Ha Hexp]. apply andb_prop in Ha as [Ha Hden].
    apply andb_prop in Ha as [Ha Happ]. apply andb_prop in Ha as [Hnull Hplain].
    apply Bool.negb_true_iff in Hexp, Hden, Happ.
    destruct (save_if_given_runs a (ret tt) [] w2 ret_say_nil Hplain Hcan)
      as [w1 [ls [Hsave [Hlog [Hnow [Hcan1 [Hels _]]]]]]].
    assert (Hrest :
      (match a with
       | JNull => throw "TypeError: Cannot read properties of null"
       | _ =>
           save_if_given a (ret tt) ;;;
           (if is_str (get "status" a) "approved" && truthyV (get "agentSessionId" a)
            then console_error "Login successful."
            else if is_str (get "status" a) "denied" then
              throw (ToStringV (or_js (get "message" a) (Some (JStr "Registration denied."))))
            else if is_str (get "status" a) "expired" then
              throw (ToStringV (or_js (get "message" a) (Some (JStr "Registration expired."))))
            else sleep env 2000 ;;; login_loop env fuel url (Finite d))
       end) w2
      = login_loop env fuel url (Finite d)
          {| fs := fs w1; now := now w1 + 2000 + Z.of_N (oversleep env (log w1));
             log := (log w1 ++ [EvSleep 2000])%list |}).
    { destruct a; try discriminate Hnull;
        unfold bind at 1; rewrite Hsave, Happ, Hden, Hexp; cbn [andb];
        unfold bind, sleep; reflexivity. }
    unfold AUTO_REQUEST_POLL_MS. rewrite Hrest. clear Hrest.
    pose proof (HJ (log w1)) as Hj. pose proof (N2Z.is_nonneg (oversleep env (log w1))) as Hj0.
    match goal with
    | |- exists w', login_loop _ _ _ _ ?w3 = _ /\ _ =>
        destruct (IH fuel w3 (S k)) as [w' [Hrun [Hfile [Hfetches [Hels' Hlast]]]]]
    end.
    + lia.
    + cbn [now]. rewrite Hnow. unfold w2. cbn [now]. lia.
    + cbn [log]. rewrite Hlog. unfold w2. cbn [log].
      rewrite !count_fetch_app, count_fetch_one, count_fetch_stderr, Hk.
      change (count_fetch (login_poll url) [EvSleep 2000]) with O. lia.
    + exact Hpend.
    + intros t h i a' Hc Hn. apply (Hscr t h (S i) a'); [lia | exact Hn].
    + exact Hcan1.
    + exists w'. split; [exact Hrun|]. split; [exact Hfile|].
      split.
      { rewrite Hfetches. cbn [log]. rewrite Hlog. unfold w2. cbn [log].
        rewrite !fetches_app, fetches_stderr. cbn [fetches length repeat].
        rewrite !app_nil_r, <- app_assoc. reflexivity. }
      split; [|exact Hlast].
      eapply elsewhere_trans; [|exact Hels']. exact Hels.
Qed.

Lemma match_not_null {A : Type} (v : Json) (a b : A) :
  v <> JNull -> match v with JNull => a | _ => b end = b.
Proof. destruct v; congruence. Qed.

Lemma login_deadline_span (registration : Json) (span t : Z) :
  login_deadline registration 0 = Finite span ->
  login_deadline registration t = Finite (t + span).
Proof.
  unfold login_deadline.
  destruct (get "expiresIn" registration) as [v|];
    [destruct (truthy v); [destruct (seconds v)|]|];
    intros H; inversion H; reflexivity.
Qed.

Lemma init_not_poll (url : Json) :
  count_fetch (login_poll url) [EvFetch (init_request platform arch hostname)] = O.
Proof.
  unfold count_fetch. cbn [filter is_fetch_of].
  destruct (Request_eq_dec (init_request platform arch hostname) (login_poll url)) as [e|];
    [apply (f_equal method) in e; discriminate e | reflexivity].
Qed.

End LoginFacts.

(** X29. A login that the broker approves ends with the session on file.
    When the registration is accepted, the polls are answered in turn by
    answers that keep the login waiting and then by "approved" with a session
    id that is not blank, and the waiting fits into the registration's time
    limit, [cmdLogin] returns after one POST and one GET per answer, the
    shared session file holds the trimmed id followed by a newline, no path
    but the session file and its directory has changed, and a trimmed id that
    is not JSON text is what [getAgentSession] reads afterwards. *)
Theorem login_saves_approved_session {rt : Js.Runtime} {cfg : Session.Config} {pf : Platform}
  (env : Sys.Env) (platform arch hostname : string) (w : Sys.World) (r0 : Sys.Response)
  (registration final : Js.Json) (id : string) (pend : list Js.Json) (span L J : Z)
  (fuel : nat) :
  Sys.respond env (Sys.now w) (Sys.log w) (Login.init_request platform arch hostname) = Some r0 ->
  Sys.ok r0 = true ->
  Js.JSON_parse (Sys.text r0) = Some registration ->
  registration <> Js.JNull ->
  Login.plain_id registration = true ->
  Login.login_deadline registration 0 = Finite span ->
  (forall h r, Z.of_N (Sys.latency env h r) <= L) ->
  (forall h, Z.of_N (Sys.oversleep env h) <= J) ->
  Z.of_nat (length pend) * (L + Sys.AUTO_REQUEST_POLL_MS + J) < span ->
  (length pend < fuel)%nat ->
  forallb Login.pending pend = true ->
  Js.get "status" final = Some (Js.JStr "approved") ->
  Js.get "agentSessionId" final = Some (Js.JStr id) ->
  Str.trim id <> EmptyString ->
  Login.scripted env (Login.login_poll (Login.poll_url registration))
    (Obs.count_fetch (Login.login_poll (Login.poll_url registration)) (Sys.log w))
    (pend ++ [final]) ->
  Login.can_save (Sys.fs w) = true ->
  exists w',
    Login.cmdLogin env platform arch hostname fuel w = (Sys.Ret tt, w')
    /\ Sys.fs w' Session.SHARED_AGENT_SESSION_FILE
       = Some (Sys.RegularFile (Str.trim id ++ Str.LF))
    /\ Obs.fetches (Sys.log w')
       = (Obs.fetches (Sys.log w)
          ++ Login.init_request platform arch hostname
             :: repeat (Login.login_poll (Login.poll_url registration)) (S (length pend)))%list
    /\ Login.elsewhere_same (Sys.fs w) (Sys.fs w')
    /\ (Js.JSON_parse (Str.trim id) = None ->
        fst (Session.getAgentSession w') = Sys.Ret (Some (Str.trim id))).
Proof.
  intros Hinit Hok Hjson Hnull Hplain Hspan HL HJ Htime Hfuel Hpend Hst Hid Hne Hscr Hcan.
  unfold Login.cmdLogin.
  unfold Sys.bind at 1, Sys.fetch at 1. rewrite Hinit, Hok. cbn [negb].
  unfold Sys.bind at 1, Http.response_json. rewrite Hjson. unfold Sys.ret at 1.
  set (w2 := {| Sys.fs := Sys.fs w;
                Sys.now := Sys.now w
                           + Z.of_N (Sys.latency env (Sys.log w)
                                       (Login.init_request platform arch hostname));
                Sys.log := (Sys.log w
                            ++ [Sys.EvFetch (Login.init_request platform arch hostname)])%list |}).
  destruct (save_if_given_runs registration
              (Sys.console_error "Session saved (pending approval).")
              ["Session saved (pending approval)."] w2
              (console_error_say _) Hplain Hcan)
    as [w1 [ls [Hsave [Hlog [Hnow [Hcan1 [Hels _]]]]]]].
  rewrite (match_not_null registration _ _ Hnull).
  unfold Sys.bind at 1. rewrite Hsave.
  rewrite !bind_say. unfold Sys.bind at 1, Sys.Date_now.
  rewrite (login_deadline_span registration span _ Hspan).
  match goal with
  | |- exists w', Login.login_loop _ _ _ _ ?w0 = _ /\ _ => set (w3 := w0)
  end.
  assert (Hlog3 : exists ls3, Sys.log w3 = (Sys.log w2 ++ map Sys.EvStderr ls3)%list).
  { unfold w3. rewrite !say_say. unfold Sys.say. cbn [Sys.log]. rewrite Hlog, <- app_assoc, <- map_app.
    eexists. reflexivity. }
  destruct Hlog3 as [ls3 Hlog3].
  assert (Hfs3 : Sys.fs w3 = Sys.fs w1) by reflexivity.
  assert (Hnow3 : Sys.now w3 = Sys.now w1) by reflexivity.
  destruct (login_loop_scripted env (Login.poll_url registration) id final
              (Sys.now w3 + span) L J HL HJ Hst Hid Hne pend fuel w3
              (Obs.count_fetch (Login.login_poll (Login.poll_url registration)) (Sys.log w)))
    as [w' [Hrun [Hfile [Hfetches [Hels' _]]]]].
  - exact Hfuel.
  - lia.
  - rewrite Hlog3. unfold w2. cbn [Sys.log].
    rewrite !count_fetch_app, count_fetch_stderr, init_not_poll. lia.
  - exact Hpend.
  - exact Hscr.
  - rewrite Hfs3. exact Hcan1.
  - exists w'. split; [exact Hrun|]. split; [exact Hfile|].
    split.
    { rewrite Hfetches, Hlog3. unfold w2. cbn [Sys.log].
      rewrite !fetches_app, fetches_stderr. cbn [Obs.fetches].
      rewrite app_nil_r, <- app_assoc. reflexivity. }
    split.
    { eapply elsewhere_trans; [exact Hels|]. rewrite <- Hfs3. exact Hels'. }
    intros Hplainid. unfold Session.getAgentSession, Session.AGENT_SESSION_FILES. cbn [fst].
    rewrite (scan_plain_file (Sys.fs w') _ _ _ Hfile);
      rewrite StrFacts.trim_trim_LF; auto.
Qed.

Lemma login_saves_approved_session_witness :
  exists w',
    Login.cmdLogin (rt := Ref.runtime) (cfg := Ref.config) (pf := plain_platform)
      (registrar ["pending"; "pending"]) "linux" "x64" "host" 3 fresh_world
    = (Sys.Ret tt, w')
    /\ Sys.fs w' (Session.SHARED_AGENT_SESSION_FILE (Config := Ref.config))
       = Some (Sys.RegularFile (Str.trim (" " ++ SESSION) ++ Str.LF))
    /\ Obs.fetches (Sys.log w')
       = (Obs.fetches (Sys.log fresh_world)
          ++ Login.init_request (rt := Ref.runtime) (cfg := Ref.config) "linux" "x64" "host"
             :: repeat (Login.login_poll (rt := Ref.runtime)
                          (Login.poll_url (rt := Ref.runtime) (cfg := Ref.config)
                             (Js.JObj [("registrationId", Js.JStr "r1");
                                       ("code", Js.JStr "K7Q2");
                                       ("pollUrl",
                                        Js.JStr "https://auth.freshhub.ai/api/agent/poll/r1")])))
                 (S (length [Js.JObj [("status", Js.JStr "pending")];
                             Js.JObj [("status", Js.JStr "pending")]])))%list
    /\ Login.elsewhere_same (rt := Ref.runtime) (cfg := Ref.config)
         (Sys.fs fresh_world) (Sys.fs w')
    /\ (Js.JSON_parse (Runtime := Ref.runtime) (Str.trim (" " ++ SESSION)) = None ->
        fst (Session.getAgentSession (rt := Ref.runtime) (cfg := Ref.config) w')
        = Sys.Ret (Some (Str.trim (" " ++ SESSION)))).
Proof.
  apply (login_saves_approved_session (rt := Ref.runtime) (cfg := Ref.config)
           (pf := plain_platform)
           (registrar ["pending"; "pending"]) "linux" "x64" "host" fresh_world
           (Ref.json_response 200
              (Js.JObj [("registrationId", Js.JStr "r1");
                        ("code", Js.JStr "K7Q2");
                        ("pollUrl", Js.JStr "https://auth.freshhub.ai/api/agent/poll/r1")]))
           (Js.JObj [("registrationId", Js.JStr "r1");
                     ("code", Js.JStr "K7Q2");
                     ("pollUrl", Js.JStr "https://auth.freshhub.ai/api/agent/poll/r1")])
           (Js.JObj [("status", Js.JStr "approved");
                     ("agentSessionId", Js.JStr (" " ++ SESSION))])
           (" " ++ SESSION)
           [Js.JObj [("status", Js.JStr "pending")]; Js.JObj [("status", Js.JStr "pending")]]
           300000 100 5 3).
  - reflexivity.
  - reflexivity.
  - vm_compute. reflexivity.
  - discriminate.
  - reflexivity.
  - reflexivity.
  - intros h r. simpl. lia.
  - intros h. simpl. lia.
  - vm_compute. reflexivity.
  - simpl. lia.
  - reflexivity.
  - reflexivity.
  - reflexivity.
  - vm_compute. discriminate.
  - intros t h i a Hc Hn. eexists. split; [reflexivity|].
    rewrite Hc. change (Obs.count_fetch _ (Sys.log fresh_world)) with O.
    destruct i as [|[|[|i]]]; simpl in Hn; try (destruct i; discriminate Hn);
      inversion Hn; subst; split; vm_compute; reflexivity.
  - vm_compute. reflexivity.
Defined.

(** ** Session files of office-cli.js *)

Section StartupFacts.
Import Startup.
Variable env : string -> option string.
Variable homedir : string.
Variable join : list string -> string.

Lemma set_add_NoDup (unique : list string) (value : string) :
  NoDup unique -> NoDup (set_add unique value).
Proof.
  intros H. unfold set_add.
  destruct (existsb (String.eqb value) unique) eqn:E; [exact H|].
  apply NoDup_app; [exact H | constructor; [intros [] | constructor] |].
  intros a Ha [Hv|[]]. subst a.
  assert (Hex : existsb (String.eqb value) unique = true)
    by (apply existsb_exists; exists value; split; [exact Ha | apply String.eqb_refl]).
  congruence.
Qed.

Lemma set_add_visible (unique : list string) (value : string) :
  value <> EmptyString -> Forall (fun f => f <> EmptyString) unique ->
  Forall (fun f => f <> EmptyString) (set_add unique value).
Proof.
  intros Hv H. unfold set_add.
  destruct (existsb (String.eqb value) unique); [exact H|].
  apply Forall_app. split; [exact H | constructor; [exact Hv | constructor]].
Qed.

Lemma uniqueSessionFiles_distinct (values : list (option string)) :
  NoDup (uniqueSessionFiles values)
  /\ Forall (fun f => f <> EmptyString) (uniqueSessionFiles values).
Proof.
  unfold uniqueSessionFiles.
  assert (H : forall acc, NoDup acc -> Forall (fun f => f <> EmptyString) acc ->
    NoDup (fold_left
             (fun unique value =>
                match value with
                | Some v => if Str.is_empty v then unique else set_add unique v
                | None => unique
                end) values acc)
    /\ Forall (fun f => f <> EmptyString)
         (fold_left
            (fun unique value =>
               match value with
               | Some v => if Str.is_empty v then unique else set_add unique v
               | None => unique
               end) values acc)).
  { induction values as [|[v|] values IH]; intros acc Hn Hf; cbn [fold_left]; auto.
    destruct (Str.is_empty v) eqn:E; [auto|].
    apply IH; [apply set_add_NoDup; exact Hn | apply set_add_visible; [|exact Hf]].
    now apply is_empty_false. }
  apply H; constructor.
Qed.

Lemma candidates_empty :
  CONFIG_HOME_CANDIDATES env homedir join = [] ->
  join [homedir; ".config"] = EmptyString.
Proof.
  unfold CONFIG_HOME_CANDIDATES, uniqueSessionFiles, DEFAULT_CONFIG_HOME. cbn [fold_left].
  destruct (join [homedir; ".config"]) as [|c d]; [reflexivity|].
  cbn [Str.is_empty]. unfold set_add.
  destruct (XDG_CONFIG_HOME env homedir) as [x|]; [destruct (Str.is_empty x)|];
    match goal with
    | |- context [existsb ?f ?l] => destruct (existsb f l) eqn:E
    end; intros H; try (apply app_eq_nil in H as [_ H]; discriminate H);
    try discriminate E; subst; try discriminate E.
  all: try (destruct x; discriminate H).
Qed.

End StartupFacts.

(** X30. The session files of office-cli.js are pairwise different and the
    shared session file comes first.  Whatever the environment variables and
    the home directory are, [AGENT_SESSION_FILES] lists no path twice, none
    of the legacy paths is empty or equal to the shared path, and an override
    in [FRESH_AUTH_AGENT_SESSION_FILE] that is not blank is the shared path
    once trimmed and expanded; the list is undefined only when joining the
    home directory and ".config" gives the empty path. *)
Theorem office_session_files_distinct (env : string -> option string) (homedir : string)
  (join : list string -> string) :
  match Startup.AGENT_SESSION_FILES env homedir join with
  | Some files =>
      NoDup files
      /\ Forall (fun f => f <> EmptyString) (tl files)
      /\ (forall file,
            Startup.normalizeSessionFile homedir join (env "FRESH_AUTH_AGENT_SESSION_FILE")
            = Some file ->
            file <> EmptyString -> hd EmptyString files = file)
  | None => join [homedir; ".config"] = EmptyString
  end.
Proof.
  unfold Startup.AGENT_SESSION_FILES.
  destruct (Startup.SHARED_AGENT_SESSION_FILE env homedir join) as [shared|] eqn:Hshared;
    cbn [option_map].
  - unfold Startup.LEGACY_AGENT_SESSION_FILES.
    match goal with
    | |- context [Startup.uniqueSessionFiles ?vs] =>
        destruct (uniqueSessionFiles_distinct vs) as [Hn Hf]; set (legacy := vs) in *
    end.
    split; [|split].
    + constructor.
      * intros Hin. apply filter_In in Hin as [_ Hne].
        rewrite String.eqb_refl in Hne. discriminate Hne.
      * apply NoDup_filter. exact Hn.
    + cbn [tl]. apply Forall_forall. intros f Hin. apply filter_In in Hin as [Hin _].
      rewrite Forall_forall in Hf. now apply Hf.
    + intros file Hfile Hne. cbn [hd].
      unfold Startup.SHARED_AGENT_SESSION_FILE in Hshared. rewrite Hfile in Hshared.
      apply is_empty_false in Hne. rewrite Hne in Hshared. congruence.
  - unfold Startup.SHARED_AGENT_SESSION_FILE in Hshared.
    apply candidates_empty with (env := env).
    destruct (Startup.CONFIG_HOME_CANDIDATES env homedir join) as [|c cs]; [reflexivity|].
    destruct (Startup.normalizeSessionFile homedir join (env "FRESH_AUTH_AGENT_SESSION_FILE"))
      as [file|]; [destruct (Str.is_empty file)|]; discriminate Hshared.
Qed.

(** With the XDG directory set and a legacy variable that names the shared
    file, the shared file is looked up once, under the XDG directory. *)
Example office_session_files_run :
  Startup.AGENT_SESSION_FILES Startup.xdg_env "/home/user" Startup.slashed
  = Some ["/home/user/cfg/fresh-auth/agent-session";
          "/home/user/cfg/office-cli/agent-session";
          "/home/user/.config/office-cli/agent-session";
          "/home/user/cfg/cal-cli/agent-session";
          "/home/user/.config/cal-cli/agent-session";
          "/home/user/cfg/onedrive-cli/agent-session";
          "/home/user/.config/onedrive-cli/agent-session"].
Proof. vm_compute. reflexivity. Qed.
